(* ===== verification/_CoqProject ===== *)
-Q . S2P
Prelude.v
Json.v
Presentational.v
DateTime.v
CaseTransform.v
QueryCache.v
QueryKeys.v
QueryHooks.v
ApiClient.v
Endpoints.v
ApiTypes.v
Mutations.v
Concurrency.v
Calendar.v
CalendarView.v
Forms.v
Views.v
AddMedication.v
Patients.v
Administration.v
CalendarSession.v
MedicationListPage.v
SchedulesPage.v
