(* ===== verification/Prelude.v ===== *)
(** * A verification library for the med-manager client (mereh74/med-manager)

    The repository is a browser dashboard for caregivers: it lists patients,
    their medications and weekly dosing schedules, and records doses as
    administered.  Persistence lives behind a REST service; the client is a
    transport layer, thin endpoint wrappers, a TanStack Query cache, four
    mutation hooks that rewrite that cache optimistically and roll it back on
    failure, and the pages and forms that read the cache and call the hooks.
    This library models those parts as executable Rocq functions and proves
    what they guarantee, and where they fall short of the spec.

    ** How the program's parts interact

    A page or form ([src/src/pages], [src/src/components]) reads cached data
    through the query hooks ([src/src/hooks/queries]) and calls a mutation
    hook ([src/src/hooks/mutations/*.ts]).  The hook cancels in-flight
    fetches of the cache keys it touches, snapshots them, writes an
    optimistic value, and calls an endpoint ([src/src/api/endpoints/*.ts]).
    The endpoint calls the transport [ApiClient.request]
    ([src/src/api/clients/apiClient.ts]), which builds the URL and headers,
    races [fetch] against a timer, turns non-2xx answers into errors
    (clearing the session on a 401) and converts the keys of every JSON
    answer from snake_case to camelCase ([src/src/utils/caseTransform.ts]).
    When the call fails the hook restores its snapshots; in all cases it
    invalidates, and for three of the four hooks refetches, the keys built by
    [src/src/utils/queryKeys.ts].

    ** Files (in dependency order, as [_CoqProject] lists them)

    - [Prelude] (this file): the [result] error type and its [let*] notation
      in [mm_scope]; JS objects as association lists ([assoc_get],
      [assoc_set]: assignment keeps a key's position, a new key goes last;
      [spread] for [{...a, ...b}]); ASCII case predicates and the decision
      procedure [ascii_forall]; the code point order on strings; the hint
      databases [medmgr] and [mm_rw]; generic list lemmas.
    - [Json]: the JS values a response body denotes ([value]: JSON plus the
      [Date] objects the optimistic hooks create), its induction principle,
      decidable equality, JS truthiness, property access and the errors the
      client throws ([js_error], with [ApiClientError] of
      [src/src/types/client.ts]).
    - [Presentational]: [ErrorMessage.tsx] and [LoadingSpinner.tsx], the
      banner and spinner the pages draw, as functions of their props.
    - [DateTime]: the ECMAScript [Date] operations the pages call, a
      library outside src/ modelled from the spec: time values in
      milliseconds, the civil calendar ([civil_from_days] and its inverse
      [days_from_civil]), local fields at a fixed time-zone offset,
      [toISOString], [toLocaleDateString] and [toLocaleString] for en-US,
      date-fns's [format], and [Date.parse] on the
      two formats the client produces (["YYYY-MM-DD"], read as UTC, and
      ["YYYY-MM-DDTHH:mm"], read as local time).
    - [CaseTransform]: [snakeToCamelCase] and [camelToSnakeCase] on keys and
      values; idempotence, round trips on well-formed keys and values, and
      the key collision that loses a value.
    - [QueryCache]: the TanStack [QueryClient] operations the hooks call, a
      library outside src/ modelled from the spec (section 4.3): the class
      [QueryClientOps], the laws [QueryClientLaws] the hooks' proofs use, the
      observational equivalence [data_equiv] with its [Proper] instances, and
      a gmap implementation with fetch tokens ([fetchQuery], [deliver]) that
      discharges the laws and shows that a cancelled fetch never lands.
    - [QueryKeys]: [queryKeys], [queryKeyUtils] (against [QueryClientOps]),
      [createQueryKey], and the keys of the query hooks; the collisions the
      key schema allows.
    - [QueryHooks]: TanStack's [useQuery] mounted on the cache (the fetch it
      starts, [data], [isFetching], [isLoading]) and the four query hooks of
      [src/src/hooks/queries].
    - [ApiClient]: the environment ([import.meta.env]), the browser state the
      transport touches ([localStorage] token, [window.location], console,
      pending timers), [buildUrl] with the form-urlencoding of the query
      (and, as its reference, the URL standard's query parser),
      [buildHeaders], the request actually sent
      ([prepare]), the network as a function from that request to an outcome,
      and [request] with its error normalisation; the theorems cover each
      outcome (2xx, 401, other HTTP errors, status 0, timeout) and the timer
      that is never cleared.
    - [Endpoints]: the payload types of [src/src/types/api.ts] and every
      endpoint of [src/src/api/endpoints] and [src/src/api/patients.ts], as
      functions threading the browser state; the unwrapping of the
      administrations list.
    - [ApiTypes]: the interfaces of [src/src/types/api.ts] as types of JS
      values ([ty], [has_type]) and the decision procedure [never_clean]
      for the types no converted response meets.
    - [Mutations]: the four hooks as [onMutate] / [onError] / [onSettled]
      functions over any [QueryClientOps], and [mutateAsync], the TanStack
      [Mutation.execute] that runs them (modelled from the spec); rollback on
      failure, settle behaviour, frames, the shape of the optimistic records.
    - [Concurrency]: several mutations of one hook with interleaved phases as
      a step relation ([step]) with an executable scheduler ([exec]); the
      invariant that at quiescence the refetched keys hold the server's value,
      and a run where [useCreateMedication] does not converge.
    - [Calendar]: [MedicationCalendar.tsx]: active medications, colours, the
      fourteen-day grid, the doses of a day with their stable sort by time,
      the week navigation as a reachability relation ([nav_reach]), and the
      date and time a clicked dose is recorded at.
    - [CalendarView]: the calendar's JSX: the header with its week-range
      label, the day headers, and each day cell with the colours its
      styled-components props choose and its dose items.
    - [Forms]: [CreateMedicationScheduleForm.tsx]: the form state, its
      handlers, the events the rendered form offers ([ui_step]), validation
      and submission with time formatting.
    - [Views]: the medication list page (grid filter and card texts) and the
      administration details modal.
    - [AddMedication]: [AddMedicationForm.tsx] (its state, change handler,
      [validateForm], [handleSubmit]) and the submission from the medication
      list page through [useCreateMedication] ([submit]).
    - [Patients]: [PatientList.tsx] (cards and page states),
      [MedicationSchedules.tsx] (its subtitle and early returns), the routes
      of [App.tsx], the patient context of [PatientContext.tsx], and a
      browser session ([session], [app_step]) in which the pages' buttons,
      the browser's back and forward buttons and reloads move between them.
    - [Administration]: [AdministrationFormModal.tsx] (initial values,
      [formatDateTime], [handleSubmit]) and the modal state machine of
      [MedicationCalendar.tsx] ([modal_step]) that opens the details and the
      form for a clicked dose.
    - [CalendarSession]: the same calendar handlers run concretely, with the
      mounted form's state, the query cache and the browser threaded
      through and the submission going through
      [useCreateMedicationAdministration]'s [mutateAsync].
    - [MedicationListPage]: the state of [MedicationList.tsx]
      ([showAddForm], [showScheduleForm], [selectedMedication]) and every
      handler that changes it; the "Deactivate Medication" payload sent
      through [useUpdateMedication], and the schedule form's submission
      through [useCreateMedicationSchedule]'s [mutateAsync]; the page as
      rendered ([MedicationList_page]: early returns, header, error and
      update banners, grid or empty state, the two dialogs) from the
      hooks' flags and the cached list.
    - [SchedulesPage]: [MedicationSchedules.tsx] composed with the calendar
      it renders: the response read into the calendar's records and drawn
      by [CalendarView]; the page's [console.log] lines.

    ** What the theorems show

    Rollback (C1-C3): a failed mutation leaves every cache key as it was,
    except what the settle phase refetches.  Convergence (C4, C5, C8): the
    hooks that refetch end with the server's value, for one mutation and for
    any interleaving of several (for the schedule hook, of batches whose
    first row names a medication).  C6: [useCreateMedication] only
    invalidates, and the list still converges where it is shown: after a
    successful submission the page's mounted query refetches the stale list
    and its answer replaces the provisional record.  Cancellation (C9):
    after the hooks' [cancelPatientQueries] the answer of any earlier fetch of
    the patient's keys is ignored.  Transport (C10, C11, C14): the error for
    each HTTP outcome with the session reset on 401, and the type of what a
    successful [json()] yields.  Refinement (C12): the key utilities act on
    the cache implementation exactly as the spec's store operations.
    Round trip (C13): every query parameter reaches the server as given,
    [buildUrl]'s form-urlencoded query read back by the URL standard's
    parser.  Case
    conversion (C15-C17): round trip, idempotence, and equivalence with the
    reference conversion [camel_map] on values without key collisions (a
    collision merges two properties and loses a value).  Bounds (C19): the administration form's [formatDateTime]
    writes nineteen characters, every field in its range and padded to two
    digits, for any valid date with a four-digit year.  Calendar and forms
    (C18, C22, C23): doses per day, sorted and stable, and unchanged by the
    active-medication pre-filter; the scheduled time of an
    administration, end to end from the schedule form through the calendar
    to the record sent; navigation bounds.  The medication list page
    (C21, C24, C25, C27): a deactivation whose request fails leaves the rendered
    page exactly as before, with no error shown (the spec asks for the
    transport error); the optimistic hide of a deactivated medication; the
    deactivation payload, built from the converted record, sends every
    field back under its wire name (a round trip through
    [snakeToCamelCase]); the details modal that ignores the scheduled
    time, and that throws on a [null] record, even while loading (C7).
    Query hooks (C26): a mounted query shows its loading state on
    its key's first load only; no cache operation brings it back once a
    value is cached.  C28: the administrations
    endpoint's shape guard, and the [null] body it does not guard.  Types
    (C29): seven of the response types the endpoints declare are never met
    by what the transport delivers (they require [Date] or snake_case
    properties).  C30: the scheduled time the administration form records
    (24-hour [formatDateTime]) is the one it shows (12-hour
    [toLocaleString]): same date, minutes and seconds, and the hour the
    12-hour reading denotes.  Equivalence (C31): the calendar's colour loop
    computes the reference map, the palette entry of each id's last
    position.  Pages (C32-C40): the add-medication form sends exactly the
    valid values and only units and forms its selects list; the schedules
    page, given a response of the declared type, draws the calendar of
    exactly its medications (the page, the reading of the response and the
    calendar's render composed); the default "actual time" of an
    administration is UTC, not local time; the patient list shows dates of
    birth a day early west of Greenwich; the patient context against
    reloads, the pages' buttons and the browser's back button; and the
    calendar's real handlers refine the abstract modal machine, so the two
    modals are never shown together and the form holds state exactly while
    it is shown.  C20 is the spec's network-failure scenario: an
    administration whose request the network rejects is rolled back and
    rejects with the original [TypeError] as its cause.

    ** Modelling choices and bounds

    - JS numbers are [Z]: every number the client manipulates is an integer
      (counts, weekdays, milliseconds, dosage fields as entered; the dosage
      input's tenths are not modelled).
    - Strings are [Stdlib.Strings.String.string] (8-bit characters); keys
      and identifiers are ASCII; [localeCompare] on the ["HH:MM:SS"] times is
      the code point order.  Object property order is insertion order.
    - Dates in the calendar are whole days since 1970-01-01 at local
      midnight, times of day are minutes.  [DateTime] takes the time zone as
      a fixed offset in minutes east of UTC, an argument of every theorem:
      daylight saving is not modelled.  Parsing is proved for years 0000 to
      9999 (the four-digit years [toISOString] prints without a sign); the
      digit-level facts are checked exhaustively by [vm_compute] over the
      100 two-digit and the 10000 four-digit numbers.
    - The clock ([Date.now], [new Date()]) is an explicit argument, the
      server's state a function from cache key to value, the network a
      function from the request sent to its outcome.
    - The query cache is the spec's store (section 4.3): [invalidate] marks
      a key stale and keeps its value, [refetch] gives the key the server's
      value.  The refetch that TanStack's [invalidateQueries] starts for an
      active query is modelled as what it is, the fetch of the mounted
      [useQuery] on the stale key ([QueryHooks], C6); that TanStack awaits
      it before [mutateAsync] resolves is not modelled.  TanStack's
      [refetchQueries] does nothing for a key no query has ever read,
      where the spec's [refetch] fetches it: the refetching hooks differ
      from the library only on keys no page has read.
    - No fuel is needed: every function is structurally recursive on the
      JSON value, string, list or count it walks; the only unbounded
      behaviours, the week navigation and the browser session, are relations
      ([nav_reach], [app_step]) with their invariants proved by induction.

    ** Not modelled

    The static CSS of the styled components and the CSS files (the colours
    chosen by props, in [CalendarView], are modelled); date-fns [parseISO]
    (a parameter of the details modal: its grammar is the library's); the
    [error] flag of [useQuery] and the timing of the fetches the query
    hooks start (the pages take [isLoading] and [error] as arguments, and
    [QueryHooks] models [data], [isFetching] and [isLoading]); the
    development-mode [console.log] of the transport; the timing of
    [isPending] while a mutation runs (the pages take it as an argument);
    the test files; [main.tsx] and the Vite configuration; the
    normalisation [new URL] applies to the base URL (the endpoints pass
    paths); [undefined] object properties (a record field the page copies
    must be present; [JSON.stringify] would drop a missing one).
*)

From Stdlib Require Export String Ascii ZArith Lia DecimalString DecimalN.
From stdpp Require Export base list gmap strings.

Declare Scope mm_scope.
Delimit Scope mm_scope with mm.


(** ** Results: values or thrown errors *)

Inductive result (A E : Type) : Type :=
| Ok (a : A)
| Err (e : E).
Arguments Ok {A E} a.
Arguments Err {A E} e.

Definition rbind {A B E} (r : result A E) (k : A -> result B E) : result B E :=
  match r with
  | Ok a => k a
  | Err e => Err e
  end.

Definition rmap {A B E} (f : A -> B) (r : result A E) : result B E :=
  rbind r (fun a => Ok (f a)).

Notation "'let*' x ':=' c 'in' k" := (rbind c (fun x => k))
  (at level 10, x name, c at level 100, k at level 200) : mm_scope.

Create HintDb medmgr.
Create Rewrite HintDb mm_rw.

Lemma rbind_ok {A B E} (a : A) (k : A -> result B E) : rbind (Ok a) k = k a.
Proof. reflexivity. Qed.

Lemma rbind_err {A B E} (e : E) (k : A -> result B E) : rbind (Err e) k = Err e.
Proof. reflexivity. Qed.

#[export] Hint Rewrite @rbind_ok @rbind_err : mm_rw.

(** ** JS objects as association lists

    A JS object's own enumerable properties, in enumeration order.  Reading a
    property returns the first binding; assigning [o[k] = v] replaces the value
    in place when [k] is present and appends [(k, v)] otherwise. *)

(** Case analysis on every string comparison of the goal. *)
Ltac destr_streq :=
  repeat match goal with
  | |- context [String.eqb ?a ?b] =>
      destruct (String.eqb_spec a b); subst; try congruence
  end; try done.

Section Assoc.
Context {V : Type}.

Fixpoint assoc_get (fs : list (string * V)) (k : string) : option V :=
  match fs with
  | [] => None
  | (k', v) :: fs' => if String.eqb k' k then Some v else assoc_get fs' k
  end.

Fixpoint assoc_set (fs : list (string * V)) (k : string) (v : V) :
    list (string * V) :=
  match fs with
  | [] => [(k, v)]
  | (k', v') :: fs' =>
      if String.eqb k' k then (k', v) :: fs' else (k', v') :: assoc_set fs' k v
  end.

(** [delete o[k]] *)
Definition assoc_del (fs : list (string * V)) (k : string) : list (string * V) :=
  List.filter (fun kv => negb (String.eqb kv.1 k)) fs.

Definition keys (fs : list (string * V)) : list string := map fst fs.

Lemma assoc_get_set_eq fs k v : assoc_get (assoc_set fs k v) k = Some v.
Proof. induction fs as [|[k' v'] fs IH]; simpl; destr_streq; simpl; destr_streq. Qed.

Lemma assoc_get_set_ne fs k k' v :
  k <> k' -> assoc_get (assoc_set fs k v) k' = assoc_get fs k'.
Proof.
  intros Hne. induction fs as [|[k0 v0] fs IH]; simpl; destr_streq; simpl; destr_streq.
Qed.

Lemma assoc_get_None fs k : k ∉ keys fs -> assoc_get fs k = None.
Proof.
  induction fs as [|[k' v'] fs IH]; simpl; [done|].
  rewrite not_elem_of_cons. intros [Hne Hnin]. destr_streq. auto.
Qed.

Lemma assoc_get_Some_In fs k v : assoc_get fs k = Some v -> In (k, v) fs.
Proof.
  induction fs as [|[k' v'] fs IH]; simpl; [done|].
  destruct (String.eqb_spec k' k) as [->|]; [intros [= ->]; by left|]. intros H. right. by apply IH.
Qed.

Lemma assoc_set_fresh fs k v : k ∉ keys fs -> assoc_set fs k v = fs ++ [(k, v)].
Proof.
  induction fs as [|[k' v'] fs IH]; simpl; [done|].
  rewrite not_elem_of_cons. intros [Hne Hnin]. destr_streq. by rewrite IH.
Qed.

Lemma keys_assoc_set_in fs k v : k ∈ keys fs -> keys (assoc_set fs k v) = keys fs.
Proof.
  induction fs as [|[k' v'] fs IH]; simpl; [by rewrite elem_of_nil|].
  rewrite elem_of_cons. intros Hk. destr_streq; simpl.
  rewrite IH; [done|]. destruct Hk; congruence.
Qed.

Lemma keys_assoc_set_sub fs k v x : x ∈ keys (assoc_set fs k v) -> x = k \/ x ∈ keys fs.
Proof.
  induction fs as [|[k' v'] fs IH]; simpl.
  - rewrite list_elem_of_singleton. auto.
  - destruct (String.eqb_spec k' k); subst; simpl; rewrite !elem_of_cons; [tauto|].
    intros [->|Hx]; [auto|]. destruct (IH Hx); auto.
Qed.

Lemma NoDup_keys_assoc_set fs k v :
  NoDup (keys fs) -> NoDup (keys (assoc_set fs k v)).
Proof.
  destruct (decide (k ∈ keys fs)) as [Hin|Hnin].
  - by rewrite keys_assoc_set_in.
  - rewrite assoc_set_fresh by done. unfold keys. rewrite map_app. simpl.
    intros Hnd. apply NoDup_app. repeat split; [done| |by apply NoDup_singleton].
    intros x Hx. rewrite list_elem_of_singleton. intros ->. done.
Qed.

Lemma Forall_assoc_set (R : string * V -> Prop) fs k v :
  Forall R fs -> R (k, v) -> Forall R (assoc_set fs k v).
Proof.
  induction fs as [|[k' v'] fs IH]; simpl; intros Hfs Hkv; [by constructor|].
  apply Forall_cons in Hfs as [Hh Ht]. destr_streq; by constructor; auto.
Qed.

Lemma assoc_get_del_eq fs k : assoc_get (assoc_del fs k) k = None.
Proof.
  unfold assoc_del. induction fs as [|[k' v'] fs IH]; simpl; [done|].
  destruct (String.eqb_spec k' k); simpl; [exact IH|]. destr_streq.
Qed.

Lemma assoc_get_del_ne fs k k' : k <> k' -> assoc_get (assoc_del fs k) k' = assoc_get fs k'.
Proof.
  intros Hne. unfold assoc_del. induction fs as [|[k0 v0] fs IH]; simpl; [done|].
  destruct (String.eqb_spec k0 k); simpl; destr_streq.
Qed.

Lemma length_assoc_set_in fs k v :
  k ∈ keys fs -> length (assoc_set fs k v) = length fs.
Proof.
  intros Hin. rewrite <- (length_map fst), <- (length_map fst fs).
  by apply (f_equal length), keys_assoc_set_in.
Qed.
End Assoc.

(** Object spread [{...a, ...b}]: the properties of [b] assigned onto a copy
    of [a], in order. *)
Definition spread {V} (a b : list (string * V)) : list (string * V) :=
  fold_left (fun acc kv => assoc_set acc kv.1 kv.2) b a.

Lemma assoc_get_spread_notin {V} (a b : list (string * V)) k :
  k ∉ keys b -> assoc_get (spread a b) k = assoc_get a k.
Proof.
  revert a. induction b as [|[k' v'] b IH]; simpl; intros a Hk; [done|].
  rewrite not_elem_of_cons in Hk. destruct Hk as [Hne Hk].
  rewrite IH by done. apply assoc_get_set_ne. congruence.
Qed.

Lemma assoc_set_get_same {V} (fs : list (string * V)) k v :
  assoc_get fs k = Some v -> assoc_set fs k v = fs.
Proof.
  induction fs as [|[k' v'] fs IH]; simpl; [done|].
  destruct (String.eqb_spec k' k) as [->|Hne].
  - by intros [= ->].
  - intros H. by rewrite IH.
Qed.

(** Spreading distinct keys onto an object that has none of them appends them. *)
Lemma spread_fresh {V} (acc fs : list (string * V)) :
  NoDup (keys acc ++ keys fs) -> spread acc fs = acc ++ fs.
Proof.
  revert acc. induction fs as [|[k v] fs IH]; intros acc Hnd; simpl; [by rewrite app_nil_r|].
  apply NoDup_app in Hnd as (Hacc & Hdis & Hfs).
  rewrite assoc_set_fresh.
  2: { intros Hin. apply (Hdis k Hin). simpl. set_solver. }
  rewrite IH, <- app_assoc; [done|].
  unfold keys. rewrite map_app, <- app_assoc. simpl.
  apply NoDup_app. repeat split; [done| |done]. intros y Hy. apply (Hdis y Hy).
Qed.

(** ** Lexicographic order on strings ([String.compare], code point order) *)

Lemma ascii_compare_refl c : Ascii.compare c c = Eq.
Proof. apply N.compare_refl. Qed.

Lemma ascii_compare_lt_trans a b c :
  Ascii.compare a b = Lt -> Ascii.compare b c = Lt -> Ascii.compare a c = Lt.
Proof. unfold Ascii.compare. rewrite !N.compare_lt_iff. lia. Qed.

Lemma string_compare_refl s : String.compare s s = Eq.
Proof. induction s; simpl; [done|]. by rewrite ascii_compare_refl. Qed.

Lemma string_compare_lt_trans s1 s2 s3 :
  String.compare s1 s2 = Lt -> String.compare s2 s3 = Lt -> String.compare s1 s3 = Lt.
Proof.
  revert s2 s3. induction s1 as [|c1 s1 IH]; intros [|c2 s2] [|c3 s3]; simpl; try done.
  intros H12 H23.
  destruct (Ascii.compare c1 c2) eqn:E12; try discriminate;
    destruct (Ascii.compare c2 c3) eqn:E23; try discriminate.
  - apply Ascii.compare_eq_iff in E12, E23. subst. rewrite ascii_compare_refl. eauto.
  - apply Ascii.compare_eq_iff in E12. subst. by rewrite E23.
  - apply Ascii.compare_eq_iff in E23. subst. by rewrite E12.
  - by rewrite (ascii_compare_lt_trans _ _ _ E12 E23).
Qed.

Lemma string_ltb_spec s1 s2 : String.ltb s1 s2 = true <-> String.compare s1 s2 = Lt.
Proof. unfold String.ltb. by destruct (String.compare s1 s2). Qed.

Lemma string_leb_spec s1 s2 : String.leb s1 s2 = true <-> String.compare s1 s2 <> Gt.
Proof. unfold String.leb. by destruct (String.compare s1 s2). Qed.

Lemma string_ltb_false_leb s1 s2 : String.ltb s1 s2 = false -> String.leb s2 s1 = true.
Proof.
  unfold String.ltb, String.leb. rewrite (String.compare_antisym s2 s1).
  by destruct (String.compare s1 s2).
Qed.

Lemma string_leb_trans s1 s2 s3 :
  String.leb s1 s2 = true -> String.leb s2 s3 = true -> String.leb s1 s3 = true.
Proof.
  rewrite !string_leb_spec.
  destruct (String.compare s1 s2) eqn:E12; try done;
    destruct (String.compare s2 s3) eqn:E23; try done; intros _ _.
  - apply String.compare_eq_iff in E12, E23. subst. by rewrite string_compare_refl.
  - apply String.compare_eq_iff in E12. subst. by rewrite E23.
  - apply String.compare_eq_iff in E23. subst. by rewrite E12.
  - by rewrite (string_compare_lt_trans _ _ _ E12 E23).
Qed.

Lemma string_leb_ltb_trans s1 s2 s3 :
  String.leb s1 s2 = true -> String.ltb s2 s3 = true -> String.ltb s1 s3 = true.
Proof.
  rewrite string_leb_spec, !string_ltb_spec.
  destruct (String.compare s1 s2) eqn:E12; try done; intros _ H23.
  - apply String.compare_eq_iff in E12. by subst.
  - by apply (string_compare_lt_trans _ s2).
Qed.

Lemma string_ltb_irrefl s : String.ltb s s = false.
Proof. unfold String.ltb. by rewrite string_compare_refl. Qed.

Lemma filter_all_false {A} (f : A -> bool) l :
  (forall z, In z l -> f z = false) -> List.filter f l = [].
Proof.
  induction l as [|a l IH]; intros H; simpl; [done|].
  rewrite H by (by left). apply IH. intros z Hz. apply H. by right.
Qed.

Lemma flat_map_ext_In {A B} (f g : A -> list B) l :
  (forall a, In a l -> f a = g a) -> flat_map f l = flat_map g l.
Proof.
  induction l as [|a l IH]; intros H; simpl; [done|].
  rewrite H by (by left). f_equal. apply IH. intros b Hb. apply H. by right.
Qed.

Lemma triple_eta {A B D} (p : A * B * D) : p = (fst (fst p), snd (fst p), snd p).
Proof. by destruct p as [[]]. Qed.

Lemma spread_nil {V} (fs : list (string * V)) : NoDup (keys fs) -> spread [] fs = fs.
Proof. intros Hnd. by apply (spread_fresh [] fs). Qed.

#[export] Hint Resolve NoDup_keys_assoc_set assoc_get_set_eq : medmgr.

(** ** Generic list and string lemmas *)

Lemma map_id_Forall {A} (g : A -> A) (l : list A) :
  Forall (fun x => g x = x) l -> map g l = l.
Proof. induction 1; simpl; congruence. Qed.

Lemma NoDup_map_on {A B} (f : A -> B) (l : list A) :
  (forall x y, x ∈ l -> y ∈ l -> f x = f y -> x = y) -> NoDup l -> NoDup (map f l).
Proof.
  intros Hinj Hnd. induction Hnd as [|x l Hx Hnd IH]; simpl; constructor.
  - rewrite list_elem_of_In, in_map_iff. intros (y & Hy & Hyl).
    apply Hx. rewrite (Hinj x y); [|set_solver|rewrite list_elem_of_In; set_solver|done].
    by apply list_elem_of_In.
  - apply IH. intros a b Ha Hb. apply Hinj; set_solver.
Qed.

Lemma NoDup_map_inv' {A B} (f : A -> B) (l : list A) : NoDup (map f l) -> NoDup l.
Proof.
  induction l as [|x l IH]; simpl; [constructor|]. rewrite !NoDup_cons.
  intros [Hn Hnd]. split; [|auto].
  intros Hin. apply Hn, list_elem_of_In, in_map, list_elem_of_In, Hin.
Qed.

(** Strong induction on the length of a string: the case conversions consume
    two characters at a time. *)
Lemma string_len_ind (P : string -> Prop) :
  (forall s, (forall t, String.length t < String.length s -> P t) -> P s) ->
  forall s, P s.
Proof.
  intros Hstep s. remember (String.length s) as n eqn:Hn. revert s Hn.
  induction n as [n IH] using lt_wf_ind. intros s ->.
  apply Hstep. intros t Ht. by apply (IH (String.length t)).
Qed.

(** ** ASCII case predicates, as [String.prototype.replace] with [/[a-z]/] and
    [/[A-Z]/] sees them, and [toUpperCase]/[toLowerCase] on those ranges. *)

Definition is_lower (c : ascii) : bool :=
  let n := nat_of_ascii c in (97 <=? n)%nat && (n <=? 122)%nat.
Definition is_upper (c : ascii) : bool :=
  let n := nat_of_ascii c in (65 <=? n)%nat && (n <=? 90)%nat.
Definition to_upper (c : ascii) : ascii :=
  if is_lower c then ascii_of_nat (nat_of_ascii c - 32) else c.
Definition to_lower (c : ascii) : ascii :=
  if is_upper c then ascii_of_nat (nat_of_ascii c + 32) else c.

(** Every statement [f c = true] about a single character is decided by
    running [f] on the 256 characters. *)
Definition all_ascii : list ascii := map ascii_of_nat (seq 0 256).

Lemma ascii_forall (f : ascii -> bool) :
  forallb f all_ascii = true -> forall c, f c = true.
Proof.
  intros Hall c. rewrite <- (ascii_nat_embedding c).
  apply forallb_forall with (x := ascii_of_nat (nat_of_ascii c)) in Hall; [done|].
  apply in_map, in_seq. pose proof (nat_ascii_bounded c). lia.
Qed.

Ltac ascii_decide := apply ascii_forall; vm_compute; reflexivity.

Lemma is_upper_to_upper c : is_lower c = true -> is_upper (to_upper c) = true.
Proof.
  enough (H : forall c, implb (is_lower c) (is_upper (to_upper c)) = true).
  { intros Hl. specialize (H c). by rewrite Hl in H. }
  ascii_decide.
Qed.

Lemma is_lower_to_upper c : is_lower (to_upper c) = false.
Proof.
  enough (H : forall c, negb (is_lower (to_upper c)) = true).
  { specialize (H c). by destruct (is_lower (to_upper c)). }
  ascii_decide.
Qed.

Lemma to_lower_to_upper c : is_lower c = true -> to_lower (to_upper c) = c.
Proof.
  enough (H : forall c, implb (is_lower c) (Ascii.eqb (to_lower (to_upper c)) c) = true).
  { intros Hl. specialize (H c). rewrite Hl in H. by apply Ascii.eqb_eq. }
  ascii_decide.
Qed.

Lemma to_upper_to_lower c : is_upper c = true -> to_upper (to_lower c) = c.
Proof.
  enough (H : forall c, implb (is_upper c) (Ascii.eqb (to_upper (to_lower c)) c) = true).
  { intros Hu. specialize (H c). rewrite Hu in H. by apply Ascii.eqb_eq. }
  ascii_decide.
Qed.

Lemma is_lower_to_lower c : is_upper c = true -> is_lower (to_lower c) = true.
Proof.
  enough (H : forall c, implb (is_upper c) (is_lower (to_lower c)) = true).
  { intros Hu. specialize (H c). by rewrite Hu in H. }
  ascii_decide.
Qed.

Lemma upper_not_lower c : is_upper c = true -> is_lower c = false.
Proof.
  enough (H : forall c, implb (is_upper c) (negb (is_lower c)) = true).
  { intros Hu. specialize (H c). rewrite Hu in H. by destruct (is_lower c). }
  ascii_decide.
Qed.

Lemma underscore_not_lower : is_lower "_" = false.
Proof. reflexivity. Qed.

Lemma underscore_not_upper : is_upper "_" = false.
Proof. reflexivity. Qed.

#[export] Hint Resolve is_upper_to_upper is_lower_to_upper to_lower_to_upper
  to_upper_to_lower is_lower_to_lower upper_not_lower : medmgr.
#[export] Hint Rewrite is_lower_to_upper underscore_not_lower underscore_not_upper : mm_rw.

(** ** Decimal rendering of naturals, as JS template strings render them. *)
Definition show_N (n : N) : string := NilEmpty.string_of_uint (N.to_uint n).

(** [String(n)] on an integer. *)
Definition show_Z (z : Z) : string :=
  if (z <? 0)%Z then ("-" ++ show_N (Z.to_N (- z)))%string else show_N (Z.to_N z).

(** The value of a decimal digit character. *)
Definition digit_value (c : ascii) : option Z :=
  let n := (Z.of_nat (nat_of_ascii c) - 48)%Z in
  if (0 <=? n)%Z && (n <=? 9)%Z then Some n else None.

Definition is_digit (c : ascii) : bool :=
  match digit_value c with Some _ => true | None => false end.

(** ** Strings as lists of characters *)

Lemma length_list_ascii_of_string s : length (list_ascii_of_string s) = String.length s.
Proof. induction s; simpl; congruence. Qed.

Lemma list_ascii_of_string_app s1 s2 :
  list_ascii_of_string (s1 ++ s2)%string = (list_ascii_of_string s1 ++ list_ascii_of_string s2)%list.
Proof. induction s1 as [|a s1 IH]; [reflexivity|]. simpl. f_equal. exact IH. Qed.

Lemma substring_app_exact s1 s2 :
  substring 0 (String.length s1) (s1 ++ s2)%string = s1.
Proof. induction s1 as [|a s1 IH]; simpl; [by destruct s2|]. by rewrite IH. Qed.

Lemma firstn_app_length {A} (l k : list A) : firstn (length l) (l ++ k) = l.
Proof. induction l as [|x l IH]; simpl; [done|]. by rewrite IH. Qed.

Lemma skipn_app_length {A} (l k : list A) : skipn (length l) (l ++ k) = k.
Proof. by induction l. Qed.

Lemma string_app_assoc (a b c : string) : ((a ++ b) ++ c)%string = (a ++ (b ++ c))%string.
Proof. induction a as [|x a IH]; [reflexivity|]. exact (f_equal (String x) IH). Qed.

(** Splitting two strings at the first occurrence of a separator that
    neither prefix contains. *)
Lemma string_split_at (c : ascii) a b a' b' :
  forallb (fun x => negb (Ascii.eqb x c)) (list_ascii_of_string a) = true ->
  forallb (fun x => negb (Ascii.eqb x c)) (list_ascii_of_string a') = true ->
  (a ++ String c b = a' ++ String c b')%string -> a = a' /\ b = b'.
Proof.
  revert a'. induction a as [|x a IH]; intros [|x' a']; cbn; intros Ha Ha' H.
  - by injection H.
  - injection H as -> _. by rewrite Ascii.eqb_refl in Ha'.
  - injection H as -> _. by rewrite Ascii.eqb_refl in Ha.
  - apply andb_true_iff in Ha as [_ Ha]. apply andb_true_iff in Ha' as [_ Ha'].
    injection H as -> H. destruct (IH a' Ha Ha' H) as [-> ->]. done.
Qed.

(** A decimal rendering is digits only, and it determines the number. *)
Lemma show_N_digits n : forallb is_digit (list_ascii_of_string (show_N n)) = true.
Proof. unfold show_N. generalize (N.to_uint n) as u. induction u; simpl; auto. Qed.

Lemma show_N_inj n m : show_N n = show_N m -> n = m.
Proof.
  unfold show_N. intros H. apply (f_equal NilEmpty.uint_of_string) in H.
  rewrite !NilEmpty.usu in H. injection H as H.
  by rewrite <- (DecimalN.Unsigned.of_to n), <- (DecimalN.Unsigned.of_to m), H.
Qed.

Lemma show_Z_nonneg z : (0 <= z)%Z -> show_Z z = show_N (Z.to_N z).
Proof. intros Hz. unfold show_Z. by replace (z <? 0)%Z with false by lia. Qed.

Lemma digits_not_sep (c : ascii) s : is_digit c = false ->
  forallb is_digit (list_ascii_of_string s) = true ->
  forallb (fun x => negb (Ascii.eqb x c)) (list_ascii_of_string s) = true.
Proof.
  intros Hc. induction (list_ascii_of_string s) as [|x l IH]; [done|]. cbn.
  rewrite !andb_true_iff. intros [Hx Hl]. split; [|by apply IH].
  destruct (Ascii.eqb_spec x c); [subst; congruence|done].
Qed.

Lemma string_length_app (a b : string) :
  String.length (a ++ b)%string = (String.length a + String.length b)%nat.
Proof. induction a as [|x a IH]; [reflexivity|]. exact (f_equal S IH). Qed.

(** ** Sums over lists *)

(** Replacing the element at [i] changes a sum by the difference of the two
    summands. *)
Lemma sum_list_with_insert {A} (f : A -> nat) (l : list A) i x y :
  l !! i = Some y -> (sum_list_with f (<[i := x]> l) + f y = sum_list_with f l + f x)%nat.
Proof.
  revert i. induction l as [|z l IH]; intros [|i] Hi; simplify_eq/=; [lia|].
  specialize (IH i Hi). lia.
Qed.
