(* ===== verification/Json.v ===== *)
(** * JS values handled by the client

    [value] is what [response.json()] produces (JSON) plus the [Date] objects
    the optimistic administration record of
    [src/src/hooks/mutations/useCreateMedicationAdministration.ts] stores in
    the cache.  Objects are association lists in enumeration order (see
    [Prelude.assoc_set]).  The file gives the nested induction principle,
    decidable equality, JS truthiness, property access (with the [TypeError]
    a property read on [null] throws) and the errors the client can throw. *)

From S2P Require Import Prelude.

(** [new Date(s)] and [new Date()] (the clock, in milliseconds). *)
Inductive date : Type :=
| DateOfString (s : string)
| DateNow (ms : N).

Unset Elimination Schemes.
Inductive value : Type :=
| JNull
| JBool (b : bool)
| JNum (z : Z)
| JStr (s : string)
| JArr (xs : list value)
| JObj (fs : list (string * value))
| JDate (d : date).
Set Elimination Schemes.

(** Induction through the lists of arrays and objects. *)
Definition value_ind (P : value -> Prop)
    (fnull : P JNull) (fbool : forall b, P (JBool b)) (fnum : forall z, P (JNum z))
    (fstr : forall s, P (JStr s))
    (farr : forall xs, Forall P xs -> P (JArr xs))
    (fobj : forall fs, Forall (fun kv => P kv.2) fs -> P (JObj fs))
    (fdate : forall d, P (JDate d)) : forall v, P v :=
  fix F (v : value) : P v :=
    match v with
    | JNull => fnull
    | JBool b => fbool b
    | JNum z => fnum z
    | JStr s => fstr s
    | JArr xs =>
        farr xs ((fix G (l : list value) : Forall P l :=
                    match l with
                    | [] => Forall_nil_2 _
                    | x :: l' => Forall_cons_2 _ _ _ (F x) (G l')
                    end) xs)
    | JObj fs =>
        fobj fs ((fix G (l : list (string * value)) : Forall (fun kv => P kv.2) l :=
                    match l with
                    | [] => Forall_nil_2 _
                    | kv :: l' => Forall_cons_2 _ _ _ (F kv.2) (G l')
                    end) fs)
    | JDate d => fdate d
    end.

(** ** Decidable equality *)

Definition date_eqb (a b : date) : bool :=
  match a, b with
  | DateOfString s, DateOfString t => String.eqb s t
  | DateNow m, DateNow n => N.eqb m n
  | _, _ => false
  end.

Fixpoint value_eqb (x y : value) : bool :=
  match x, y with
  | JNull, JNull => true
  | JBool a, JBool b => Bool.eqb a b
  | JNum a, JNum b => Z.eqb a b
  | JStr a, JStr b => String.eqb a b
  | JArr xs, JArr ys =>
      (fix go (xs ys : list value) : bool :=
         match xs, ys with
         | [], [] => true
         | x :: xs', y :: ys' => value_eqb x y && go xs' ys'
         | _, _ => false
         end) xs ys
  | JObj xs, JObj ys =>
      (fix go (xs ys : list (string * value)) : bool :=
         match xs, ys with
         | [], [] => true
         | (k, x) :: xs', (k', y) :: ys' => String.eqb k k' && value_eqb x y && go xs' ys'
         | _, _ => false
         end) xs ys
  | JDate a, JDate b => date_eqb a b
  | _, _ => false
  end.

Lemma date_eqb_eq a b : date_eqb a b = true <-> a = b.
Proof.
  destruct a, b; simpl; split; intros H; try discriminate; try congruence.
  - apply String.eqb_eq in H. by subst.
  - injection H as ->. apply String.eqb_refl.
  - apply N.eqb_eq in H. by subst.
  - injection H as ->. apply N.eqb_refl.
Qed.

Lemma value_eqb_eq x y : value_eqb x y = true <-> x = y.
Proof.
  revert y. induction x as [| b | z | s | xs IH | fs IH | d]; intros [];
    simpl; split; intros H; try discriminate; try congruence.
  - by apply Bool.eqb_prop in H as ->.
  - injection H as ->. apply Bool.eqb_reflx.
  - by apply Z.eqb_eq in H as ->.
  - injection H as ->. apply Z.eqb_refl.
  - by apply String.eqb_eq in H as ->.
  - injection H as ->. apply String.eqb_refl.
  - f_equal. revert xs0 H. induction IH as [|x xs Hx _ IHl]; intros [|y ys] H;
      try discriminate; [done|].
    apply andb_prop in H as [Hxy Hr]. f_equal; [by apply Hx | by apply IHl].
  - injection H as <-. induction IH as [|x xs Hx _ IHl]; [done|].
    rewrite IHl, andb_true_r. by apply Hx.
  - f_equal. revert fs0 H. induction IH as [|[k x] fs Hx _ IHl]; intros [|[k' y] ys] H;
      try discriminate; [done|].
    apply andb_prop in H as [[Hk Hxy]%andb_prop Hr].
    apply String.eqb_eq in Hk as ->. f_equal; [f_equal; by apply Hx | by apply IHl].
  - injection H as <-. induction IH as [|[k x] fs Hx _ IHl]; [done|].
    rewrite IHl, String.eqb_refl, andb_true_r. by apply Hx.
  - by apply date_eqb_eq in H as ->.
  - injection H as ->. by apply date_eqb_eq.
Qed.

#[export] Instance value_eq_dec : EqDecision value.
Proof.
  intros x y. destruct (value_eqb x y) eqn:E.
  - left. by apply value_eqb_eq.
  - right. intros H%value_eqb_eq. congruence.
Defined.

(** ** JS semantics used by the hooks and the endpoints *)

(** Truthiness of [undefined] ([None]) and of a value ([NaN] is not a
    value of this model). *)
Definition truthy (o : option value) : bool :=
  match o with
  | None | Some JNull => false
  | Some (JBool b) => b
  | Some (JNum z) => negb (Z.eqb z 0)
  | Some (JStr s) => negb (String.eqb s "")
  | Some (JArr _) | Some (JObj _) | Some (JDate _) => true
  end.

(** [Array.isArray] *)
Definition is_array (o : option value) : bool :=
  match o with Some (JArr _) => true | _ => false end.

(** [v.k] on a value that is not [null]: only objects have own string keys
    here (the keys this program reads are neither [length] nor indices). *)
Definition get_prop (v : value) (k : string) : option value :=
  match v with JObj fs => assoc_get fs k | _ => None end.

(** Request bodies: a value to [JSON.stringify], or a [FormData]. *)
Inductive body : Type := BodyJson (v : value) | BodyFormData (fields : list (string * string)).

(** The [RequestInit] the transport passes to [fetch]: its method, headers,
    the caller's other [RequestInit] members ([...fetchOptions]: [mode],
    [credentials], [signal], ...) and body. *)
Record request_init : Type := mkRequestInit {
  init_method : string;
  init_headers : list (string * string);
  init_rest : list (string * value);
  init_body : option body
}.

(** The errors the client throws: the built-in [TypeError] and
    [SyntaxError], a plain [Error], and [ApiClientError] of
    [src/src/types/client.ts], an [Error] with the optional fields [status],
    [url], [options], [data] and [originalError]. *)
Inductive js_error : Type :=
| TypeError (msg : string)
| SyntaxError (msg : string)
| PlainError (msg : string)
| ApiClientError (message : string) (status : option Z) (url : option string)
    (options : option request_init) (data : option value) (originalError : option js_error).

(** [v.k] for any [v]: reading a property of [null] throws. *)
Definition member (v : value) (k : string) : result (option value) js_error :=
  match v with
  | JNull => Err (TypeError ("Cannot read properties of null (reading '" ++ k ++ "')"))
  | _ => Ok (get_prop v k)
  end.

(** Well-formed values: every object has distinct keys (as any object built
    by [JSON.parse] or by property assignment has). *)
Fixpoint wf_value (v : value) : bool :=
  match v with
  | JArr xs =>
      (fix go (xs : list value) : bool :=
         match xs with [] => true | x :: xs' => wf_value x && go xs' end) xs
  | JObj fs =>
      bool_decide (NoDup (keys fs)) &&
      (fix go (fs : list (string * value)) : bool :=
         match fs with [] => true | (_, x) :: fs' => wf_value x && go fs' end) fs
  | _ => true
  end.

Lemma wf_value_arr xs : wf_value (JArr xs) = true <-> Forall (fun x => wf_value x = true) xs.
Proof.
  simpl. induction xs as [|x xs IH]; simpl; [split; auto|].
  rewrite andb_true_iff, Forall_cons, IH. done.
Qed.

Lemma wf_value_obj fs :
  wf_value (JObj fs) = true <->
  NoDup (keys fs) /\ Forall (fun kv => wf_value kv.2 = true) fs.
Proof.
  simpl. rewrite andb_true_iff, bool_decide_eq_true. apply and_iff_compat_l.
  induction fs as [|[k x] fs IH]; simpl; [split; auto|].
  rewrite andb_true_iff, Forall_cons, IH. done.
Qed.

(** Values [JSON.parse] can produce: no [Date] inside. *)
Fixpoint is_json (v : value) : bool :=
  match v with
  | JArr xs =>
      (fix go (xs : list value) : bool :=
         match xs with [] => true | x :: xs' => is_json x && go xs' end) xs
  | JObj fs =>
      (fix go (fs : list (string * value)) : bool :=
         match fs with [] => true | (_, x) :: fs' => is_json x && go fs' end) fs
  | JDate _ => false
  | _ => true
  end.

Lemma is_json_arr xs : is_json (JArr xs) = true <-> Forall (fun x => is_json x = true) xs.
Proof.
  simpl. induction xs as [|x xs IH]; simpl; [split; auto|].
  rewrite andb_true_iff, Forall_cons, IH. done.
Qed.

Lemma is_json_obj fs : is_json (JObj fs) = true <-> Forall (fun kv => is_json kv.2 = true) fs.
Proof.
  simpl. induction fs as [|[k x] fs IH]; simpl; [split; auto|].
  rewrite andb_true_iff, Forall_cons, IH. done.
Qed.
