(* ===== verification/Presentational.v ===== *)
(** * The shared presentational components
    ([src/src/components/ErrorMessage/ErrorMessage.tsx],
    [src/src/components/LoadingSpinner/LoadingSpinner.tsx])

    Both are pure functions of their props with defaults.  The three pages
    render [<LoadingSpinner />] while their query loads and
    [<ErrorMessage message={error.message} />] when it failed; the page
    models ([Views.MedicationList], [Patients.PatientList],
    [Patients.MedicationSchedules]) name these outcomes, and this file says
    what they draw.  Class names are the template strings of the source, the
    icons the UTF-8 bytes of the emoji. *)

From S2P Require Import Prelude.
Local Open Scope string_scope.

(** ** ErrorMessage *)

Inductive variant : Type := VError | VWarning | VInfo.

Definition variant_name (v : variant) : string :=
  match v with VError => "error" | VWarning => "warning" | VInfo => "info" end.

Record error_props : Type := mkErrorProps {
  ep_message : string;
  ep_variant : option variant;       (** [variant?] *)
  ep_onRetry : bool;                 (** whether [onRetry] is passed *)
  ep_className : option string       (** [className?] *)
}.

Record error_view : Type := mkErrorView {
  ev_class : string;                 (** the container's [className] *)
  ev_icon : string;                  (** the text of [.error-icon] *)
  ev_message : string;
  ev_retry_button : bool             (** the "Try Again" button *)
}.

(** [{variant === "error" && "⚠️"}{variant === "warning" && "⚠️"}{variant === "info" && "ℹ️"}]:
    exactly one of the three children renders text. *)
Definition icon_of (v : variant) : string :=
  match v with VError => "⚠️" | VWarning => "⚠️" | VInfo => "ℹ️" end.

Definition ErrorMessage (p : error_props) : error_view :=
  let v := default VError (ep_variant p) in
  let cls := default "" (ep_className p) in
  mkErrorView ("error-container error-" ++ variant_name v ++ " " ++ cls) (icon_of v)
    (ep_message p) (ep_onRetry p).

(** ** LoadingSpinner *)

Inductive size : Type := Small | Medium | Large.

Definition size_name (s : size) : string :=
  match s with Small => "small" | Medium => "medium" | Large => "large" end.

Record spinner_props : Type := mkSpinnerProps {
  sp_size : option size;
  sp_message : option string;
  sp_className : option string
}.

Record spinner_view : Type := mkSpinnerView {
  sv_container_class : string;
  sv_spinner_class : string;
  sv_message : option string          (** the [.loading-message] paragraph *)
}.

(** A default applies only to an absent prop; [{message && <p>...}] drops
    an empty message. *)
Definition LoadingSpinner (p : spinner_props) : spinner_view :=
  let msg := default "Loading..." (sp_message p) in
  mkSpinnerView ("loading-container " ++ default "" (sp_className p))
    ("spinner spinner-" ++ size_name (default Medium (sp_size p)))
    (if String.eqb msg "" then None else Some msg).

(** What the pages pass: [<LoadingSpinner />] and
    [<ErrorMessage message={...} />]. *)
Definition page_spinner : spinner_view := LoadingSpinner (mkSpinnerProps None None None).

Definition page_error (msg : string) : error_view :=
  ErrorMessage (mkErrorProps msg None false None).
