(* ===== verification/DateTime.v ===== *)
(** * Dates and times: the JavaScript [Date] operations the components call

    [Date] belongs to the JavaScript runtime, not to this repository; it is
    modelled after the ECMAScript specification (the time value model and
    the Date Time String Format), restricted to what the components use.

    - A time value is an integer number of milliseconds since
      1970-01-01T00:00:00Z; an invalid date ([NaN]) is [None].
    - The local time zone is a fixed offset [tz], in minutes east of UTC:
      LocalTime(t) = t + tz * 60000.  Daylight saving is not modelled.
    - [civil_from_days] and [days_from_civil] convert a day number to the
      proleptic Gregorian year, month (1-12) and day of the month, and back.
    - The getters ([getFullYear], [getMonth], ...) read [local_fields];
      [toISOString] prints [utc_fields]; [parse] is [new Date(string)] on the
      three forms of the Date Time String Format the components produce
      (a date-only form is UTC, a date-time form without offset is local
      time); [toLocaleDateString_enUS] is [toLocaleDateString("en-US",
      {month: "2-digit", day: "2-digit", year: "numeric"})], and
      [toLocaleString_enUS] the default [toLocaleString()] of the en-US
      locale; [format_MMMdyyyy_hmmssa] is date-fns's [format].

    The lemmas: the two calendar conversions are inverse on the days of
    1970-2099, and the printed dates and times parse back (both checked day
    by day and minute by minute by evaluation, [check_from]); from these,
    [parse] reads back the first sixteen characters of [toISOString] as a
    local time, and the local date of a UTC midnight is the day before in
    every zone west of Greenwich.  Every field of a time value is in range
    ([fields_at_spec]), a four-digit year prints as four characters, and
    [toLocaleString_enUS] of a date of the common era determines its local
    fields to the second ([toLocaleString_fields_inj]). *)

From S2P Require Import Prelude.
Local Open Scope string_scope.
Local Open Scope Z_scope.

Definition msPerSecond : Z := 1000.
Definition msPerMinute : Z := 60000.
Definition msPerHour : Z := 3600000.
Definition msPerDay : Z := 86400000.

(** A time value; [None] is [NaN]. *)
Definition time_value : Type := option Z.

(** ** The proleptic Gregorian calendar *)

(** Day number (0 = 1970-01-01) to (year, month 1-12, day 1-31). *)
Definition civil_from_days (z : Z) : Z * Z * Z :=
  let z := z + 719468 in
  let era := z / 146097 in
  let doe := z - era * 146097 in
  let yoe := (doe - doe / 1460 + doe / 36524 - doe / 146096) / 365 in
  let y := yoe + era * 400 in
  let doy := doe - (365 * yoe + yoe / 4 - yoe / 100) in
  let mp := (5 * doy + 2) / 153 in
  let d := doy - (153 * mp + 2) / 5 + 1 in
  let m := if mp <? 10 then mp + 3 else mp - 9 in
  (if m <=? 2 then y + 1 else y, m, d).

(** MakeDay: (year, month 1-12, day) to the day number. *)
Definition days_from_civil (y m d : Z) : Z :=
  let y := if m <=? 2 then y - 1 else y in
  let era := y / 400 in
  let yoe := y - era * 400 in
  let doy := (153 * (if 2 <? m then m - 3 else m + 9) + 2) / 5 + d - 1 in
  let doe := yoe * 365 + yoe / 4 - yoe / 100 + doy in
  era * 146097 + doe - 719468.

(** The ranges of the Date Time String Format: MM is 01 to 12, DD is 01 to
    31 (a day past the end of its month counts on into the next one, as
    MakeDay does). *)
Definition valid_date (m d : Z) : bool := (1 <=? m) && (m <=? 12) && (1 <=? d) && (d <=? 31).

Definition valid_time (h mi s : Z) : bool :=
  (0 <=? h) && (h <=? 23) && (0 <=? mi) && (mi <=? 59) && (0 <=? s) && (s <=? 59).

(** TimeClip *)
Definition time_clip (t : Z) : time_value :=
  if Z.abs t <=? 8640000000000000 then Some t else None.

(** ** Fields of a time value *)

Record fields : Type := mkFields {
  year : Z; month : Z; date : Z; hours : Z; minutes : Z; seconds : Z; millis : Z
}.

Definition fields_at (lt : Z) : fields :=
  let '(y, m, d) := civil_from_days (lt / msPerDay) in
  let ms := lt mod msPerDay in
  mkFields y m d (ms / msPerHour) (ms / msPerMinute mod 60) (ms / msPerSecond mod 60)
    (ms mod msPerSecond).

Definition local_fields (tz t : Z) : fields := fields_at (t + tz * msPerMinute).
Definition utc_fields (t : Z) : fields := fields_at t.

(** The local getters on a date that may be invalid; [getMonth] counts
    months from 0. *)
Definition getFullYear (tz : Z) (d : time_value) : option Z :=
  option_map (fun t => year (local_fields tz t)) d.
Definition getMonth (tz : Z) (d : time_value) : option Z :=
  option_map (fun t => month (local_fields tz t) - 1) d.
Definition getDate (tz : Z) (d : time_value) : option Z :=
  option_map (fun t => date (local_fields tz t)) d.
Definition getHours (tz : Z) (d : time_value) : option Z :=
  option_map (fun t => hours (local_fields tz t)) d.
Definition getMinutes (tz : Z) (d : time_value) : option Z :=
  option_map (fun t => minutes (local_fields tz t)) d.
Definition getSeconds (tz : Z) (d : time_value) : option Z :=
  option_map (fun t => seconds (local_fields tz t)) d.

(** ** Strings *)

(** [String(n)] on a number that may be [NaN]. *)
Definition String_num (n : option Z) : string :=
  match n with Some z => show_Z z | None => "NaN" end.

(** [s.padStart(len, "0")] *)
Definition padStart (len : nat) (s : string) : string :=
  string_of_list_ascii (repeat "0"%char (len - String.length s)) ++ s.

Definition pad2 (n : Z) : string := padStart 2 (show_Z n).

(** The year of [toISOString]: four digits, or a sign and six digits. *)
Definition iso_year (y : Z) : string :=
  if (0 <=? y) && (y <=? 9999) then padStart 4 (show_Z y)
  else (if y <? 0 then "-" else "+") ++ padStart 6 (show_Z (Z.abs y)).

Definition ymd_string (y m d : Z) : string := iso_year y ++ "-" ++ pad2 m ++ "-" ++ pad2 d.
Definition hm_string (h mi : Z) : string := pad2 h ++ ":" ++ pad2 mi.

(** [toISOString()] on a valid date. *)
Definition toISOString (t : Z) : string :=
  let f := utc_fields t in
  ymd_string (year f) (month f) (date f) ++ "T" ++ hm_string (hours f) (minutes f) ++ ":" ++
  pad2 (seconds f) ++ "." ++ padStart 3 (show_Z (millis f)) ++ "Z".

(** [toLocaleDateString("en-US", {month: "2-digit", day: "2-digit",
    year: "numeric"})] *)
Definition toLocaleDateString_enUS (tz : Z) (d : time_value) : string :=
  match d with
  | None => "Invalid Date"
  | Some t =>
      let f := local_fields tz t in
      pad2 (month f) ++ "/" ++ pad2 (date f) ++ "/" ++ show_Z (year f)
  end.

(** ** date-fns [format(date, "MMM d, yyyy h:mm:ss a")] *)

(** [MMM]: the abbreviated month name of the en-US locale. *)
Definition month_abbr (m : Z) : string :=
  nth (Z.to_nat (m - 1)) ["Jan"; "Feb"; "Mar"; "Apr"; "May"; "Jun"; "Jul"; "Aug"; "Sep";
                           "Oct"; "Nov"; "Dec"] "".

(** [yyyy]: the year of the era ([1 - y] for years before 1), zero-padded
    to four digits. *)
Definition year_of_era (y : Z) : Z := if 0 <? y then y else 1 - y.

(** [h]: [getHours() % 12 || 12]. *)
Definition hour12 (h : Z) : Z := if h mod 12 =? 0 then 12 else h mod 12.

(** [a]: ["AM"] before noon, ["PM"] from noon. *)
Definition day_period (h : Z) : string := if h <? 12 then "AM" else "PM".

(** The pattern on a valid date, read in local time; on an invalid date
    [format] throws a [RangeError] instead. *)
Definition format_MMMdyyyy_hmmssa (tz t : Z) : string :=
  let f := local_fields tz t in
  month_abbr (month f) ++ " " ++ show_Z (date f) ++ ", " ++
  padStart 4 (show_Z (year_of_era (year f))) ++ " " ++
  show_Z (hour12 (hours f)) ++ ":" ++ pad2 (minutes f) ++ ":" ++ pad2 (seconds f) ++ " " ++
  day_period (hours f).

(** [toLocaleString()] in the en-US locale: ["M/D/YYYY, h:mm:ss AM"], the
    month, day and hour unpadded, the year of the era, and before the day
    period the narrow no-break space (U+202F) of CLDR 42 and later. *)
Definition toLocaleString_enUS (tz : Z) (d : time_value) : string :=
  match d with
  | None => "Invalid Date"
  | Some t =>
      let f := local_fields tz t in
      show_Z (month f) ++ "/" ++ show_Z (date f) ++ "/" ++ show_Z (year_of_era (year f)) ++ ", " ++
      show_Z (hour12 (hours f)) ++ ":" ++ pad2 (minutes f) ++ ":" ++ pad2 (seconds f) ++
      " " ++ day_period (hours f)
  end.

(** ** Parsing *)

Fixpoint digits_val (cs : list ascii) (acc : Z) : option Z :=
  match cs with
  | [] => Some acc
  | c :: cs' => match digit_value c with
                | Some v => digits_val cs' (acc * 10 + v)
                | None => None
                end
  end.

(** "YYYY-MM-DD" *)
Definition date_part (cs : list ascii) : option (Z * Z * Z) :=
  match cs with
  | [y1; y2; y3; y4; a; m1; m2; b; d1; d2] =>
      if Ascii.eqb a "-" && Ascii.eqb b "-" then
        match digits_val [y1; y2; y3; y4] 0, digits_val [m1; m2] 0, digits_val [d1; d2] 0 with
        | Some y, Some m, Some d => if valid_date m d then Some (y, m, d) else None
        | _, _, _ => None
        end
      else None
  | _ => None
  end.

(** "HH:mm" *)
Definition hm_part (cs : list ascii) : option (Z * Z) :=
  match cs with
  | [h1; h2; a; n1; n2] =>
      if Ascii.eqb a ":" then
        match digits_val [h1; h2] 0, digits_val [n1; n2] 0 with
        | Some h, Some mi => if valid_time h mi 0 then Some (h, mi) else None
        | _, _ => None
        end
      else None
  | _ => None
  end.

Definition make_time (y m d h mi s : Z) : Z :=
  days_from_civil y m d * msPerDay + h * msPerHour + mi * msPerMinute + s * msPerSecond.

(** [new Date(s)] on "YYYY-MM-DD" (UTC), "YYYY-MM-DDTHH:mm" and
    "YYYY-MM-DDTHH:mm:ss" (local time).  Every other string is an invalid
    date here; engines may accept more formats, but no input the components
    build takes that path. *)
Definition parse (tz : Z) (s : string) : time_value :=
  let cs := list_ascii_of_string s in
  match date_part (firstn 10 cs) with
  | None => None
  | Some (y, m, d) =>
      match skipn 10 cs with
      | [] => time_clip (make_time y m d 0 0 0)
      | t :: rest =>
          if negb (Ascii.eqb t "T") then None else
          match hm_part (firstn 5 rest), skipn 5 rest with
          | Some (h, mi), [] => time_clip (make_time y m d h mi 0 - tz * msPerMinute)
          | Some (h, mi), [c; s1; s2] =>
              match Ascii.eqb c ":", digits_val [s1; s2] 0 with
              | true, Some sec =>
                  if valid_time h mi sec
                  then time_clip (make_time y m d h mi sec - tz * msPerMinute) else None
              | _, _ => None
              end
          | _, _ => None
          end
      end
  end.

(** ** Exhaustive checks over a range *)

(** [f] holds on [z0], ..., [z0 + n - 1]. *)
Fixpoint check_from (n : nat) (z0 : Z) (f : Z -> bool) : bool :=
  match n with
  | O => true
  | S k => f z0 && check_from k (z0 + 1) f
  end.

(** [pad2 n] is two digits that read back as [n]. *)
Definition pad2_ok (n : Z) : bool :=
  match list_ascii_of_string (pad2 n) with
  | [c1; c2] => match digits_val [c1; c2] 0 with Some v => v =? n | None => false end
  | _ => false
  end.

(** [iso_year y] is four digits that read back as [y]. *)
Definition year_ok (y : Z) : bool :=
  match list_ascii_of_string (iso_year y) with
  | [c1; c2; c3; c4] => match digits_val [c1; c2; c3; c4] 0 with Some v => v =? y | None => false end
  | _ => false
  end.

(** [String(y)] of a four-digit year is four characters. *)
Definition show4_ok (y : Z) : bool := (String.length (show_Z y) =? 4)%nat.

(** ** Lemmas *)

Lemma check_from_spec n z0 f :
  check_from n z0 f = true -> forall z, z0 <= z < z0 + Z.of_nat n -> f z = true.
Proof.
  revert z0. induction n as [|n IH]; simpl; intros z0 Hc z Hz; [lia|].
  apply andb_prop in Hc as [Hf Hc]. destruct (Z.eq_dec z z0) as [->|Hne]; [done|].
  apply (IH (z0 + 1)); [done|lia].
Qed.

(** The year of era and the day of year computed from the day of era. *)
Lemma yoe_doy_bounds doe : 0 <= doe <= 146096 ->
  let yoe := (doe - doe / 1460 + doe / 36524 - doe / 146096) / 365 in
  0 <= yoe <= 399 /\ 0 <= doe - (365 * yoe + yoe / 4 - yoe / 100) <= 365.
Proof.
  intros Hd yoe.
  pose proof (Z.div_mod doe 1460 ltac:(lia)). pose proof (Z.mod_pos_bound doe 1460 ltac:(lia)).
  pose proof (Z.div_mod doe 36524 ltac:(lia)). pose proof (Z.mod_pos_bound doe 36524 ltac:(lia)).
  pose proof (Z.div_mod doe 146096 ltac:(lia)). pose proof (Z.mod_pos_bound doe 146096 ltac:(lia)).
  set (N := doe - doe / 1460 + doe / 36524 - doe / 146096) in *.
  pose proof (Z.div_mod N 365 ltac:(lia)). pose proof (Z.mod_pos_bound N 365 ltac:(lia)).
  subst yoe. set (y := N / 365) in *.
  pose proof (Z.div_mod y 4 ltac:(lia)). pose proof (Z.mod_pos_bound y 4 ltac:(lia)).
  pose proof (Z.div_mod y 100 ltac:(lia)). pose proof (Z.mod_pos_bound y 100 ltac:(lia)).
  lia.
Qed.

(** The month and day computed from the day of year. *)
Lemma month_day_bounds doy : 0 <= doy <= 365 ->
  let mp := (5 * doy + 2) / 153 in
  0 <= mp <= 11 /\ 0 <= doy - (153 * mp + 2) / 5 <= 30.
Proof.
  intros Hd mp.
  pose proof (Z.div_mod (5 * doy + 2) 153 ltac:(lia)).
  pose proof (Z.mod_pos_bound (5 * doy + 2) 153 ltac:(lia)).
  subst mp. set (q := (5 * doy + 2) / 153) in *.
  pose proof (Z.div_mod (153 * q + 2) 5 ltac:(lia)).
  pose proof (Z.mod_pos_bound (153 * q + 2) 5 ltac:(lia)).
  lia.
Qed.

(** Case analysis on every integer comparison of the goal; the impossible
    branches are closed by [lia]. *)
Ltac zcase :=
  repeat match goal with
  | |- context [?a <=? ?b] => destruct (Z.leb_spec a b); try lia
  | |- context [?a <? ?b] => destruct (Z.ltb_spec a b); try lia
  end.

Lemma div_era era yoe : 0 <= yoe <= 399 -> (yoe + era * 400) / 400 = era.
Proof. intros Hy. rewrite Z.div_add by lia. rewrite Z.div_small by lia. lia. Qed.

(** [civil_from_days] gives a month and a day in range, and [days_from_civil]
    inverts it, on every day number. *)
Lemma civil_from_days_spec z :
  let '(y, m, d) := civil_from_days z in
  1 <= m <= 12 /\ 1 <= d <= 31 /\ days_from_civil y m d = z.
Proof.
  unfold civil_from_days.
  set (z' := z + 719468). set (era := z' / 146097). set (doe := z' - era * 146097).
  assert (Hdoe : 0 <= doe <= 146096).
  { pose proof (Z.mod_pos_bound z' 146097 ltac:(lia)). rewrite Z.mod_eq in H by lia.
    subst doe era. lia. }
  destruct (yoe_doy_bounds doe Hdoe) as [Hyoe Hdoy].
  set (yoe := (doe - doe / 1460 + doe / 36524 - doe / 146096) / 365) in *.
  set (doy := doe - (365 * yoe + yoe / 4 - yoe / 100)) in *.
  destruct (month_day_bounds doy Hdoy) as [Hmp Hd].
  set (mp := (5 * doy + 2) / 153) in *.
  unfold days_from_civil.
  destruct (Z.ltb_spec mp 10) as [Hlt|Hge]; zcase.
  - rewrite div_era by lia.
    replace (yoe + era * 400 - era * 400) with yoe by lia.
    replace (153 * (mp + 3 - 3) + 2) with (153 * mp + 2) by lia.
    subst doy doe z'. lia.
  - replace (yoe + era * 400 + 1 - 1) with (yoe + era * 400) by lia.
    rewrite div_era by lia.
    replace (yoe + era * 400 - era * 400) with yoe by lia.
    replace (153 * (mp - 9 + 9) + 2) with (153 * mp + 2) by lia.
    subst doy doe z'. lia.
Qed.

(** ** Printed dates and times read back *)

Lemma pad2_all : check_from 100 0 pad2_ok = true.
Proof. vm_compute. reflexivity. Qed.

Lemma year_all : check_from 10000 0 year_ok = true.
Proof. vm_compute. reflexivity. Qed.

Lemma pad2_digits n : 0 <= n <= 99 ->
  exists c1 c2, list_ascii_of_string (pad2 n) = [c1; c2] /\ digits_val [c1; c2] 0 = Some n.
Proof.
  intros Hn. pose proof (check_from_spec _ _ _ pad2_all n ltac:(change (Z.of_nat 100) with 100; lia)) as H.
  unfold pad2_ok in H. destruct (list_ascii_of_string (pad2 n)) as [|c1 [|c2 [|]]]; try done.
  exists c1, c2. split; [done|]. destruct (digits_val [c1; c2] 0); [|done].
  apply Z.eqb_eq in H. by subst.
Qed.

Lemma year_digits y : 0 <= y <= 9999 ->
  exists c1 c2 c3 c4, list_ascii_of_string (iso_year y) = [c1; c2; c3; c4] /\
                      digits_val [c1; c2; c3; c4] 0 = Some y.
Proof.
  intros Hy. pose proof (check_from_spec _ _ _ year_all y ltac:(change (Z.of_nat 10000) with 10000; lia)) as H.
  unfold year_ok in H.
  destruct (list_ascii_of_string (iso_year y)) as [|c1 [|c2 [|c3 [|c4 [|]]]]]; try done.
  exists c1, c2, c3, c4. split; [done|]. destruct (digits_val [c1; c2; c3; c4] 0); [|done].
  apply Z.eqb_eq in H. by subst.
Qed.

Lemma show4_all : check_from 9000 1000 show4_ok = true.
Proof. vm_compute. reflexivity. Qed.

Lemma show_Z_length4 y : 1000 <= y <= 9999 -> String.length (show_Z y) = 4%nat.
Proof.
  intros Hy. apply Nat.eqb_eq, (check_from_spec _ _ _ show4_all y).
  change (Z.of_nat 9000) with 9000; lia.
Qed.

Lemma pad2_length n : 0 <= n <= 99 -> String.length (pad2 n) = 2%nat.
Proof.
  intros Hn. destruct (pad2_digits n Hn) as (c1 & c2 & Hl & _).
  by rewrite <- length_list_ascii_of_string, Hl.
Qed.

Lemma valid_date_true m d : 1 <= m <= 12 -> 1 <= d <= 31 -> valid_date m d = true.
Proof. intros. unfold valid_date. rewrite !andb_true_iff, !Z.leb_le. lia. Qed.

Lemma valid_time_true h mi s :
  0 <= h <= 23 -> 0 <= mi <= 59 -> 0 <= s <= 59 -> valid_time h mi s = true.
Proof. intros. unfold valid_time. rewrite !andb_true_iff, !Z.leb_le. lia. Qed.

Lemma ymd_string_read y m d : 0 <= y <= 9999 -> 1 <= m <= 12 -> 1 <= d <= 31 ->
  length (list_ascii_of_string (ymd_string y m d)) = 10%nat /\
  date_part (list_ascii_of_string (ymd_string y m d)) = Some (y, m, d).
Proof.
  intros Hy Hm Hd. unfold ymd_string. rewrite !list_ascii_of_string_app.
  destruct (year_digits y Hy) as (y1 & y2 & y3 & y4 & -> & Ey).
  destruct (pad2_digits m ltac:(lia)) as (m1 & m2 & -> & Em).
  destruct (pad2_digits d ltac:(lia)) as (d1 & d2 & -> & Ed).
  split; [done|]. cbn -[digits_val valid_date]. rewrite Ey, Em, Ed, valid_date_true by lia. done.
Qed.

Lemma hm_string_read h mi : 0 <= h <= 23 -> 0 <= mi <= 59 ->
  length (list_ascii_of_string (hm_string h mi)) = 5%nat /\
  hm_part (list_ascii_of_string (hm_string h mi)) = Some (h, mi).
Proof.
  intros Hh Hmi. unfold hm_string. rewrite !list_ascii_of_string_app.
  destruct (pad2_digits h ltac:(lia)) as (h1 & h2 & -> & Eh).
  destruct (pad2_digits mi ltac:(lia)) as (n1 & n2 & -> & En).
  split; [done|]. cbn -[digits_val valid_time]. rewrite Eh, En, valid_time_true by lia. done.
Qed.

(** [new Date("YYYY-MM-DDTHH:mm")] is the local time it names. *)
Lemma parse_date_time tz y m d h mi :
  0 <= y <= 9999 -> 1 <= m <= 12 -> 1 <= d <= 31 -> 0 <= h <= 23 -> 0 <= mi <= 59 ->
  parse tz (ymd_string y m d ++ "T" ++ hm_string h mi) =
  time_clip (make_time y m d h mi 0 - tz * msPerMinute).
Proof.
  intros Hy Hm Hd Hh Hmi. unfold parse. cbv zeta. rewrite !list_ascii_of_string_app.
  destruct (ymd_string_read y m d Hy Hm Hd) as [Ly Ry].
  destruct (hm_string_read h mi Hh Hmi) as [Lh Rh].
  set (A := list_ascii_of_string (ymd_string y m d)) in *.
  set (B := list_ascii_of_string (hm_string h mi)) in *.
  rewrite <- Ly, firstn_app_length, Ry, skipn_app_length. cbn [list_ascii_of_string app].
  rewrite firstn_all2, skipn_all2, Rh by lia. done.
Qed.

(** ** The fields of a time value *)

Definition floor_minute (t : Z) : Z := t - t mod msPerMinute.

(** The fields are in range and put the time value back together. *)
Lemma fields_at_spec lt :
  let f := fields_at lt in
  1 <= month f <= 12 /\ 1 <= date f <= 31 /\ 0 <= hours f <= 23 /\
  0 <= minutes f <= 59 /\ 0 <= seconds f <= 59 /\ 0 <= millis f <= 999 /\
  make_time (year f) (month f) (date f) (hours f) (minutes f) 0 = floor_minute lt /\
  floor_minute lt + seconds f * msPerSecond + millis f = lt.
Proof.
  unfold fields_at, floor_minute.
  pose proof (civil_from_days_spec (lt / msPerDay)) as Hc.
  destruct (civil_from_days (lt / msPerDay)) as [[y m] d]. cbn [year month date hours minutes seconds millis].
  destruct Hc as (Hm & Hd & Hz). unfold make_time. rewrite Hz.
  unfold msPerDay, msPerHour, msPerMinute, msPerSecond in *.
  set (r := lt mod 86400000).
  pose proof (Z.div_mod lt 86400000 ltac:(lia)). pose proof (Z.mod_pos_bound lt 86400000 ltac:(lia)).
  pose proof (Z.div_mod lt 60000 ltac:(lia)). pose proof (Z.mod_pos_bound lt 60000 ltac:(lia)).
  pose proof (Z.div_mod r 1000 ltac:(lia)). pose proof (Z.mod_pos_bound r 1000 ltac:(lia)).
  pose proof (Z.div_mod (r / 1000) 60 ltac:(lia)). pose proof (Z.mod_pos_bound (r / 1000) 60 ltac:(lia)).
  pose proof (Z.div_mod r 60000 ltac:(lia)). pose proof (Z.mod_pos_bound r 60000 ltac:(lia)).
  pose proof (Z.div_mod (r / 60000) 60 ltac:(lia)). pose proof (Z.mod_pos_bound (r / 60000) 60 ltac:(lia)).
  pose proof (Z.div_mod r 3600000 ltac:(lia)). pose proof (Z.mod_pos_bound r 3600000 ltac:(lia)).
  rewrite Z.div_div in * by lia. cbn in *.
  lia.
Qed.

(** [new Date(new Date(t).toISOString().slice(0, 16))]: the UTC reading of
    [t], to the minute, taken as a local time. *)
Lemma parse_iso_minutes tz t : 0 <= year (utc_fields t) <= 9999 ->
  parse tz (substring 0 16 (toISOString t)) = time_clip (floor_minute t - tz * msPerMinute).
Proof.
  intros Hy. pose proof (fields_at_spec t) as (Hm & Hd & Hh & Hmi & _ & _ & Hmk & _).
  unfold toISOString, utc_fields in *. set (f := fields_at t) in *.
  destruct (ymd_string_read (year f) (month f) (date f) Hy Hm Hd) as [Ly _].
  destruct (hm_string_read (hours f) (minutes f) Hh Hmi) as [Lh _].
  rewrite !length_list_ascii_of_string in Ly, Lh.
  set (ymd := ymd_string (year f) (month f) (date f)) in *.
  set (hm := hm_string (hours f) (minutes f)) in *.
  match goal with |- context [substring 0 16 ?s] =>
    replace s with ((ymd ++ "T" ++ hm) ++ (":" ++ pad2 (seconds f) ++ "." ++
                    padStart 3 (show_Z (millis f)) ++ "Z"))%string by (by rewrite !string_app_assoc) end.
  replace 16%nat with (String.length (ymd ++ "T" ++ hm)) by (rewrite !string_length_app; simpl; lia).
  rewrite substring_app_exact. subst ymd hm. rewrite parse_date_time by lia. by rewrite Hmk.
Qed.

Lemma days_from_civil_bound y m d : 0 <= y <= 9999 -> 1 <= m <= 12 -> 1 <= d <= 31 ->
  -800000 <= days_from_civil y m d <= 3000000.
Proof.
  intros Hy Hm Hd. unfold days_from_civil. zcase.
  - set (y' := y - 1). pose proof (Z.div_mod y' 400 ltac:(lia)). pose proof (Z.mod_pos_bound y' 400 ltac:(lia)).
    set (q := y' / 400) in *. set (e := y' - q * 400).
    pose proof (Z.div_mod e 4 ltac:(lia)). pose proof (Z.mod_pos_bound e 4 ltac:(lia)).
    pose proof (Z.div_mod e 100 ltac:(lia)). pose proof (Z.mod_pos_bound e 100 ltac:(lia)).
    pose proof (Z.div_mod (153 * (m + 9) + 2) 5 ltac:(lia)).
    pose proof (Z.mod_pos_bound (153 * (m + 9) + 2) 5 ltac:(lia)). lia.
  - pose proof (Z.div_mod y 400 ltac:(lia)). pose proof (Z.mod_pos_bound y 400 ltac:(lia)).
    set (q := y / 400) in *. set (e := y - q * 400).
    pose proof (Z.div_mod e 4 ltac:(lia)). pose proof (Z.mod_pos_bound e 4 ltac:(lia)).
    pose proof (Z.div_mod e 100 ltac:(lia)). pose proof (Z.mod_pos_bound e 100 ltac:(lia)).
    pose proof (Z.div_mod (153 * (m - 3) + 2) 5 ltac:(lia)).
    pose proof (Z.mod_pos_bound (153 * (m - 3) + 2) 5 ltac:(lia)). lia.
Qed.

(** [new Date("YYYY-MM-DD")] is UTC midnight of that day, whatever the zone. *)
Lemma parse_date_only tz y m d : 0 <= y <= 9999 -> 1 <= m <= 12 -> 1 <= d <= 31 ->
  parse tz (ymd_string y m d) = Some (days_from_civil y m d * msPerDay).
Proof.
  intros Hy Hm Hd. unfold parse. cbv zeta.
  destruct (ymd_string_read y m d Hy Hm Hd) as [Ly Ry].
  rewrite firstn_all2, Ry, skipn_all2 by lia.
  unfold time_clip, make_time. pose proof (days_from_civil_bound y m d Hy Hm Hd).
  rewrite (proj2 (Z.leb_le _ _)); [f_equal; lia|]. unfold msPerDay, msPerHour, msPerMinute, msPerSecond. lia.
Qed.

(** The local day of UTC midnight of day [z]: the day before in a zone west
    of Greenwich, the same day east of it (offsets under a day). *)
Lemma local_day_of_midnight tz z : -1440 < tz < 1440 ->
  (z * msPerDay + tz * msPerMinute) / msPerDay = if tz <? 0 then z - 1 else z.
Proof.
  intros Htz. unfold msPerDay, msPerMinute.
  destruct (Z.ltb_spec tz 0); symmetry; apply Z.div_unique with (z * 86400000 + tz * 60000 - (if tz <? 0 then z - 1 else z) * 86400000); zcase.
Qed.

Lemma local_date_of_midnight tz z : -1440 < tz < 1440 ->
  let f := local_fields tz (z * msPerDay) in
  (year f, month f, date f) = civil_from_days (if tz <? 0 then z - 1 else z).
Proof.
  intros Htz. unfold local_fields, fields_at. rewrite local_day_of_midnight by done.
  by destruct (civil_from_days _) as [[y m] d].
Qed.

(** The date [toLocaleDateString] shows for UTC midnight of day [z]. *)
Lemma toLocaleDateString_midnight tz z : -1440 < tz < 1440 ->
  toLocaleDateString_enUS tz (Some (z * msPerDay)) =
  let '(y, m, d) := civil_from_days (if tz <? 0 then z - 1 else z) in
  pad2 m ++ "/" ++ pad2 d ++ "/" ++ show_Z y.
Proof.
  intros Htz. pose proof (local_date_of_midnight tz z Htz) as H. cbv zeta in H.
  unfold toLocaleDateString_enUS. cbv zeta.
  set (F := local_fields tz (z * msPerDay)) in *.
  destruct (civil_from_days (if tz <? 0 then z - 1 else z)) as [[y m] d].
  assert (Hy : year F = y) by exact (f_equal (fun p => fst (fst p)) H).
  assert (Hm : month F = m) by exact (f_equal (fun p => snd (fst p)) H).
  assert (Hd : date F = d) by exact (f_equal snd H).
  by rewrite Hy, Hm, Hd.
Qed.

Lemma time_clip_in_range t : Z.abs t <= 8640000000000000 -> time_clip t = Some t.
Proof. intros H. unfold time_clip. by rewrite (proj2 (Z.leb_le _ _) H). Qed.

(** A time value whose UTC year has four digits is far inside the range of
    [TimeClip]. *)
Lemma floor_minute_bound t : 0 <= year (utc_fields t) <= 9999 ->
  Z.abs (floor_minute t) <= 300000000000000.
Proof.
  intros Hy. pose proof (fields_at_spec t) as (Hm & Hd & Hh & Hmi & _ & _ & Hmk & _).
  unfold utc_fields in Hy. rewrite <- Hmk. unfold make_time.
  pose proof (days_from_civil_bound _ _ _ Hy Hm Hd).
  unfold msPerDay, msPerHour, msPerMinute, msPerSecond. lia.
Qed.

(** Shifting a time value by the zone offset turns its local fields into
    UTC fields. *)
Lemma local_fields_shift tz t : local_fields tz (t - tz * msPerMinute) = local_fields 0 t.
Proof. unfold local_fields. f_equal. lia. Qed.

(** The hour [h:mm:ss a] displays, with its period, gives the hour back. *)
Lemma hour12_roundtrip h : 0 <= h <= 23 ->
  hour12 h mod 12 + (if String.eqb (day_period h) "PM" then 12 else 0) = h.
Proof.
  intros Hh. assert (Hin : In h (map Z.of_nat (seq 0 24))).
  { apply in_map_iff. exists (Z.to_nat h). split; [lia|apply in_seq; lia]. }
  simpl in Hin. repeat (destruct Hin as [<-|Hin]; [reflexivity|]). done.
Qed.

Lemma digits_val_is_digit cs acc n :
  digits_val cs acc = Some n -> forallb is_digit cs = true.
Proof.
  revert acc. induction cs as [|c cs IH]; intros acc; [done|]. cbn.
  unfold is_digit. destruct (digit_value c); [|done]. apply IH.
Qed.

Lemma pad2_is_digit n : 0 <= n <= 99 -> forallb is_digit (list_ascii_of_string (pad2 n)) = true.
Proof.
  intros Hn. destruct (pad2_digits n Hn) as (c1 & c2 & -> & Hv).
  exact (digits_val_is_digit _ _ _ Hv).
Qed.

Lemma pad2_inj n m : 0 <= n <= 99 -> 0 <= m <= 99 -> pad2 n = pad2 m -> n = m.
Proof.
  intros Hn Hm E. destruct (pad2_digits n Hn) as (c1 & c2 & Hl & Hv).
  destruct (pad2_digits m Hm) as (d1 & d2 & Hl' & Hv').
  rewrite E, Hl' in Hl. simplify_eq. congruence.
Qed.

(** A non-negative number's [String(n)]: digits that determine it. *)
Lemma show_Z_is_digit z : 0 <= z -> forallb is_digit (list_ascii_of_string (show_Z z)) = true.
Proof. intros Hz. rewrite show_Z_nonneg by done. apply show_N_digits. Qed.

Lemma show_Z_inj z w : 0 <= z -> 0 <= w -> show_Z z = show_Z w -> z = w.
Proof.
  intros Hz Hw. rewrite !show_Z_nonneg by done. intros E. apply show_N_inj in E. lia.
Qed.

(** Splitting [show_Z z ++ sep ++ rest] at a separator that is not a digit. *)
Lemma show_Z_split (c : ascii) z w b b' : is_digit c = false -> 0 <= z -> 0 <= w ->
  (show_Z z ++ String c b = show_Z w ++ String c b')%string -> z = w /\ b = b'.
Proof.
  intros Hc Hz Hw E.
  apply string_split_at in E as [E ->]; [|apply digits_not_sep; auto using show_Z_is_digit..].
  split; [by apply show_Z_inj|done].
Qed.

Lemma pad2_split (c : ascii) n m b b' : is_digit c = false -> 0 <= n <= 99 -> 0 <= m <= 99 ->
  (pad2 n ++ String c b = pad2 m ++ String c b')%string -> n = m /\ b = b'.
Proof.
  intros Hc Hn Hm E.
  apply string_split_at in E as [E ->]; [|apply digits_not_sep; auto using pad2_is_digit..].
  split; [by apply pad2_inj|done].
Qed.

Lemma hour12_inj h1 h2 : 0 <= h1 <= 23 -> 0 <= h2 <= 23 ->
  hour12 h1 = hour12 h2 -> day_period h1 = day_period h2 -> h1 = h2.
Proof.
  intros H1 H2 Eh Ep. rewrite <- (hour12_roundtrip h1 H1), <- (hour12_roundtrip h2 H2), Eh, Ep.
  done.
Qed.

(** The en-US [toLocaleString] of a date of the common era determines its
    local fields to the second. *)
Lemma toLocaleString_fields_inj tz t1 t2 :
  0 < year (local_fields tz t1) -> 0 < year (local_fields tz t2) ->
  toLocaleString_enUS tz (Some t1) = toLocaleString_enUS tz (Some t2) ->
  let f1 := local_fields tz t1 in let f2 := local_fields tz t2 in
  year f1 = year f2 /\ month f1 = month f2 /\ date f1 = date f2 /\
  hours f1 = hours f2 /\ minutes f1 = minutes f2 /\ seconds f1 = seconds f2.
Proof.
  unfold toLocaleString_enUS, local_fields. intros Hy1 Hy2 E.
  pose proof (fields_at_spec (t1 + tz * msPerMinute)) as (Hm1 & Hd1 & Hh1 & Hmi1 & Hs1 & _).
  pose proof (fields_at_spec (t2 + tz * msPerMinute)) as (Hm2 & Hd2 & Hh2 & Hmi2 & Hs2 & _).
  destruct (fields_at (t1 + tz * msPerMinute)) as [y1 m1 d1 h1 mi1 s1 ms1].
  destruct (fields_at (t2 + tz * msPerMinute)) as [y2 m2 d2 h2 mi2 s2 ms2].
  cbn [year month date hours minutes seconds] in *.
  unfold year_of_era in E. rewrite !(proj2 (Z.ltb_lt 0 _)) in E by done.
  assert (H12 : forall h, 0 <= h <= 23 -> 0 <= hour12 h).
  { intros h _. unfold hour12. case_match; [lia|]. pose proof (Z.mod_pos_bound h 12); lia. }
  apply show_Z_split in E as [Em E]; [|done|lia|lia].
  apply show_Z_split in E as [Ed E]; [|done|lia|lia].
  apply show_Z_split in E as [Ey E]; [|done|lia|lia].
  injection E as E.
  apply show_Z_split in E as [Eh E]; [|done|auto|auto].
  apply pad2_split in E as [Emi E]; [|done|lia|lia].
  apply pad2_split in E as [Es E]; [|done|lia|lia].
  injection E as E. repeat split; auto using hour12_inj.
Qed.
