(* ===== verification/CaseTransform.v ===== *)
(** * Key-case conversion ([src/src/utils/caseTransform.ts])

    [snakeToCamelCase] is applied by the transport to every successful JSON
    response; [camelToSnakeCase] is its inverse direction (exported, unused
    by the client).  Keys are rewritten by the regular expressions of the
    source; objects are rebuilt by assigning the converted keys in
    enumeration order, so two keys that convert to the same string collapse
    into one property.  The theorems: the camel conversion is idempotent on
    keys and on values; snake -> camel -> snake is the identity on
    well-formed snake keys and on values whose keys are all such, and
    camel -> snake -> camel on keys without underscores; the output objects
    always have distinct keys, so every converted value is [camel_json];
    without collisions the loop computes the reference conversion
    [camel_map], each key renamed in place (C17); and the collision that
    loses a property. *)

From S2P Require Import Prelude Json.


(** ** Keys *)

(** [key.replace(/_([a-z])/g, (_, letter) => letter.toUpperCase())]: the
    global regex scans left to right; at an underscore followed by a lowercase
    letter both are replaced by the uppercase letter and the scan resumes after
    them, otherwise the scan moves one character on. *)
Fixpoint camel_key (s : string) : string :=
  match s with
  | EmptyString => EmptyString
  | String a tl =>
      if Ascii.eqb a "_" then
        match tl with
        | String c rest =>
            if is_lower c then String (to_upper c) (camel_key rest)
            else String a (camel_key tl)
        | EmptyString => String a EmptyString
        end
      else String a (camel_key tl)
  end.

(** [key.replace(/[A-Z]/g, (letter) => `_${letter.toLowerCase()}`)] *)
Fixpoint snake_key (s : string) : string :=
  match s with
  | EmptyString => EmptyString
  | String a tl =>
      if is_upper a then String "_" (String (to_lower a) (snake_key tl))
      else String a (snake_key tl)
  end.

(** ** Values *)

(** The object loop: [for (const key in obj) if (hasOwnProperty) out[kf(key)] = f(obj[key])]. *)
Definition rekey (kf : string -> string) (f : value -> value)
    (fs : list (string * value)) : list (string * value) :=
  fold_left (fun acc kv => assoc_set acc (kf kv.1) (f kv.2)) fs [].

(** [snakeToCamelCase]: scalars and [null] are returned as they are
    ([obj === null || typeof obj !== "object"]), arrays are mapped, and every
    other object (a [Date] included, which has no own enumerable keys) is
    rebuilt key by key. *)
Fixpoint snakeToCamelCase (v : value) : value :=
  match v with
  | JNull | JBool _ | JNum _ | JStr _ => v
  | JArr xs => JArr (map snakeToCamelCase xs)
  | JObj fs =>
      JObj (fold_left (fun acc kv => assoc_set acc (camel_key kv.1) (snakeToCamelCase kv.2)) fs [])
  | JDate _ => JObj []
  end.

Fixpoint camelToSnakeCase (v : value) : value :=
  match v with
  | JNull | JBool _ | JNum _ | JStr _ => v
  | JArr xs => JArr (map camelToSnakeCase xs)
  | JObj fs =>
      JObj (fold_left (fun acc kv => assoc_set acc (snake_key kv.1) (camelToSnakeCase kv.2)) fs [])
  | JDate _ => JObj []
  end.

(** Predicates on keys. *)

Definition head_not_lower (s : string) : bool :=
  match s with String c _ => negb (is_lower c) | EmptyString => true end.

(** No underscore is followed by a lowercase letter: the fixed points of
    [camel_key]. *)
Fixpoint camel_clean (s : string) : bool :=
  match s with
  | EmptyString => true
  | String a tl => (if Ascii.eqb a "_" then head_not_lower tl else true) && camel_clean tl
  end.

(** A wire-format key: lowercase words joined by single underscores, no
    uppercase letter, every underscore followed by a lowercase letter. *)
Fixpoint snake_wf (s : string) : bool :=
  match s with
  | EmptyString => true
  | String a tl =>
      negb (is_upper a) &&
      (if Ascii.eqb a "_" then negb (head_not_lower tl) else true) && snake_wf tl
  end.

Fixpoint no_underscore (s : string) : bool :=
  match s with
  | EmptyString => true
  | String a tl => negb (Ascii.eqb a "_") && no_underscore tl
  end.

(** Every key of every object inside [v] satisfies [p]. *)
Fixpoint keys_all (p : string -> bool) (v : value) : bool :=
  match v with
  | JArr xs =>
      (fix go (xs : list value) : bool :=
         match xs with [] => true | x :: xs' => keys_all p x && go xs' end) xs
  | JObj fs =>
      (fix go (fs : list (string * value)) : bool :=
         match fs with [] => true | (k, x) :: fs' => p k && keys_all p x && go fs' end) fs
  | _ => true
  end.

(** ** The reference conversion *)

(** What [snakeToCamelCase] is meant to compute: every key renamed in place,
    every value converted, nothing merged ([Object.fromEntries] of the
    mapped entries). *)
Fixpoint camel_map (v : value) : value :=
  match v with
  | JNull | JBool _ | JNum _ | JStr _ => v
  | JArr xs => JArr (map camel_map xs)
  | JObj fs => JObj (map (fun kv => (camel_key kv.1, camel_map kv.2)) fs)
  | JDate _ => JObj []
  end.

(** No object inside [v] has two keys with the same camel-case form. *)
Fixpoint no_collision (v : value) : bool :=
  match v with
  | JArr xs => forallb no_collision xs
  | JObj fs =>
      bool_decide (NoDup (map camel_key (keys fs))) &&
      (fix go (fs : list (string * value)) : bool :=
         match fs with [] => true | (_, x) :: fs' => no_collision x && go fs' end) fs
  | _ => true
  end.

(** ** The object loop *)

Section Rekey.
Context (kf : string -> string) (f : value -> value).

Let rekey_step := fun (acc : list (string * value)) (kv : string * value) =>
              assoc_set acc (kf kv.1) (f kv.2).

Lemma fold_rekey_NoDup fs acc :
  NoDup (keys acc) -> NoDup (keys (fold_left rekey_step fs acc)).
Proof.
  revert acc. induction fs as [|kv fs IH]; simpl; intros acc Hnd; [done|].
  apply IH. by apply NoDup_keys_assoc_set.
Qed.

Lemma rekey_NoDup fs : NoDup (keys (rekey kf f fs)).
Proof. apply fold_rekey_NoDup. constructor. Qed.

Lemma rekey_Forall (Q : string -> Prop) (P : value -> Prop) fs :
  (forall k, Q (kf k)) -> Forall (fun kv => P (f kv.2)) fs ->
  Forall (fun kv => Q kv.1 /\ P kv.2) (rekey kf f fs).
Proof.
  intros HQ Hfs. unfold rekey. generalize (Forall_nil_2 (fun kv : string * value => Q kv.1 /\ P kv.2)).
  generalize (@nil (string * value)).
  induction Hfs as [|kv fs Hkv _ IH]; simpl; intros acc Hacc; [done|].
  apply IH, Forall_assoc_set; [done|split; [apply HQ|done]].
Qed.

(** When the converted keys are distinct the loop is a [map]. *)
Lemma fold_rekey_inj fs acc :
  NoDup (keys acc ++ map kf (keys fs)) ->
  fold_left rekey_step fs acc = acc ++ map (fun kv => (kf kv.1, f kv.2)) fs.
Proof.
  revert acc. induction fs as [|[k x] fs IH]; simpl; intros acc Hnd.
  - by rewrite app_nil_r.
  - unfold rekey_step at 2. simpl.
    apply NoDup_app in Hnd as (Hacc & Hdis & Hrest).
    rewrite assoc_set_fresh.
    2: { intros Hin. apply (Hdis (kf k)); [done|]. simpl. set_solver. }
    rewrite IH, <- app_assoc; [done|].
    unfold keys. rewrite map_app. simpl. rewrite <- app_assoc. simpl.
    apply NoDup_app. repeat split; [done| |done].
    intros y Hy. specialize (Hdis y Hy). simpl in *. done.
Qed.

Lemma rekey_inj fs :
  NoDup (map kf (keys fs)) -> rekey kf f fs = map (fun kv => (kf kv.1, f kv.2)) fs.
Proof. intros Hnd. apply (fold_rekey_inj fs []). done. Qed.
End Rekey.

Lemma snakeToCamelCase_obj fs :
  snakeToCamelCase (JObj fs) = JObj (rekey camel_key snakeToCamelCase fs).
Proof. reflexivity. Qed.

Lemma camelToSnakeCase_obj fs :
  camelToSnakeCase (JObj fs) = JObj (rekey snake_key camelToSnakeCase fs).
Proof. reflexivity. Qed.

#[export] Hint Rewrite snakeToCamelCase_obj camelToSnakeCase_obj : mm_rw.

(** ** Key lemmas *)

Lemma camel_key_clean_id s : camel_clean s = true -> camel_key s = s.
Proof.
  induction s as [|a tl IH]; simpl; [done|].
  destruct (Ascii.eqb_spec a "_") as [->|Hne]; simpl; intros H.
  - apply andb_prop in H as [Hh Hc]. destruct tl as [|c rest]; [done|].
    simpl in Hh. apply negb_true_iff in Hh. rewrite Hh. by rewrite IH.
  - by rewrite IH.
Qed.

Lemma head_not_lower_camel_key s :
  head_not_lower s = true -> head_not_lower (camel_key s) = true.
Proof.
  destruct s as [|a tl]; simpl; [done|]. intros Ha.
  destruct (Ascii.eqb_spec a "_") as [->|Hne]; [|done].
  destruct tl as [|c rest]; [done|].
  destruct (is_lower c); simpl; [by rewrite is_lower_to_upper|done].
Qed.

Lemma camel_key_us_lower c rest :
  is_lower c = true -> camel_key (String "_" (String c rest)) = String (to_upper c) (camel_key rest).
Proof. intros Hc. simpl. by rewrite Hc. Qed.

Lemma camel_key_us_other c rest :
  is_lower c = false -> camel_key (String "_" (String c rest)) = String "_" (camel_key (String c rest)).
Proof. intros Hc. cbn [camel_key Ascii.eqb]. simpl (Ascii.eqb "_" "_"). cbv iota. by rewrite Hc. Qed.

Lemma camel_key_other a tl :
  a <> "_"%char -> camel_key (String a tl) = String a (camel_key tl).
Proof. intros Ha. simpl. by destruct (Ascii.eqb_spec a "_"). Qed.

Lemma camel_clean_camel_key s : camel_clean (camel_key s) = true.
Proof.
  induction s as [s IH] using string_len_ind.
  destruct s as [|a tl]; [done|].
  destruct (Ascii.eqb_spec a "_") as [->|Hne].
  - destruct tl as [|c rest]; [done|].
    destruct (is_lower c) eqn:Hc.
    + rewrite camel_key_us_lower by done. cbn [camel_clean].
      rewrite IH by (simpl; lia). destruct (Ascii.eqb_spec (to_upper c) "_") as [Heq|]; [|done].
      pose proof (is_upper_to_upper c Hc) as Hu. rewrite Heq in Hu. discriminate.
    + rewrite camel_key_us_other by done. cbn [camel_clean Ascii.eqb]. simpl (Ascii.eqb "_" "_").
      rewrite head_not_lower_camel_key by (simpl; by rewrite Hc).
      apply IH. simpl. lia.
  - rewrite camel_key_other by done. cbn [camel_clean].
    rewrite IH by (simpl; lia). by destruct (Ascii.eqb_spec a "_").
Qed.

(** An object the conversion builds has no key in which an underscore is
    followed by a lower-case letter: reading such a key gives [undefined]. *)
Lemma rekey_camel_no_snake_key fs k :
  camel_clean k = false -> assoc_get (rekey camel_key snakeToCamelCase fs) k = None.
Proof.
  intros Hk. apply assoc_get_None. unfold keys. rewrite list_elem_of_In, in_map_iff.
  intros ([k' v] & Heq & Hin). simpl in Heq. subst k'.
  pose proof (rekey_Forall camel_key snakeToCamelCase (fun k => camel_clean k = true)
                (fun _ => True) fs camel_clean_camel_key
                (proj2 (List.Forall_forall _ _) (fun _ _ => I))) as HF.
  rewrite List.Forall_forall in HF. destruct (HF _ Hin) as [Hc _].
  simpl in Hc. congruence.
Qed.

(** Reading a snake_case property of a converted value gives [undefined]. *)
Lemma converted_no_snake_field v k :
  camel_clean k = false -> get_prop (snakeToCamelCase v) k = None.
Proof.
  intros Hk. destruct v; try done. simpl get_prop. by apply rekey_camel_no_snake_key.
Qed.

(** A property of a converted object is itself a converted value. *)
Lemma converted_prop v k w :
  get_prop (snakeToCamelCase v) k = Some w -> exists x, w = snakeToCamelCase x.
Proof.
  destruct v as [| | | | |fs|]; try done. simpl get_prop.
  pose proof (rekey_Forall camel_key snakeToCamelCase (fun _ => True)
                (fun w => exists x, w = snakeToCamelCase x) fs (fun _ => I)
                (proj2 (List.Forall_forall _ _) (fun kv _ => ex_intro _ kv.2 eq_refl))) as HF.
  intros Hget. apply assoc_get_Some_In in Hget.
  rewrite List.Forall_forall in HF. by destruct (HF _ Hget) as [_ ?].
Qed.

Lemma snake_wf_cons_lower c rest :
  is_lower c = true -> snake_wf (String c rest) = snake_wf rest.
Proof.
  intros Hc. simpl. destruct (is_upper c) eqn:Hu.
  - by rewrite upper_not_lower in Hc.
  - destruct (Ascii.eqb_spec c "_") as [->|]; [discriminate|done].
Qed.

(** ** Properties *)

(** [camel_key] is idempotent: a key that has been converted from the
    wire convention is left unchanged by a second conversion, whatever it
    contains (underscores included). *)
Theorem camel_key_idempotent s : camel_key (camel_key s) = camel_key s.
Proof. apply camel_key_clean_id, camel_clean_camel_key. Qed.

Lemma snake_key_camel_key s :
  snake_wf s = true -> snake_key (camel_key s) = s.
Proof.
  induction s as [s IH] using string_len_ind.
  destruct s as [|a tl]; simpl; [done|]. intros Hwf.
  apply andb_prop in Hwf as [[Hu Hus]%andb_prop Htl].
  apply negb_true_iff in Hu.
  destruct (Ascii.eqb_spec a "_") as [->|Hne].
  - destruct tl as [|c rest]; [discriminate|]. simpl in Hus.
    apply negb_true_iff, negb_false_iff in Hus. rewrite Hus. simpl.
    rewrite (is_upper_to_upper c Hus), (to_lower_to_upper c Hus).
    rewrite IH; [done|simpl; lia|]. by rewrite <- (snake_wf_cons_lower c rest Hus).
  - simpl. rewrite Hu, IH; [done|simpl; lia|done].
Qed.

(** Distinct well-formed snake_case keys convert to distinct keys. *)
Lemma camel_key_inj a b :
  snake_wf a = true -> snake_wf b = true -> camel_key a = camel_key b -> a = b.
Proof.
  intros Ha Hb Heq. rewrite <- (snake_key_camel_key a Ha), <- (snake_key_camel_key b Hb). by rewrite Heq.
Qed.

(** Reading a converted object: on an object whose keys are distinct and
    well-formed snake_case, the camel-case key [camel_key k] holds the
    converted value of [k]. *)
Lemma snakeToCamelCase_get_prop fs k :
  NoDup (keys fs) -> Forall (fun kv => snake_wf kv.1 = true) fs -> snake_wf k = true ->
  get_prop (snakeToCamelCase (JObj fs)) (camel_key k) =
  option_map snakeToCamelCase (get_prop (JObj fs) k).
Proof.
  intros Hnd Hwf Hk. rewrite snakeToCamelCase_obj. simpl get_prop.
  rewrite rekey_inj.
  - clear Hnd. induction Hwf as [|[k' x] fs Hk' _ IH]; simpl in *; [done|].
    destruct (String.eqb_spec k' k) as [->|Hne].
    + by rewrite String.eqb_refl.
    + destruct (String.eqb_spec (camel_key k') (camel_key k)) as [Heq|_]; [|done].
      exfalso. by apply Hne, camel_key_inj.
  - apply (NoDup_map_inv' snake_key). rewrite map_map.
    erewrite map_ext_Forall; [by rewrite map_id|].
    unfold keys. apply Forall_map. eapply Forall_impl; [exact Hwf|]. intros [k' x]. simpl.
    apply snake_key_camel_key.
Qed.

(** On a key without underscores, converting to snake case and back to
    camel case gives the key back. *)
Theorem camel_snake_key_roundtrip s :
  no_underscore s = true -> camel_key (snake_key s) = s.
Proof.
  induction s as [|a tl IH]; simpl; [done|]. intros Hs.
  apply andb_prop in Hs as [Ha Htl]. apply negb_true_iff in Ha.
  destruct (is_upper a) eqn:Hu; simpl.
  - rewrite (is_lower_to_lower a Hu), (to_upper_to_lower a Hu). by rewrite IH.
  - rewrite Ha. by rewrite IH.
Qed.

(** ** Values *)

Lemma keys_all_arr p xs :
  keys_all p (JArr xs) = true <-> Forall (fun x => keys_all p x = true) xs.
Proof.
  simpl. induction xs as [|x xs IH]; simpl; [split; auto|].
  rewrite andb_true_iff, Forall_cons, IH. done.
Qed.

Lemma keys_all_obj p fs :
  keys_all p (JObj fs) = true <->
  Forall (fun kv => p kv.1 = true /\ keys_all p kv.2 = true) fs.
Proof.
  simpl. induction fs as [|[k x] fs IH]; simpl; [split; auto|].
  rewrite !andb_true_iff, Forall_cons, IH. simpl. tauto.
Qed.

(** Every object produced by [snakeToCamelCase] has pairwise distinct
    keys, at every depth, whatever the input. *)
Theorem snakeToCamelCase_wf v : wf_value (snakeToCamelCase v) = true.
Proof.
  induction v as [| | | | xs IH | fs IH |] using value_ind; try done.
  - simpl. apply wf_value_arr, Forall_map. simpl. done.
  - rewrite snakeToCamelCase_obj, wf_value_obj. split; [apply rekey_NoDup|].
    eapply Forall_impl;
      [exact (rekey_Forall camel_key snakeToCamelCase (fun _ => True)
                (fun y => wf_value y = true) fs (fun _ => I) IH)|].
    simpl. tauto.
Qed.

(** What the client's data types promise of a converted response: a JSON
    value whose objects have distinct keys, all of them in camel case. *)
Definition camel_json (v : value) : bool := is_json v && wf_value v && keys_all camel_clean v.

Lemma snakeToCamelCase_is_json v : is_json (snakeToCamelCase v) = true.
Proof.
  induction v as [| | | | xs IH | fs IH |] using value_ind; try done.
  - simpl. apply is_json_arr, Forall_map. done.
  - rewrite snakeToCamelCase_obj, is_json_obj.
    eapply Forall_impl; [exact (rekey_Forall camel_key snakeToCamelCase (fun _ => True)
                                  (fun y => is_json y = true) fs (fun _ => I) IH)|].
    simpl. tauto.
Qed.

Lemma snakeToCamelCase_camel_keys v : keys_all camel_clean (snakeToCamelCase v) = true.
Proof.
  induction v as [| | | | xs IH | fs IH |] using value_ind; try done.
  - simpl. apply keys_all_arr, Forall_map. done.
  - rewrite snakeToCamelCase_obj, keys_all_obj.
    exact (rekey_Forall camel_key snakeToCamelCase (fun k => camel_clean k = true)
             (fun y => keys_all camel_clean y = true) fs camel_clean_camel_key IH).
Qed.

Lemma snakeToCamelCase_camel_json v : camel_json (snakeToCamelCase v) = true.
Proof.
  unfold camel_json.
  by rewrite snakeToCamelCase_is_json, snakeToCamelCase_wf, snakeToCamelCase_camel_keys.
Qed.

(** C16: [snakeToCamelCase] is idempotent on every value: applying it to an
    already converted response changes nothing. *)
Theorem snakeToCamelCase_idempotent v :
  snakeToCamelCase (snakeToCamelCase v) = snakeToCamelCase v.
Proof.
  induction v as [| | | | xs IH | fs IH |] using value_ind; try done.
  - simpl. rewrite map_map. f_equal. apply map_ext_Forall. done.
  - rewrite !snakeToCamelCase_obj. f_equal.
    pose proof (rekey_Forall camel_key snakeToCamelCase (fun k => camel_key k = k)
                  (fun y => snakeToCamelCase y = y) fs camel_key_idempotent IH) as Hout.
    rewrite rekey_inj.
    + apply map_id_Forall. eapply Forall_impl; [exact Hout|].
      intros [k x] [Hk Hx]. simpl in *. by rewrite Hk, Hx.
    + erewrite map_ext_in; [rewrite map_id; apply rekey_NoDup|].
      intros k Hk. apply in_map_iff in Hk as ([k' x] & <- & Hin).
      rewrite Forall_forall in Hout. apply (Hout (k', x)), list_elem_of_In, Hin.
Qed.

Lemma rekey_roundtrip (kf kg : string -> string) (f g : value -> value) fs :
  NoDup (keys fs) ->
  Forall (fun kv => kg (kf kv.1) = kv.1 /\ g (f kv.2) = kv.2) fs ->
  rekey kg g (rekey kf f fs) = fs.
Proof.
  intros Hnd Hfs.
  assert (Hkeys : map kg (map kf (keys fs)) = keys fs).
  { unfold keys. rewrite !map_map. apply map_ext_Forall. eapply Forall_impl; [exact Hfs|].
    simpl. tauto. }
  assert (Hnd1 : NoDup (map kf (keys fs))).
  { apply (NoDup_map_inv' kg). by rewrite Hkeys. }
  rewrite (rekey_inj kf f fs Hnd1), rekey_inj.
  - rewrite map_map. apply map_id_Forall. eapply Forall_impl; [exact Hfs|].
    intros [k x] [Hk Hx]. simpl in *. by rewrite Hk, Hx.
  - replace (keys _) with (map kf (keys fs)); [by rewrite Hkeys|].
    unfold keys. by rewrite !map_map.
Qed.

(** C15: a well-formed JSON response whose keys are all well-formed snake_case
    keys survives the round trip through camel case and back unchanged: the
    conversion loses nothing on wire-format payloads. *)
Theorem camelToSnake_snakeToCamel_roundtrip v :
  is_json v = true -> wf_value v = true -> keys_all snake_wf v = true ->
  camelToSnakeCase (snakeToCamelCase v) = v.
Proof.
  induction v as [| | | | xs IH | fs IH |] using value_ind; intros Hj Hwf Hk; try done.
  - simpl. rewrite map_map. f_equal. apply map_id_Forall.
    apply is_json_arr in Hj. apply wf_value_arr in Hwf. apply keys_all_arr in Hk.
    rewrite Forall_forall in *. intros x Hx. apply IH; auto.
  - apply is_json_obj in Hj. apply wf_value_obj in Hwf as [Hnd Hwfs]. apply keys_all_obj in Hk.
    rewrite snakeToCamelCase_obj, camelToSnakeCase_obj. f_equal.
    apply rekey_roundtrip; [done|].
    rewrite Forall_forall in *. intros [k x] Hin.
    destruct (Hk _ Hin) as [Hkw Hkx]. simpl in *.
    split; [by apply snake_key_camel_key|].
    apply (IH _ Hin); [apply (Hj _ Hin)|apply (Hwfs _ Hin)|done].
Qed.

(** two wire keys that differ only in case convention collapse into one
    property: [{a_b: 1, aB: 2}] becomes [{aB: 2}], the first value is lost and
    the key keeps the first position. *)
Example snakeToCamelCase_key_collision :
  snakeToCamelCase (JObj [("a_b"%string, JNum 1); ("aB"%string, JNum 2)]) =
  JObj [("aB"%string, JNum 2)].
Proof. reflexivity. Qed.

(** C17: on every value in which no object has two keys with the same
    camel-case form, the loop of [snakeToCamelCase] (assignments into a
    fresh object, in key order) computes the reference conversion
    [camel_map]: each key renamed in place and each value converted.  When
    two keys collide the loop merges them (the example below). *)
Theorem snakeToCamelCase_camel_map v :
  no_collision v = true -> snakeToCamelCase v = camel_map v.
Proof.
  induction v as [| | | | xs IH | fs IH |] using value_ind; intros Hn; try done.
  - cbn in *. f_equal. induction xs as [|x xs IHxs]; [done|].
    apply andb_true_iff in Hn as [Hx Hxs]. apply Forall_cons in IH as [IHx IH].
    cbn. rewrite IHx, IHxs; done.
  - cbn [no_collision] in Hn. apply andb_true_iff in Hn as [Hnd Hfs].
    apply bool_decide_eq_true in Hnd.
    rewrite snakeToCamelCase_obj, rekey_inj by done. cbn. f_equal.
    induction fs as [|[k x] fs IHfs]; [done|].
    apply andb_true_iff in Hfs as [Hx Hfs]. apply Forall_cons in IH as [IHx IH].
    cbn in Hnd. apply NoDup_cons in Hnd as [_ Hnd].
    cbn in IHx |- *. rewrite IHx by done. f_equal. by apply IHfs.
Qed.

(** ** Witnesses *)

Lemma camelToSnake_snakeToCamel_roundtrip_witness :
  camelToSnakeCase (snakeToCamelCase
    (JObj [("patient_id", JStr "p1");
           ("medications", JArr [JObj [("medication_id", JStr "m1"); ("is_active", JBool true)]])])) =
  JObj [("patient_id", JStr "p1");
        ("medications", JArr [JObj [("medication_id", JStr "m1"); ("is_active", JBool true)]])].
Proof.
  apply camelToSnake_snakeToCamel_roundtrip; vm_compute; reflexivity.
Defined.

Lemma snakeToCamelCase_camel_map_witness :
  let v := JObj [("patient_id", JStr "p1");
                 ("medications", JArr [JObj [("medication_id", JStr "m1"); ("is_active", JBool true)]])] in
  snakeToCamelCase v = camel_map v.
Proof. intros v. apply snakeToCamelCase_camel_map. vm_compute. reflexivity. Defined.
