(* ===== verification/QueryCache.v ===== *)
(** * The query cache (TanStack Query's [QueryClient], spec section 4.3)

    The hooks of the client call six operations of the process-wide query
    cache.  The cache is library code (not under src/), so it is modelled
    from the spec: a store keyed by query keys holding the last known value,
    a staleness mark, and at most one in-flight fetch per key.

    - [QueryClientOps] is the interface the hooks are written against and
      [QueryClientLaws] what they may assume of it (observations of
      [getQueryData] and [isStale] after each operation).
    - [cache] is the implementation: a gmap from keys to entries, a counter of
      fetch tokens and the log of fetches issued to the server.  Reading a key
      ([fetchQuery]) starts a background fetch when the value is absent or
      stale and none is in flight (request de-duplication); [deliver] lands a
      fetch's answer only if its token is still the key's in-flight token, so
      [cancelQueries] makes every earlier fetch of the key harmless.

    - [obs], [key_step] and [spec_step] are the abstract store of the spec:
      per key, the last known value, its staleness and whether a fetch is in
      flight, with one transition per operation of section 4.3; [observe]
      abstracts the implementation.

    The lemmas: the implementation satisfies the laws; de-duplication; a
    fetch started before [cancelQueries] never overwrites the key again,
    whatever operations follow (the hooks' use of it is claim C9 in
    [QueryKeys]); and the implementation refines the abstract store: every
    operation is a step of the spec at its key and leaves the other keys
    alone ([run_ops_refines]). *)

From S2P Require Import Prelude Json.

Notation qkey := (list string).

(** ** Interface *)

Class QueryClientOps (C : Type) := {
  getQueryData : C -> qkey -> option value;
  (** the next read of the key refetches it *)
  isStale : C -> qkey -> bool;
  setQueryData : qkey -> (option value -> option value) -> C -> C;
  cancelQueries : qkey -> C -> C;
  invalidateQueries : qkey -> C -> C;
  (** refetch now; the argument is the server's answer for each key *)
  refetchQueries : (qkey -> value) -> qkey -> C -> C
}.

Class QueryClientLaws (C : Type) `{!QueryClientOps C} := {
  get_set_eq k f c :
    getQueryData (setQueryData k f c) k =
    match f (getQueryData c k) with Some v => Some v | None => getQueryData c k end;
  get_set_ne k k' f c : k <> k' -> getQueryData (setQueryData k f c) k' = getQueryData c k';
  get_cancel k k' c : getQueryData (cancelQueries k c) k' = getQueryData c k';
  get_invalidate k k' c : getQueryData (invalidateQueries k c) k' = getQueryData c k';
  get_refetch_eq srv k c : getQueryData (refetchQueries srv k c) k = Some (srv k);
  get_refetch_ne srv k k' c :
    k <> k' -> getQueryData (refetchQueries srv k c) k' = getQueryData c k';
  stale_set_ne k k' f c : k <> k' -> isStale (setQueryData k f c) k' = isStale c k';
  stale_cancel k k' c : isStale (cancelQueries k c) k' = isStale c k';
  stale_invalidate_eq k c : isStale (invalidateQueries k c) k = true;
  stale_invalidate_ne k k' c : k <> k' -> isStale (invalidateQueries k c) k' = isStale c k';
  stale_refetch_eq srv k c : isStale (refetchQueries srv k c) k = false;
  stale_refetch_ne srv k k' c :
    k <> k' -> isStale (refetchQueries srv k c) k' = isStale c k'
}.

(** ** Observational equivalence

    Two clients are equivalent when every key reads the same value.  Rollback
    restores values but not the staleness marks, so this is the equivalence
    the hooks' guarantees are stated in. *)

Section Equiv.
Context {C : Type} `{!QueryClientOps C} `{!QueryClientLaws C}.

Definition data_equiv (c1 c2 : C) : Prop := forall k, getQueryData c1 k = getQueryData c2 k.

#[export] Instance data_equiv_equiv : Equivalence data_equiv.
Proof. split; repeat intro; congruence. Qed.

Lemma get_set_dec k f c k' :
  getQueryData (setQueryData k f c) k' =
  if decide (k = k') then
    match f (getQueryData c k) with Some v => Some v | None => getQueryData c k end
  else getQueryData c k'.
Proof. case_decide; [subst; apply get_set_eq|by apply get_set_ne]. Qed.

Lemma get_refetch_dec srv k c k' :
  getQueryData (refetchQueries srv k c) k' =
  if decide (k = k') then Some (srv k) else getQueryData c k'.
Proof. case_decide; [subst; apply get_refetch_eq|by apply get_refetch_ne]. Qed.

#[export] Instance setQueryData_proper k f : Proper (data_equiv ==> data_equiv) (setQueryData k f).
Proof. intros c1 c2 Hc k'. rewrite !get_set_dec, !Hc. done. Qed.

#[export] Instance cancelQueries_proper k : Proper (data_equiv ==> data_equiv) (cancelQueries k).
Proof. intros c1 c2 Hc k'. by rewrite !get_cancel. Qed.

#[export] Instance invalidateQueries_proper k :
  Proper (data_equiv ==> data_equiv) (invalidateQueries k).
Proof. intros c1 c2 Hc k'. by rewrite !get_invalidate. Qed.

#[export] Instance refetchQueries_proper srv k :
  Proper (data_equiv ==> data_equiv) (refetchQueries srv k).
Proof. intros c1 c2 Hc k'. by rewrite !get_refetch_dec, Hc. Qed.

Lemma cancel_equiv k c : data_equiv (cancelQueries k c) c.
Proof. intros k'. apply get_cancel. Qed.

Lemma invalidate_equiv k c : data_equiv (invalidateQueries k c) c.
Proof. intros k'. apply get_invalidate. Qed.

(** Writing back the value a key already holds changes nothing. *)
Lemma set_same_equiv k c v :
  getQueryData c k = Some v -> data_equiv (setQueryData k (fun _ => Some v) c) c.
Proof. intros Hk k'. rewrite get_set_dec. case_decide; subst; congruence. Qed.
End Equiv.

#[export] Hint Resolve cancel_equiv invalidate_equiv : medmgr.
#[export] Hint Extern 1 (data_equiv ?c ?c) => reflexivity : medmgr.

(** ** Implementation *)

(** Who wrote the current value: a fetch from the server, or [setQueryData]. *)
Inductive origin : Type := Fetched | Written.

Record entry : Type := mkEntry {
  e_data : option value;
  e_invalidated : bool;
  e_fetch : option N;        (** token of the fetch in flight *)
  e_origin : origin
}.

Record cache : Type := mkCache {
  entries : gmap qkey entry;
  next_token : N;
  fetch_log : list qkey      (** fetches sent to the server, newest first *)
}.

Definition empty_cache : cache := mkCache ∅ 0 [].

Definition blank_entry : entry := mkEntry None false None Fetched.

Definition put_entry (k : qkey) (e : entry) (c : cache) : cache :=
  mkCache (<[k := e]> (entries c)) (next_token c) (fetch_log c).

Definition cache_get (c : cache) (k : qkey) : option value :=
  entries c !! k ≫= e_data.

Definition cache_stale (c : cache) (k : qkey) : bool :=
  match entries c !! k with
  | Some e => match e_data e with None => true | Some _ => e_invalidated e end
  | None => true
  end.

(** [setQueryData(key, updater)]: an updater returning [undefined] leaves the
    cache unchanged; otherwise the value is replaced and marked fresh.  The
    in-flight fetch is not touched (hence the need for [cancelQueries]). *)
Definition cache_set (k : qkey) (f : option value -> option value) (c : cache) : cache :=
  match f (cache_get c k) with
  | None => c
  | Some v =>
      let e := default blank_entry (entries c !! k) in
      put_entry k (mkEntry (Some v) false (e_fetch e) Written) c
  end.

Definition cache_cancel (k : qkey) (c : cache) : cache :=
  match entries c !! k with
  | Some e => put_entry k (mkEntry (e_data e) (e_invalidated e) None (e_origin e)) c
  | None => c
  end.

Definition cache_invalidate (k : qkey) (c : cache) : cache :=
  match entries c !! k with
  | Some e => put_entry k (mkEntry (e_data e) true (e_fetch e) (e_origin e)) c
  | None => c
  end.

Definition cache_refetch (srv : qkey -> value) (k : qkey) (c : cache) : cache :=
  put_entry k (mkEntry (Some (srv k)) false None Fetched) c.

(** A view reads the key: a fetch is issued when the value is absent or stale
    and none is already in flight for the key. *)
Definition fetchQuery (k : qkey) (c : cache) : cache :=
  let e := default blank_entry (entries c !! k) in
  if cache_stale c k && bool_decide (e_fetch e = None) then
    mkCache (<[k := mkEntry (e_data e) (e_invalidated e) (Some (next_token c)) (e_origin e)]>
               (entries c))
            (N.succ (next_token c)) (k :: fetch_log c)
  else c.

(** The answer [v] of the fetch with token [tok] arrives. *)
Definition deliver (k : qkey) (tok : N) (v : value) (c : cache) : cache :=
  match entries c !! k with
  | Some e =>
      if bool_decide (e_fetch e = Some tok)
      then put_entry k (mkEntry (Some v) false None Fetched) c
      else c
  | None => c
  end.

#[export] Instance cache_ops : QueryClientOps cache := {
  getQueryData := cache_get;
  isStale := cache_stale;
  setQueryData := cache_set;
  cancelQueries := cache_cancel;
  invalidateQueries := cache_invalidate;
  refetchQueries := cache_refetch
}.

(** Every operation on the cache, for traces of interleaved views and hooks. *)
Inductive cache_op : Type :=
| OpFetch (k : qkey)
| OpDeliver (k : qkey) (tok : N) (v : value)
| OpSet (k : qkey) (f : option value -> option value)
| OpCancel (k : qkey)
| OpInvalidate (k : qkey)
| OpRefetch (srv : qkey -> value) (k : qkey).

Definition run_op (o : cache_op) (c : cache) : cache :=
  match o with
  | OpFetch k => fetchQuery k c
  | OpDeliver k tok v => deliver k tok v c
  | OpSet k f => cache_set k f c
  | OpCancel k => cache_cancel k c
  | OpInvalidate k => cache_invalidate k c
  | OpRefetch srv k => cache_refetch srv k c
  end.

Definition run_ops (os : list cache_op) (c : cache) : cache :=
  fold_left (fun c o => run_op o c) os c.

(** ** The laws *)

Lemma put_entry_lookup_eq k e c : entries (put_entry k e c) !! k = Some e.
Proof. apply lookup_insert_eq. Qed.

Lemma put_entry_lookup_ne k k' e c :
  k <> k' -> entries (put_entry k e c) !! k' = entries c !! k'.
Proof. apply lookup_insert_ne. Qed.

#[export] Hint Rewrite put_entry_lookup_eq : mm_rw.

(** The instance's projections, unfolded without reducing [put_entry]. *)
Ltac unfold_ops :=
  cbn [getQueryData isStale setQueryData cancelQueries invalidateQueries
       refetchQueries cache_ops].

(** Read back an entry just written, or one of another key. *)
Ltac entry_cases k k' :=
  destruct (decide (k = k')) as [<-|?];
  [rewrite ?put_entry_lookup_eq | rewrite ?put_entry_lookup_ne by done].

#[export] Instance cache_laws : QueryClientLaws cache.
Proof.
  split; intros; unfold_ops.
  - unfold cache_set. destruct (f (cache_get c k)); [|done].
    unfold cache_get. by rewrite put_entry_lookup_eq.
  - unfold cache_set. destruct (f (cache_get c k)); [|done].
    unfold cache_get. by rewrite put_entry_lookup_ne.
  - unfold cache_cancel, cache_get. destruct (entries c !! k) as [e|] eqn:E; [|done].
    entry_cases k k'; [by rewrite E|done].
  - unfold cache_invalidate, cache_get. destruct (entries c !! k) as [e|] eqn:E; [|done].
    entry_cases k k'; [by rewrite E|done].
  - unfold cache_refetch, cache_get. by rewrite put_entry_lookup_eq.
  - unfold cache_refetch, cache_get. by rewrite put_entry_lookup_ne.
  - unfold cache_set. destruct (f (cache_get c k)); [|done].
    unfold cache_stale. by rewrite put_entry_lookup_ne.
  - unfold cache_cancel, cache_stale. destruct (entries c !! k) as [e|] eqn:E; [|done].
    entry_cases k k'; [by rewrite E|done].
  - unfold cache_invalidate, cache_stale. destruct (entries c !! k) as [e|] eqn:E; [|by rewrite E].
    rewrite put_entry_lookup_eq. simpl. by destruct (e_data e).
  - unfold cache_invalidate, cache_stale. destruct (entries c !! k) as [e|] eqn:E; [|done].
    by rewrite put_entry_lookup_ne.
  - unfold cache_refetch, cache_stale. by rewrite put_entry_lookup_eq.
  - unfold cache_refetch, cache_stale. by rewrite put_entry_lookup_ne.
Qed.

(** ** Fetches in flight *)

(** The key's entry does not carry the fetch token [tok]. *)
Definition no_token (c : cache) (k : qkey) (tok : N) : Prop :=
  forall e, entries c !! k = Some e -> e_fetch e <> Some tok.

(** What a fetch issued before the cancellation can rely on: its token is
    old, and the key no longer waits for it. *)
Definition cancelled (c : cache) (k : qkey) (tok : N) : Prop :=
  (tok < next_token c)%N /\ no_token c k tok.

Lemma no_token_put_eq c k e tok : e_fetch e <> Some tok -> no_token (put_entry k e c) k tok.
Proof. intros He e'. rewrite put_entry_lookup_eq. congruence. Qed.

Lemma no_token_put_ne c k k' e tok :
  k' <> k -> no_token c k tok -> no_token (put_entry k' e c) k tok.
Proof. intros Hne Hc e'. rewrite put_entry_lookup_ne by done. apply Hc. Qed.

#[export] Hint Resolve no_token_put_eq no_token_put_ne : medmgr.

Lemma deliver_no_token c k tok v : no_token c k tok -> deliver k tok v c = c.
Proof.
  intros Hc. unfold deliver. destruct (entries c !! k) as [e|] eqn:E; [|done].
  rewrite bool_decide_eq_false_2; [done|]. by apply Hc.
Qed.

Lemma cancel_no_token c k tok : no_token (cache_cancel k c) k tok.
Proof.
  intros e. unfold cache_cancel. destruct (entries c !! k) eqn:E.
  - rewrite put_entry_lookup_eq. intros [= <-]. done.
  - rewrite E. done.
Qed.

Lemma run_op_cancelled o c k tok : cancelled c k tok -> cancelled (run_op o c) k tok.
Proof.
  intros [Hlt Hno]. destruct o as [k'|k' t v|k' f|k'|k'|srv k']; simpl.
  - unfold fetchQuery. destruct (_ && _); [|by split]. split; simpl; [lia|].
    intros e. cbn [entries]. destruct (decide (k' = k)) as [<-|Hne].
    + rewrite lookup_insert_eq. intros [= <-]. simpl. intros [= Heq]. lia.
    + rewrite lookup_insert_ne by done. apply Hno.
  - unfold deliver. destruct (entries c !! k') eqn:E; [|by split].
    destruct (bool_decide _); [|by split]. split; [done|].
    destruct (decide (k' = k)) as [<-|]; eauto with medmgr.
  - unfold cache_set. destruct (f (cache_get c k')); [|by split]. split; [done|].
    destruct (decide (k' = k)) as [<-|]; [|eauto with medmgr].
    apply no_token_put_eq. simpl. destruct (entries c !! k') as [e|] eqn:E; simpl; [by apply Hno|done].
  - split; [unfold cache_cancel; by destruct (entries c !! k')|].
    destruct (decide (k' = k)) as [<-|]; [apply cancel_no_token|].
    unfold cache_cancel. destruct (entries c !! k'); eauto with medmgr.
  - unfold cache_invalidate. destruct (entries c !! k') as [e|] eqn:E; [|by split]. split; [done|].
    destruct (decide (k' = k)) as [<-|]; [|eauto with medmgr].
    apply no_token_put_eq. simpl. by apply Hno.
  - split; [done|]. destruct (decide (k' = k)) as [<-|]; eauto with medmgr.
Qed.

Lemma run_ops_cancelled os c k tok : cancelled c k tok -> cancelled (run_ops os c) k tok.
Proof.
  revert c. induction os as [|o os IH]; simpl; intros c Hc; [done|].
  apply IH, run_op_cancelled, Hc.
Qed.

(** Request de-duplication.  Reading a key whose fetch is in flight
    issues no request and changes nothing; reading an absent key issues exactly
    one request; so two reads in a row send at most one request. *)
Theorem fetchQuery_dedup c k :
  (forall e t, entries c !! k = Some e -> e_fetch e = Some t -> fetchQuery k c = c) /\
  (entries c !! k = None -> fetch_log (fetchQuery k c) = k :: fetch_log c) /\
  fetchQuery k (fetchQuery k c) = fetchQuery k c.
Proof.
  unfold fetchQuery. split; [|split].
  - intros e t He Ht. rewrite He. simpl. rewrite Ht. by rewrite ?andb_false_r.
  - intros He. unfold cache_stale. by rewrite He.
  - destruct (cache_stale c k && _) eqn:Hc; [|by rewrite Hc].
    cbn [entries]. rewrite lookup_insert_eq. simpl. by rewrite andb_false_r.
Qed.

(** A fetch issued before [cancelQueries] ran on its key is cancelled
    right after, and stays so whatever operations follow. *)
Lemma cancel_cancelled c k tok :
  (tok < next_token c)%N -> cancelled (cache_cancel k c) k tok.
Proof.
  intros Hlt. split; [unfold cache_cancel; by destruct (entries c !! k)|apply cancel_no_token].
Qed.

(** Cancellation protects later writes on one key: the answer of a fetch
    issued before [cancelQueries] leaves the whole cache unchanged. *)
Lemma cancelled_fetch_never_lands c k tok v os :
  (tok < next_token c)%N ->
  deliver k tok v (run_ops os (cache_cancel k c)) = run_ops os (cache_cancel k c).
Proof. intros Hlt. by apply deliver_no_token, run_ops_cancelled, cancel_cancelled. Qed.

(** ** The abstract store of the spec (section 4.3) and the refinement

    What the spec promises of one key: its last known value, whether it is
    stale, and whether a fetch is in flight.  The operations of the spec act
    on one key and leave the others alone: [read] triggers a fetch of a
    stale key when none is in flight (de-duplication), a fetch in flight may
    complete, [write] replaces the value, [cancelInflight] drops the fetch
    in flight, [invalidate] marks the value stale, and [refetch] replaces
    it with the server's. *)
Record obs : Type := mkObs { o_data : option value; o_stale : bool; o_inflight : bool }.

Definition obs_fetch (o : obs) : obs :=
  if o_stale o && negb (o_inflight o) then mkObs (o_data o) true true else o.
Definition obs_land (v : value) (o : obs) : obs := mkObs (Some v) false false.
Definition obs_write (f : option value -> option value) (o : obs) : obs :=
  match f (o_data o) with Some v => mkObs (Some v) false (o_inflight o) | None => o end.
Definition obs_cancel (o : obs) : obs := mkObs (o_data o) (o_stale o) false.
Definition obs_invalidate (o : obs) : obs := mkObs (o_data o) true (o_inflight o).
Definition obs_refetch (v : value) (o : obs) : obs := mkObs (Some v) false false.

(** One step of the spec on one key; an answer may land only while a fetch
    is in flight, and a late answer is ignored. *)
Inductive key_step : obs -> obs -> Prop :=
| ks_fetch o : key_step o (obs_fetch o)
| ks_land o v : o_inflight o = true -> key_step o (obs_land v o)
| ks_ignore o : key_step o o
| ks_write o f : key_step o (obs_write f o)
| ks_cancel o : key_step o (obs_cancel o)
| ks_invalidate o : key_step o (obs_invalidate o)
| ks_refetch o v : key_step o (obs_refetch v o).

(** A step of the whole store: one key [k] satisfying [P] moves, the
    others keep their state. *)
Definition spec_step_in (P : qkey -> Prop) (a a' : qkey -> obs) : Prop :=
  exists k, P k /\ key_step (a k) (a' k) /\ forall k', k' <> k -> a' k' = a k'.

Definition spec_step : (qkey -> obs) -> (qkey -> obs) -> Prop := spec_step_in (fun _ => True).

(** The abstraction of the implementation. *)
Definition in_flight (c : cache) (k : qkey) : bool :=
  match entries c !! k with Some e => bool_decide (e_fetch e <> None) | None => false end.

Definition observe (c : cache) (k : qkey) : obs := mkObs (cache_get c k) (cache_stale c k) (in_flight c k).

Definition op_key (o : cache_op) : qkey :=
  match o with
  | OpFetch k | OpDeliver k _ _ | OpSet k _ | OpCancel k | OpInvalidate k | OpRefetch _ k => k
  end.

Lemma observe_frame c c' k : entries c' !! k = entries c !! k -> observe c' k = observe c k.
Proof. intros He. unfold observe, cache_get, cache_stale, in_flight. by rewrite He. Qed.

Lemma observe_put_eq c k e :
  observe (put_entry k e c) k =
  mkObs (e_data e) (match e_data e with None => true | Some _ => e_invalidated e end)
    (bool_decide (e_fetch e <> None)).
Proof. unfold observe, cache_get, cache_stale, in_flight. by rewrite put_entry_lookup_eq. Qed.

(** Each operation of the implementation changes the abstraction at its key
    only. *)
Lemma run_op_frame o c k : k <> op_key o -> observe (run_op o c) k = observe c k.
Proof.
  intros Hk. apply observe_frame.
  destruct o as [k'|k' t v|k' f|k'|k'|srv k']; simpl in *.
  - unfold fetchQuery. destruct (_ && _); [|done]. cbn [entries]. by rewrite lookup_insert_ne.
  - unfold deliver. destruct (entries c !! k'); [|done].
    destruct (bool_decide _); [by rewrite put_entry_lookup_ne|done].
  - unfold cache_set. destruct (f _); [cbv zeta; by rewrite put_entry_lookup_ne|done].
  - unfold cache_cancel. destruct (entries c !! k'); [by rewrite put_entry_lookup_ne|done].
  - unfold cache_invalidate. destruct (entries c !! k'); [by rewrite put_entry_lookup_ne|done].
  - unfold cache_refetch, put_entry. cbn [entries]. by rewrite lookup_insert_ne.
Qed.

(** The three operations the key utilities issue, exactly as the spec's. *)
Lemma observe_cancel c k : observe (cache_cancel k c) k = obs_cancel (observe c k).
Proof.
  unfold cache_cancel. destruct (entries c !! k) as [e|] eqn:E.
  - rewrite observe_put_eq. cbn [e_data e_invalidated e_fetch].
    rewrite bool_decide_eq_false_2 by tauto.
    unfold observe, obs_cancel, cache_get, cache_stale, in_flight. by rewrite E.
  - unfold observe, obs_cancel, cache_get, cache_stale, in_flight. by rewrite E.
Qed.

Lemma observe_invalidate c k : observe (cache_invalidate k c) k = obs_invalidate (observe c k).
Proof.
  unfold cache_invalidate. destruct (entries c !! k) as [e|] eqn:E.
  - rewrite observe_put_eq. unfold observe, obs_invalidate, cache_get, cache_stale, in_flight.
    rewrite E. simpl. by destruct (e_data e).
  - unfold observe, obs_invalidate, cache_get, cache_stale, in_flight. by rewrite E.
Qed.

Lemma observe_refetch srv c k : observe (cache_refetch srv k c) k = obs_refetch (srv k) (observe c k).
Proof.
  unfold cache_refetch. rewrite observe_put_eq. cbn [e_data e_invalidated e_fetch].
  rewrite bool_decide_eq_false_2; [reflexivity|tauto].
Qed.

(** Every operation of the implementation is a step of the spec at its key. *)
Lemma run_op_key_step o c : key_step (observe c (op_key o)) (observe (run_op o c) (op_key o)).
Proof.
  destruct o as [k|k t v|k f|k|k|srv k]; simpl.
  - unfold fetchQuery. destruct (cache_stale c k && _) eqn:Hc; [|apply ks_ignore].
    apply andb_prop in Hc as [Hs Hf]. apply bool_decide_eq_true in Hf.
    match goal with |- key_step _ ?x => replace x with (obs_fetch (observe c k)) end;
      [apply ks_fetch|].
    unfold observe, obs_fetch, cache_get, cache_stale, in_flight in *. cbn [entries].
    rewrite lookup_insert_eq. destruct (entries c !! k) as [e|] eqn:E; simpl in *.
    + rewrite Hs, Hf, bool_decide_eq_false_2 by tauto. reflexivity.
    + done.
  - unfold deliver. destruct (entries c !! k) as [e|] eqn:E; [|apply ks_ignore].
    destruct (bool_decide (e_fetch e = Some t)) eqn:Ht; [|apply ks_ignore].
    apply bool_decide_eq_true in Ht. rewrite observe_put_eq. apply (ks_land (observe c k) v).
    unfold observe, in_flight. simpl. rewrite E. apply bool_decide_eq_true. congruence.
  - unfold cache_set. destruct (f (cache_get c k)) as [v|] eqn:Hf; [|apply ks_ignore].
    cbv zeta. rewrite observe_put_eq.
    match goal with |- key_step _ ?x => replace x with (obs_write f (observe c k)) end;
      [apply ks_write|].
    unfold obs_write, observe, in_flight. simpl. rewrite Hf.
    by destruct (entries c !! k).
  - rewrite observe_cancel. apply ks_cancel.
  - rewrite observe_invalidate. apply ks_invalidate.
  - rewrite observe_refetch. apply ks_refetch.
Qed.

Lemma run_op_spec_step o c : spec_step_in (eq (op_key o)) (observe c) (observe (run_op o c)).
Proof. exists (op_key o). split; [done|]. split; [apply run_op_key_step|]. intros k Hk. by apply run_op_frame. Qed.

Lemma spec_step_in_mono (P Q : qkey -> Prop) a a' :
  (forall k, P k -> Q k) -> spec_step_in P a a' -> spec_step_in Q a a'.
Proof. intros HPQ (k & Hk & Hs & Hf). exists k. auto. Qed.

(** The implementation refines the spec: whatever operations the views and
    the hooks run, the abstraction moves by steps of the spec. *)
Lemma run_ops_refines os c : rtc spec_step (observe c) (observe (run_ops os c)).
Proof.
  revert c. induction os as [|o os IH]; intros c; simpl; [done|].
  eapply rtc_l; [|apply IH]. eapply spec_step_in_mono, run_op_spec_step. done.
Qed.
