(* ===== verification/QueryKeys.v ===== *)
(** * Query keys ([src/src/utils/queryKeys.ts])

    The key factory [queryKeys], the helpers [queryKeyUtils] (which call the
    query client, so they are written against [QueryCache.QueryClientOps]),
    [createQueryKey], and the keys under which the query hooks of
    [src/src/hooks/queries/] and [src/src/hooks/useMedicationScheduleProfile.ts]
    cache their data.  The lemmas: the three patient-scoped keys are
    pairwise distinct, and refetching the patient keys gives each of them the
    server's value.  The theorems: [cancelPatientQueries] makes every fetch of
    the patient's keys issued before it harmless (C9); on the cache
    implementation the three patient utilities act on each of the patient's
    keys as the spec's [cancelInflight], [invalidate] and [refetch], and on no
    other key (C12, a functional refinement of [QueryCache]'s abstract store).
    (That each query hook reads the key its mutation hook writes is proved in
    [Mutations].) *)

From S2P Require Import Prelude Json QueryCache.

Definition PATIENTS : string := "patients".
Definition MEDICATIONS : string := "medications".
Definition MEDICATION_SCHEDULES : string := "medication-schedules".
Definition MEDICATION_ADMINISTRATIONS : string := "medication-administrations".

Module queryKeys.
Module patients.
Definition all : qkey := [PATIENTS].
Definition byId (patientId : string) : qkey := [patientId; PATIENTS].
Definition byPatient (patientId : string) : qkey := [patientId; PATIENTS].
End patients.
Module medications.
Definition all : qkey := [MEDICATIONS].
Definition byPatient (patientId : string) : qkey := [patientId; MEDICATIONS].
Definition byId (medicationId : string) : qkey := [medicationId; MEDICATIONS].
End medications.
Module medicationSchedules.
Definition all : qkey := [MEDICATION_SCHEDULES].
Definition byPatient (patientId : string) : qkey := [patientId; MEDICATION_SCHEDULES].
Definition byMedication (medicationId : string) : qkey :=
  [medicationId; MEDICATION_SCHEDULES].
End medicationSchedules.
Module medicationAdministrations.
Definition all : qkey := [MEDICATION_ADMINISTRATIONS].
Definition byPatient (patientId : string) : qkey :=
  [patientId; MEDICATION_ADMINISTRATIONS].
End medicationAdministrations.
End queryKeys.

(** The entity names of [QueryKeys] ([keyof typeof queryKeys]). *)
Inductive entity : Type :=
| patients | medications | medicationSchedules | medicationAdministrations.

(** [keyof Omit<QueryKeys, "patients">], the entities [createQueryKey.patient]
    accepts. *)
Inductive patient_entity : Type :=
| p_medications | p_medicationSchedules | p_medicationAdministrations.

Module queryKeyUtils.
(** [getPatientQueries(patientId)] *)
Record PatientQueries : Type := {
  medications : qkey;
  schedules : qkey;
  administrations : qkey
}.

Definition getPatientQueries (patientId : string) : PatientQueries := {|
  medications := queryKeys.medications.byPatient patientId;
  schedules := queryKeys.medicationSchedules.byPatient patientId;
  administrations := queryKeys.medicationAdministrations.byPatient patientId
|}.

(** [getMedicationQueries(medicationId)]: an object with one key,
    [schedules]. *)
Record MedicationQueries : Type := { medication_schedules : qkey }.

Definition getMedicationQueries (medicationId : string) : MedicationQueries := {|
  medication_schedules := queryKeys.medicationSchedules.byMedication medicationId
|}.

Section WithClient.
Context {C : Type} `{!QueryClientOps C}.

(** [Promise.all] of three calls issued in order: medications, schedules,
    administrations. *)
Definition invalidatePatientQueries (patientId : string) (qc : C) : C :=
  let q := getPatientQueries patientId in
  invalidateQueries (administrations q)
    (invalidateQueries (schedules q) (invalidateQueries (medications q) qc)).

Definition refetchPatientQueries (srv : qkey -> value) (patientId : string) (qc : C) : C :=
  let q := getPatientQueries patientId in
  refetchQueries srv (administrations q)
    (refetchQueries srv (schedules q) (refetchQueries srv (medications q) qc)).

Definition cancelPatientQueries (patientId : string) (qc : C) : C :=
  let q := getPatientQueries patientId in
  cancelQueries (administrations q)
    (cancelQueries (schedules q) (cancelQueries (medications q) qc)).

Definition invalidateMedicationQueries (medicationId : string) (qc : C) : C :=
  invalidateQueries (medication_schedules (getMedicationQueries medicationId)) qc.
End WithClient.
End queryKeyUtils.

Module createQueryKey.
Definition patient (patientId : string) (e : patient_entity) : qkey :=
  match e with
  | p_medications => queryKeys.medications.byPatient patientId
  | p_medicationSchedules => queryKeys.medicationSchedules.byPatient patientId
  | p_medicationAdministrations => queryKeys.medicationAdministrations.byPatient patientId
  end.

(** [queryKeys[entity].byMedication?.(medicationId)]: only
    [medicationSchedules] has [byMedication]. *)
Definition medication (medicationId : string) : qkey :=
  queryKeys.medicationSchedules.byMedication medicationId.

Definition entity (e : entity) : qkey :=
  match e with
  | patients => queryKeys.patients.all
  | medications => queryKeys.medications.all
  | medicationSchedules => queryKeys.medicationSchedules.all
  | medicationAdministrations => queryKeys.medicationAdministrations.all
  end.
End createQueryKey.

(** ** The keys of the query hooks *)

(** [useMedications(patientId)] and [useMedicationProfile] *)
Definition useMedications_key (patientId : string) : qkey :=
  createQueryKey.patient patientId p_medications.

(** [usePatientMedicationSchedules(patientId)] and
    [useMedicationScheduleProfile(patientId)] *)
Definition usePatientMedicationSchedules_key (patientId : string) : qkey :=
  createQueryKey.patient patientId p_medicationSchedules.

(** [useMedicationAdministrations(patientId)] *)
Definition useMedicationAdministrations_key (patientId : string) : qkey :=
  createQueryKey.patient patientId p_medicationAdministrations.

(** [usePatients()] *)
Definition usePatients_key : qkey := createQueryKey.entity patients.

(** [useMedicationAdministrations] only runs its query for a non-empty id
    ([enabled: !!patientId && patientId.length > 0]). *)
Definition useMedicationAdministrations_enabled (patientId : string) : bool :=
  negb (String.eqb patientId "").

(** The three patient keys, in the order [getPatientQueries] lists them. *)
Definition patient_keys (p : string) : list qkey :=
  let q := queryKeyUtils.getPatientQueries p in
  [queryKeyUtils.medications q; queryKeyUtils.schedules q; queryKeyUtils.administrations q].

(** ** Lemmas *)

Section UtilsLaws.
Context {C : Type} `{!QueryClientOps C} `{!QueryClientLaws C}.

#[export] Instance invalidatePatientQueries_proper p :
  Proper (data_equiv ==> data_equiv) (queryKeyUtils.invalidatePatientQueries (C := C) p).
Proof. intros c1 c2 Hc. unfold queryKeyUtils.invalidatePatientQueries. by rewrite Hc. Qed.

#[export] Instance refetchPatientQueries_proper srv p :
  Proper (data_equiv ==> data_equiv) (queryKeyUtils.refetchPatientQueries (C := C) srv p).
Proof. intros c1 c2 Hc. unfold queryKeyUtils.refetchPatientQueries. by rewrite Hc. Qed.

#[export] Instance cancelPatientQueries_proper p :
  Proper (data_equiv ==> data_equiv) (queryKeyUtils.cancelPatientQueries (C := C) p).
Proof. intros c1 c2 Hc. unfold queryKeyUtils.cancelPatientQueries. by rewrite Hc. Qed.

Lemma invalidatePatientQueries_equiv p c :
  data_equiv (queryKeyUtils.invalidatePatientQueries p c) c.
Proof. unfold queryKeyUtils.invalidatePatientQueries. by rewrite !invalidate_equiv. Qed.

Lemma refetchPatientQueries_get srv p c k :
  k ∈ patient_keys p -> getQueryData (queryKeyUtils.refetchPatientQueries srv p c) k = Some (srv k).
Proof.
  intros Hk. unfold queryKeyUtils.refetchPatientQueries. rewrite !get_refetch_dec.
  repeat case_decide; subst; try done. exfalso. unfold patient_keys in Hk. set_solver.
Qed.

Lemma cancelPatientQueries_equiv p c :
  data_equiv (queryKeyUtils.cancelPatientQueries p c) c.
Proof. unfold queryKeyUtils.cancelPatientQueries. by rewrite !cancel_equiv. Qed.
End UtilsLaws.

#[export] Hint Resolve invalidatePatientQueries_equiv cancelPatientQueries_equiv : medmgr.


Lemma patient_keys_distinct p :
  queryKeys.medications.byPatient p <> queryKeys.medicationSchedules.byPatient p /\
  queryKeys.medications.byPatient p <> queryKeys.medicationAdministrations.byPatient p /\
  queryKeys.medicationSchedules.byPatient p <> queryKeys.medicationAdministrations.byPatient p.
Proof. repeat split; intros [=]. Qed.

Lemma byPatient_inj_meds p p' :
  queryKeys.medications.byPatient p = queryKeys.medications.byPatient p' -> p = p'.
Proof. by intros [= ->]. Qed.

(** The schedule keys of one patient never meet the medication or
    administration keys of any id. *)
Lemma schedules_key_not_meds p q :
  queryKeys.medicationSchedules.byPatient p <> queryKeys.medications.byPatient q /\
  queryKeys.medicationSchedules.byPatient p <> queryKeys.medicationAdministrations.byPatient q /\
  queryKeys.medicationSchedules.byMedication p <> queryKeys.medications.byPatient q /\
  queryKeys.medicationSchedules.byMedication p <> queryKeys.medicationAdministrations.byPatient q /\
  queryKeys.medicationSchedules.all <> queryKeys.medicationSchedules.byPatient q /\
  queryKeys.medicationSchedules.all <> queryKeys.medicationSchedules.byMedication q /\
  queryKeys.medicationSchedules.all <> queryKeys.medications.byPatient q /\
  queryKeys.medicationSchedules.all <> queryKeys.medicationAdministrations.byPatient q.
Proof. repeat split; intros [=]. Qed.

#[export] Hint Resolve patient_keys_distinct schedules_key_not_meds : medmgr.

Lemma cancel_next_token k c : next_token (cache_cancel k c) = next_token c.
Proof. unfold cache_cancel. by destruct (entries c !! k). Qed.

Lemma cancelled_cancel k' c k tok : cancelled c k tok -> cancelled (cache_cancel k' c) k tok.
Proof. apply (run_op_cancelled (OpCancel k')). Qed.

(** One of the utilities' three calls, on three distinct keys, as the
    spec's operation [g] on each of them. *)
Lemma observe_three (o : qkey -> cache_op) (g : qkey -> obs -> obs) k1 k2 k3 c k :
  (forall k, op_key (o k) = k) -> (forall k c, observe (run_op (o k) c) k = g k (observe c k)) ->
  k1 <> k2 -> k1 <> k3 -> k2 <> k3 ->
  observe (run_op (o k3) (run_op (o k2) (run_op (o k1) c))) k =
  if decide (k ∈ [k1; k2; k3]) then g k (observe c k) else observe c k.
Proof.
  intros Hkey Hg H12 H13 H23.
  assert (Hfr : forall k' c', k' <> k -> observe (run_op (o k') c') k = observe c' k)
    by (intros k' c' Hne; apply run_op_frame; rewrite Hkey; done).
  case_decide as Hin.
  - rewrite !elem_of_cons, elem_of_nil in Hin. destruct Hin as [<-|[<-|[<-|[]]]].
    + rewrite !Hfr by congruence. apply Hg.
    + rewrite Hfr by congruence. rewrite Hg. by rewrite Hfr by congruence.
    + rewrite Hg, !Hfr by congruence. done.
  - rewrite !elem_of_cons, elem_of_nil in Hin. rewrite !Hfr by naive_solver. done.
Qed.

(** C12: the key utilities implement the spec's store operations: on the
    cache implementation, [cancelPatientQueries], [invalidatePatientQueries]
    and [refetchPatientQueries] act on each of the patient's three keys as
    the spec's [cancelInflight], [invalidate] and [refetch] do, and leave
    every other key as it was. *)
Theorem patient_utils_refine p srv (c : cache) k :
  observe (queryKeyUtils.cancelPatientQueries p c) k =
    (if decide (k ∈ patient_keys p) then obs_cancel (observe c k) else observe c k) /\
  observe (queryKeyUtils.invalidatePatientQueries p c) k =
    (if decide (k ∈ patient_keys p) then obs_invalidate (observe c k) else observe c k) /\
  observe (queryKeyUtils.refetchPatientQueries srv p c) k =
    (if decide (k ∈ patient_keys p) then obs_refetch (srv k) (observe c k) else observe c k).
Proof.
  destruct (patient_keys_distinct p) as (H12 & H13 & H23).
  split; [|split].
  - apply (observe_three OpCancel (fun _ => obs_cancel)); [done|intros; apply observe_cancel|done..].
  - apply (observe_three OpInvalidate (fun _ => obs_invalidate));
      [done|intros; apply observe_invalidate|done..].
  - apply (observe_three (OpRefetch srv) (fun k => obs_refetch (srv k)));
      [done|intros; apply observe_refetch|done..].
Qed.

(** C9: the cancel step of the mutation hooks protects their optimistic
    writes.  Once [cancelPatientQueries p] has run, a fetch of any of the
    patient's three keys issued before it can never land, whatever sequence of
    reads, writes, invalidations, refetches and other deliveries follows: its
    answer leaves the whole cache unchanged. *)
Theorem cancelPatientQueries_discards_inflight p c k tok v os :
  k ∈ patient_keys p -> (tok < next_token c)%N ->
  deliver k tok v (run_ops os (queryKeyUtils.cancelPatientQueries p c)) =
  run_ops os (queryKeyUtils.cancelPatientQueries p c).
Proof.
  intros Hk Hlt. apply deliver_no_token, run_ops_cancelled.
  unfold queryKeyUtils.cancelPatientQueries. unfold_ops.
  unfold patient_keys in Hk. simpl in Hk.
  repeat rewrite elem_of_cons in Hk. rewrite elem_of_nil in Hk.
  destruct Hk as [->|[->|[->|[]]]];
    repeat (apply cancel_cancelled || apply cancelled_cancel); by rewrite ?cancel_next_token.
Qed.

Lemma cancelPatientQueries_discards_inflight_witness :
  deliver (useMedicationAdministrations_key "p1") 0 (JArr [])
    (run_ops [OpFetch (useMedicationAdministrations_key "p1");
              OpInvalidate (useMedicationAdministrations_key "p1")]
       (queryKeyUtils.cancelPatientQueries "p1"
          (fetchQuery (useMedicationAdministrations_key "p1") empty_cache))) =
  run_ops [OpFetch (useMedicationAdministrations_key "p1");
           OpInvalidate (useMedicationAdministrations_key "p1")]
    (queryKeyUtils.cancelPatientQueries "p1"
       (fetchQuery (useMedicationAdministrations_key "p1") empty_cache)).
Proof.
  apply (cancelPatientQueries_discards_inflight "p1"
           (fetchQuery (useMedicationAdministrations_key "p1") empty_cache)).
  - apply (bool_decide_unpack _). vm_compute. reflexivity.
  - vm_compute. reflexivity.
Defined.
