(* ===== verification/QueryHooks.v ===== *)
(** * The query hooks and what they report
    ([src/src/hooks/queries/*.ts], [src/src/hooks/useMedicationScheduleProfile.ts])

    Each hook calls TanStack's [useQuery] with a key of [QueryKeys].  A
    mounted [useQuery] (modelled from the spec, section 4.3, on the cache
    implementation of [QueryCache]) starts a fetch of its key when the key's
    value is absent or stale and no fetch is in flight, provided the query is
    [enabled]; it reports the cached value ([data]), whether a fetch is in
    flight ([isFetching]) and [isLoading], a fetch in flight with nothing
    cached yet.  [useMedicationAdministrations] turns a missing value into
    [[]] ([administrations || []]).

    The theorem (C26): each of the hooks [usePatients], [useMedications]
    and [usePatientMedicationSchedules] shows its loading state on a key
    with nothing cached; and once a value
    is cached, no sequence of cache operations (fetches, answers, optimistic
    writes, cancellations, invalidations, refetches) brings the loading
    state back, so the pages' spinners ([LoadingSpinner]) are only drawn on
    a key's first load. *)

From S2P Require Import Prelude Json QueryCache QueryKeys.
Local Open Scope string_scope.

(** ** [useQuery] *)

Record query_result : Type := mkQueryResult {
  qr_data : option value;
  qr_isFetching : bool;
  qr_isLoading : bool
}.

(** What a mounted query reports on a cache. *)
Definition query_state (k : qkey) (c : cache) : query_result :=
  mkQueryResult (cache_get c k) (in_flight c k)
    (in_flight c k && negb (bool_decide (is_Some (cache_get c k)))).

(** [useQuery({queryKey, queryFn, enabled})] mounted on the cache: the
    fetch it starts, then its report. *)
Definition useQuery (enabled : bool) (k : qkey) (c : cache) : cache * query_result :=
  let c' := if enabled then fetchQuery k c else c in
  (c', query_state k c').

(** ** The hooks *)

(** [usePatients()] *)
Definition usePatients (c : cache) : cache * query_result := useQuery true usePatients_key c.

(** [useMedications(patientId)] *)
Definition useMedications (patientId : string) (c : cache) : cache * query_result :=
  useQuery true (useMedications_key patientId) c.

(** [usePatientMedicationSchedules(patientId)], and the query of
    [useMedicationScheduleProfile(patientId)] *)
Definition usePatientMedicationSchedules (patientId : string) (c : cache) :
    cache * query_result :=
  useQuery true (usePatientMedicationSchedules_key patientId) c.

(** [useMedicationAdministrations(patientId)]: [{administrations:
    administrations || [], isLoading, error}]. *)
Definition useMedicationAdministrations (patientId : string) (c : cache) :
    cache * (value * bool) :=
  let '(c', r) := useQuery (useMedicationAdministrations_enabled patientId)
                    (useMedicationAdministrations_key patientId) c in
  (c', (if truthy (qr_data r) then default (JArr []) (qr_data r) else JArr [], qr_isLoading r)).

(** The [console.log] lines of [useMedicationScheduleProfile], by label. *)
Definition useMedicationScheduleProfile_logs : list string :=
  ["useMedicationScheduleProfile - patientId:"; "useMedicationScheduleProfile - schedulesData:";
   "useMedicationScheduleProfile - isLoading:"; "useMedicationScheduleProfile - error:"].

(** ** Lemmas *)

Lemma run_op_keeps_data o c k :
  is_Some (cache_get c k) -> is_Some (cache_get (run_op o c) k).
Proof.
  unfold cache_get. intros Hd. destruct o as [k'|k' tok v|k' f|k'|k'|srv k']; cbn [run_op].
  - unfold fetchQuery. case_match; [|done]. cbn.
    destruct (decide (k' = k)) as [<-|Hne]; [|by rewrite lookup_insert_ne].
    rewrite lookup_insert_eq. cbn. destruct (entries c !! k'); [done|]. by destruct Hd.
  - unfold deliver. destruct (entries c !! k') eqn:E; [|done]. case_bool_decide; [|done].
    destruct (decide (k' = k)) as [<-|Hne]; [by rewrite put_entry_lookup_eq|].
    by rewrite put_entry_lookup_ne.
  - unfold cache_set. case_match; [|done].
    destruct (decide (k' = k)) as [<-|Hne]; [by rewrite put_entry_lookup_eq|].
    by rewrite put_entry_lookup_ne.
  - unfold cache_cancel. destruct (entries c !! k') eqn:E; [|done].
    destruct (decide (k' = k)) as [<-|Hne]; [|by rewrite put_entry_lookup_ne].
    rewrite put_entry_lookup_eq. cbn. by rewrite E in Hd.
  - unfold cache_invalidate. destruct (entries c !! k') eqn:E; [|done].
    destruct (decide (k' = k)) as [<-|Hne]; [|by rewrite put_entry_lookup_ne].
    rewrite put_entry_lookup_eq. cbn. by rewrite E in Hd.
  - unfold cache_refetch. destruct (decide (k' = k)) as [<-|Hne]; [by rewrite put_entry_lookup_eq|].
    by rewrite put_entry_lookup_ne.
Qed.

Lemma run_ops_keeps_data os c k :
  is_Some (cache_get c k) -> is_Some (cache_get (run_ops os c) k).
Proof.
  revert c. induction os as [|o os IH]; intros c Hd; [done|]. cbn. apply IH.
  by apply run_op_keeps_data.
Qed.

Lemma fetchQuery_keeps_data k k' c :
  is_Some (cache_get c k) -> is_Some (cache_get (fetchQuery k' c) k).
Proof. exact (run_op_keeps_data (OpFetch k') c k). Qed.

(** Mounting a query on a key with nothing cached leaves a fetch in flight
    and still nothing cached. *)
Lemma fetchQuery_first_load k c :
  cache_get c k = None -> in_flight (fetchQuery k c) k = true /\ cache_get (fetchQuery k c) k = None.
Proof.
  unfold cache_get, in_flight, fetchQuery, cache_stale. intros Hd.
  destruct (entries c !! k) as [e|] eqn:E; cbn in Hd |- *.
  - rewrite Hd. cbn. case_bool_decide as Hf; cbn.
    + rewrite lookup_insert_eq. cbn. split; [repeat case_bool_decide; naive_solver|done].
    + rewrite E. cbn. split; [repeat case_bool_decide; naive_solver|done].
  - rewrite lookup_insert_eq. cbn. split; [repeat case_bool_decide; naive_solver|done].
Qed.

(** Mounting a query on a stale key leaves a fetch in flight (started now,
    or already running) whose answer, when it arrives, is the key's value. *)
Lemma useQuery_stale_refetches k c :
  cache_stale c k = true ->
  qr_isFetching (snd (useQuery true k c)) = true /\
  exists tok, forall v, cache_get (deliver k tok v (fst (useQuery true k c))) k = Some v.
Proof.
  intros Hs. cbn [useQuery fst snd query_state qr_isFetching].
  unfold fetchQuery. rewrite Hs. cbn [andb].
  destruct (entries c !! k) as [e|] eqn:E; cbn [default id].
  - destruct (e_fetch e) as [tok|] eqn:F; cbn [bool_decide decide_rel].
    + rewrite bool_decide_eq_false_2 by congruence.
      unfold in_flight, deliver. rewrite E, F. split; [by rewrite bool_decide_eq_true_2|].
      exists tok. intros v. rewrite bool_decide_eq_true_2 by done.
      unfold cache_get. by rewrite put_entry_lookup_eq.
    + rewrite bool_decide_eq_true_2 by done.
      unfold in_flight, deliver. cbn [entries]. rewrite lookup_insert_eq. cbn [e_fetch].
      split; [by rewrite bool_decide_eq_true_2|].
      exists (next_token c). intros v. rewrite bool_decide_eq_true_2 by done.
      unfold cache_get. by rewrite put_entry_lookup_eq.
  - rewrite bool_decide_eq_true_2 by done.
    unfold in_flight, deliver. cbn [entries]. rewrite lookup_insert_eq. cbn [e_fetch].
    split; [by rewrite bool_decide_eq_true_2|].
    exists (next_token c). intros v. rewrite bool_decide_eq_true_2 by done.
    unfold cache_get. by rewrite put_entry_lookup_eq.
Qed.

(** A mounted query shows its loading state on a key with nothing cached,
    and once a value is cached for the key no sequence of cache operations
    brings it back, whether the query is enabled or not. *)
Lemma useQuery_loading_first_load k c os :
  (cache_get c k = None -> qr_isLoading (snd (useQuery true k c)) = true) /\
  (is_Some (cache_get c k) -> forall en, qr_isLoading (snd (useQuery en k (run_ops os c))) = false).
Proof.
  split.
  - intros Hd. destruct (fetchQuery_first_load k c Hd) as [Hf Hd']. cbn.
    rewrite Hf, Hd'. done.
  - intros Hd en. pose proof (run_ops_keeps_data os c k Hd) as Hd'. cbn.
    assert (Hd'' : is_Some (cache_get (if en then fetchQuery k (run_ops os c) else run_ops os c) k))
      by (destruct en; [apply fetchQuery_keeps_data|]; done).
    rewrite bool_decide_eq_true_2 by done. by rewrite andb_false_r.
Qed.

(** C26: the spinners of the pages are drawn on a key's first load only.
    For each of the query hooks [usePatients], [useMedications(patientId)]
    and [usePatientMedicationSchedules(patientId)] and the key it reads: the
    hook reports [isLoading] on a cache with nothing under its key, and once
    a value is cached under the key, no sequence of cache operations
    (fetches and their answers, optimistic writes, cancellations,
    invalidations, refetches) makes it report [isLoading] again. *)
Theorem query_loading_only_first_load p c os :
  Forall (fun kh : qkey * (cache -> cache * query_result) =>
      (cache_get c kh.1 = None -> qr_isLoading (snd (kh.2 c)) = true) /\
      (is_Some (cache_get c kh.1) -> qr_isLoading (snd (kh.2 (run_ops os c))) = false))
    [(usePatients_key, usePatients); (useMedications_key p, useMedications p);
     (usePatientMedicationSchedules_key p, usePatientMedicationSchedules p)].
Proof.
  repeat constructor; intros Hd;
    [apply (useQuery_loading_first_load _ c os)|apply (useQuery_loading_first_load _ c os)..];
    done.
Qed.

Lemma query_loading_only_first_load_witness :
  qr_isLoading (snd (useMedications "p1" empty_cache)) = true /\
  qr_isLoading (snd (useMedications "p1"
     (run_ops [OpInvalidate (useMedications_key "p1"); OpFetch (useMedications_key "p1")]
        (cache_set (useMedications_key "p1") (fun _ => Some (JArr [])) empty_cache)))) = false.
Proof.
  pose proof (query_loading_only_first_load "p1"
    (cache_set (useMedications_key "p1") (fun _ => Some (JArr [])) empty_cache)
    [OpInvalidate (useMedications_key "p1"); OpFetch (useMedications_key "p1")]) as H2.
  pose proof (query_loading_only_first_load "p1" empty_cache []) as H1.
  apply Forall_cons in H1 as [_ H1]. apply Forall_cons in H1 as [[H1 _] _].
  apply Forall_cons in H2 as [_ H2]. apply Forall_cons in H2 as [[_ H2] _].
  split; [apply H1; reflexivity|apply H2; vm_compute; eauto].
Defined.
