(* ===== verification/ApiClient.v ===== *)
(** * The transport ([src/src/api/clients/apiClient.ts])

    [ApiClient.request] builds the URL (query parameters for GET only), the
    headers (defaults, caller's, then the bearer token read from local
    storage), encodes the body, races [fetch] against a timer, and
    normalises the outcome: a non-2xx answer becomes an [ApiClientError]
    carrying status, URL and the parsed (or synthesised) error body, with a
    401 clearing the stored token and redirecting to [/login]; a timeout or a
    network failure becomes a "Network error" wrapping its cause; a 2xx
    answer's [json()] converts keys to camel case.

    The query string is [URLSearchParams]' serialisation: every name and
    value form-urlencoded (as UTF-8 bytes: space as ["+"], reserved bytes
    as [%XX]); the caller's other [RequestInit] members ([...fetchOptions])
    are passed to [fetch] unchanged.  The network is an argument: a
    function from the request actually sent to the outcome of the race
    ([fetch_outcome]).  The browser state the
    transport touches is explicit ([browser]): the stored token, the page
    location, the [console.error] lines and the timers that are still
    pending ([createTimeoutPromise] adds one per request and nothing clears
    it).  The errors carry the [RequestInit] sent ([requestOptions]).  The
    development-mode [console.log] of each request is not modelled.

    The theorems: the error for a 401 (C10) and for any other HTTP error
    (C11); every query parameter reaches the server as given: the URL
    standard's parser reads [buildUrl]'s query back as exactly the defined
    parameters (C13, against the parser [parse_query] written from the
    standard); a successful call's [json()] is the body in camel case and
    always a value of the client's camel-case JSON types (C14). *)

From S2P Require Import Prelude Json CaseTransform.
Local Open Scope string_scope.

(** ** Configuration and browser state *)

(** [import.meta.env]: [VITE_API_BASE_URL], [VITE_API_KEY], [DEV]. *)
Record env : Type := mkEnv {
  VITE_API_BASE_URL : option string;
  VITE_API_KEY : option string;
  DEV : bool
}.

Record browser : Type := mkBrowser {
  authToken : option string;           (** [localStorage "authToken"] *)
  location : string;                   (** [window.location.href] *)
  console : list string;               (** [console.error] lines, newest first *)
  pending_timers : list (Z * js_error) (** [setTimeout] callbacks not yet run:
                                          their delay and the rejection they make *)
}.

(** [a || b] on an optional string: [undefined] and [""] are falsy. *)
Definition or_str (a : option string) (b : string) : string :=
  match a with Some s => if String.eqb s "" then b else s | None => b end.

Definition truthy_str (a : option string) : bool :=
  match a with Some s => negb (String.eqb s "") | None => false end.

Definition BASE_URL (e : env) : string :=
  or_str (VITE_API_BASE_URL e) "https://rbn1g3hpv0.execute-api.us-east-1.amazonaws.com/Prod".

Definition TIMEOUT : Z := 10000.

Record ApiClientOptions : Type := mkApiClientOptions {
  opt_baseURL : option string;
  opt_apiKey : option string;
  opt_timeout : option Z;
  opt_defaultHeaders : list (string * string)
}.

Definition no_options : ApiClientOptions := mkApiClientOptions None None None [].

Record ApiClient : Type := mkApiClient {
  baseURL : string;
  defaultHeaders : list (string * string)
}.

(** [constructor(options)]; [options.timeout] is accepted and not used. *)
Definition new_ApiClient (e : env) (o : ApiClientOptions) : ApiClient :=
  let hs := spread [("Content-Type", "application/json")] (opt_defaultHeaders o) in
  let apiKey := match opt_apiKey o with
                | Some k => if String.eqb k "" then VITE_API_KEY e else Some k
                | None => VITE_API_KEY e
                end in
  mkApiClient (or_str (opt_baseURL o) (BASE_URL e))
    (if truthy_str apiKey then assoc_set hs "X-API-Key" (default "" apiKey) else hs).

(** ** Requests *)

(** Query parameter values: [string | number | boolean], and the [null] or
    [undefined] the loop skips. *)
Inductive param : Type := PStr (s : string) | PNum (z : Z) | PBool (b : bool) | PNone.

(** [String(params[key])] *)
Definition param_string (p : param) : option string :=
  match p with
  | PStr s => Some s
  | PNum z => Some (show_Z z)
  | PBool b => Some (if b then "true" else "false")
  | PNone => None
  end.

Fixpoint query_pairs (ps : list (string * param)) : list (string * string) :=
  match ps with
  | [] => []
  | (k, p) :: ps' =>
      match param_string p with
      | Some v => (k, v) :: query_pairs ps'
      | None => query_pairs ps'
      end
  end.

(** The [application/x-www-form-urlencoded] serialiser of the URL standard,
    which [URLSearchParams] uses: each character is encoded as UTF-8 (a
    character of the model is a code point below 256: one byte below 128,
    two bytes from 128); a space becomes ["+"], ASCII letters, digits and
    [*-._] stay, every other byte is written [%XX] in upper-case hex. *)
Definition hex_digit (n : N) : ascii := ascii_of_N (if (n <? 10)%N then 48 + n else 55 + n)%N.

Definition percent_byte (n : N) : string :=
  String "%" (String (hex_digit (n / 16)) (String (hex_digit (n mod 16)) EmptyString)).

Definition urlencoded_safe (c : ascii) : bool :=
  is_lower c || is_upper c || is_digit c ||
  Ascii.eqb c "*" || Ascii.eqb c "-" || Ascii.eqb c "." || Ascii.eqb c "_".

(** The UTF-8 bytes of a code point below 256. *)
Definition utf8_bytes (c : ascii) : list N :=
  let n := N_of_ascii c in
  if (n <? 128)%N then [n] else [(192 + n / 64)%N; (128 + n mod 64)%N].

Definition encode_char (c : ascii) : string :=
  if Ascii.eqb c " " then "+"
  else if urlencoded_safe c then String c EmptyString
  else fold_right (fun b acc => percent_byte b ++ acc) EmptyString (utf8_bytes c).

Fixpoint form_urlencode (s : string) : string :=
  match s with
  | EmptyString => EmptyString
  | String c s' => encode_char c ++ form_urlencode s'
  end.

(** [url.searchParams.toString()]: the pairs, each [name=value] encoded,
    joined by ["&"]. *)
Fixpoint join_query (qs : list (string * string)) : string :=
  match qs with
  | [] => ""
  | [(k, v)] => form_urlencode k ++ "=" ++ form_urlencode v
  | (k, v) :: qs' => form_urlencode k ++ "=" ++ form_urlencode v ++ "&" ++ join_query qs'
  end.

(** [buildUrl]: [new URL(...)] with [searchParams.append] per defined
    parameter, serialised by [toString].  The base is taken as written: the
    endpoints pass paths, and [new URL]'s normalisation of the base (a
    trailing ["/"] after a bare origin, the encoding of the path) is not
    modelled. *)
Definition buildUrl (c : ApiClient) (endpoint : string) (params : list (string * param)) : string :=
  let base := if String.prefix "http" endpoint then endpoint else baseURL c ++ endpoint in
  match query_pairs params with
  | [] => base
  | qs => base ++ "?" ++ join_query qs
  end.

(** [buildHeaders]: defaults, then the caller's headers, then the token. *)
Definition buildHeaders (c : ApiClient) (b : browser) (custom : list (string * string)) :
    list (string * string) :=
  let hs := spread (defaultHeaders c) custom in
  if truthy_str (authToken b) then
    assoc_set hs "Authorization" ("Bearer " ++ default "" (authToken b))
  else hs.

Definition body_truthy (bd : option body) : bool :=
  match bd with
  | Some (BodyJson v) => truthy (Some v)
  | Some (BodyFormData _) => true
  | None => false
  end.

Record RequestOptions : Type := mkRequestOptions {
  method : option string;
  req_body : option body;
  headers : list (string * string);
  params : list (string * param);
  timeout : option Z;
  fetchOptions : list (string * value)   (** every other [RequestInit] member *)
}.

(** What [fetch] is called with. *)
Record sent_request : Type := mkSent {
  sent_url : string;
  sent_method : string;
  sent_headers : list (string * string);
  sent_rest : list (string * value);
  sent_body : option body;
  sent_timeout : Z
}.

Definition prepare (c : ApiClient) (b : browser) (endpoint : string) (o : RequestOptions) :
    sent_request :=
  let m := default "GET" (method o) in
  let url := buildUrl c endpoint (if String.eqb m "GET" then params o else []) in
  let hs := buildHeaders c b (headers o) in
  let '(hs', bd) :=
    if body_truthy (req_body o) && negb (String.eqb m "GET") then
      match req_body o with
      | Some (BodyFormData fd) => (assoc_del hs "Content-Type", Some (BodyFormData fd))
      | other => (hs, other)
      end
    else (hs, None) in
  mkSent url m hs' (fetchOptions o) bd (default TIMEOUT (timeout o)).

(** [requestOptions]: the [RequestInit] handed to [fetch]. *)
Definition requestOptions (s : sent_request) : request_init :=
  mkRequestInit (sent_method s) (sent_headers s) (sent_rest s) (sent_body s).

(** How the race of [fetch] against the timer settles. *)
Inductive fetch_outcome : Type :=
| Response (status : Z) (statusText : string) (json_body : option value)
                                    (** [None]: the body is not JSON *)
| FetchRejected (msg : string)      (** no response: DNS, connection, CORS *)
| TimedOut.

(** The response the caller gets: only [json()] is used by the endpoints. *)
Record response : Type := mkResponse { json : result value js_error }.

Definition is_ok (status : Z) : bool := (200 <=? status)%Z && (status <=? 299)%Z.

(** [handleFetchError]: the error thrown for a non-2xx response, and its side
    effects on the browser. *)
Definition handleFetchError (e : env) (b : browser) (status : Z) (statusText : string)
    (jb : option value) (url : string) (options : request_init) : browser * js_error :=
  let data := match jb with
              | Some v => v
              | None => JObj [("message", JStr statusText)]
              end in
  let err := ApiClientError ("HTTP " ++ show_Z status ++ ": " ++ statusText)
               (Some status) (Some url) (Some options) (Some data) None in
  let b1 := if (status =? 401)%Z
            then mkBrowser None "/login" (console b) (pending_timers b) else b in
  let b2 := if (status =? 403)%Z
            then mkBrowser (authToken b1) (location b1) ("Access denied" :: console b1)
                   (pending_timers b1)
            else b1 in
  let b3 := if DEV e
            then mkBrowser (authToken b2) (location b2) ("API Error:" :: console b2)
                   (pending_timers b2)
            else b2 in
  (b3, err).

Definition error_status (err : js_error) : option Z :=
  match err with ApiClientError _ st _ _ _ _ => st | _ => None end.

Definition error_message (err : js_error) : string :=
  match err with
  | TypeError m | SyntaxError m | PlainError m => m
  | ApiClientError m _ _ _ _ _ => m
  end.

(** The [catch] of [request]: an error without a truthy [status] is wrapped
    as a network error. *)
Definition rethrow (url : string) (options : request_init) (err : js_error) : js_error :=
  let enhancedError :=
    ApiClientError ("Network error: " ++ error_message err) None (Some url) (Some options) None
      (Some err) in
  match error_status err with
  | Some st => if (st =? 0)%Z then enhancedError else err
  | None => enhancedError
  end.

(** [createTimeoutPromise(timeout)]: a timer that will reject with
    [new Error("Request timeout")] after [timeout] milliseconds; nothing
    ever clears it. *)
Definition createTimeoutPromise (timeout : Z) (b : browser) : browser :=
  mkBrowser (authToken b) (location b) (console b)
    ((timeout, PlainError "Request timeout") :: pending_timers b).

(** [request(endpoint, options)] against the network [net]. *)
Definition request (e : env) (c : ApiClient) (net : sent_request -> fetch_outcome)
    (endpoint : string) (o : RequestOptions) (b : browser) :
    browser * result response js_error :=
  let s := prepare c b endpoint o in
  let opts := requestOptions s in
  let b0 := createTimeoutPromise (sent_timeout s) b in
  match net s with
  | TimedOut => (b0, Err (rethrow (sent_url s) opts (PlainError "Request timeout")))
  | FetchRejected msg => (b0, Err (rethrow (sent_url s) opts (TypeError msg)))
  | Response status statusText jb =>
      if is_ok status then
        (b0, Ok (mkResponse match jb with
                            | Some v => Ok (snakeToCamelCase v)
                            | None => Err (SyntaxError "Unexpected token in JSON")
                            end))
      else
        let '(b1, err) := handleFetchError e b0 status statusText jb (sent_url s) opts in
        (b1, Err (rethrow (sent_url s) opts err))
  end.

Definition options_of (m : string) (bd : option body) (o : RequestOptions) : RequestOptions :=
  mkRequestOptions (Some m) bd (headers o) (params o) (timeout o) (fetchOptions o).

Definition no_request_options : RequestOptions := mkRequestOptions None None [] [] None [].

Definition get e c net endpoint (o : RequestOptions) :=
  request e c net endpoint (options_of "GET" None o).
Definition post e c net endpoint (bd : option body) (o : RequestOptions) :=
  request e c net endpoint (options_of "POST" bd o).
Definition put e c net endpoint (bd : option body) (o : RequestOptions) :=
  request e c net endpoint (options_of "PUT" bd o).
Definition patch e c net endpoint (bd : option body) (o : RequestOptions) :=
  request e c net endpoint (options_of "PATCH" bd o).
Definition delete e c net endpoint (o : RequestOptions) :=
  request e c net endpoint (options_of "DELETE" None o).

(** [export const apiClient = new ApiClient()] *)
Definition apiClient (e : env) : ApiClient := new_ApiClient e no_options.

(** ** The query as the server reads it

    The URL standard's parser of [application/x-www-form-urlencoded] text:
    the query after the first ["?"] (up to a ["#"]) is split on ["&"], empty
    sequences are skipped, each sequence is split at its first ["="] into
    name and value, ["+"] reads as a space and [%XX] as the byte [XX], and
    the bytes are read as UTF-8 ([None] for a sequence that is not a code
    point below 256, outside the model's characters). *)
Fixpoint split_on (sep : ascii) (s : string) : list string :=
  match s with
  | EmptyString => [EmptyString]
  | String c s' =>
      if Ascii.eqb c sep then EmptyString :: split_on sep s'
      else match split_on sep s' with
           | w :: ws => String c w :: ws
           | [] => [String c EmptyString]
           end
  end.

Fixpoint break_at (sep : ascii) (s : string) : string * string :=
  match s with
  | EmptyString => (EmptyString, EmptyString)
  | String c s' =>
      if Ascii.eqb c sep then (EmptyString, s')
      else let '(a, b) := break_at sep s' in (String c a, b)
  end.

Definition hex_value (c : ascii) : option N :=
  let n := N_of_ascii c in
  if (48 <=? n)%N && (n <=? 57)%N then Some (n - 48)%N
  else if (65 <=? n)%N && (n <=? 70)%N then Some (n - 55)%N
  else if (97 <=? n)%N && (n <=? 102)%N then Some (n - 87)%N
  else None.

Fixpoint percent_decode (s : string) : list N :=
  match s with
  | EmptyString => []
  | String c s' =>
      if Ascii.eqb c "+" then 32%N :: percent_decode s'
      else if Ascii.eqb c "%" then
        match s' with
        | String h1 (String h2 s'') =>
            match hex_value h1, hex_value h2 with
            | Some a, Some b => (a * 16 + b)%N :: percent_decode s''
            | _, _ => 37%N :: percent_decode s'
            end
        | _ => 37%N :: percent_decode s'
        end
      else N_of_ascii c :: percent_decode s'
  end.

Fixpoint utf8_decode (bs : list N) : option string :=
  match bs with
  | [] => Some EmptyString
  | b :: bs' =>
      if (b <? 128)%N then option_map (String (ascii_of_N b)) (utf8_decode bs')
      else match bs' with
           | b2 :: bs'' =>
               if (194 <=? b)%N && (b <=? 195)%N && (128 <=? b2)%N && (b2 <? 192)%N
               then option_map (String (ascii_of_N ((b - 192) * 64 + (b2 - 128))))
                      (utf8_decode bs'')
               else None
           | [] => None
           end
  end.

Definition decode_component (s : string) : option string := utf8_decode (percent_decode s).

Fixpoint parse_sequences (ws : list string) : option (list (string * string)) :=
  match ws with
  | [] => Some []
  | w :: ws' =>
      if String.eqb w "" then parse_sequences ws'
      else let '(n, v) := break_at "=" w in
           match decode_component n, decode_component v, parse_sequences ws' with
           | Some n', Some v', Some ps => Some ((n', v') :: ps)
           | _, _, _ => None
           end
  end.

Definition parse_query (q : string) : option (list (string * string)) :=
  parse_sequences (split_on "&" q).

Definition query_of (url : string) : string := fst (break_at "#" (snd (break_at "?" url))).

(** A string without the character [sep]. *)
Definition free_of (sep : ascii) (s : string) : bool :=
  forallb (fun c => negb (Ascii.eqb c sep)) (list_ascii_of_string s).

(** A base URL or endpoint with neither a query nor a fragment. *)
Definition plain_url (s : string) : bool := free_of "?" s && free_of "#" s.

(** ** Sample inputs *)

Definition demo_env : env := mkEnv (Some "https://api.example.org") None false.
Definition demo_client : ApiClient := apiClient demo_env.
Definition demo_browser : browser := mkBrowser (Some "tok-1") "/patients/p1" [] [].

(** A server answering every request with status [st] and body [jb]. *)
Definition demo_net (st : Z) (jb : option value) : sent_request -> fetch_outcome :=
  fun _ => Response st "Status" jb.

Definition demo_sent : sent_request :=
  prepare demo_client demo_browser "/patients" no_request_options.

(** ** Properties *)

Section Request.
Context (e : env) (c : ApiClient) (net : sent_request -> fetch_outcome)
  (endpoint : string) (o : RequestOptions) (b : browser).

Let s := prepare c b endpoint o.

(** C10: a 401 answer clears the stored token, sends the page to [/login],
    and rejects with an error carrying status 401, the request URL and the
    answer's body (or [{message: statusText}] when it is not JSON). *)
Theorem request_unauthorized txt jb :
  net s = Response 401 txt jb ->
  let '(b', r) := request e c net endpoint o b in
  authToken b' = None /\ location b' = "/login" /\
  r = Err (ApiClientError ("HTTP 401: " ++ txt) (Some 401%Z) (Some (sent_url s))
             (Some (requestOptions s)) (Some (default (JObj [("message", JStr txt)]) jb)) None).
Proof.
  intros Hn. unfold request. fold s. rewrite Hn. simpl.
  destruct (DEV e); simpl; (split; [done|split; [done|]]); by destruct jb.
Qed.

(** C11: any other non-2xx answer with a non-zero status rejects with that
    status, the URL and the body, and leaves the stored token and the page
    where they were. *)
Theorem request_http_error st txt jb :
  net s = Response st txt jb -> is_ok st = false -> st <> 0%Z -> st <> 401%Z ->
  let '(b', r) := request e c net endpoint o b in
  authToken b' = authToken b /\ location b' = location b /\
  r = Err (ApiClientError ("HTTP " ++ show_Z st ++ ": " ++ txt) (Some st) (Some (sent_url s))
             (Some (requestOptions s)) (Some (default (JObj [("message", JStr txt)]) jb)) None).
Proof.
  intros Hn Hok H0 H401. unfold request. fold s. rewrite Hn, Hok. simpl.
  rewrite (proj2 (Z.eqb_neq st 401) H401).
  unfold rethrow. simpl. rewrite (proj2 (Z.eqb_neq st 0) H0).
  destruct (st =? 403)%Z, (DEV e); simpl; (split; [done|split; [done|]]); by destruct jb.
Qed.

(** When the timer wins the race the call rejects with a network error
    that has no status (so it cannot be mistaken for an HTTP error) and
    wraps the timeout error. *)
Theorem request_timeout :
  net s = TimedOut ->
  snd (request e c net endpoint o b) =
  Err (ApiClientError "Network error: Request timeout" None (Some (sent_url s))
         (Some (requestOptions s)) None
         (Some (PlainError "Request timeout"))).
Proof. intros Hn. unfold request. fold s. by rewrite Hn. Qed.

(** A response with status 0 (an opaque response) is not reported as an
    HTTP error: the falsy status makes the catch block re-wrap it as a
    network error without status. *)
Theorem request_status_zero txt jb :
  net s = Response 0 txt jb ->
  exists msg orig, snd (request e c net endpoint o b) =
                   Err (ApiClientError msg None (Some (sent_url s))
                                           (Some (requestOptions s)) None (Some orig)).
Proof.
  intros Hn. unfold request. fold s. rewrite Hn. simpl.
  destruct (DEV e); simpl; eauto.
Qed.

(** A 2xx answer's [json()] is the body with every key converted to camel
    case. *)
Lemma request_ok_response st txt v :
  net s = Response st txt (Some v) -> is_ok st = true ->
  snd (request e c net endpoint o b) = Ok (mkResponse (Ok (snakeToCamelCase v))).
Proof. intros Hn Hok. unfold request. fold s. by rewrite Hn, Hok. Qed.

(** C14: whatever the network answers, a successful call's [json()] yields a
    value of the client's data types: JSON without [Date]s, objects with
    distinct keys, every key in camel case. *)
Theorem request_json_type r v :
  snd (request e c net endpoint o b) = Ok r -> json r = Ok v -> camel_json v = true.
Proof.
  unfold request. intros Hr Hj.
  repeat case_match; simplify_eq/=; apply snakeToCamelCase_camel_json.
Qed.

Lemma request_timers :
  length (pending_timers (fst (request e c net endpoint o b))) = S (length (pending_timers b)).
Proof.
  unfold request. destruct (net _) as [st txt jb| |]; simpl; [|done|done].
  destruct (is_ok st); [done|]. simpl.
  destruct (st =? 401)%Z, (st =? 403)%Z, (DEV e); done.
Qed.
End Request.

(** Requests issued one after the other, each seeing the browser state the
    previous one left. *)
Fixpoint run_requests (e : env) (c : ApiClient) (net : sent_request -> fetch_outcome)
    (rs : list (string * RequestOptions)) (b : browser) : browser :=
  match rs with
  | [] => b
  | (ep, o) :: rs' => run_requests e c net rs' (fst (request e c net ep o b))
  end.

(** The race timer is never cleared: after [n] requests, whatever their
    outcomes, [n] more timers are pending. *)
Theorem timers_leak e c net rs b :
  length (pending_timers (run_requests e c net rs b)) = length rs + length (pending_timers b).
Proof.
  revert b. induction rs as [|[ep o] rs IH]; intros b; simpl; [done|].
  rewrite IH, request_timers. lia.
Qed.

(** The request actually sent: query parameters reach the URL only for
    GET; a stored non-empty token always yields the bearer header, over any
    header of the caller; a [FormData] body is sent without a
    [Content-Type] header. *)
Theorem prepare_spec c b endpoint o :
  let s := prepare c b endpoint o in
  (default "GET" (method o) <> "GET" -> sent_url s = buildUrl c endpoint []) /\
  (forall t, authToken b = Some t -> t <> "" ->
     assoc_get (sent_headers s) "Authorization" = Some ("Bearer " ++ t)) /\
  (forall fd, req_body o = Some (BodyFormData fd) -> default "GET" (method o) <> "GET" ->
     assoc_get (sent_headers s) "Content-Type" = None /\ sent_body s = Some (BodyFormData fd)).
Proof.
  intros s. unfold s, prepare. split; [|split].
  - intros Hm. destruct (String.eqb_spec (default "GET" (method o)) "GET"); [done|].
    by destruct (_ && _), (req_body o) as [[]|].
  - intros t Ht Hne.
    assert (Hauth : assoc_get (buildHeaders c b (headers o)) "Authorization" = Some ("Bearer " ++ t)).
    { unfold buildHeaders, truthy_str. rewrite Ht.
      destruct (String.eqb_spec t ""); [done|]. simpl. apply assoc_get_set_eq. }
    destruct (_ && _), (req_body o) as [[]|]; simpl; try done.
    rewrite assoc_get_del_ne by done. done.
  - intros fd Hb Hm. rewrite Hb. simpl.
    destruct (String.eqb_spec (default "GET" (method o)) "GET"); [done|]. simpl.
    split; [apply assoc_get_del_eq|done].
Qed.

(** ** Query parameters *)

Lemma percent_decode_encode_char c s :
  percent_decode (encode_char c ++ s) = (utf8_bytes c ++ percent_decode s)%list.
Proof. destruct c as [[] [] [] [] [] [] [] []]; reflexivity. Qed.

Lemma utf8_decode_char c bs :
  utf8_decode (utf8_bytes c ++ bs)%list = option_map (String c) (utf8_decode bs).
Proof. destruct c as [[] [] [] [] [] [] [] []]; reflexivity. Qed.

Lemma decode_form_urlencode s : decode_component (form_urlencode s) = Some s.
Proof.
  unfold decode_component. induction s as [|c s IH]; [done|]. cbn [form_urlencode].
  rewrite percent_decode_encode_char, utf8_decode_char, IH. done.
Qed.

Lemma free_of_app sep x y : free_of sep (x ++ y) = free_of sep x && free_of sep y.
Proof. unfold free_of. by rewrite list_ascii_of_string_app, forallb_app. Qed.

(** No ["&"], ["="] or ["#"]: the serialiser escapes all three. *)
Definition enc_free (s : string) : bool := free_of "&" s && free_of "=" s && free_of "#" s.

Lemma enc_free_app x y : enc_free (x ++ y) = enc_free x && enc_free y.
Proof.
  unfold enc_free. rewrite !free_of_app.
  by destruct (free_of "&" x), (free_of "&" y), (free_of "=" x), (free_of "=" y),
    (free_of "#" x), (free_of "#" y).
Qed.

Lemma enc_free_split s : enc_free s = true ->
  free_of "&" s = true /\ free_of "=" s = true /\ free_of "#" s = true.
Proof. unfold enc_free. intros H. apply andb_true_iff in H as [H H3]. by apply andb_true_iff in H as [H1 H2]. Qed.

Lemma encode_char_free c : enc_free (encode_char c) = true.
Proof. destruct c as [[] [] [] [] [] [] [] []]; reflexivity. Qed.

Lemma form_urlencode_free s : enc_free (form_urlencode s) = true.
Proof.
  induction s as [|c s IH]; [done|]. cbn [form_urlencode].
  by rewrite enc_free_app, encode_char_free, IH.
Qed.

Lemma split_on_free sep x y :
  free_of sep x = true -> split_on sep (x ++ String sep y) = x :: split_on sep y.
Proof.
  induction x as [|c x IH]; intros Hx.
  - change (EmptyString ++ String sep y) with (String sep y). cbn [split_on].
    by rewrite Ascii.eqb_refl.
  - change (String c x ++ String sep y) with (String c (x ++ String sep y)). cbn [split_on].
    unfold free_of in Hx. cbn in Hx. apply andb_true_iff in Hx as [Hc Hx].
    apply negb_true_iff in Hc. rewrite Hc, IH; done.
Qed.

Lemma split_on_free_end sep x : free_of sep x = true -> split_on sep x = [x].
Proof.
  induction x as [|c x IH]; intros Hx; [done|]. unfold free_of in Hx. cbn [list_ascii_of_string forallb] in Hx. cbn [split_on break_at].
  apply andb_true_iff in Hx as [Hc Hx]. apply negb_true_iff in Hc. rewrite Hc, IH; done.
Qed.

Lemma break_at_free sep x y : free_of sep x = true -> break_at sep (x ++ String sep y) = (x, y).
Proof.
  induction x as [|c x IH]; intros Hx.
  - change (EmptyString ++ String sep y) with (String sep y). cbn [break_at].
    by rewrite Ascii.eqb_refl.
  - change (String c x ++ String sep y) with (String c (x ++ String sep y)). cbn [break_at].
    unfold free_of in Hx. cbn in Hx. apply andb_true_iff in Hx as [Hc Hx].
    apply negb_true_iff in Hc. rewrite Hc, IH; done.
Qed.

Lemma break_at_free_end sep x : free_of sep x = true -> break_at sep x = (x, EmptyString).
Proof.
  induction x as [|c x IH]; intros Hx; [done|]. unfold free_of in Hx. cbn [list_ascii_of_string forallb] in Hx. cbn [split_on break_at].
  apply andb_true_iff in Hx as [Hc Hx]. apply negb_true_iff in Hc. rewrite Hc, IH; done.
Qed.

(** One encoded pair is read back as the pair. *)
Lemma parse_pair k v ws :
  parse_sequences ((form_urlencode k ++ "=" ++ form_urlencode v) :: ws) =
  option_map (cons (k, v)) (parse_sequences ws).
Proof.
  destruct (enc_free_split _ (form_urlencode_free k)) as (_ & Hk & _).
  cbn [parse_sequences]. replace (String.eqb _ "") with false by (by destruct (form_urlencode k)).
  change ("=" ++ form_urlencode v) with (String "=" (form_urlencode v)).
  rewrite break_at_free by done. rewrite !decode_form_urlencode.
  by destruct (parse_sequences ws).
Qed.

Lemma join_query_free qs : free_of "#" (join_query qs) = true.
Proof.
  induction qs as [|[k v] qs IH]; [done|].
  destruct (enc_free_split _ (form_urlencode_free k)) as (_ & _ & Hk).
  destruct (enc_free_split _ (form_urlencode_free v)) as (_ & _ & Hv).
  destruct qs as [|q qs]; [cbn [join_query]; by rewrite !free_of_app, Hk, Hv|].
  change (join_query ((k, v) :: q :: qs)) with
    (form_urlencode k ++ "=" ++ form_urlencode v ++ "&" ++ join_query (q :: qs)).
  by rewrite !free_of_app, Hk, Hv, IH.
Qed.

(** The pairs joined by ["&"] contain no ["&"] but the separators. *)
Lemma pair_free_amp k v : free_of "&" (form_urlencode k ++ "=" ++ form_urlencode v) = true.
Proof.
  destruct (enc_free_split _ (form_urlencode_free k)) as (Hk & _).
  destruct (enc_free_split _ (form_urlencode_free v)) as (Hv & _).
  by rewrite !free_of_app, Hk, Hv.
Qed.

Lemma parse_join_query qs : parse_query (join_query qs) = Some qs.
Proof.
  unfold parse_query. induction qs as [|[k v] qs IH]; [done|].
  destruct qs as [|q qs].
  - cbn [join_query]. rewrite split_on_free_end by apply pair_free_amp. by rewrite parse_pair.
  - change (join_query ((k, v) :: q :: qs)) with
      (form_urlencode k ++ "=" ++ form_urlencode v ++ String "&" (join_query (q :: qs))).
    rewrite <- !string_app_assoc, split_on_free by (rewrite !string_app_assoc; apply pair_free_amp).
    by rewrite !string_app_assoc, parse_pair, IH.
Qed.

(** C13: every query parameter reaches the server as the caller gave it.
    On a base URL and endpoint without ["?"] or ["#"], the URL standard's
    [application/x-www-form-urlencoded] parser reads the query of
    [buildUrl]'s URL back as exactly the defined parameters, in order, with
    their [String()] values, whatever characters they hold ([&], [=], [+],
    [%], spaces, accented letters). *)
Theorem buildUrl_query_roundtrip c endpoint ps :
  plain_url (baseURL c) = true -> plain_url endpoint = true ->
  parse_query (query_of (buildUrl c endpoint ps)) = Some (query_pairs ps).
Proof.
  unfold plain_url. intros Hc He.
  assert (Hb : free_of "?" (if String.prefix "http" endpoint then endpoint else baseURL c ++ endpoint) = true)
    by (destruct (String.prefix _ _); [|rewrite free_of_app]; repeat rewrite andb_true_iff in *; naive_solver).
  unfold buildUrl, query_of. cbv zeta. revert Hb.
  generalize (if String.prefix "http" endpoint then endpoint else baseURL c ++ endpoint).
  intros base Hb. destruct (query_pairs ps) as [|q qs].
  - by rewrite (break_at_free_end "?" base Hb).
  - change ("?" ++ join_query (q :: qs)) with (String "?" (join_query (q :: qs))).
    rewrite (break_at_free "?" base _ Hb). cbn [snd fst].
    rewrite (break_at_free_end "#" _ (join_query_free _)).
    apply parse_join_query.
Qed.

(** ** Witnesses *)

Lemma request_unauthorized_witness :
  let '(b', r) := request demo_env demo_client (demo_net 401 None) "/patients"
                    no_request_options demo_browser in
  authToken b' = None /\ location b' = "/login" /\
  r = Err (ApiClientError ("HTTP 401: " ++ "Status") (Some 401%Z) (Some (sent_url demo_sent))
             (Some (requestOptions demo_sent)) (Some (default (JObj [("message", JStr "Status")]) None)) None).
Proof.
  apply (request_unauthorized demo_env demo_client (demo_net 401 None) "/patients"
           no_request_options demo_browser "Status" None).
  reflexivity.
Defined.

Lemma request_http_error_witness :
  let '(b', r) := request demo_env demo_client (demo_net 404 None) "/patients"
                    no_request_options demo_browser in
  authToken b' = authToken demo_browser /\ location b' = location demo_browser /\
  r = Err (ApiClientError ("HTTP " ++ show_Z 404 ++ ": " ++ "Status") (Some 404%Z)
             (Some (sent_url demo_sent)) (Some (requestOptions demo_sent))
             (Some (default (JObj [("message", JStr "Status")]) None)) None).
Proof.
  apply (request_http_error demo_env demo_client (demo_net 404 None) "/patients"
           no_request_options demo_browser 404 "Status" None);
    [reflexivity|reflexivity|discriminate|discriminate].
Defined.

Lemma request_timeout_witness :
  snd (request demo_env demo_client (fun _ => TimedOut) "/patients" no_request_options
         demo_browser) =
  Err (ApiClientError "Network error: Request timeout" None (Some (sent_url demo_sent))
         (Some (requestOptions demo_sent)) None
         (Some (PlainError "Request timeout"))).
Proof.
  apply (request_timeout demo_env demo_client (fun _ => TimedOut) "/patients"
           no_request_options demo_browser).
  reflexivity.
Defined.

Lemma request_status_zero_witness :
  exists msg orig, snd (request demo_env demo_client (demo_net 0 None) "/patients"
                          no_request_options demo_browser) =
                   Err (ApiClientError msg None (Some (sent_url demo_sent))
                                     (Some (requestOptions demo_sent)) None (Some orig)).
Proof.
  apply (request_status_zero demo_env demo_client (demo_net 0 None) "/patients"
           no_request_options demo_browser "Status" None).
  reflexivity.
Defined.

Lemma request_json_type_witness :
  camel_json (JObj [("patientId", JStr "p1"); ("firstName", JStr "Ann")]) = true.
Proof.
  apply (request_json_type demo_env demo_client
           (demo_net 200 (Some (JObj [("patient_id", JStr "p1"); ("first_name", JStr "Ann")])))
           "/patients" no_request_options demo_browser
           (mkResponse (Ok (JObj [("patientId", JStr "p1"); ("firstName", JStr "Ann")]))));
    vm_compute; reflexivity.
Defined.

Lemma buildUrl_query_roundtrip_witness :
  parse_query (query_of (buildUrl demo_client "/patients"
    [("q", PStr "a&b=c d%+é"); ("page", PNum 3); ("skip", PNone); ("all", PBool true)])) =
  Some [("q", "a&b=c d%+é"); ("page", "3"); ("all", "true")].
Proof.
  apply (buildUrl_query_roundtrip demo_client "/patients"
    [("q", PStr "a&b=c d%+é"); ("page", PNum 3); ("skip", PNone); ("all", PBool true)]);
    vm_compute; reflexivity.
Defined.
