(* ===== verification/Endpoints.v ===== *)
(** * Resource endpoints ([src/src/api/endpoints/*.ts], [src/src/api/patients.ts])

    The request payload types of [src/src/types/api.ts], the JSON bodies the
    client sends for them (keys as authored, in snake case), and one function
    per endpoint: the path and method, the call to the transport of
    [ApiClient] (through the exported [apiClient] singleton), and the
    [response.json()] that follows.  Every endpoint threads the browser state
    and returns the JSON value or the error the transport or the JSON parse
    threw.  [getPatientMedicationAdministrations] also unwraps the
    [administrations] field.

    The theorem: [getPatientMedicationAdministrations] returns [[]] for a
    body without an [administrations] array but throws a [TypeError] on a
    [null] body. *)

From S2P Require Import Prelude Json CaseTransform ApiClient.
Local Open Scope string_scope.

(** ** Payload types *)

Module CreatePatientData.
Record t : Type := mk { firstName : string; lastName : string; dateOfBirth : date }.
Definition to_json (d : t) : value :=
  JObj [("firstName", JStr (firstName d)); ("lastName", JStr (lastName d));
        ("dateOfBirth", JDate (dateOfBirth d))].
End CreatePatientData.

Module CreateMedicationData.
Record t : Type := mk {
  patient_id : string; name : string; generic_name : string; strength : string;
  unit : string; form : string; dosage_amount : Z; frequency_per_day : Z;
  special_instructions : string; is_active : bool
}.
Definition to_json (d : t) : value :=
  JObj [("patient_id", JStr (patient_id d)); ("name", JStr (name d));
        ("generic_name", JStr (generic_name d)); ("strength", JStr (strength d));
        ("unit", JStr (unit d)); ("form", JStr (form d));
        ("dosage_amount", JNum (dosage_amount d));
        ("frequency_per_day", JNum (frequency_per_day d));
        ("special_instructions", JStr (special_instructions d));
        ("is_active", JBool (is_active d))].
End CreateMedicationData.

Module UpdateMedicationData.
(** The interface declares [dosage_amount] and [frequency_per_day] as
    numbers, but nothing checks it at run time: the page passes the
    record's values as they are (the repository's test fixture has
    [dosageAmount: "1.00"], and [types/api.ts] itself declares
    [dosage_amount: string] in two other interfaces), so the two fields are
    any JSON value. *)
Record t : Type := mk {
  medication_id : string; patient_id : string; name : string; generic_name : string;
  strength : string; unit : string; form : string; dosage_amount : value;
  frequency_per_day : value; is_active : bool; special_instructions : string
}.
Definition to_json (d : t) : value :=
  JObj [("medication_id", JStr (medication_id d)); ("patient_id", JStr (patient_id d));
        ("name", JStr (name d)); ("generic_name", JStr (generic_name d));
        ("strength", JStr (strength d)); ("unit", JStr (unit d)); ("form", JStr (form d));
        ("dosage_amount", dosage_amount d);
        ("frequency_per_day", frequency_per_day d);
        ("is_active", JBool (is_active d));
        ("special_instructions", JStr (special_instructions d))].
End UpdateMedicationData.

Module CreateMedicationScheduleData.
Record t : Type := mk {
  medication_id : string; day_of_week : Z; time_of_day : string; is_active : bool
}.
Definition to_json (d : t) : value :=
  JObj [("medication_id", JStr (medication_id d)); ("day_of_week", JNum (day_of_week d));
        ("time_of_day", JStr (time_of_day d)); ("is_active", JBool (is_active d))].
End CreateMedicationScheduleData.

Module CreateMedicationAdministrationData.
Record t : Type := mk {
  medication_id : string; scheduled_datetime : string; actual_datetime : string;
  administered_by : string; notes : string
}.
Definition to_json (d : t) : value :=
  JObj [("medication_id", JStr (medication_id d));
        ("scheduled_datetime", JStr (scheduled_datetime d));
        ("actual_datetime", JStr (actual_datetime d));
        ("administered_by", JStr (administered_by d)); ("notes", JStr (notes d))].
End CreateMedicationAdministrationData.

(** ** Calling the transport *)

(** The deployment, the network and the browser state every endpoint runs in. *)
Record ctx : Type := mkCtx {
  cx_env : env;
  cx_net : sent_request -> fetch_outcome
}.

Definition T (A : Type) : Type := browser -> browser * result A js_error.

(** [const response = await apiClient.<m>(...); return response.json();] *)
Definition json_of (r : browser * result response js_error) : browser * result value js_error :=
  (fst r, rbind (snd r) json).

Definition GET (cx : ctx) (path : string) : T value := fun b =>
  json_of (get (cx_env cx) (apiClient (cx_env cx)) (cx_net cx) path no_request_options b).

Definition POST (cx : ctx) (path : string) (v : value) : T value := fun b =>
  json_of (post (cx_env cx) (apiClient (cx_env cx)) (cx_net cx) path (Some (BodyJson v))
             no_request_options b).

Definition PUT (cx : ctx) (path : string) (v : value) : T value := fun b =>
  json_of (put (cx_env cx) (apiClient (cx_env cx)) (cx_net cx) path (Some (BodyJson v))
             no_request_options b).

(** ** The endpoints *)

Module patientsEndpoints.
Definition getPatients cx : T value := GET cx "/patients".
Definition getPatientById cx (id : string) : T value := GET cx ("/patients/" ++ id).
Definition createPatient cx (d : CreatePatientData.t) : T value :=
  POST cx "/patients" (CreatePatientData.to_json d).
Definition getPatientMedications cx (patientId : string) : T value :=
  GET cx ("/patients/" ++ patientId ++ "/medications").
Definition getPatientMedicationSchedules cx (patientId : string) : T value :=
  GET cx ("/patients/" ++ patientId ++ "/medication-schedules").
End patientsEndpoints.

Module medicationsEndpoints.
Definition createMedication cx (d : CreateMedicationData.t) : T value :=
  POST cx "/medications" (CreateMedicationData.to_json d).
Definition updateMedication cx (d : UpdateMedicationData.t) : T value :=
  PUT cx ("/medications/" ++ UpdateMedicationData.medication_id d)
    (UpdateMedicationData.to_json d).
End medicationsEndpoints.

Module medicationSchedulesEndpoints.
Definition createMedicationSchedule cx (d : CreateMedicationScheduleData.t) : T value :=
  POST cx "/medication-schedules" (CreateMedicationScheduleData.to_json d).
(** [const payload = { schedules: schedulesData }] *)
Definition createMedicationSchedulesBulk cx (ds : list CreateMedicationScheduleData.t) :
    T value :=
  POST cx "/medication-schedules/bulk"
    (JObj [("schedules", JArr (map CreateMedicationScheduleData.to_json ds))]).
End medicationSchedulesEndpoints.

Module medicationAdministrationEndpoints.
Definition createMedicationAdministration cx (d : CreateMedicationAdministrationData.t) :
    T value :=
  POST cx "/medication-administrations" (CreateMedicationAdministrationData.to_json d).

(** [data.administrations] (a [TypeError] on a [null] body), then
    [Array.isArray(administrations) ? administrations : []]; the [catch]
    logs and rethrows. *)
Definition unwrap_administrations (data : value) : result (list value) js_error :=
  rbind (member data "administrations") (fun a =>
    Ok (match a with Some (JArr xs) => xs | _ => [] end)).

Definition getPatientMedicationAdministrations cx (patientId : string) : T (list value) :=
  fun b =>
    let '(b1, r) := GET cx ("/patients/" ++ patientId ++ "/medication-administrations") b in
    match rbind r unwrap_administrations with
    | Ok xs => (b1, Ok xs)
    | Err err =>
        (mkBrowser (authToken b1) (location b1)
           ("medication-administrations API - Error occurred:" :: console b1)
           (pending_timers b1), Err err)
    end.
End medicationAdministrationEndpoints.

(** [src/src/api/patients.ts]: the same paths, returning the raw response. *)
Module patientsAPI.
Definition getAll cx b := get (cx_env cx) (apiClient (cx_env cx)) (cx_net cx) "/patients"
                            no_request_options b.
Definition getById cx (id : string) b :=
  get (cx_env cx) (apiClient (cx_env cx)) (cx_net cx) ("/patients/" ++ id) no_request_options b.
Definition create cx (d : CreatePatientData.t) b :=
  post (cx_env cx) (apiClient (cx_env cx)) (cx_net cx) "/patients"
    (Some (BodyJson (CreatePatientData.to_json d))) no_request_options b.
Definition getMedications cx (patientId : string) b :=
  get (cx_env cx) (apiClient (cx_env cx)) (cx_net cx) ("/patients/" ++ patientId ++ "/medications")
    no_request_options b.
End patientsAPI.

(** ** Properties *)

(** The request [GET path] sends from browser state [b]. *)
Definition get_request (cx : ctx) (path : string) (b : browser) : sent_request :=
  prepare (apiClient (cx_env cx)) b path (options_of "GET" None no_request_options).

Lemma GET_ok cx path b st txt v :
  cx_net cx (get_request cx path b) = Response st txt (Some v) -> is_ok st = true ->
  snd (GET cx path b) = Ok (snakeToCamelCase v).
Proof. intros Hn Hok. unfold GET, get, json_of. by rewrite (request_ok_response _ _ _ _ _ _ st txt v Hn Hok). Qed.

(** C28: [getPatientMedicationAdministrations] on a 2xx JSON answer: any
    non-null body yields a list (never a shape error); [{}] yields [[]]; an
    [administrations] array is returned converted to camel case; and a [null]
    body makes the endpoint throw a [TypeError], where the spec promises an
    empty list for any shape mismatch. *)
Theorem getPatientMedicationAdministrations_unwrap cx pid b st txt :
  let path := "/patients/" ++ pid ++ "/medication-administrations" in
  let s := get_request cx path b in
  is_ok st = true ->
  (forall v, cx_net cx s = Response st txt (Some v) -> v <> JNull ->
     exists xs, snd (medicationAdministrationEndpoints.getPatientMedicationAdministrations cx pid b)
                = Ok xs) /\
  (cx_net cx s = Response st txt (Some (JObj [])) ->
     snd (medicationAdministrationEndpoints.getPatientMedicationAdministrations cx pid b) = Ok []) /\
  (forall xs, cx_net cx s = Response st txt (Some (JObj [("administrations", JArr xs)])) ->
     snd (medicationAdministrationEndpoints.getPatientMedicationAdministrations cx pid b)
     = Ok (map snakeToCamelCase xs)) /\
  (cx_net cx s = Response st txt (Some JNull) ->
     exists msg, snd (medicationAdministrationEndpoints.getPatientMedicationAdministrations cx pid b)
                 = Err (TypeError msg)).
Proof.
  intros path s Hok.
  assert (Hget : forall v, cx_net cx s = Response st txt (Some v) ->
            medicationAdministrationEndpoints.getPatientMedicationAdministrations cx pid b =
            let '(b1, _) := GET cx path b in
            match medicationAdministrationEndpoints.unwrap_administrations (snakeToCamelCase v) with
            | Ok xs => (b1, Ok xs)
            | Err err => (mkBrowser (authToken b1) (location b1)
                            ("medication-administrations API - Error occurred:" :: console b1)
                            (pending_timers b1), Err err)
            end).
  { intros v Hn. unfold medicationAdministrationEndpoints.getPatientMedicationAdministrations.
    fold path. destruct (GET cx path b) as [b1 r] eqn:E.
    pose proof (GET_ok cx path b st txt v Hn Hok) as Hr. rewrite E in Hr. simpl in Hr. by subst r. }
  split; [|split; [|split]].
  - intros v Hn Hv. rewrite (Hget v Hn). destruct (GET cx path b).
    destruct v; try done; simpl; eauto.
  - intros Hn. rewrite (Hget _ Hn). by destruct (GET cx path b).
  - intros xs Hn. rewrite (Hget _ Hn). by destruct (GET cx path b).
  - intros Hn. rewrite (Hget _ Hn). destruct (GET cx path b). simpl. eauto.
Qed.

(** ** Witnesses *)

Lemma getPatientMedicationAdministrations_unwrap_witness :
  snd (medicationAdministrationEndpoints.getPatientMedicationAdministrations
         (mkCtx demo_env (demo_net 200 (Some (JObj [])))) "p1" demo_browser) = Ok [] /\
  exists msg, snd (medicationAdministrationEndpoints.getPatientMedicationAdministrations
                     (mkCtx demo_env (demo_net 200 (Some JNull))) "p1" demo_browser) =
              Err (TypeError msg).
Proof.
  split.
  - apply (getPatientMedicationAdministrations_unwrap
             (mkCtx demo_env (demo_net 200 (Some (JObj [])))) "p1" demo_browser 200 "Status");
      reflexivity.
  - apply (getPatientMedicationAdministrations_unwrap
             (mkCtx demo_env (demo_net 200 (Some JNull))) "p1" demo_browser 200 "Status");
      reflexivity.
Defined.
