(* ===== verification/ApiTypes.v ===== *)
(** * The declared response types against the data the client delivers
    ([src/src/types/api.ts])

    The endpoints annotate their results with the interfaces of
    [types/api.ts] ([Promise<Patient>], [Promise<MedicationSchedulesResponse>],
    ...), but TypeScript does not check JSON at run time: what a caller gets
    is whatever [ApiClient.request] made of the body, that is
    [snakeToCamelCase] of parsed JSON.  This file gives the interfaces a
    meaning as types of JS values ([ty], [has_type]: structural, extra
    properties allowed, [number] as the model's integers) and compares them
    with that data.

    [never_clean] is a decision procedure: a type with a required field of
    type [Date], or a required field whose name is not in camel case, has no
    inhabitant among JSON values with camel-case keys.  The theorem (C29) is
    that seven of the declared response types are never met by a response,
    and that [PatientsResponse] is met only with an empty [patients] list;
    [Medication] and [MedicationSchedule] are met (the example below). *)

From S2P Require Import Prelude Json CaseTransform ApiClient.
Local Open Scope string_scope.

(** ** Types of JS values *)

Unset Elimination Schemes.
Inductive ty : Type :=
| TString
| TNumber
| TBoolean
| TDate
| TArray (t : ty)
| TObject (fs : list (string * ty))   (** an interface: its required properties *)
| TIndex (t : ty).                    (** an index signature [{[key: string]: t}] *)
Set Elimination Schemes.

(** Induction through the properties of an interface. *)
Definition ty_ind (P : ty -> Prop)
    (fs : P TString) (fn : P TNumber) (fb : P TBoolean) (fd : P TDate)
    (fa : forall t, P t -> P (TArray t))
    (fo : forall fs, Forall (fun kt => P kt.2) fs -> P (TObject fs))
    (fi : forall t, P t -> P (TIndex t)) : forall t, P t :=
  fix F (t : ty) : P t :=
    match t with
    | TString => fs
    | TNumber => fn
    | TBoolean => fb
    | TDate => fd
    | TArray t' => fa t' (F t')
    | TObject l =>
        fo l ((fix G (l : list (string * ty)) : Forall (fun kt => P kt.2) l :=
                 match l with
                 | [] => Forall_nil_2 _
                 | kt :: l' => Forall_cons_2 _ _ _ (F kt.2) (G l')
                 end) l)
    | TIndex t' => fi t' (F t')
    end.

(** [v] is a value of type [t]. *)
Fixpoint has_type (t : ty) (v : value) : bool :=
  match t with
  | TString => match v with JStr _ => true | _ => false end
  | TNumber => match v with JNum _ => true | _ => false end
  | TBoolean => match v with JBool _ => true | _ => false end
  | TDate => match v with JDate _ => true | _ => false end
  | TArray t' => match v with JArr xs => forallb (has_type t') xs | _ => false end
  | TObject fs =>
      match v with
      | JObj _ =>
          (fix go (fs : list (string * ty)) : bool :=
             match fs with
             | [] => true
             | (k, t') :: fs' =>
                 match get_prop v k with Some x => has_type t' x | None => false end && go fs'
             end) fs
      | _ => false
      end
  | TIndex t' => match v with JObj kvs => forallb (fun kv => has_type t' kv.2) kvs | _ => false end
  end.

(** A required [Date] property, or a required property whose name a
    converted response cannot have, at any depth of required properties. *)
Fixpoint never_clean (t : ty) : bool :=
  match t with
  | TDate => true
  | TObject fs =>
      (fix go (fs : list (string * ty)) : bool :=
         match fs with
         | [] => false
         | (k, t') :: fs' => negb (camel_clean k) || never_clean t' || go fs'
         end) fs
  | _ => false
  end.

(** What a converted response is: JSON (no [Date]), camel-case keys. *)
Definition clean (v : value) : bool := is_json v && keys_all camel_clean v.

(** ** The interfaces of [types/api.ts] *)

Module Types.

Definition Patient : ty :=
  TObject [("patientId", TString); ("firstName", TString); ("lastName", TString);
           ("dateOfBirth", TDate); ("createdAt", TString); ("updatedAt", TString)].

Definition PatientsResponse : ty :=
  TObject [("message", TString); ("count", TNumber); ("patients", TArray Patient)].

Definition Medication : ty :=
  TObject [("medicationId", TString); ("patientId", TString); ("name", TString);
           ("genericName", TString); ("strength", TString); ("unit", TString);
           ("form", TString); ("dosageAmount", TNumber); ("frequencyPerDay", TNumber);
           ("specialInstructions", TString); ("isActive", TBoolean);
           ("createdAt", TString); ("updatedAt", TString)].

Definition MedicationsResponse : ty :=
  TObject [("message", TString); ("count", TNumber); ("medications", TArray Medication)].

Definition MedicationSchedule_fields : list (string * ty) :=
  [("scheduleId", TString); ("dayOfWeek", TNumber); ("timeOfDay", TString);
   ("isActive", TNumber); ("createdAt", TString); ("updatedAt", TString)].

Definition MedicationSchedule : ty := TObject MedicationSchedule_fields.

(** [interface MedicationScheduleWithDetails extends MedicationSchedule] *)
Definition MedicationScheduleWithDetails : ty :=
  TObject (MedicationSchedule_fields ++
    [("medication_id", TString); ("medication_name", TString); ("generic_name", TString);
     ("strength", TString); ("unit", TString); ("form", TString);
     ("dosage_amount", TString); ("frequency_per_day", TNumber);
     ("special_instructions", TString)]).

Definition MedicationWithSchedules : ty :=
  TObject [("medicationId", TString); ("medicationName", TString); ("genericName", TString);
           ("strength", TString); ("unit", TString); ("form", TString);
           ("dosageAmount", TString); ("frequencyPerDay", TNumber);
           ("specialInstructions", TString); ("schedules", TArray MedicationSchedule)].

Definition PatientScheduleSummary : ty :=
  TObject [("patient_id", TString); ("first_name", TString); ("last_name", TString);
           ("date_of_birth", TString)].

Definition ScheduleSummary : ty :=
  TObject [("total_schedules", TNumber); ("active_schedules", TNumber);
           ("inactive_schedules", TNumber); ("medications_count", TNumber);
           ("total_daily_doses", TNumber)].

Definition SchedulesByDay : ty := TIndex (TArray MedicationScheduleWithDetails).

Definition MedicationSchedulesResponse : ty :=
  TObject [("message", TString); ("patient", PatientScheduleSummary);
           ("summary", ScheduleSummary);
           ("schedulesByMedication", TArray MedicationWithSchedules);
           ("schedulesByDay", SchedulesByDay);
           ("allSchedules", TArray MedicationScheduleWithDetails); ("count", TNumber)].

Definition MedicationAdministration : ty :=
  TObject [("medicationId", TString); ("scheduledDateTime", TDate);
           ("actualDateTime", TDate); ("administeredBy", TString); ("notes", TString)].

Definition MedicationAdministrationResponse : ty :=
  TObject [("administrationId", TString); ("medicationId", TString);
           ("scheduledDateTime", TDate); ("actualDateTime", TDate);
           ("administeredBy", TString); ("notes", TString);
           ("createdAt", TDate); ("updatedAt", TDate)].

(** The declared types no response meets. *)
Definition never_returned : list ty :=
  [Patient; PatientScheduleSummary; ScheduleSummary; MedicationScheduleWithDetails;
   MedicationSchedulesResponse; MedicationAdministration; MedicationAdministrationResponse].

End Types.

(** Sample bodies as the API sends them. *)
Definition demo_schedules_body : value :=
  JObj [("message", JStr "ok");
        ("patient", JObj [("patient_id", JStr "p1"); ("first_name", JStr "Ann");
                          ("last_name", JStr "Lee"); ("date_of_birth", JStr "1950-02-01")]);
        ("summary", JObj [("total_schedules", JNum 1); ("active_schedules", JNum 1);
                          ("inactive_schedules", JNum 0); ("medications_count", JNum 1);
                          ("total_daily_doses", JNum 1)]);
        ("schedules_by_medication", JArr []); ("schedules_by_day", JObj []);
        ("all_schedules", JArr []); ("count", JNum 1)].

Definition demo_medication_body : value :=
  JObj [("medication_id", JStr "m1"); ("patient_id", JStr "p1"); ("name", JStr "Aspirin");
        ("generic_name", JStr "acetylsalicylic acid"); ("strength", JStr "100");
        ("unit", JStr "mg"); ("form", JStr "tablet"); ("dosage_amount", JNum 1);
        ("frequency_per_day", JNum 2); ("special_instructions", JStr "");
        ("is_active", JBool true); ("created_at", JStr "2023-11-01");
        ("updated_at", JStr "2023-11-01")].

(** ** Lemmas *)

Lemma has_type_obj fs v :
  has_type (TObject fs) v = true ->
  Forall (fun kt => exists x, get_prop v kt.1 = Some x /\ has_type kt.2 x = true) fs.
Proof.
  destruct v; try done. cbn [has_type].
  induction fs as [|[k t] fs IH]; [done|]. rewrite andb_true_iff.
  intros [Hk Hfs]. constructor; [|by apply IH].
  destruct (get_prop _ k) eqn:E; [|done]. eauto.
Qed.

(** A property of a converted response has a camel-case name and is
    itself converted data. *)
Lemma get_prop_clean v k x :
  clean v = true -> get_prop v k = Some x -> camel_clean k = true /\ clean x = true.
Proof.
  unfold clean. rewrite !andb_true_iff. intros [Hj Hk] Hg.
  destruct v as [| | | | |fs|]; try done. apply assoc_get_Some_In, list_elem_of_In in Hg.
  apply is_json_obj in Hj. apply keys_all_obj in Hk.
  rewrite Forall_forall in Hj, Hk. specialize (Hj _ Hg). destruct (Hk _ Hg) as [Hk' Hx].
  simpl in *. by rewrite Hj, Hx.
Qed.

Lemma never_clean_sound t v : never_clean t = true -> clean v = true -> has_type t v = false.
Proof.
  revert v. induction t as [| | | |t IH|fs IH|t IH] using ty_ind; intros v Hn Hc; try done.
  - by destruct v.
  - apply not_true_iff_false. intros Ht. apply has_type_obj in Ht.
    induction fs as [|[k t'] fs IHfs]; [done|].
    apply Forall_cons in IH as [IHt IH]. apply Forall_cons in Ht as [(x & Hg & Hx) Ht].
    simpl in Hn, Hg, Hx. apply orb_true_iff in Hn as [Hn|Hn]; [|by apply IHfs].
    destruct (get_prop_clean v k x Hc Hg) as [Hk Hxc].
    apply orb_true_iff in Hn as [Hn|Hn]; [by rewrite Hk in Hn|].
    simpl in IHt. by rewrite (IHt x Hn Hxc) in Hx.
Qed.

Lemma camel_json_clean v : camel_json v = true -> clean v = true.
Proof. unfold camel_json, clean. rewrite !andb_true_iff. tauto. Qed.

(** What [request] hands to the caller is converted data. *)
Lemma request_clean e c net endpoint o b r v :
  snd (request e c net endpoint o b) = Ok r -> json r = Ok v -> clean v = true.
Proof.
  unfold request. intros Hr Hj.
  repeat case_match; simplify_eq/=; apply camel_json_clean, snakeToCamelCase_camel_json.
Qed.

Lemma clean_arr xs : clean (JArr xs) = true -> Forall (fun x => clean x = true) xs.
Proof.
  unfold clean. rewrite andb_true_iff, is_json_arr, keys_all_arr. intros [Hj Hk].
  pose proof (proj2 (Forall_and _ _) (conj Hj Hk)) as H.
  eapply Forall_impl; [exact H|]. intros x [Hx Hx']. by rewrite Hx, Hx'.
Qed.

(** C29: no response the client hands to a caller (the [json()] of a
    successful [request], hence of every endpoint) has any of seven of the
    types the endpoints declare: [Patient], [MedicationAdministration] and
    [MedicationAdministrationResponse] require [Date] properties, which JSON
    does not have, and [PatientScheduleSummary], [ScheduleSummary],
    [MedicationScheduleWithDetails] and [MedicationSchedulesResponse]
    require snake_case properties, which the conversion to camel case
    removes.  A response has type [PatientsResponse] only when its
    [patients] list is empty. *)
Theorem declared_response_types_unmet e c net endpoint o b r v :
  snd (request e c net endpoint o b) = Ok r -> json r = Ok v ->
  Forall (fun t => has_type t v = false) Types.never_returned /\
  (has_type Types.PatientsResponse v = true -> get_prop v "patients" = Some (JArr [])).
Proof.
  intros Hr Hj. pose proof (request_clean e c net endpoint o b r v Hr Hj) as Hc. split.
  - unfold Types.never_returned.
    repeat (apply Forall_cons_2; [apply never_clean_sound; [vm_compute; reflexivity|exact Hc]|]).
    apply Forall_nil_2.
  - intros Ht. apply has_type_obj in Ht. decompose_Forall_hyps.
    destruct H1 as (x & Hg & Hx). rewrite Hg.
    destruct x as [| | | |xs| |]; try done. f_equal. f_equal.
    pose proof (clean_arr xs (proj2 (get_prop_clean v _ _ Hc Hg))) as Hxc.
    destruct xs as [|x xs]; [done|].
    change (has_type Types.Patient x && forallb (has_type Types.Patient) xs = true) in Hx.
    apply andb_true_iff in Hx as [Hx _].
    apply Forall_cons in Hxc as [Hxc _].
    by rewrite (never_clean_sound Types.Patient x ltac:(vm_compute; reflexivity) Hxc) in Hx.
Qed.

(** The camel-case interfaces are met: a converted medication record has
    type [Medication]. *)
Lemma converted_medication_typed :
  has_type Types.Medication (snakeToCamelCase demo_medication_body) = true.
Proof. vm_compute. reflexivity. Qed.

Lemma declared_response_types_unmet_witness :
  Forall (fun t => has_type t (snakeToCamelCase demo_schedules_body) = false) Types.never_returned /\
  (has_type Types.PatientsResponse (snakeToCamelCase demo_schedules_body) = true ->
   get_prop (snakeToCamelCase demo_schedules_body) "patients" = Some (JArr [])).
Proof.
  apply (declared_response_types_unmet demo_env demo_client
           (demo_net 200 (Some demo_schedules_body)) "/patients/p1/medication-schedules"
           no_request_options demo_browser (mkResponse (Ok (snakeToCamelCase demo_schedules_body))));
    vm_compute; reflexivity.
Defined.
