(* ===== verification/Mutations.v ===== *)
(** * The mutation hooks ([src/src/hooks/mutations/*.ts])

    Each hook passes TanStack's [useMutation] four functions: [mutationFn]
    (an endpoint of [Endpoints]), [onMutate] (cancel, snapshot, optimistic
    write; its result is the context), [onError] (restore the snapshots the
    context holds) and [onSettled] (invalidate, and for some hooks refetch).
    They are written against the query-client interface
    [QueryCache.QueryClientOps], so every theorem below holds for any client
    satisfying [QueryClientLaws], and in particular for [QueryCache.cache].

    [mutateAsync] is TanStack's [Mutation.execute] as the hooks experience it:
    [onMutate]; the endpoint; on success [onSettled]; on failure (of [onMutate]
    or of the endpoint) [onError] with the context, then [onSettled], then the
    error is rethrown.  The clock ([Date.now], [new Date()]) is read once per
    invocation; [srv] is the server's answer to a refetch of each key at
    settle time.

    The theorems: a failed mutation restores every key (C1-C3); the
    administration hook converges to the server's list (C5); after a
    successful creation the medication hook leaves the patient's list stale
    for a mounted query to refetch (used by C6 in [AddMedication]), writes
    nothing on an empty cache and writes its record in snake case; the update hook
    throws before any request on a [null] list element; a batch whose
    first schedule has no medication id leaves the cache untouched; and
    an administration whose request the network rejects is rolled back and
    rejects with the original cause (C20). *)

From S2P Require Import Prelude Json CaseTransform QueryCache QueryKeys ApiClient Endpoints.
Local Open Scope string_scope.

Record clock : Type := mkClock {
  now_ms : N;          (** [Date.now()] *)
  now_iso : string     (** [new Date().toISOString()] *)
}.

(** The four functions a hook passes to [useMutation]. *)
Record hooks (C V Ctx : Type) : Type := mkHooks {
  mutationFn : ctx -> V -> T value;
  onMutate : clock -> V -> C -> C * result Ctx js_error;
  onError : js_error -> V -> option Ctx -> C -> C;
  onSettled : (qkey -> value) -> V -> C -> C
}.
Arguments mkHooks {C V Ctx}.
Arguments mutationFn {C V Ctx}.
Arguments onMutate {C V Ctx}.
Arguments onError {C V Ctx}.
Arguments onSettled {C V Ctx}.

(** [mutation.execute(variables)] as run by [mutateAsync]. *)
Definition mutateAsync {C V Ctx} (h : hooks C V Ctx) (cx : ctx) (clk : clock)
    (srv : qkey -> value) (v : V) (c : C) (b : browser) : C * browser * result value js_error :=
  let '(c1, r0) := onMutate h clk v c in
  match r0 with
  | Err err =>
      (onSettled h srv v (onError h err v None c1), b, Err err)
  | Ok context =>
      let '(b1, r) := mutationFn h cx v b in
      match r with
      | Ok data => (onSettled h srv v c1, b1, Ok data)
      | Err err => (onSettled h srv v (onError h err v (Some context) c1), b1, Err err)
      end
  end.

(** [a?.b]: the snapshot held by a context that may be [undefined]. *)
Definition ctx_field (context : option (option value)) : option value :=
  match context with Some p => p | None => None end.

(** ** [useCreateMedication] *)
Module useCreateMedication.
Import CreateMedicationData.

Definition key (d : CreateMedicationData.t) : qkey :=
  queryKeys.medications.byPatient (patient_id d).

(** The provisional record appended to the cached list. *)
Definition optimistic_record (clk : clock) (d : CreateMedicationData.t) : value :=
  JObj [("medication_id", JStr ("temp-" ++ show_N (now_ms clk)));
        ("patient_id", JStr (patient_id d)); ("name", JStr (name d));
        ("generic_name", JStr (generic_name d)); ("strength", JStr (strength d));
        ("unit", JStr (unit d)); ("form", JStr (form d));
        ("dosage_amount", JNum (dosage_amount d));
        ("frequency_per_day", JNum (frequency_per_day d));
        ("special_instructions", JStr (special_instructions d));
        ("is_active", JBool (is_active d));
        ("created_at", JStr (now_iso clk)); ("updated_at", JStr (now_iso clk))].

(** [(old) => old && Array.isArray(old.medications) ? {...old, medications:
    [...old.medications, record]} : old]; only an object has a
    [medications] property. *)
Definition updater (clk : clock) (d : CreateMedicationData.t) (old : option value) :
    option value :=
  match old with
  | Some (JObj fs) =>
      match assoc_get fs "medications" with
      | Some (JArr ms) =>
          Some (JObj (assoc_set (spread [] fs) "medications"
                        (JArr (ms ++ [optimistic_record clk d]))))
      | _ => old
      end
  | _ => old
  end.

Section S.
Context {C : Type} `{!QueryClientOps C}.

Definition onMutate (clk : clock) (d : CreateMedicationData.t) (c : C) :
    C * result (option value) js_error :=
  let c1 := cancelQueries (key d) c in
  let previousMedications := getQueryData c1 (key d) in
  let c2 := if truthy previousMedications
            then setQueryData (key d) (updater clk d) c1 else c1 in
  (c2, Ok previousMedications).

Definition onError (err : js_error) (d : CreateMedicationData.t)
    (context : option (option value)) (c : C) : C :=
  let prev := ctx_field context in
  if truthy prev then setQueryData (key d) (fun _ => prev) c else c.

Definition onSettled (srv : qkey -> value) (d : CreateMedicationData.t) (c : C) : C :=
  queryKeyUtils.invalidatePatientQueries (patient_id d) c.

Definition hooks : hooks C CreateMedicationData.t (option value) :=
  mkHooks medicationsEndpoints.createMedication onMutate onError onSettled.
End S.
End useCreateMedication.

(** ** [useUpdateMedication] *)
Module useUpdateMedication.
Import UpdateMedicationData.

Definition key (d : UpdateMedicationData.t) : qkey :=
  queryKeys.medications.byPatient (patient_id d).

(** [{...med, name, genericName, ..., updatedAt}] *)
Definition updated (clk : clock) (d : UpdateMedicationData.t) (fs : list (string * value)) :
    value :=
  JObj (spread (spread [] fs)
          [("name", JStr (name d)); ("genericName", JStr (generic_name d));
           ("strength", JStr (strength d)); ("unit", JStr (unit d)); ("form", JStr (form d));
           ("dosageAmount", dosage_amount d);
           ("frequencyPerDay", frequency_per_day d);
           ("specialInstructions", JStr (special_instructions d));
           ("isActive", JBool (is_active d)); ("updatedAt", JStr (now_iso clk))]).

(** [med.medicationId === medicationData.medication_id ? {...} : med];
    reading [medicationId] of a [null] element throws. *)
Definition update_one (clk : clock) (d : UpdateMedicationData.t) (med : value) :
    result value js_error :=
  rbind (member med "medicationId") (fun id =>
    Ok (match id, med with
        | Some (JStr s), JObj fs => if String.eqb s (medication_id d) then updated clk d fs else med
        | _, _ => med
        end)).

Fixpoint map_meds (clk : clock) (d : UpdateMedicationData.t) (ms : list value) :
    result (list value) js_error :=
  match ms with
  | [] => Ok []
  | m :: ms' =>
      rbind (update_one clk d m) (fun m' =>
      rbind (map_meds clk d ms') (fun ms'' => Ok (m' :: ms'')))
  end.

(** The updater; an exception inside it propagates out of [setQueryData]. *)
Definition updater (clk : clock) (d : UpdateMedicationData.t) (old : option value) :
    result (option value) js_error :=
  match old with
  | Some (JObj fs) =>
      match assoc_get fs "medications" with
      | Some (JArr ms) =>
          rbind (map_meds clk d ms) (fun ms' =>
            Ok (Some (JObj (assoc_set (spread [] fs) "medications" (JArr ms')))))
      | _ => Ok old
      end
  | _ => Ok old
  end.

Section S.
Context {C : Type} `{!QueryClientOps C}.

(** [setQueryData] runs the updater on the current value of the key; when
    the updater throws, nothing is written and [onMutate] rejects. *)
Definition onMutate (clk : clock) (d : UpdateMedicationData.t) (c : C) :
    C * result (option value) js_error :=
  let c1 := cancelQueries (key d) c in
  let previousMedications := getQueryData c1 (key d) in
  if truthy previousMedications then
    match updater clk d (getQueryData c1 (key d)) with
    | Ok nv => (setQueryData (key d) (fun _ => nv) c1, Ok previousMedications)
    | Err err => (c1, Err err)
    end
  else (c1, Ok previousMedications).

Definition onError (err : js_error) (d : UpdateMedicationData.t)
    (context : option (option value)) (c : C) : C :=
  let prev := ctx_field context in
  if truthy prev then setQueryData (key d) (fun _ => prev) c else c.

Definition onSettled (srv : qkey -> value) (d : UpdateMedicationData.t) (c : C) : C :=
  refetchQueries srv (queryKeys.medicationSchedules.byPatient (patient_id d))
    (queryKeyUtils.invalidatePatientQueries (patient_id d) c).

Definition hooks : hooks C UpdateMedicationData.t (option value) :=
  mkHooks medicationsEndpoints.updateMedication onMutate onError onSettled.
End S.
End useUpdateMedication.

(** ** [useCreateMedicationSchedule(patientId)] *)
Module useCreateMedicationSchedule.
Import CreateMedicationScheduleData.

(** [schedules[0]?.medication_id], when truthy. *)
Definition first_medication_id (ss : list CreateMedicationScheduleData.t) : option string :=
  match ss with
  | s :: _ => if String.eqb (medication_id s) "" then None else Some (medication_id s)
  | [] => None
  end.

Record context : Type := mkContext {
  previousMedicationSchedules : option value;
  previousAllSchedules : option value;
  previousPatientSchedules : option value
}.

Section S.
Context {C : Type} `{!QueryClientOps C} (patientId : string).

Definition onMutate (clk : clock) (ss : list CreateMedicationScheduleData.t) (c : C) :
    C * result (option context) js_error :=
  match first_medication_id ss with
  | None => (c, Ok None)
  | Some mid =>
      let c1 := queryKeyUtils.cancelPatientQueries patientId c in
      let c2 := cancelQueries (queryKeys.medicationSchedules.byMedication mid) c1 in
      let c3 := cancelQueries queryKeys.medicationSchedules.all c2 in
      (c3, Ok (Some (mkContext
                       (getQueryData c3 (queryKeys.medicationSchedules.byMedication mid))
                       (getQueryData c3 queryKeys.medicationSchedules.all)
                       (getQueryData c3 (queryKeys.medicationSchedules.byPatient patientId)))))
  end.

Definition restore (k : qkey) (prev : option value) (c : C) : C :=
  if truthy prev then setQueryData k (fun _ => prev) c else c.

Definition onError (err : js_error) (ss : list CreateMedicationScheduleData.t)
    (context : option (option context)) (c : C) : C :=
  match first_medication_id ss with
  | None => c
  | Some mid =>
      let cx := match context with Some (Some x) => Some x | _ => None end in
      let c1 := restore (queryKeys.medicationSchedules.byMedication mid)
                  (cx ≫= previousMedicationSchedules) c in
      let c2 := restore queryKeys.medicationSchedules.all (cx ≫= previousAllSchedules) c1 in
      restore (queryKeys.medicationSchedules.byPatient patientId)
        (cx ≫= previousPatientSchedules) c2
  end.

Definition onSettled (srv : qkey -> value) (ss : list CreateMedicationScheduleData.t) (c : C) :
    C :=
  match first_medication_id ss with
  | None => c
  | Some mid =>
      let c1 := invalidateQueries (queryKeys.medicationSchedules.byMedication mid) c in
      let c2 := invalidateQueries queryKeys.medicationSchedules.all c1 in
      let c3 := queryKeyUtils.invalidatePatientQueries patientId c2 in
      queryKeyUtils.refetchPatientQueries srv patientId c3
  end.

Definition hooks : hooks C (list CreateMedicationScheduleData.t) (option context) :=
  mkHooks medicationSchedulesEndpoints.createMedicationSchedulesBulk onMutate onError onSettled.
End S.
End useCreateMedicationSchedule.

(** ** [useCreateMedicationAdministration(patientId)] *)
Module useCreateMedicationAdministration.
Import CreateMedicationAdministrationData.

Definition key (patientId : string) : qkey :=
  queryKeys.medicationAdministrations.byPatient patientId.

Definition optimistic_record (clk : clock) (d : CreateMedicationAdministrationData.t) : value :=
  JObj [("administrationId", JStr ("temp-" ++ show_N (now_ms clk)));
        ("medicationId", JStr (medication_id d));
        ("scheduledDateTime", JDate (DateOfString (scheduled_datetime d)));
        ("actualDateTime", JDate (DateOfString (actual_datetime d)));
        ("administeredBy", JStr (administered_by d)); ("notes", JStr (notes d));
        ("createdAt", JDate (DateNow (now_ms clk))); ("updatedAt", JDate (DateNow (now_ms clk)))].

(** [(old) => old && Array.isArray(old) ? [...old, optimisticUpdate] : old] *)
Definition updater (clk : clock) (d : CreateMedicationAdministrationData.t) (old : option value) :
    option value :=
  match old with
  | Some (JArr xs) => Some (JArr (xs ++ [optimistic_record clk d]))
  | _ => old
  end.

Section S.
Context {C : Type} `{!QueryClientOps C} (patientId : string).

Definition onMutate (clk : clock) (d : CreateMedicationAdministrationData.t) (c : C) :
    C * result (option value) js_error :=
  let c1 := cancelQueries (key patientId) c in
  let previousAdministrations := getQueryData c1 (key patientId) in
  let c2 := if truthy previousAdministrations
            then setQueryData (key patientId) (updater clk d) c1 else c1 in
  (c2, Ok previousAdministrations).

Definition onError (err : js_error) (d : CreateMedicationAdministrationData.t)
    (context : option (option value)) (c : C) : C :=
  let prev := ctx_field context in
  if truthy prev then setQueryData (key patientId) (fun _ => prev) c else c.

Definition onSettled (srv : qkey -> value) (d : CreateMedicationAdministrationData.t) (c : C) :
    C :=
  refetchQueries srv (key patientId) (invalidateQueries (key patientId) c).

Definition hooks : hooks C CreateMedicationAdministrationData.t (option value) :=
  mkHooks medicationAdministrationEndpoints.createMedicationAdministration
    onMutate onError onSettled.
End S.
End useCreateMedicationAdministration.

(** ** Sample inputs *)

Definition demo_clock : clock := mkClock 1700000000000 "2023-11-14T22:13:20.000Z".

Definition demo_medication : CreateMedicationData.t :=
  CreateMedicationData.mk "p1" "Aspirin" "acetylsalicylic acid" "100" "mg" "tablet" 1 1 "" true.

Definition demo_update : UpdateMedicationData.t :=
  UpdateMedicationData.mk "m1" "p1" "Aspirin" "acetylsalicylic acid" "100" "mg" "tablet"
    (JNum 1) (JNum 2)
    true "".

Definition demo_schedule (mid : string) : CreateMedicationScheduleData.t :=
  CreateMedicationScheduleData.mk mid 1 "08:00" true.

Definition demo_administration : CreateMedicationAdministrationData.t :=
  CreateMedicationAdministrationData.mk "m1" "2023-11-14T08:00:00.000Z"
    "2023-11-14T08:05:00.000Z" "nurse" "".

Definition demo_list (ms : list value) : value := JObj [("medications", JArr ms)].

(** A cache holding [{medications: ms}] for patient ["p1"]. *)
Definition demo_cache (ms : list value) : cache :=
  cache_set (useMedications_key "p1") (fun _ => Some (demo_list ms)) empty_cache.

Definition demo_server : qkey -> value := fun k => JArr (map JStr k).

Definition demo_cx (st : Z) (jb : option value) : ctx := mkCtx demo_env (demo_net st jb).

Definition err_of (r : result value js_error) : js_error :=
  match r with Err e => e | Ok _ => PlainError "" end.

(** Runs of the hooks on the sample inputs. *)
Definition demo_create_failed :=
  mutateAsync useCreateMedication.hooks (demo_cx 500 None) demo_clock demo_server
    demo_medication (demo_cache []) demo_browser.

Definition demo_create_ok :=
  mutateAsync useCreateMedication.hooks (demo_cx 201 (Some (JObj [("medication_id", JStr "m7")])))
    demo_clock demo_server demo_medication (demo_cache []) demo_browser.

Definition demo_update_failed :=
  mutateAsync useUpdateMedication.hooks (demo_cx 0 None) demo_clock demo_server
    demo_update (demo_cache [JObj [("medicationId", JStr "m1")]]) demo_browser.

Definition demo_schedule_failed :=
  mutateAsync (useCreateMedicationSchedule.hooks "p1") (demo_cx 422 None) demo_clock demo_server
    [demo_schedule "m1"] (demo_cache []) demo_browser.

Definition demo_administration_run :=
  mutateAsync (useCreateMedicationAdministration.hooks "p1") (demo_cx 201 (Some (JObj [])))
    demo_clock demo_server demo_administration empty_cache demo_browser.

(** ** The driver and the snapshot/rollback pattern *)

Lemma truthy_Some o : truthy o = true -> exists v, o = Some v.
Proof. destruct o; [eauto|done]. Qed.

Section Driver.
Context {C : Type} `{!QueryClientOps C} `{!QueryClientLaws C}.
Context {V Ctx : Type} (h : hooks C V Ctx).

(** [onError] undoes [onMutate], whether [onMutate] returned or threw. *)
Definition rolls_back : Prop :=
  forall clk v c err,
    data_equiv
      (match snd (onMutate h clk v c) with
       | Ok context => onError h err v (Some context) (fst (onMutate h clk v c))
       | Err _ => onError h err v None (fst (onMutate h clk v c))
       end) c.

Definition settle_proper : Prop :=
  forall srv v, Proper (data_equiv ==> data_equiv) (onSettled h srv v).

(** The three ways a mutation runs. *)
Lemma mutateAsync_cases cx clk srv v c b c' b' r :
  mutateAsync h cx clk srv v c b = (c', b', r) ->
  (exists c1 context data, onMutate h clk v c = (c1, Ok context) /\
     mutationFn h cx v b = (b', Ok data) /\ r = Ok data /\ c' = onSettled h srv v c1) \/
  (exists c1 context err, onMutate h clk v c = (c1, Ok context) /\
     mutationFn h cx v b = (b', Err err) /\ r = Err err /\
     c' = onSettled h srv v (onError h err v (Some context) c1)) \/
  (exists c1 err, onMutate h clk v c = (c1, Err err) /\ b' = b /\ r = Err err /\
     c' = onSettled h srv v (onError h err v None c1)).
Proof.
  unfold mutateAsync. destruct (onMutate h clk v c) as [c1 [context|err]] eqn:Hm.
  - destruct (mutationFn h cx v b) as [b1 [data|err]] eqn:Hf; intros [= <- <- <-].
    + left. exists c1, context, data. auto.
    + right; left. exists c1, context, err. auto.
  - intros [= <- <- <-]. right; right. exists c1, err. auto.
Qed.

(** A failed mutation ends where settling the untouched cache would. *)
Lemma mutateAsync_failure cx clk srv v c b c' b' err :
  rolls_back -> settle_proper ->
  mutateAsync h cx clk srv v c b = (c', b', Err err) ->
  data_equiv c' (onSettled h srv v c).
Proof.
  intros Hrb Hsp. unfold mutateAsync. specialize (Hrb clk v c err). specialize (Hsp srv v).
  destruct (onMutate h clk v c) as [c1 [context|e]] eqn:Hm; simpl in Hrb.
  - destruct (mutationFn h cx v b) as [b1 [data|e]]; intros [= <- <- <-]. by rewrite Hrb.
  - intros [= <- <- <-]. by rewrite Hrb.
Qed.
End Driver.

Section Rollback.
Context {C : Type} `{!QueryClientOps C} `{!QueryClientLaws C}.

(** Snapshot a key after cancelling it, write anything, restore the
    snapshot when it was truthy: every key reads as before. *)
Lemma optimistic_rollback k (f : option value -> option value) (c : C) :
  data_equiv
    (if truthy (getQueryData (cancelQueries k c) k)
     then setQueryData k (fun _ => getQueryData (cancelQueries k c) k)
            (setQueryData k f (cancelQueries k c))
     else cancelQueries k c) c.
Proof.
  destruct (truthy _) eqn:Ht; [|apply cancel_equiv].
  destruct (truthy_Some _ Ht) as [v Hv]. rewrite Hv. rewrite get_cancel in Hv.
  intros k'. rewrite get_set_dec. case_decide as Hk; [by subst|].
  by rewrite get_set_ne, get_cancel.
Qed.

Lemma restore_equiv k p (c c0 : C) :
  getQueryData c k = getQueryData c0 k -> p = getQueryData c0 k ->
  data_equiv (if truthy p then setQueryData k (fun _ => p) c else c) c.
Proof.
  intros Hk ->. destruct (truthy _) eqn:Ht; [|done].
  destruct (truthy_Some _ Ht) as [v Hv]. rewrite Hv. apply set_same_equiv. congruence.
Qed.
End Rollback.

(** Unfold a hook's three functions and case on the truthiness of its
    snapshot. *)
Ltac hook_cases :=
  cbn [onMutate onError onSettled mutationFn fst snd];
  repeat match goal with
  | |- context [truthy ?p] => let Ht := fresh "Ht" in destruct (truthy p) eqn:Ht
  end.

Section HookLaws.
Context {C : Type} `{!QueryClientOps C} `{!QueryClientLaws C}.

Lemma createMedication_rolls_back : rolls_back (useCreateMedication.hooks (C := C)).
Proof.
  intros clk d c err. cbn. unfold useCreateMedication.onMutate, useCreateMedication.onError.
  simpl. pose proof (optimistic_rollback (useCreateMedication.key d)
                       (useCreateMedication.updater clk d) c) as Hr.
  simpl in Hr. destruct (truthy _) eqn:Ht; exact Hr.
Qed.

Lemma createMedication_settle_proper : settle_proper (useCreateMedication.hooks (C := C)).
Proof. intros srv d. cbn. unfold useCreateMedication.onSettled. intros c1 c2 Hc. by rewrite Hc. Qed.

(** The settle phase of [useCreateMedication] changes no cached value. *)
Lemma createMedication_settle_keeps_data srv d (c : C) :
  data_equiv (useCreateMedication.onSettled srv d c) c.
Proof. unfold useCreateMedication.onSettled. eauto with medmgr. Qed.

Lemma updateMedication_rolls_back : rolls_back (useUpdateMedication.hooks (C := C)).
Proof.
  intros clk d c err. cbn. unfold useUpdateMedication.onMutate, useUpdateMedication.onError.
  destruct (truthy _) eqn:Ht.
  - destruct (useUpdateMedication.updater _ _ _) as [nv|e]; simpl.
    + pose proof (optimistic_rollback (useUpdateMedication.key d) (fun _ => nv) c) as Hr.
      simpl in Hr. rewrite Ht in Hr. simpl. rewrite Ht. exact Hr.
    + apply cancel_equiv.
  - simpl. rewrite Ht. apply cancel_equiv.
Qed.

Lemma updateMedication_settle_proper : settle_proper (useUpdateMedication.hooks (C := C)).
Proof. intros srv d. cbn. unfold useUpdateMedication.onSettled. intros c1 c2 Hc. by rewrite Hc. Qed.

Lemma administration_rolls_back p :
  rolls_back (useCreateMedicationAdministration.hooks (C := C) p).
Proof.
  intros clk d c err. cbn.
  unfold useCreateMedicationAdministration.onMutate, useCreateMedicationAdministration.onError.
  simpl. pose proof (optimistic_rollback (useCreateMedicationAdministration.key p)
                       (useCreateMedicationAdministration.updater clk d) c) as Hr.
  simpl in Hr. destruct (truthy _) eqn:Ht; exact Hr.
Qed.

Lemma administration_settle_proper p :
  settle_proper (useCreateMedicationAdministration.hooks (C := C) p).
Proof. intros srv d. cbn. unfold useCreateMedicationAdministration.onSettled. intros c1 c2 Hc. by rewrite Hc. Qed.

#[export] Instance restore_proper k p :
  Proper (data_equiv ==> data_equiv) (useCreateMedicationSchedule.restore (C := C) k p).
Proof.
  intros c1 c2 Hc. unfold useCreateMedicationSchedule.restore. destruct (truthy p); by rewrite Hc.
Qed.

Lemma restore_self k (c : C) :
  data_equiv (useCreateMedicationSchedule.restore k (getQueryData c k) c) c.
Proof. by apply (restore_equiv _ _ _ c). Qed.

Lemma schedule_rolls_back p : rolls_back (useCreateMedicationSchedule.hooks (C := C) p).
Proof.
  intros clk ss c err. cbn.
  unfold useCreateMedicationSchedule.onMutate, useCreateMedicationSchedule.onError.
  destruct (useCreateMedicationSchedule.first_medication_id ss) as [mid|]; simpl; [|done].
  rewrite !restore_self, !cancel_equiv. apply cancelPatientQueries_equiv.
Qed.

Lemma schedule_settle_proper p : settle_proper (useCreateMedicationSchedule.hooks (C := C) p).
Proof.
  intros srv ss. cbn. unfold useCreateMedicationSchedule.onSettled.
  destruct (useCreateMedicationSchedule.first_medication_id ss); intros c1 c2 Hc; by rewrite ?Hc.
Qed.
End HookLaws.

(** ** Properties of the hooks *)

Section Claims.
Context {C : Type} `{!QueryClientOps C} `{!QueryClientLaws C}.

Lemma createMedication_onMutate_frame clk d (c : C) k :
  k <> useCreateMedication.key d ->
  getQueryData (fst (useCreateMedication.onMutate clk d c)) k = getQueryData c k.
Proof.
  intros Hk. unfold useCreateMedication.onMutate. simpl.
  destruct (truthy _); [rewrite get_set_ne by congruence|]; apply get_cancel.
Qed.

Lemma administration_onMutate_frame p clk d (c : C) k :
  k <> useCreateMedicationAdministration.key p ->
  getQueryData (fst (useCreateMedicationAdministration.onMutate p clk d c)) k = getQueryData c k.
Proof.
  intros Hk. unfold useCreateMedicationAdministration.onMutate. simpl.
  destruct (truthy _); [rewrite get_set_ne by congruence|]; apply get_cancel.
Qed.

Lemma administration_onError_frame p err d context (c : C) k :
  k <> useCreateMedicationAdministration.key p ->
  getQueryData (useCreateMedicationAdministration.onError p err d context c) k = getQueryData c k.
Proof.
  intros Hk. unfold useCreateMedicationAdministration.onError.
  destruct (truthy _); [by rewrite get_set_ne by congruence|done].
Qed.

Lemma createMedication_onError_frame err d context (c : C) k :
  k <> useCreateMedication.key d ->
  getQueryData (useCreateMedication.onError err d context c) k = getQueryData c k.
Proof.
  intros Hk. unfold useCreateMedication.onError.
  destruct (truthy _); [by rewrite get_set_ne by congruence|done].
Qed.

(** C1: when the [createMedication] call fails (network, timeout, HTTP
    error), every cache key reads after the mutation exactly what it read
    before it: the provisional record is gone and nothing else changed. *)
Theorem useCreateMedication_failure_restores cx clk srv d (c : C) b c' b' err :
  mutateAsync useCreateMedication.hooks cx clk srv d c b = (c', b', Err err) ->
  forall k, getQueryData c' k = getQueryData c k.
Proof.
  intros Hm k.
  rewrite (mutateAsync_failure _ cx clk srv d c b c' b' err createMedication_rolls_back
             createMedication_settle_proper Hm k).
  apply invalidatePatientQueries_equiv.
Qed.

(** C2: when [updateMedication] fails, whether the endpoint rejected or the
    optimistic update itself threw, every key reads as before the call,
    except the patient's schedule list, which holds the server's answer to
    the refetch of the settle phase. *)
Theorem useUpdateMedication_failure_restores cx clk srv d (c : C) b c' b' err :
  mutateAsync useUpdateMedication.hooks cx clk srv d c b = (c', b', Err err) ->
  forall k, getQueryData c' k =
    if decide (queryKeys.medicationSchedules.byPatient (UpdateMedicationData.patient_id d) = k)
    then Some (srv k) else getQueryData c k.
Proof.
  intros Hm k.
  rewrite (mutateAsync_failure _ cx clk srv d c b c' b' err updateMedication_rolls_back
             updateMedication_settle_proper Hm k).
  cbn. unfold useUpdateMedication.onSettled. rewrite get_refetch_dec.
  case_decide; [by subst|]. apply invalidatePatientQueries_equiv.
Qed.

(** C3: when a bulk schedule creation fails, the cache ends exactly as
    settling the untouched cache would leave it: the snapshots of the
    medication's, the global and the patient's schedule keys are restored
    before the patient's keys are refetched. *)
Theorem useCreateMedicationSchedule_failure_restores p cx clk srv ss (c : C) b c' b' err :
  mutateAsync (useCreateMedicationSchedule.hooks p) cx clk srv ss c b = (c', b', Err err) ->
  data_equiv c' (useCreateMedicationSchedule.onSettled p srv ss c).
Proof.
  apply (mutateAsync_failure (useCreateMedicationSchedule.hooks p) cx clk srv ss c b c' b' err).
  - apply schedule_rolls_back.
  - apply schedule_settle_proper.
Qed.

(** C5: recording a dose, whatever the outcome of the call: afterwards the
    patient's administration list holds the server's answer to the forced
    refetch and is fresh, and every other key reads as before the call. *)
Theorem useCreateMedicationAdministration_settle_converges p cx clk srv d (c : C) b c' b' r :
  mutateAsync (useCreateMedicationAdministration.hooks p) cx clk srv d c b = (c', b', r) ->
  let k := useCreateMedicationAdministration.key p in
  getQueryData c' k = Some (srv k) /\ isStale c' k = false /\
  (forall k', k' <> k -> getQueryData c' k' = getQueryData c k').
Proof.
  intros Hm k.
  assert (Hfin : exists c0, c' = useCreateMedicationAdministration.onSettled p srv d c0 /\
                            forall k', k' <> k -> getQueryData c0 k' = getQueryData c k').
  { apply mutateAsync_cases in Hm as
      [(c1 & cx1 & data & Hm & _ & _ & ->)|[(c1 & cx1 & e & Hm & _ & _ & ->)|(c1 & e & Hm & _)]];
      [| |discriminate (f_equal snd Hm)];
      (eexists; split; [reflexivity|]); intros k' Hk';
      replace c1 with (fst (onMutate (useCreateMedicationAdministration.hooks p) clk d c))
        by (by rewrite Hm);
      cbn [onError onMutate useCreateMedicationAdministration.hooks];
      rewrite ?administration_onError_frame by done;
      by apply administration_onMutate_frame. }
  destruct Hfin as (c0 & -> & Hc0). unfold useCreateMedicationAdministration.onSettled.
  split; [apply get_refetch_eq|split; [apply stale_refetch_eq|]].
  intros k' Hk'. rewrite get_refetch_ne by (intros Heq; subst k'; by apply Hk').
  rewrite get_invalidate. by apply Hc0.
Qed.

(** A successful [createMedication] leaves the patient's medication list
    marked stale: the settle phase invalidates the patient's keys and
    refetches none of them itself (the refetch is the one a mounted query
    starts on a stale key: see [AddMedication]). *)
Lemma useCreateMedication_success_stale cx clk srv d (c : C) b c' b' data :
  mutateAsync useCreateMedication.hooks cx clk srv d c b = (c', b', Ok data) ->
  isStale c' (useCreateMedication.key d) = true.
Proof.
  intros Hm.
  apply mutateAsync_cases in Hm as
    [(c1 & cx1 & data' & _ & _ & _ & ->)|[(c1 & cx1 & e & _ & _ & [=] & _)|(c1 & e & _ & _ & [=] & _)]].
  cbn [onSettled useCreateMedication.hooks].
  unfold useCreateMedication.onSettled, queryKeyUtils.invalidatePatientQueries, useCreateMedication.key.
  pose proof (patient_keys_distinct (CreateMedicationData.patient_id d)) as (H1 & H2 & H3).
  simpl. rewrite stale_invalidate_ne by congruence. rewrite stale_invalidate_ne by congruence.
  apply stale_invalidate_eq.
Qed.

(** with nothing (or a falsy value) cached for the patient's
    medications, [createMedication] writes no provisional record: the
    optimistic phase changes no key, where the spec's scenario expects a
    one-entry list with the provisional record. *)
Theorem useCreateMedication_empty_cache_no_optimistic clk d (c : C) :
  truthy (getQueryData c (useCreateMedication.key d)) = false ->
  data_equiv (fst (useCreateMedication.onMutate clk d c)) c.
Proof.
  intros Hf. unfold useCreateMedication.onMutate. simpl. rewrite get_cancel, Hf.
  apply cancel_equiv.
Qed.

(** C20: the spec's network-failure scenario for [createMedicationAdministration]:
    when the network rejects every request, the mutation rejects with the
    transport's "Network error" carrying the original [TypeError] as its
    cause, and the cache ends where settling the untouched cache ends: the
    optimistic record is rolled back before the settle phase refetches. *)
Theorem useCreateMedicationAdministration_network_failure p cx clk srv d (c : C) b c' b' r msg :
  (forall s, cx_net cx s = FetchRejected msg) ->
  mutateAsync (useCreateMedicationAdministration.hooks p) cx clk srv d c b = (c', b', r) ->
  (exists url opts, r = Err (ApiClientError ("Network error: " ++ msg) None (Some url) (Some opts)
                               None (Some (TypeError msg)))) /\
  data_equiv c' (useCreateMedicationAdministration.onSettled p srv d c).
Proof.
  intros Hnet Hm. pose proof Hm as Hm'.
  unfold mutateAsync in Hm. cbn [onMutate mutationFn useCreateMedicationAdministration.hooks] in Hm.
  unfold useCreateMedicationAdministration.onMutate, medicationAdministrationEndpoints.createMedicationAdministration,
    POST, json_of, post, request in Hm.
  rewrite Hnet in Hm. simpl in Hm. injection Hm as <- <- <-. split; [eauto|].
  exact (mutateAsync_failure _ cx clk srv d c b _ _ _ (administration_rolls_back p)
           (administration_settle_proper p) Hm').
Qed.
End Claims.

(** The provisional medication record is written in the wire convention:
    it carries [medication_id] = ["temp-" ++ Date.now()] but no
    [medicationId], [isActive] or [patientId], the camel-case fields every
    fetched record of the cache has and the views read; converting it to camel
    case would change it. *)
Theorem createMedication_optimistic_record_keys clk d :
  let r := useCreateMedication.optimistic_record clk d in
  get_prop r "medication_id" = Some (JStr ("temp-" ++ show_N (now_ms clk))) /\
  get_prop r "medicationId" = None /\ get_prop r "isActive" = None /\
  get_prop r "patientId" = None /\ snakeToCamelCase r <> r.
Proof. repeat split; simpl; [reflexivity..|]. intros H. injection H as H. discriminate H. Qed.

(** ** The update's optimistic map *)

Lemma member_not_null v k : v <> JNull -> member v k = Ok (get_prop v k).
Proof. by destruct v. Qed.

Lemma map_meds_untouched clk d ms :
  Forall (fun m => m <> JNull /\
                   get_prop m "medicationId" <> Some (JStr (UpdateMedicationData.medication_id d))) ms ->
  useUpdateMedication.map_meds clk d ms = Ok ms.
Proof.
  induction 1 as [|m ms [Hn Hid] _ IH]; [done|]. simpl.
  unfold useUpdateMedication.update_one. rewrite member_not_null by done. simpl.
  rewrite IH. simpl. f_equal. f_equal.
  destruct (get_prop m "medicationId") as [[]|], m; try done.
  destruct (String.eqb_spec s (UpdateMedicationData.medication_id d)); congruence.
Qed.

Lemma map_meds_null clk d ms :
  JNull ∈ ms -> exists msg, useUpdateMedication.map_meds clk d ms = Err (TypeError msg).
Proof.
  induction ms as [|m ms IH]; simpl; [by rewrite elem_of_nil|]. rewrite elem_of_cons.
  destruct (decide (m = JNull)) as [->|Hm]; [simpl; eauto|].
  intros [Heq|Hin]; [congruence|]. destruct (IH Hin) as [msg Hmsg].
  unfold useUpdateMedication.update_one. rewrite member_not_null by done. simpl.
  rewrite Hmsg. eauto.
Qed.

Section UpdateClaims.
Context {C : Type} `{!QueryClientOps C} `{!QueryClientLaws C}.

(** Updating a medication that is not in the cached list leaves the
    cached value as it was (the map-and-replace step is a no-op), provided
    the list has no [null] element. *)
Theorem useUpdateMedication_absent_noop clk d (c : C) fs ms :
  getQueryData c (useUpdateMedication.key d) = Some (JObj fs) -> NoDup (keys fs) ->
  assoc_get fs "medications" = Some (JArr ms) ->
  Forall (fun m => m <> JNull /\
            get_prop m "medicationId" <> Some (JStr (UpdateMedicationData.medication_id d))) ms ->
  snd (useUpdateMedication.onMutate clk d c) = Ok (Some (JObj fs)) /\
  data_equiv (fst (useUpdateMedication.onMutate clk d c)) c.
Proof.
  intros Hc Hnd Hms Hall. unfold useUpdateMedication.onMutate. rewrite get_cancel, Hc. simpl.
  rewrite Hms, map_meds_untouched by done. simpl.
  rewrite spread_nil, assoc_set_get_same by done. split; [done|].
  rewrite set_same_equiv; [apply cancel_equiv|]. by rewrite get_cancel.
Qed.

(** a [null] element in the cached medication list makes the optimistic
    update throw a [TypeError] inside [onMutate]: the update request is never
    sent (the browser state is untouched), no snapshot is restored, and the
    mutation rejects with that [TypeError] after settling. *)
Theorem useUpdateMedication_null_element_throws cx clk srv d (c : C) b fs ms :
  getQueryData c (useUpdateMedication.key d) = Some (JObj fs) ->
  assoc_get fs "medications" = Some (JArr ms) -> JNull ∈ ms ->
  exists msg c', mutateAsync useUpdateMedication.hooks cx clk srv d c b = (c', b, Err (TypeError msg)) /\
                 data_equiv c' (useUpdateMedication.onSettled srv d c).
Proof.
  intros Hc Hms Hnull. destruct (map_meds_null clk d ms Hnull) as [msg Hmsg].
  exists msg. unfold mutateAsync. cbn [onMutate onError onSettled useUpdateMedication.hooks].
  unfold useUpdateMedication.onMutate. rewrite get_cancel, Hc. simpl. rewrite Hms, Hmsg. simpl.
  eexists. split; [reflexivity|]. unfold useUpdateMedication.onError. simpl.
  apply updateMedication_settle_proper, cancel_equiv.
Qed.
End UpdateClaims.

(** a bulk schedule creation whose first schedule has no medication id
    (an empty batch included) leaves the query cache exactly as it was, stale
    marks included: nothing is cancelled, snapshotted, restored, invalidated
    or refetched, although the POST is still sent. *)
Theorem useCreateMedicationSchedule_no_medication_untouched {C} `{!QueryClientOps C}
    p cx clk srv ss (c : C) b :
  useCreateMedicationSchedule.first_medication_id ss = None ->
  fst (fst (mutateAsync (useCreateMedicationSchedule.hooks p) cx clk srv ss c b)) = c /\
  snd (fst (mutateAsync (useCreateMedicationSchedule.hooks p) cx clk srv ss c b)) =
  fst (medicationSchedulesEndpoints.createMedicationSchedulesBulk cx ss b).
Proof.
  intros Hn. unfold mutateAsync. cbn [onMutate onError onSettled mutationFn useCreateMedicationSchedule.hooks].
  unfold useCreateMedicationSchedule.onMutate, useCreateMedicationSchedule.onError,
    useCreateMedicationSchedule.onSettled. rewrite Hn.
  destruct (medicationSchedulesEndpoints.createMedicationSchedulesBulk cx ss b) as [b1 [|]]; done.
Qed.

(** Every query hook reads the cache key its mutation hook cancels,
    snapshots, writes and refreshes: [useMedications] that of
    [useCreateMedication] and [useUpdateMedication],
    [useMedicationAdministrations] that of [useCreateMedicationAdministration],
    and [usePatientMedicationSchedules] the patient schedule key of
    [useCreateMedicationSchedule]. *)
Theorem query_and_mutation_keys_agree (dc : CreateMedicationData.t) (du : UpdateMedicationData.t) p :
  useCreateMedication.key dc = useMedications_key (CreateMedicationData.patient_id dc) /\
  useUpdateMedication.key du = useMedications_key (UpdateMedicationData.patient_id du) /\
  useCreateMedicationAdministration.key p = useMedicationAdministrations_key p /\
  queryKeyUtils.schedules (queryKeyUtils.getPatientQueries p) = usePatientMedicationSchedules_key p.
Proof. repeat split. Qed.

(** ** Witnesses *)

Lemma useCreateMedication_failure_restores_witness :
  getQueryData (fst (fst demo_create_failed)) (useMedications_key "p1") =
  getQueryData (demo_cache []) (useMedications_key "p1").
Proof.
  apply (useCreateMedication_failure_restores (demo_cx 500 None) demo_clock demo_server
           demo_medication (demo_cache []) demo_browser (fst (fst demo_create_failed))
           (snd (fst demo_create_failed)) (err_of (snd demo_create_failed))).
  vm_compute. reflexivity.
Defined.

Lemma useUpdateMedication_failure_restores_witness :
  getQueryData (fst (fst demo_update_failed)) (useMedications_key "p1") =
  if decide (queryKeys.medicationSchedules.byPatient "p1" = useMedications_key "p1")
  then Some (demo_server (useMedications_key "p1"))
  else getQueryData (demo_cache [JObj [("medicationId", JStr "m1")]]) (useMedications_key "p1").
Proof.
  apply (useUpdateMedication_failure_restores (demo_cx 0 None) demo_clock demo_server
           demo_update (demo_cache [JObj [("medicationId", JStr "m1")]]) demo_browser
           (fst (fst demo_update_failed)) (snd (fst demo_update_failed))
           (err_of (snd demo_update_failed))).
  vm_compute. reflexivity.
Defined.

Lemma useCreateMedicationSchedule_failure_restores_witness :
  data_equiv (fst (fst demo_schedule_failed))
    (useCreateMedicationSchedule.onSettled "p1" demo_server [demo_schedule "m1"] (demo_cache [])).
Proof.
  apply (useCreateMedicationSchedule_failure_restores "p1" (demo_cx 422 None) demo_clock
           demo_server [demo_schedule "m1"] (demo_cache []) demo_browser
           (fst (fst demo_schedule_failed)) (snd (fst demo_schedule_failed))
           (err_of (snd demo_schedule_failed))).
  vm_compute. reflexivity.
Defined.

Lemma useCreateMedicationAdministration_settle_converges_witness :
  getQueryData (fst (fst demo_administration_run)) (useCreateMedicationAdministration.key "p1") =
    Some (demo_server (useCreateMedicationAdministration.key "p1")) /\
  isStale (fst (fst demo_administration_run)) (useCreateMedicationAdministration.key "p1") = false.
Proof.
  destruct (useCreateMedicationAdministration_settle_converges "p1" (demo_cx 201 (Some (JObj [])))
              demo_clock demo_server demo_administration empty_cache demo_browser
              (fst (fst demo_administration_run)) (snd (fst demo_administration_run))
              (snd demo_administration_run) (triple_eta _)) as (H1 & H2 & _).
  split; [exact H1|exact H2].
Defined.

Lemma useCreateMedication_empty_cache_no_optimistic_witness :
  data_equiv (fst (useCreateMedication.onMutate demo_clock demo_medication empty_cache)) empty_cache.
Proof.
  apply useCreateMedication_empty_cache_no_optimistic. vm_compute. reflexivity.
Defined.

Lemma useUpdateMedication_absent_noop_witness :
  snd (useUpdateMedication.onMutate demo_clock demo_update
         (demo_cache [JObj [("medicationId", JStr "m2")]])) =
    Ok (Some (demo_list [JObj [("medicationId", JStr "m2")]])) /\
  data_equiv (fst (useUpdateMedication.onMutate demo_clock demo_update
                     (demo_cache [JObj [("medicationId", JStr "m2")]])))
    (demo_cache [JObj [("medicationId", JStr "m2")]]).
Proof.
  apply (useUpdateMedication_absent_noop demo_clock demo_update
           (demo_cache [JObj [("medicationId", JStr "m2")]])
           [("medications", JArr [JObj [("medicationId", JStr "m2")]])]
           [JObj [("medicationId", JStr "m2")]]).
  - vm_compute. reflexivity.
  - vm_compute. repeat constructor. by apply not_elem_of_nil.
  - vm_compute. reflexivity.
  - repeat constructor; vm_compute; congruence.
Defined.

Lemma useUpdateMedication_null_element_throws_witness :
  exists msg c', mutateAsync useUpdateMedication.hooks (demo_cx 200 None) demo_clock demo_server
                   demo_update (demo_cache [JNull]) demo_browser =
                 (c', demo_browser, Err (TypeError msg)) /\
                 data_equiv c' (useUpdateMedication.onSettled demo_server demo_update
                                  (demo_cache [JNull])).
Proof.
  apply (useUpdateMedication_null_element_throws (demo_cx 200 None) demo_clock demo_server
           demo_update (demo_cache [JNull]) demo_browser [("medications", JArr [JNull])] [JNull]).
  - vm_compute. reflexivity.
  - vm_compute. reflexivity.
  - apply list_elem_of_singleton. reflexivity.
Defined.

Lemma useCreateMedicationSchedule_no_medication_untouched_witness :
  fst (fst (mutateAsync (useCreateMedicationSchedule.hooks "p1") (demo_cx 201 None) demo_clock
              demo_server [] (demo_cache []) demo_browser)) = demo_cache [] /\
  snd (fst (mutateAsync (useCreateMedicationSchedule.hooks "p1") (demo_cx 201 None) demo_clock
              demo_server [] (demo_cache []) demo_browser)) =
  fst (medicationSchedulesEndpoints.createMedicationSchedulesBulk (demo_cx 201 None) [] demo_browser).
Proof.
  apply useCreateMedicationSchedule_no_medication_untouched. reflexivity.
Defined.

Lemma useCreateMedicationAdministration_network_failure_witness :
  let cx := mkCtx demo_env (fun _ => FetchRejected "Failed to fetch") in
  let '(c', b', r) := mutateAsync (useCreateMedicationAdministration.hooks "p1") cx demo_clock
                        demo_server demo_administration (demo_cache []) demo_browser in
  (exists url opts, r = Err (ApiClientError ("Network error: " ++ "Failed to fetch") None (Some url)
                               (Some opts) None (Some (TypeError "Failed to fetch")))) /\
  data_equiv c' (useCreateMedicationAdministration.onSettled "p1" demo_server demo_administration
                   (demo_cache [])).
Proof.
  intros cx. destruct (mutateAsync _ cx demo_clock demo_server demo_administration (demo_cache [])
                         demo_browser) as [[c' b'] r] eqn:Hm.
  exact (useCreateMedicationAdministration_network_failure "p1" cx demo_clock demo_server
           demo_administration (demo_cache []) demo_browser c' b' r "Failed to fetch"
           (fun _ => eq_refl) Hm).
Defined.
