(* ===== verification/Concurrency.v ===== *)
(** * Interleaved mutations

    The hooks of [Mutations] run one mutation from [onMutate] to [onSettled],
    but the pages let a user fire several mutations before the first
    settles, and TanStack Query interleaves their phases freely.  This file
    models a set of mutation instances of one hook as a state machine: each
    instance is [Idle], [Pending] (its [onMutate] ran and returned a
    context), [Settling] (its request answered or its [onMutate] threw) or
    [Done]; any enabled instance may take the next step; the server state
    changes when a request reaches it (on success, and on a transport error
    too, since a timed-out request may have been applied).

    Every interleaving terminates: a step moves one instance one phase on,
    so no run is longer than three steps per instance, and a run stops only
    when every instance is [Done] ([interleavings_terminate]).

    The theorem: for a hook whose [onSettled] forces a refetch of a key [K],
    once every instance is [Done] the cache holds the server's value at [K],
    whatever the interleaving of optimistic writes, rollbacks and commits.
    It holds for [useCreateMedicationSchedule] on all three patient keys, for
    [useCreateMedicationAdministration] on the administration list and for
    [useUpdateMedication] on the patient schedules (C4, C8).
    [useCreateMedication]'s [onSettled] only invalidates: the refetch is the
    mounted query's ([AddMedication]). *)

From S2P Require Import Prelude Json QueryCache QueryKeys ApiClient Endpoints Mutations.

Section System.
Context {C V Ctx : Type} `{!QueryClientOps C}.
Variable h : hooks C V Ctx.

Inductive phase : Type :=
| Idle
| Pending (context : Ctx)
| Settling
| Done.

Record sys : Type := mkSys {
  s_cache : C;
  s_server : qkey -> value;
  s_insts : list (V * phase)
}.

Definition active (ph : phase) : bool :=
  match ph with Pending _ | Settling => true | _ => false end.

Inductive step : sys -> sys -> Prop :=
| st_mutate s i v clk c1 context :
    s_insts s !! i = Some (v, Idle) ->
    onMutate h clk v (s_cache s) = (c1, Ok context) ->
    step s (mkSys c1 (s_server s) (<[i := (v, Pending context)]> (s_insts s)))
| st_mutate_throw s i v clk c1 e :
    s_insts s !! i = Some (v, Idle) ->
    onMutate h clk v (s_cache s) = (c1, Err e) ->
    step s (mkSys (onError h e v None c1) (s_server s) (<[i := (v, Settling)]> (s_insts s)))
| st_commit s i v context srv' :
    s_insts s !! i = Some (v, Pending context) ->
    step s (mkSys (s_cache s) srv' (<[i := (v, Settling)]> (s_insts s)))
| st_fail s i v context e srv' :
    s_insts s !! i = Some (v, Pending context) ->
    step s (mkSys (onError h e v (Some context) (s_cache s)) srv'
              (<[i := (v, Settling)]> (s_insts s)))
| st_settle s i v :
    s_insts s !! i = Some (v, Settling) ->
    step s (mkSys (onSettled h (s_server s) v (s_cache s)) (s_server s)
              (<[i := (v, Done)]> (s_insts s))).

Definition all_in (p : phase -> bool) (s : sys) : bool :=
  forallb (fun vp => p (snd vp)) (s_insts s).

Definition is_idle (ph : phase) : bool := match ph with Idle => true | _ => false end.
Definition is_done (ph : phase) : bool := match ph with Done => true | _ => false end.

(** An executable schedule of the same steps. *)
Inductive event : Type :=
| EMutate (i : nat) (clk : clock)
| ECommit (i : nat) (srv' : qkey -> value)
| EFail (i : nat) (e : js_error) (srv' : qkey -> value)
| ESettle (i : nat).

Definition exec_event (ev : event) (s : sys) : option sys :=
  let set i x := <[i := x]> (s_insts s) in
  match ev with
  | EMutate i clk =>
      match s_insts s !! i with
      | Some (v, Idle) =>
          let '(c1, r) := onMutate h clk v (s_cache s) in
          Some (match r with
                | Ok context => mkSys c1 (s_server s) (set i (v, Pending context))
                | Err e => mkSys (onError h e v None c1) (s_server s) (set i (v, Settling))
                end)
      | _ => None
      end
  | ECommit i srv' =>
      match s_insts s !! i with
      | Some (v, Pending _) => Some (mkSys (s_cache s) srv' (set i (v, Settling)))
      | _ => None
      end
  | EFail i e srv' =>
      match s_insts s !! i with
      | Some (v, Pending context) =>
          Some (mkSys (onError h e v (Some context) (s_cache s)) srv' (set i (v, Settling)))
      | _ => None
      end
  | ESettle i =>
      match s_insts s !! i with
      | Some (v, Settling) =>
          Some (mkSys (onSettled h (s_server s) v (s_cache s)) (s_server s) (set i (v, Done)))
      | _ => None
      end
  end.

Fixpoint exec (evs : list event) (s : sys) : option sys :=
  match evs with
  | [] => Some s
  | ev :: evs' => exec_event ev s ≫= exec evs'
  end.

Lemma exec_event_step ev s s' : exec_event ev s = Some s' -> step s s'.
Proof.
  destruct ev as [i clk|i srv'|i e srv'|i]; simpl;
    destruct (s_insts s !! i) as [[v []]|] eqn:Hi; try discriminate.
  - destruct (onMutate h clk v (s_cache s)) as [c1 [context|e]] eqn:Hm; intros [= <-].
    + by eapply st_mutate.
    + by eapply st_mutate_throw.
  - intros [= <-]. by eapply st_commit.
  - intros [= <-]. by eapply st_fail.
  - intros [= <-]. by eapply st_settle.
Qed.

Lemma exec_rtc evs s s' : exec evs s = Some s' -> rtc step s s'.
Proof.
  revert s. induction evs as [|ev evs IH]; intros s; simpl; [by intros [= <-]|].
  destruct (exec_event ev s) as [s1|] eqn:He; [|discriminate]. simpl.
  intros Hr. eapply rtc_l; [by apply (exec_event_step ev)|]. by apply IH.
Qed.

(** ** Termination

    Each step moves one instance one phase on, from [Idle] to [Pending] or
    [Settling], from [Pending] to [Settling], or from [Settling] to [Done];
    so the phases left to run bound every interleaving, and an instance that
    is not [Done] can always move. *)

Definition phase_rank (ph : phase) : nat :=
  match ph with Idle => 3 | Pending _ => 2 | Settling => 1 | Done => 0 end.

Definition rank (s : sys) : nat := sum_list_with (fun vp => phase_rank (snd vp)) (s_insts s).

Lemma step_rank s s' : step s s' -> rank s' < rank s.
Proof.
  destruct 1 as [s i v clk c1 cx Hi _|s i v clk c1 e Hi _|s i v cx srv' Hi|s i v cx e srv' Hi|s i v Hi];
    unfold rank; cbn [s_insts];
    match goal with
    | |- sum_list_with ?f (<[i := ?x]> _) < _ =>
        pose proof (sum_list_with_insert f (s_insts s) i x _ Hi); simpl in *; lia
    end.
Qed.

Lemma nsteps_rank n s s' : nsteps step n s s' -> n + rank s' <= rank s.
Proof. induction 1 as [|n x y z Hxy _ IH]; [lia|]. pose proof (step_rank _ _ Hxy). lia. Qed.

Lemma rank_bound s : rank s <= 3 * length (s_insts s).
Proof.
  unfold rank. induction (s_insts s) as [|[v ph] l IH]; simpl; [lia|]. destruct ph; simpl; lia.
Qed.

Lemma step_sn s : sn step s.
Proof.
  remember (rank s) as n eqn:Hn. revert s Hn. induction n as [n IH] using lt_wf_ind.
  intros s ->. constructor. intros s' Hs'. apply (IH (rank s')); [by apply step_rank|done].
Qed.

(** A state where no step applies has every instance [Done]: an idle
    instance can run its [onMutate], a pending one can commit, a settling one
    can settle. *)
Lemma nf_all_done s : nf step s -> all_in is_done s = true.
Proof.
  intros Hnf. unfold all_in. apply forallb_forall. intros [v ph] Hin.
  apply list_elem_of_In, list_elem_of_lookup_1 in Hin as [i Hi].
  destruct ph as [|cx| |]; [exfalso; apply Hnf..|done].
  - destruct (onMutate h (mkClock 0 "") v (s_cache s)) as [c1 [cx|e]] eqn:Hm; eexists;
      [by eapply st_mutate|by eapply st_mutate_throw].
  - eexists. by eapply (st_commit s i v cx (s_server s)).
  - eexists. by eapply st_settle.
Qed.

(** Every interleaving from [s] ends: no run is longer than three steps per
    instance, and a run can only stop once every instance is [Done]. *)
Definition terminates (s : sys) : Prop :=
  sn step s /\ (forall n s', nsteps step n s s' -> n <= 3 * length (s_insts s)) /\
  (nf step s -> all_in is_done s = true).

Lemma interleavings_terminate s : terminates s.
Proof.
  split; [apply step_sn|split; [|apply nf_all_done]].
  intros n s' Hn. pose proof (nsteps_rank _ _ _ Hn). pose proof (rank_bound s). lia.
Qed.

(** ** Convergence *)

Variable K : qkey.
Variable ok : V -> Prop.
Hypothesis settle_refreshes :
  forall srv v c, ok v -> getQueryData (onSettled h srv v c) K = Some (srv K).

Definition converged (s : sys) : Prop :=
  Exists (fun vp => active (snd vp) = true) (s_insts s) \/
  getQueryData (s_cache s) K = Some (s_server s K) \/
  all_in is_idle s = true.

Definition inv (s : sys) : Prop := Forall (fun vp => ok (fst vp)) (s_insts s) /\ converged s.

Lemma insert_Exists (l : list (V * phase)) i y x :
  l !! i = Some y -> active (snd x) = true ->
  Exists (fun vp => active (snd vp) = true) (<[i := x]> l).
Proof.
  intros Hi Ha. apply Exists_exists. exists x. split; [|done].
  apply list_elem_of_lookup_2 with i. apply list_lookup_insert_eq.
  by eapply lookup_lt_Some.
Qed.

Lemma inv_step s s' : inv s -> step s s' -> inv s'.
Proof.
  intros [Hok _] Hst. destruct Hst as [s i v clk c1 cx Hi _|s i v clk c1 e Hi _
    |s i v cx srv' Hi|s i v cx e srv' Hi|s i v Hi];
    (split; [apply Forall_insert; [done|]; exact (Forall_lookup_1 _ _ _ _ Hok Hi)|]);
    try (left; by eapply insert_Exists).
  right; left. simpl. apply settle_refreshes. exact (Forall_lookup_1 _ _ _ _ Hok Hi).
Qed.

Lemma inv_rtc s s' : inv s -> rtc step s s' -> inv s'.
Proof. intros Hinv Hr. induction Hr; eauto using inv_step. Qed.

Lemma inv_init s :
  all_in is_idle s = true -> Forall (fun vp => ok (fst vp)) (s_insts s) -> inv s.
Proof. intros Hidle Hok. split; [done|]. by right; right. Qed.

Lemma quiescent_converges s0 s :
  all_in is_idle s0 = true -> Forall (fun vp => ok (fst vp)) (s_insts s0) ->
  rtc step s0 s -> s_insts s <> [] -> all_in is_done s = true ->
  getQueryData (s_cache s) K = Some (s_server s K).
Proof.
  intros Hidle Hok Hr Hne Hdone.
  destruct (inv_rtc s0 s (inv_init s0 Hidle Hok) Hr) as [_ [Hact|[Hk|Hid]]]; [|done|].
  - exfalso. apply Exists_exists in Hact as ([v ph] & Hin & Ha).
    unfold all_in in Hdone. rewrite forallb_forall in Hdone.
    apply list_elem_of_In in Hin. specialize (Hdone _ Hin). by destruct ph.
  - exfalso. unfold all_in in *. destruct (s_insts s) as [|[v ph] l]; [done|].
    simpl in *. apply andb_prop in Hid as [H1 _]. apply andb_prop in Hdone as [H2 _].
    by destruct ph.
Qed.
End System.

Arguments Idle {Ctx}.
Arguments Settling {Ctx}.
Arguments Done {Ctx}.

(** ** A concrete run

    Two bulk schedule creations for patient ["p1"], interleaved: both
    optimistic writes, then the first commits and settles, then the second
    fails after reaching the server and settles. *)

Definition demo_server0 : qkey -> value := fun _ => JArr [].
Definition demo_server1 : qkey -> value := fun k => JArr (map JStr k).

Definition demo_s0 : @sys cache (list CreateMedicationScheduleData.t)
                         (option useCreateMedicationSchedule.context) :=
  mkSys empty_cache demo_server0 [([demo_schedule "m1"], Idle); ([demo_schedule "m2"], Idle)].

Definition demo_run : list event :=
  [EMutate 0 demo_clock; EMutate 1 demo_clock; ECommit 0 demo_server1; ESettle 0;
   EFail 1 (PlainError "Network error: Failed to fetch") demo_server1; ESettle 1].

Definition demo_final := default demo_s0
  (exec (useCreateMedicationSchedule.hooks "p1") demo_run demo_s0).

Definition demo_a0 : @sys cache CreateMedicationAdministrationData.t (option value) :=
  mkSys empty_cache demo_server0 [(demo_administration, Idle); (demo_administration, Idle)].

Definition demo_a_run : list event :=
  [EMutate 0 demo_clock; EMutate 1 demo_clock; ECommit 1 demo_server1; ESettle 1;
   ECommit 0 demo_server1; ESettle 0].

Definition demo_a_final := default demo_a0
  (exec (useCreateMedicationAdministration.hooks "p1") demo_a_run demo_a0).

Definition demo_u0 : @sys cache UpdateMedicationData.t (option value) :=
  mkSys empty_cache demo_server0 [(demo_update, Idle)].

Definition demo_u_run : list event :=
  [EMutate 0 demo_clock; EFail 0 (PlainError "Request timeout") demo_server1; ESettle 0].

Definition demo_u_final := default demo_u0 (exec useUpdateMedication.hooks demo_u_run demo_u0).

(** ** The hooks *)

Section Hooks.
Context {C : Type} `{!QueryClientOps C} `{!QueryClientLaws C}.

(** C4: any interleaving of bulk schedule creations for one patient, each
    naming a medication, with any outcome of each request: once every
    instance has settled, the patient's medication, schedule and
    administration lists in the cache all equal the server's, although the
    instances cancelled, snapshotted, rolled back and refetched the same
    keys in between. *)
Theorem schedule_bulk_interleaving_converges p (s0 s : @sys C _ _) :
  all_in is_idle s0 = true ->
  Forall (fun vp => useCreateMedicationSchedule.first_medication_id (fst vp) <> None)
    (s_insts s0) ->
  rtc (step (useCreateMedicationSchedule.hooks p)) s0 s ->
  s_insts s <> [] -> all_in is_done s = true ->
  Forall (fun k => getQueryData (s_cache s) k = Some (s_server s k)) (patient_keys p).
Proof.
  intros Hidle Hok Hr Hne Hdone. apply Forall_forall. intros k Hk.
  apply (quiescent_converges (useCreateMedicationSchedule.hooks p) k
           (fun ss => useCreateMedicationSchedule.first_medication_id ss <> None)) with s0;
    try done.
  intros srv v c Hv. cbn [onSettled useCreateMedicationSchedule.hooks].
  unfold useCreateMedicationSchedule.onSettled.
  destruct (useCreateMedicationSchedule.first_medication_id v); [|done].
  by apply refetchPatientQueries_get.
Qed.

(** C8: the same for recording doses ([useCreateMedicationAdministration])
    on the patient's administration list, and for medication updates of one
    patient ([useUpdateMedication]) on the patient's schedule list: at
    quiescence the cached value is the server's. *)
Theorem administration_update_interleaving_converges p
    (a0 a : @sys C CreateMedicationAdministrationData.t (option value))
    (u0 u : @sys C UpdateMedicationData.t (option value)) :
  all_in is_idle a0 = true -> rtc (step (useCreateMedicationAdministration.hooks p)) a0 a ->
  s_insts a <> [] -> all_in is_done a = true ->
  all_in is_idle u0 = true ->
  Forall (fun vp => UpdateMedicationData.patient_id (fst vp) = p) (s_insts u0) ->
  rtc (step useUpdateMedication.hooks) u0 u -> s_insts u <> [] -> all_in is_done u = true ->
  getQueryData (s_cache a) (useCreateMedicationAdministration.key p) =
    Some (s_server a (useCreateMedicationAdministration.key p)) /\
  getQueryData (s_cache u) (usePatientMedicationSchedules_key p) =
    Some (s_server u (usePatientMedicationSchedules_key p)).
Proof.
  intros Ha0 Ha Hane Hadone Hu0 Hok Hu Hune Hudone. split.
  - apply (quiescent_converges (useCreateMedicationAdministration.hooks p) _ (fun _ => True))
      with a0; try done.
    + intros srv v c _. apply get_refetch_eq.
    + apply Forall_forall. done.
  - apply (quiescent_converges useUpdateMedication.hooks _
             (fun d => UpdateMedicationData.patient_id d = p)) with u0; try done.
    intros srv v c <-. apply get_refetch_eq.
Qed.
End Hooks.

(** ** Witnesses *)

Lemma schedule_bulk_interleaving_converges_witness :
  Forall (fun k => getQueryData (s_cache demo_final) k = Some (s_server demo_final k))
    (patient_keys "p1").
Proof.
  apply (schedule_bulk_interleaving_converges "p1" demo_s0 demo_final).
  - vm_compute. reflexivity.
  - repeat constructor; vm_compute; discriminate.
  - apply (exec_rtc _ demo_run). vm_compute. reflexivity.
  - vm_compute. discriminate.
  - vm_compute. reflexivity.
Defined.

Lemma administration_update_interleaving_converges_witness :
  getQueryData (s_cache demo_a_final) (useCreateMedicationAdministration.key "p1") =
    Some (s_server demo_a_final (useCreateMedicationAdministration.key "p1")) /\
  getQueryData (s_cache demo_u_final) (usePatientMedicationSchedules_key "p1") =
    Some (s_server demo_u_final (usePatientMedicationSchedules_key "p1")).
Proof.
  apply (administration_update_interleaving_converges "p1" demo_a0 demo_a_final demo_u0
           demo_u_final).
  - vm_compute. reflexivity.
  - apply (exec_rtc _ demo_a_run). vm_compute. reflexivity.
  - vm_compute. discriminate.
  - vm_compute. reflexivity.
  - vm_compute. reflexivity.
  - repeat constructor.
  - apply (exec_rtc _ demo_u_run). vm_compute. reflexivity.
  - vm_compute. discriminate.
  - vm_compute. reflexivity.
Defined.
