(* ===== verification/Calendar.v ===== *)
(** * The medication calendar
    ([src/src/components/MedicationCalendar/MedicationCalendar.tsx])

    The computations of the calendar component: the filter of medications
    with an active schedule, the colour map, the fourteen-day grid, the doses
    of a day (collected, then sorted by time with a stable sort), the week
    navigation with its disabled "Previous" button, and the date and time a
    clicked dose is recorded at.

    Dates are whole days counted from 1970-01-01 (a Thursday), at local
    midnight: [getDay d = (d + 4) mod 7], and [setDate(getDate() + n)] on a
    midnight date is [d + n]; daylight saving shifts are not modelled.  A
    time of day is minutes after midnight.  [localeCompare] on the
    ["HH:MM:SS"] strings the API returns is the code point order
    [String.compare]: both strings have their digits and colons at the same
    positions, where the two orders agree.

    The theorems: the doses of a day are the active schedules of that
    weekday sorted by time with a stable sort (C18); filtering out the
    medications without an active schedule first gives the same doses (the
    component's pre-filter against the unfiltered reference); and the
    navigation reaches exactly the fortnights from the one before the
    current week on (C23); and the colour map is the reference map
    [color_ref], the palette entry of the last position of each id (C31). *)

From S2P Require Import Prelude Json.
From Stdlib Require Import Sorting.Sorted Sorting.Permutation.
Local Open Scope Z_scope.

(** ** Data *)

Definition getDay (d : Z) : Z := (d + 4) mod 7.

(** [MedicationSchedule] of [src/src/types/api.ts]. *)
Record MedicationSchedule : Type := mkMedicationSchedule {
  scheduleId : string;
  dayOfWeek : Z;
  timeOfDay : string;
  isActive : Z;
  createdAt : string;
  updatedAt : string
}.

(** The fields of [MedicationWithSchedules] the calendar reads; [schedules]
    may be missing in a response ([medication.schedules?.some],
    [medication.schedules || []]). *)
Record MedicationWithSchedules : Type := mkMedicationWithSchedules {
  medicationId : string;
  medicationName : string;
  schedules : option (list MedicationSchedule)
}.

(** [{...schedule, medication_name, medication_id, time}] *)
Record dose : Type := mkDose {
  dose_schedule : MedicationSchedule;
  medication_name : string;
  medication_id : string;
  time : string
}.

(** ** The component's computations *)

Definition has_active_schedule (m : MedicationWithSchedules) : bool :=
  match schedules m with
  | Some ss => existsb (fun s => isActive s =? 1) ss
  | None => false
  end.

Definition activeMedications (ms : list MedicationWithSchedules) : list MedicationWithSchedules :=
  List.filter has_active_schedule ms.

Definition colors : list string :=
  ["#3b82f6"; "#10b981"; "#f59e0b"; "#ef4444"; "#8b5cf6"; "#06b6d4"; "#84cc16";
   "#f97316"; "#ec4899"; "#6366f1"]%string.

(** [medications.forEach((med, index) => colorMap[med.medicationId] =
    colors[index % colors.length])]: a later medication with the same id
    overwrites the colour. *)
Fixpoint color_loop (i : nat) (ms : list MedicationWithSchedules) (acc : list (string * string)) :
    list (string * string) :=
  match ms with
  | [] => acc
  | m :: ms' =>
      color_loop (S i) ms'
        (assoc_set acc (medicationId m) (nth (i mod length colors) colors ""%string))
  end.

Definition generateMedicationColors (ms : list MedicationWithSchedules) : list (string * string) :=
  color_loop 0 ms [].

Record calendar_day : Type := mkDay {
  date : Z;
  day_of_week : Z;
  isToday : bool;
  isCurrentWeek : bool
}.

Definition generateCalendarDays (currentWeekStart today : Z) : list calendar_day :=
  flat_map (fun week =>
    map (fun day =>
      let currentDate := currentWeekStart + Z.of_nat week * 7 + Z.of_nat day in
      mkDay currentDate (getDay currentDate) (currentDate =? today) (Nat.eqb week 0))
      (seq 0 7))
    (seq 0 2).

(** The doses of one schedule on a day of the week. *)
Definition schedule_doses (dow : Z) (m : MedicationWithSchedules) (s : MedicationSchedule) :
    list dose :=
  if (dayOfWeek s =? dow) && (isActive s =? 1)
  then [mkDose s (medicationName m) (medicationId m) (timeOfDay s)] else [].

Definition collect_doses (am : list MedicationWithSchedules) (dow : Z) : list dose :=
  flat_map (fun m => flat_map (schedule_doses dow m) (default [] (schedules m))) am.

(** [doses.sort((a, b) => a.time.localeCompare(b.time))]: [Array.prototype.sort]
    is stable, so the result is the one stable sort by time: insertion sort. *)
Fixpoint insert_dose (x : dose) (l : list dose) : list dose :=
  match l with
  | [] => [x]
  | y :: l' => if String.ltb (time x) (time y) then x :: l else y :: insert_dose x l'
  end.

Definition sort_doses (l : list dose) : list dose :=
  fold_left (fun acc x => insert_dose x acc) l [].

Definition getDosesForDate (am : list MedicationWithSchedules) (d : Z) : list dose :=
  sort_doses (collect_doses am (getDay d)).

(** The start of the displayed fortnight: the Sunday of the current week. *)
Definition initialWeekStart (today : Z) : Z := today - getDay today.

(** [disabled={currentWeekStart <= new Date(today.getTime() - 14 days)}] *)
Definition prev_disabled (currentWeekStart today : Z) : bool := currentWeekStart <=? today - 14.

Inductive direction : Type := Prev | Next.

(** A click on a navigation button; a disabled button ignores the click. *)
Definition navigateWeek (today : Z) (dir : direction) (currentWeekStart : Z) : Z :=
  match dir with
  | Prev => if prev_disabled currentWeekStart today then currentWeekStart
            else currentWeekStart - 14
  | Next => currentWeekStart + 14
  end.

(** The week starts the calendar can show: the initial one, then any
    sequence of clicks. *)
Inductive nav_reach (today : Z) : Z -> Prop :=
| nav_init : nav_reach today (initialWeekStart today)
| nav_click s dir : nav_reach today s -> nav_reach today (navigateWeek today dir s).

(** Cell [i] of the grid, as [generateCalendarDays] computes it. *)
Definition cell (currentWeekStart today : Z) (i : nat) : calendar_day :=
  let d := currentWeekStart + Z.of_nat i in
  mkDay d (getDay d) (d =? today) (Nat.ltb i 7).

Inductive calendar_view : Type :=
| NoSchedules
| NoActiveSchedules
| Grid (colorMap : list (string * string)) (cells : list (calendar_day * list dose)).

(** The render: the two empty states, then one cell per day with its doses. *)
Definition MedicationCalendar (schedulesByMedication : option (list MedicationWithSchedules))
    (currentWeekStart today : Z) : calendar_view :=
  match schedulesByMedication with
  | None | Some [] => NoSchedules
  | Some ms =>
      match activeMedications ms with
      | [] => NoActiveSchedules
      | am => Grid (generateMedicationColors am)
                (map (fun day => (day, getDosesForDate am (date day)))
                   (generateCalendarDays currentWeekStart today))
      end
  end.

(** Sample inputs: [n] medications with ids ["0"], ["1"], ... *)
Definition demo_meds (n : nat) : list MedicationWithSchedules :=
  map (fun i => mkMedicationWithSchedules (show_N (N.of_nat i)) "Medication"%string (Some []))
    (seq 0 n).

(** ** The time a dose is recorded at *)

(** [parseInt] on a decimal string: the value of the leading digits, [NaN]
    ([None]) when there are none. *)
Fixpoint digits_prefix (s : string) (acc : option Z) : option Z :=
  match s with
  | EmptyString => acc
  | String c s' =>
      match digit_value c with
      | Some v => digits_prefix s' (Some (default 0 acc * 10 + v))
      | None => acc
      end
  end.

Definition parseInt (s : string) : option Z := digits_prefix s None.

(** [str.split(":")] *)
Fixpoint split_colon (s : string) : list string :=
  match s with
  | EmptyString => [EmptyString]
  | String c s' =>
      if Ascii.eqb c ":" then EmptyString :: split_colon s'
      else match split_colon s' with
           | p :: ps => String c p :: ps
           | [] => [String c EmptyString]
           end
  end.

(** [const [hours, minutes] = dose.time.split(":");
     scheduledDateTime.setHours(parseInt(hours), parseInt(minutes), 0, 0)]:
    minutes since the epoch, [None] for an invalid date. *)
Definition scheduledDateTime (day : Z) (t : string) : option Z :=
  match split_colon t with
  | h :: m :: _ =>
      match parseInt h, parseInt m with
      | Some hh, Some mm => Some (day * 1440 + hh * 60 + mm)
      | _, _ => None
      end
  | _ => None
  end.

(** ** The colour map, as the component promises it *)

(** The last position, counted from [i], of a medication with id [k]. *)
Fixpoint last_index_from (k : string) (i : nat) (ms : list MedicationWithSchedules) : option nat :=
  match ms with
  | [] => None
  | m :: ms' =>
      match last_index_from k (S i) ms' with
      | Some j => Some j
      | None => if String.eqb (medicationId m) k then Some i else None
      end
  end.

(** The reference colour map: a medication id gets the palette entry of the
    last position it occurs at; an id that does not occur gets none. *)
Definition color_ref (ms : list MedicationWithSchedules) (k : string) : option string :=
  option_map (fun j => nth (j mod length colors) colors ""%string) (last_index_from k 0 ms).

(** ** The sort *)

Definition time_le (a b : dose) : Prop := String.leb (time a) (time b) = true.
Definition time_is (t : string) (d : dose) : bool := String.eqb (time d) t.

Lemma time_le_trans : Transitive time_le.
Proof. intros a b c. apply string_leb_trans. Qed.

Lemma insert_dose_perm x l : Permutation (insert_dose x l) (x :: l).
Proof.
  induction l as [|y l IH]; simpl; [done|].
  destruct (String.ltb (time x) (time y)); [done|].
  rewrite IH. apply perm_swap.
Qed.

Lemma sort_doses_perm_acc l acc : Permutation (fold_left (fun acc x => insert_dose x acc) l acc) (l ++ acc).
Proof.
  revert acc. induction l as [|x l IH]; intros acc; simpl; [done|].
  rewrite IH, insert_dose_perm. symmetry. apply Permutation_middle.
Qed.

Lemma sort_doses_perm l : Permutation (sort_doses l) l.
Proof. unfold sort_doses. rewrite sort_doses_perm_acc. by rewrite app_nil_r. Qed.

Lemma insert_dose_sorted x l : Sorted time_le l -> Sorted time_le (insert_dose x l).
Proof.
  induction 1 as [|y l Hl IH Hhd]; simpl; [by repeat constructor|].
  destruct (String.ltb (time x) (time y)) eqn:Hxy.
  - constructor; [by constructor|]. constructor. unfold time_le.
    apply string_leb_spec. apply string_ltb_spec in Hxy. by rewrite Hxy.
  - constructor; [done|]. apply string_ltb_false_leb in Hxy.
    destruct l as [|z l]; simpl; [by constructor|].
    inversion Hhd; subst. destruct (String.ltb (time x) (time z)); by constructor.
Qed.

Lemma sort_doses_sorted l : Sorted time_le (sort_doses l).
Proof.
  unfold sort_doses. cut (forall acc, Sorted time_le acc ->
    Sorted time_le (fold_left (fun acc x => insert_dose x acc) l acc)); [by intros H; apply H|].
  induction l as [|x l IH]; intros acc Hacc; simpl; [done|]. by apply IH, insert_dose_sorted.
Qed.

(** Inserting into a sorted list puts the new dose after every dose of its time. *)
Lemma insert_dose_stable t x l :
  StronglySorted time_le l ->
  List.filter (time_is t) (insert_dose x l) =
  List.filter (time_is t) l ++ (if time_is t x then [x] else []).
Proof.
  induction 1 as [|y l Hl IH Hall]; simpl; [done|].
  destruct (String.ltb (time x) (time y)) eqn:Hxy; simpl.
  - destruct (time_is t x) eqn:Hx; [|by rewrite app_nil_r]. unfold time_is in Hx.
    apply String.eqb_eq in Hx; subst t.
    assert (Hnone : forall z, In z (y :: l) -> time_is (time x) z = false).
    { intros z Hz. unfold time_is. apply String.eqb_neq. intros Heq.
      assert (String.ltb (time x) (time z) = true) as Hlt.
      { destruct Hz as [<-|Hz]; [done|].
        rewrite Forall_forall in Hall. specialize (Hall z (proj2 (list_elem_of_In _ _) Hz)).
        unfold time_le in Hall.
        apply string_ltb_spec. apply string_ltb_spec in Hxy. apply string_leb_spec in Hall.
        destruct (String.compare (time y) (time z)) eqn:E; try done.
        - apply String.compare_eq_iff in E. by rewrite <- E.
        - by apply (string_compare_lt_trans _ (time y)). }
      rewrite Heq, string_ltb_irrefl in Hlt. discriminate. }
    rewrite Hnone by (by left).
    rewrite filter_all_false by (intros z Hz; apply Hnone; by right).
    done.
  - rewrite IH. by destruct (time_is t y).
Qed.

Lemma sort_doses_stable_acc t l acc :
  Sorted time_le acc ->
  List.filter (time_is t) (fold_left (fun acc x => insert_dose x acc) l acc) =
  List.filter (time_is t) acc ++ List.filter (time_is t) l.
Proof.
  revert acc. induction l as [|x l IH]; intros acc Hacc; simpl; [by rewrite app_nil_r|].
  rewrite IH by (by apply insert_dose_sorted).
  rewrite insert_dose_stable by (apply Sorted_StronglySorted; [apply time_le_trans|done]).
  rewrite <- app_assoc. by destruct (time_is t x).
Qed.

Lemma sort_doses_stable t l :
  List.filter (time_is t) (sort_doses l) = List.filter (time_is t) l.
Proof. unfold sort_doses. by rewrite sort_doses_stable_acc. Qed.

Lemma collect_doses_In x am dow :
  In x (collect_doses am dow) <->
  exists m s, In m am /\ In s (default [] (schedules m)) /\ dayOfWeek s = dow /\
              isActive s = 1 /\ x = mkDose s (medicationName m) (medicationId m) (timeOfDay s).
Proof.
  unfold collect_doses. rewrite in_flat_map. split.
  - intros (m & Hm & Hx). apply in_flat_map in Hx as (s & Hs & Hx).
    unfold schedule_doses in Hx.
    destruct (dayOfWeek s =? dow) eqn:Hd, (isActive s =? 1) eqn:Ha; simpl in Hx; try done.
    destruct Hx as [<-|[]]. apply Z.eqb_eq in Hd, Ha. eauto 10.
  - intros (m & s & Hm & Hs & Hd & Ha & ->). exists m. split; [done|].
    apply in_flat_map. exists s. split; [done|]. unfold schedule_doses.
    rewrite Hd, Ha, !Z.eqb_refl. by left.
Qed.

(** ** Days and weeks *)

Lemma getDay_add_7k d k : getDay (d + 7 * k) = getDay d.
Proof. unfold getDay. replace (d + 7 * k + 4) with (d + 4 + k * 7) by lia. apply Z.mod_add. lia. Qed.

Lemma getDay_range d : 0 <= getDay d < 7.
Proof. unfold getDay. apply Z.mod_pos_bound. lia. Qed.

Lemma getDay_initialWeekStart today : getDay (initialWeekStart today) = 0.
Proof.
  unfold initialWeekStart, getDay.
  replace (today - (today + 4) mod 7 + 4) with ((today + 4) - (today + 4) mod 7) by lia.
  rewrite Zminus_mod, Zmod_mod, Z.sub_diag. done.
Qed.

Lemma getDay_sunday_offset s i : getDay s = 0 -> 0 <= i < 7 -> getDay (s + i) = i.
Proof.
  unfold getDay. intros Hs Hi.
  replace (s + i + 4) with (s + 4 + i) by lia.
  rewrite Zplus_mod, Hs, Z.add_0_l, Zmod_mod. apply Z.mod_small. lia.
Qed.

Lemma generateCalendarDays_cells start today :
  generateCalendarDays start today = map (cell start today) (seq 0 14).
Proof.
  unfold generateCalendarDays.
  transitivity (flat_map (fun week => map (fun day => cell start today (week * 7 + day)) (seq 0 7))
                  (seq 0 2)); [|reflexivity].
  apply flat_map_ext_In. intros w Hw. apply map_ext_in. intros d Hd.
  apply in_seq in Hw, Hd. unfold cell.
  replace (start + Z.of_nat (w * 7 + d)) with (start + Z.of_nat w * 7 + Z.of_nat d) by lia.
  f_equal. destruct w as [|[|w]]; simpl; [|by destruct d as [|[|[|[|[|[|[|]]]]]]]|lia].
  symmetry. apply Nat.ltb_lt. lia.
Qed.

Lemma nav_reach_from_prev today (n : nat) :
  nav_reach today (initialWeekStart today - 14 + 14 * Z.of_nat n).
Proof.
  induction n as [|n IH].
  - replace (initialWeekStart today - 14 + 14 * Z.of_nat 0)
      with (navigateWeek today Prev (initialWeekStart today)).
    + apply nav_click, nav_init.
    + unfold navigateWeek, prev_disabled, initialWeekStart.
      pose proof (getDay_range today).
      destruct (Z.leb_spec (today - getDay today) (today - 14)); lia.
  - replace (initialWeekStart today - 14 + 14 * Z.of_nat (S n))
      with (navigateWeek today Next (initialWeekStart today - 14 + 14 * Z.of_nat n)) by
      (simpl; lia).
    by apply nav_click.
Qed.

(** ** Colours *)

Lemma colors_NoDup : List.NoDup colors.
Proof. unfold colors. repeat constructor; simpl; intuition discriminate. Qed.

Lemma color_loop_notin i ms acc k :
  ~ In k (map medicationId ms) -> assoc_get (color_loop i ms acc) k = assoc_get acc k.
Proof.
  revert i acc. induction ms as [|m ms IH]; intros i acc Hk; simpl; [done|].
  simpl in Hk. rewrite IH by tauto. apply assoc_get_set_ne. tauto.
Qed.

Lemma color_loop_last i ms acc k :
  assoc_get (color_loop i ms acc) k =
  match last_index_from k i ms with
  | Some j => Some (nth (j mod length colors) colors ""%string)
  | None => assoc_get acc k
  end.
Proof.
  revert i acc. induction ms as [|m ms IH]; intros i acc; [done|]. cbn [color_loop last_index_from].
  rewrite IH. destruct (last_index_from k (S i) ms); [done|].
  destruct (String.eqb_spec (medicationId m) k) as [<-|Hne].
  - apply assoc_get_set_eq.
  - by apply assoc_get_set_ne.
Qed.

Lemma color_loop_get i ms acc j m :
  List.NoDup (map medicationId ms) -> nth_error ms j = Some m ->
  assoc_get (color_loop i ms acc) (medicationId m) =
  Some (nth ((i + j) mod length colors) colors ""%string).
Proof.
  revert i acc j. induction ms as [|m' ms IH]; intros i acc j Hnd Hj; [by destruct j|].
  simpl in Hnd. apply List.NoDup_cons_iff in Hnd as [Hnotin Hnd].
  destruct j as [|j]; simpl in Hj |- *.
  - injection Hj as ->. rewrite color_loop_notin by done.
    rewrite assoc_get_set_eq. by rewrite Nat.add_0_r.
  - rewrite (IH (S i) _ j) by done. by replace (S i + j)%nat with (i + S j)%nat by lia.
Qed.

Lemma getDay_sunday_nat s i : getDay s = 0 -> getDay (s + Z.of_nat i) = Z.of_nat (i mod 7).
Proof.
  unfold getDay. intros Hs. rewrite Nat2Z.inj_mod.
  replace (s + Z.of_nat i + 4) with (s + 4 + Z.of_nat i) by lia.
  by rewrite Zplus_mod, Hs, Z.add_0_l, Zmod_mod.
Qed.

(** ** Properties *)

(** C18: the doses shown on a date are exactly the active schedules, of
    medications with an active schedule, whose weekday is the date's, each
    tagged with its medication's name and id; they are sorted by time, and
    doses at the same time keep the order of the medication list and of each
    medication's schedules (the sort is stable). *)
Theorem getDosesForDate_spec am d :
  Sorted time_le (getDosesForDate am d) /\
  (forall x, In x (getDosesForDate am d) <->
     exists m s, In m am /\ In s (default [] (schedules m)) /\ dayOfWeek s = getDay d /\
                 isActive s = 1 /\ x = mkDose s (medicationName m) (medicationId m) (timeOfDay s)) /\
  (forall t, List.filter (time_is t) (getDosesForDate am d) =
             List.filter (time_is t) (collect_doses am (getDay d))).
Proof.
  unfold getDosesForDate. split; [apply sort_doses_sorted|split].
  - intros x. rewrite <- collect_doses_In.
    split; apply Permutation_in; [|symmetry]; apply sort_doses_perm.
  - intros t. apply sort_doses_stable.
Qed.

(** The grid has fourteen cells, cell [i] is the date [start + i], flagged
    as today exactly when it is today and as the current week for the first
    seven; when the start is a Sunday, cell [i] falls on weekday [i mod 7],
    the column of the day-name header above it. *)
Theorem generateCalendarDays_spec start today i :
  getDay start = 0 -> (i < 14)%nat ->
  length (generateCalendarDays start today) = 14%nat /\
  nth_error (generateCalendarDays start today) i =
    Some (mkDay (start + Z.of_nat i) (Z.of_nat (i mod 7)) (start + Z.of_nat i =? today)
            (Nat.ltb i 7)).
Proof.
  intros Hs Hi. rewrite generateCalendarDays_cells.
  split; [by rewrite length_map, length_seq|].
  rewrite nth_error_map, nth_error_seq. apply Nat.ltb_lt in Hi. rewrite Hi. simpl.
  unfold cell. by rewrite getDay_sunday_nat.
Qed.

(** C23: the week starts reachable by the navigation buttons are exactly the
    initial Sunday plus any whole number of fortnights, from one fortnight
    back onwards: "Previous" can be used once from the initial view and never
    further back, "Next" without bound; every reachable start is a Sunday. *)
Theorem nav_reach_iff today s :
  nav_reach today s <->
  (exists k, -1 <= k /\ s = initialWeekStart today + 14 * k) /\ getDay s = 0.
Proof.
  split.
  - intros Hr. assert (Hk : exists k, -1 <= k /\ s = initialWeekStart today + 14 * k).
    { induction Hr as [|s [] Hr (k & Hk & ->)].
      - exists 0. lia.
      - unfold navigateWeek, prev_disabled, initialWeekStart in *. pose proof (getDay_range today).
        destruct (Z.leb_spec (today - getDay today + 14 * k) (today - 14)).
        + exists k. lia.
        + exists (k - 1). lia.
      - exists (k + 1). simpl. lia. }
    split; [done|]. destruct Hk as (k & _ & ->).
    replace (initialWeekStart today + 14 * k) with (initialWeekStart today + 7 * (2 * k)) by lia.
    rewrite getDay_add_7k. apply getDay_initialWeekStart.
  - intros [(k & Hk & ->) _].
    replace (initialWeekStart today + 14 * k)
      with (initialWeekStart today - 14 + 14 * Z.of_nat (Z.to_nat (k + 1))) by lia.
    apply nav_reach_from_prev.
Qed.

(** The colour map gives the medication at position [j] of the list the
    [j mod 10]-th colour of the palette; so medications with distinct ids get
    distinct colours as long as there are at most ten of them. *)
Theorem generateMedicationColors_spec ms :
  List.NoDup (map medicationId ms) ->
  (forall j m, nth_error ms j = Some m ->
     assoc_get (generateMedicationColors ms) (medicationId m) =
     Some (nth (j mod 10) colors ""%string)) /\
  ((length ms <= 10)%nat -> forall j1 j2 m1 m2,
     nth_error ms j1 = Some m1 -> nth_error ms j2 = Some m2 -> j1 <> j2 ->
     assoc_get (generateMedicationColors ms) (medicationId m1) <>
     assoc_get (generateMedicationColors ms) (medicationId m2)).
Proof.
  intros Hnd. assert (Hget : forall j m, nth_error ms j = Some m ->
     assoc_get (generateMedicationColors ms) (medicationId m) =
     Some (nth (j mod 10) colors ""%string)).
  { intros j m Hj. unfold generateMedicationColors. by rewrite (color_loop_get 0 ms [] j m). }
  split; [done|]. intros Hlen j1 j2 m1 m2 H1 H2 Hne.
  rewrite (Hget _ _ H1), (Hget _ _ H2).
  pose proof (proj1 (nth_error_Some ms j1) ltac:(by rewrite H1)).
  pose proof (proj1 (nth_error_Some ms j2) ltac:(by rewrite H2)).
  rewrite !Nat.mod_small by lia. intros Heq. injection Heq as Heq.
  apply Hne. eapply (proj1 (List.NoDup_nth colors ""%string) colors_NoDup); eauto;
    unfold colors; simpl; lia.
Qed.

Lemma inactive_no_doses dow m :
  has_active_schedule m = false -> flat_map (schedule_doses dow m) (default [] (schedules m)) = [].
Proof.
  unfold has_active_schedule. destruct (schedules m) as [ss|]; simpl; [|done].
  induction ss as [|s ss IH]; simpl; [done|]. intros [Hs Hss]%orb_false_iff.
  unfold schedule_doses at 1. rewrite Hs, andb_false_r. by apply IH.
Qed.

Lemma collect_doses_active am dow :
  collect_doses (activeMedications am) dow = collect_doses am dow.
Proof.
  unfold collect_doses, activeMedications.
  induction am as [|m am IH]; simpl; [done|].
  destruct (has_active_schedule m) eqn:Hm; simpl; rewrite IH; [done|].
  by rewrite inactive_no_doses.
Qed.

(** filtering out the medications without an active schedule does not
    change the doses of any date: the doses computed from the filtered list
    are those of the whole list.  The filter only matters for the empty state
    and for the colours, which are assigned by position in the filtered
    list. *)
Theorem getDosesForDate_activeMedications ms d :
  getDosesForDate (activeMedications ms) d = getDosesForDate ms d.
Proof. unfold getDosesForDate. by rewrite collect_doses_active. Qed.

(** The palette has ten colours: with eleven medications the eleventh
    gets the colour of the first. *)
Example generateMedicationColors_wraps :
  assoc_get (generateMedicationColors (demo_meds 11)) "0"%string =
  assoc_get (generateMedicationColors (demo_meds 11)) "10"%string.
Proof. vm_compute. reflexivity. Qed.

(** C31: the colour map the loop builds ([medications.forEach] assigning
    [colorMap[med.medicationId]] in order) is the reference map: every id
    gets the palette entry of the last position it occurs at in the list,
    so of two medications with the same id the later one decides, and an id
    that is not in the list gets no colour. *)
Theorem generateMedicationColors_ref ms k :
  assoc_get (generateMedicationColors ms) k = color_ref ms k.
Proof.
  unfold generateMedicationColors, color_ref. rewrite color_loop_last.
  by destruct (last_index_from k 0 ms).
Qed.

(** ** Witnesses *)

Lemma generateCalendarDays_spec_witness :
  length (generateCalendarDays (initialWeekStart 19675) 19675) = 14%nat /\
  nth_error (generateCalendarDays (initialWeekStart 19675) 19675) 3 =
    Some (mkDay (initialWeekStart 19675 + Z.of_nat 3) (Z.of_nat (3 mod 7))
            (initialWeekStart 19675 + Z.of_nat 3 =? 19675) (Nat.ltb 3 7)).
Proof. apply generateCalendarDays_spec; [vm_compute; reflexivity|lia]. Defined.

Lemma generateMedicationColors_spec_witness :
  (forall j m, nth_error (demo_meds 3) j = Some m ->
     assoc_get (generateMedicationColors (demo_meds 3)) (medicationId m) =
     Some (nth (j mod 10) colors ""%string)) /\
  ((length (demo_meds 3) <= 10)%nat -> forall j1 j2 m1 m2,
     nth_error (demo_meds 3) j1 = Some m1 -> nth_error (demo_meds 3) j2 = Some m2 -> j1 <> j2 ->
     assoc_get (generateMedicationColors (demo_meds 3)) (medicationId m1) <>
     assoc_get (generateMedicationColors (demo_meds 3)) (medicationId m2)).
Proof.
  apply generateMedicationColors_spec. vm_compute.
  repeat constructor; simpl; intuition discriminate.
Defined.
