(* ===== verification/CalendarView.v ===== *)
(** * What the medication calendar draws
    ([src/src/components/MedicationCalendar/MedicationCalendar.tsx])

    [Calendar.MedicationCalendar] computes the calendar's data: the empty
    states, the colour map and the fourteen days with their doses.  This
    file renders them as the component's JSX does: the header (title, the
    "Previous" button's [disabled], the [formatWeekRange] label), the seven
    [DayNames] headers, and per day a [DayCell] whose styled-components
    props choose its border and background, a [DayNumber], and one
    [DoseItem] per dose with its background colour
    ([medicationColors[dose.medication_id]]), [title] and texts.

    Dates are day numbers at local midnight, as in [Calendar]; the day of the
    month and the week-range label come from [DateTime.civil_from_days] and
    the en-US short month names.

    The theorems: every dose the grid draws has a colour of the palette
    (the lookup never yields [undefined]), and exactly the cell of today is
    drawn with the highlighted border when today is in the displayed
    fortnight, none otherwise. *)

From S2P Require Import Prelude Json DateTime Calendar.
From Stdlib Require Import Sorting.Permutation.
Local Open Scope string_scope.
Local Open Scope Z_scope.

(** ** Styled components *)

(** [DayCell]'s [border: 1px solid ${$isToday ? ... : ...}] *)
Definition dayCell_border (isToday : bool) : string := if isToday then "#3b82f6" else "#e5e7eb".

(** [DayCell]'s [background] *)
Definition dayCell_background (isToday isCurrentWeek : bool) : string :=
  if isToday then "#eff6ff" else if isCurrentWeek then "#ffffff" else "#f9fafb".

(** [DayNumber]'s [font-weight] and [color] *)
Definition dayNumber_weight (isToday : bool) : string := if isToday then "700" else "500".
Definition dayNumber_color (isToday : bool) : string := if isToday then "#1d4ed8" else "#374151".

Definition DayNames : list string := ["Sun"; "Mon"; "Tue"; "Wed"; "Thu"; "Fri"; "Sat"].

(** ** Cells *)

(** [currentDate.getDate()] of a local midnight. *)
Definition dayNumber (d : Z) : Z := let '(_, _, dd) := civil_from_days d in dd.

Record dose_item_view : Type := mkDoseItemView {
  di_color : option string;      (** [$medicationColor]; [None] is [undefined] *)
  di_title : string;
  di_time : string;              (** [dose.time.slice(0, 5)] *)
  di_medication : string
}.

Definition dose_item (medicationColors : list (string * string)) (d : dose) : dose_item_view :=
  mkDoseItemView (assoc_get medicationColors (medication_id d))
    (medication_name d ++ " - " ++ time d) (substring 0 5 (time d)) (medication_name d).

Record day_cell_view : Type := mkDayCellView {
  dc_border : string;
  dc_background : string;
  dc_number : Z;
  dc_number_weight : string;
  dc_number_color : string;
  dc_items : list dose_item_view
}.

Definition day_cell (medicationColors : list (string * string)) (cd : calendar_day * list dose) :
    day_cell_view :=
  let '(day, doses) := cd in
  mkDayCellView (dayCell_border (isToday day)) (dayCell_background (isToday day) (isCurrentWeek day))
    (dayNumber (Calendar.date day)) (dayNumber_weight (isToday day)) (dayNumber_color (isToday day))
    (map (dose_item medicationColors) doses).

(** ** The header *)

(** [formatWeekRange]: [toLocaleDateString("en-US", {month: "short", day:
    "numeric"})] of the start, then of the start plus 13 days with
    [year: "numeric"]. *)
Definition formatWeekRange (currentWeekStart : Z) : string :=
  let '(_, m1, d1) := civil_from_days currentWeekStart in
  let '(y2, m2, d2) := civil_from_days (currentWeekStart + 13) in
  month_abbr m1 ++ " " ++ show_Z d1 ++ " - " ++
  month_abbr m2 ++ " " ++ show_Z d2 ++ ", " ++ show_Z (year_of_era y2).

Record calendar_render : Type := mkCalendarRender {
  cr_title : string;
  cr_prev_disabled : bool;
  cr_week_range : string;
  cr_day_headers : list string;
  cr_cells : list day_cell_view
}.

Inductive calendar_page : Type :=
| CalendarMessage (s : string)
| CalendarGrid (r : calendar_render).

(** The component's JSX (the two modals are [CalendarSession]'s). *)
Definition render_calendar (schedulesByMedication : option (list MedicationWithSchedules))
    (currentWeekStart today : Z) : calendar_page :=
  match MedicationCalendar schedulesByMedication currentWeekStart today with
  | NoSchedules => CalendarMessage "No medication schedules found for this patient."
  | NoActiveSchedules => CalendarMessage "No active medication schedules found for this patient."
  | Grid cm cells =>
      CalendarGrid (mkCalendarRender "Medication Schedule Calendar"
        (prev_disabled currentWeekStart today) (formatWeekRange currentWeekStart)
        DayNames (map (day_cell cm) cells))
  end.

(** The grid's items, all cells together. *)
Definition grid_items (p : calendar_page) : list dose_item_view :=
  match p with
  | CalendarGrid r => flat_map dc_items (cr_cells r)
  | CalendarMessage _ => []
  end.

(** The highlighted cells. *)
Definition highlighted (p : calendar_page) : list day_cell_view :=
  match p with
  | CalendarGrid r => List.filter (fun c => String.eqb (dc_border c) "#3b82f6") (cr_cells r)
  | CalendarMessage _ => []
  end.

(** ** Lemmas *)

Lemma last_index_from_In m ms i :
  In m ms -> exists j, last_index_from (medicationId m) i ms = Some j.
Proof.
  revert i. induction ms as [|m' ms IH]; intros i Hin; [done|]. cbn.
  destruct Hin as [->|Hin].
  - destruct (last_index_from _ (S i) ms); [by eexists|]. rewrite String.eqb_refl. by eexists.
  - destruct (IH (S i) Hin) as [j ->]. by eexists.
Qed.

(** A medication of the list gets a colour of the palette. *)
Lemma colour_of_listed am m :
  In m am -> exists c, assoc_get (generateMedicationColors am) (medicationId m) = Some c /\ In c colors.
Proof.
  intros Hm. unfold generateMedicationColors. rewrite color_loop_last.
  destruct (last_index_from_In m am 0 Hm) as [j ->]. eexists. split; [done|].
  apply nth_In, Nat.mod_upper_bound. done.
Qed.

Lemma getDosesForDate_medication am d x :
  In x (getDosesForDate am d) -> exists m, In m am /\ medication_id x = medicationId m.
Proof.
  unfold getDosesForDate. intros Hx.
  apply (Permutation_in _ (sort_doses_perm _)), collect_doses_In in Hx
    as (m & s & Hm & _ & _ & _ & ->).
  by exists m.
Qed.

(** Every dose the grid draws has a colour of the palette. *)
Theorem calendar_doses_coloured sbm start today i :
  In i (grid_items (render_calendar sbm start today)) ->
  exists c, di_color i = Some c /\ In c colors.
Proof.
  unfold render_calendar, MedicationCalendar. destruct sbm as [[|m0 ms]|]; [done| |done].
  destruct (activeMedications (m0 :: ms)) as [|a am] eqn:Ham; [done|]. cbn [grid_items cr_cells].
  rewrite map_map, in_flat_map. intros (c & Hc & Hi). apply in_map_iff in Hc as (day & <- & _).
  unfold day_cell in Hi. cbn [dc_items] in Hi. apply in_map_iff in Hi as (x & <- & Hx).
  destruct (getDosesForDate_medication _ _ _ Hx) as (m & Hm & Hid).
  cbn [dose_item di_color]. rewrite Hid. by apply colour_of_listed.
Qed.

Lemma filter_seq_eq (a n : nat) (t : Z) :
  List.filter (fun i => Z.of_nat i =? t) (seq a n) =
  if (Z.of_nat a <=? t) && (t <? Z.of_nat (a + n)) then [Z.to_nat t] else [].
Proof.
  revert a. induction n as [|n IH]; intros a; cbn.
  - destruct (Z.leb_spec (Z.of_nat a) t), (Z.ltb_spec t (Z.of_nat (a + 0))); simpl; lia || done.
  - rewrite IH.
    destruct (Z.eqb_spec (Z.of_nat a) t), (Z.leb_spec (Z.of_nat (S a)) t),
      (Z.ltb_spec t (Z.of_nat (S a + n))), (Z.leb_spec (Z.of_nat a) t),
      (Z.ltb_spec t (Z.of_nat (a + S n))); cbn; try lia; try done; f_equal; lia.
Qed.

Lemma highlighted_cells cm am start today :
  map dc_number (List.filter (fun c => String.eqb (dc_border c) "#3b82f6")
    (map (day_cell cm) (map (fun day => (day, getDosesForDate am (Calendar.date day)))
                          (generateCalendarDays start today)))) =
  if (start <=? today) && (today <? start + 14) then [dayNumber today] else [].
Proof.
  rewrite generateCalendarDays_cells, !map_map.
  transitivity (map (fun i => dayNumber (start + Z.of_nat i))
                  (List.filter (fun i => Z.of_nat i =? today - start) (seq 0 14))).
  - induction (seq 0 14) as [|i l IH]; [done|]. cbn [map List.filter].
    assert (E : String.eqb (dc_border (day_cell cm (cell start today i,
                   getDosesForDate am (Calendar.date (cell start today i))))) "#3b82f6" =
                (Z.of_nat i =? today - start)).
    { cbn. unfold dayCell_border.
      destruct (Z.eqb_spec (start + Z.of_nat i) today), (Z.eqb_spec (Z.of_nat i) (today - start));
        try lia; done. }
    rewrite E. destruct (Z.of_nat i =? today - start); cbn [map]; [f_equal|]; done.
  - rewrite filter_seq_eq. change (Z.of_nat 0) with 0. change (Z.of_nat (0 + 14)) with 14.
    destruct (Z.leb_spec 0 (today - start)), (Z.ltb_spec (today - start) 14);
      destruct (Z.leb_spec start today), (Z.ltb_spec today (start + 14)); simpl; try lia; try done.
    replace (start + Z.of_nat (Z.to_nat (today - start))) with today by lia. done.
Qed.

(** Exactly the cell of today is highlighted when today is in the displayed
    fortnight, and no cell otherwise. *)
Theorem calendar_highlights_today sbm start today r :
  render_calendar sbm start today = CalendarGrid r ->
  map dc_number (highlighted (CalendarGrid r)) =
  if (start <=? today) && (today <? start + 14) then [dayNumber today] else [].
Proof.
  unfold render_calendar, MedicationCalendar. destruct sbm as [[|m0 ms]|]; [done| |done].
  destruct (activeMedications (m0 :: ms)) as [|a am]; [done|].
  intros H. injection H as <-. apply highlighted_cells.
Qed.
