(* ===== verification/Forms.v ===== *)
(** * The schedule form
    ([src/src/components/CreateMedicationScheduleForm/CreateMedicationScheduleForm.tsx])

    The state of the form (its rows of [CreateMedicationScheduleData], its
    error messages, and the [medicationId] prop it was opened with), each
    handler ([addSchedule], [removeSchedule], [updateSchedule], the effect on
    a new [medicationId], [validateForm], [handleSubmit] with its time
    formatting), what the form renders ([render]: a title, one item per row
    with its "Remove" button, select, time input and messages, and the
    submit label), and the events the rendered form lets a user fire:
    "Remove" is rendered only when there is more than one row, and the day
    select only offers the values 0 to 6.

    The theorems: the form never has zero rows, every row carries the prop's
    medication id and a weekday in range; submission sends exactly the rows,
    with their times formatted to [HH:MM:SS], or sets one error per empty
    time and sends nothing; the submit label counts exactly the rows a
    submission sends; formatting is idempotent, and a time entered as
    [HH:MM] is read back by the calendar as the same hour and minute. *)

From S2P Require Import Prelude Json ApiClient Endpoints Mutations Calendar.
Local Open Scope Z_scope.

Notation row := CreateMedicationScheduleData.t.

Module CreateMedicationScheduleForm.
Import CreateMedicationScheduleData.

Record form : Type := mkForm {
  medicationId : string;                  (** the prop *)
  schedules : list row;
  errors : list (string * string)
}.

Definition default_row (mid : string) : row := mk mid 1 "08:00:00"%string true.

(** [useState([{ medication_id: medicationId, day_of_week: 1, ... }])] *)
Definition initial (mid : string) : form := mkForm mid [default_row mid] [].

(** [useEffect(..., [medicationId])]: every row gets the new id. *)
Definition onMedicationIdChange (mid : string) (f : form) : form :=
  mkForm mid (map (fun s => mk mid (day_of_week s) (time_of_day s) (is_active s)) (schedules f))
    (errors f).

Definition addSchedule (f : form) : form :=
  mkForm (medicationId f) (schedules f ++ [default_row (medicationId f)]) (errors f).

(** [prev.filter((_, i) => i !== index)] *)
Fixpoint drop_index {A} (index i : nat) (l : list A) : list A :=
  match l with
  | [] => []
  | x :: l' => if Nat.eqb i index then drop_index index (S i) l' else x :: drop_index index (S i) l'
  end.

Definition removeSchedule (index : nat) (f : form) : form :=
  mkForm (medicationId f) (drop_index index 0 (schedules f)) (errors f).

(** The two fields the rendered form edits: the day select
    ([Number(e.target.value)]) and the time input. *)
Inductive field_value : Type := DayOfWeek (n : Z) | TimeOfDay (t : string).

Definition field_name (v : field_value) : string :=
  match v with DayOfWeek _ => "day_of_week" | TimeOfDay _ => "time_of_day" end%string.

Definition set_field (v : field_value) (s : row) : row :=
  match v with
  | DayOfWeek n => mk (medication_id s) n (time_of_day s) (is_active s)
  | TimeOfDay t => mk (medication_id s) (day_of_week s) t (is_active s)
  end.

Definition error_key (index : nat) (field : string) : string :=
  (show_N (N.of_nat index) ++ "_" ++ field)%string.

(** [updateSchedule(index, field, value)]: the row at [index] is updated; an
    error shown for that field is cleared. *)
Definition updateSchedule (index : nat) (v : field_value) (f : form) : form :=
  let rows := imap (fun i s => if Nat.eqb i index then set_field v s else s) (schedules f) in
  let k := error_key index (field_name v) in
  let errs := if truthy_str (assoc_get (errors f) k) then assoc_set (spread [] (errors f)) k "" else errors f in
  mkForm (medicationId f) rows errs.

(** [validateForm()]: a number is never [undefined], so only an empty time
    is an error. *)
Definition newErrors (rows : list row) : list (string * string) :=
  fold_left (fun errs '(index, s) =>
      if String.eqb (time_of_day s) "" then
        assoc_set errs (error_key index "time_of_day") "Time is required"
      else errs)
    (imap pair rows) [].

Definition validateForm (f : form) : form * bool :=
  let errs := newErrors (schedules f) in
  (mkForm (medicationId f) (schedules f) errs, Nat.eqb (length errs) 0).
(** [/^\d{1,2}:\d{2}$/] and [/^\d{1,2}:\d{2}:\d{2}$/] *)
Definition is_digit (c : ascii) : bool :=
  match digit_value c with Some _ => true | None => false end.
Definition is_colon (c : ascii) : bool := Ascii.eqb c ":".

Definition match_hm (t : string) : bool :=
  match list_ascii_of_string t with
  | [h; c; m1; m2] => is_digit h && is_colon c && is_digit m1 && is_digit m2
  | [h1; h2; c; m1; m2] =>
      is_digit h1 && is_digit h2 && is_colon c && is_digit m1 && is_digit m2
  | _ => false
  end.

Definition match_hms (t : string) : bool :=
  match list_ascii_of_string t with
  | [h; c; m1; m2; c'; s1; s2] =>
      is_digit h && is_colon c && is_digit m1 && is_digit m2 && is_colon c' &&
      is_digit s1 && is_digit s2
  | [h1; h2; c; m1; m2; c'; s1; s2] =>
      is_digit h1 && is_digit h2 && is_colon c && is_digit m1 && is_digit m2 &&
      is_colon c' && is_digit s1 && is_digit s2
  | _ => false
  end.

Definition formatTime (t : string) : string :=
  if match_hm t then (t ++ ":00")%string
  else if match_hms t then t
  else t.

Definition format_row (mid : string) (s : row) : row :=
  mk mid (day_of_week s) (formatTime (time_of_day s)) (is_active s).

(** [handleSubmit]: validation, then [onSubmit] with the formatted rows
    ([None]: nothing is submitted). *)
Definition handleSubmit (f : form) : form * option (list row) :=
  let '(f1, ok) := validateForm f in
  if ok then (f1, Some (map (format_row (medicationId f)) (schedules f))) else (f1, None).

(** ** What the form renders *)

Record row_view : Type := mkRowView {
  rv_title : string;                 (** ["Schedule {index + 1}"] *)
  rv_remove : bool;                  (** the "Remove" button *)
  rv_day : string;                   (** the select's [value] *)
  rv_day_error : option string;
  rv_time : string;
  rv_time_error : option string
}.

Record form_view : Type := mkFormView {
  fv_title : string;
  fv_rows : list row_view;
  fv_submit_label : string;
  fv_submit_disabled : bool
}.

(** [{errors[key] && <ErrorMessage>{errors[key]}</ErrorMessage>}] *)
Definition shown_error (f : form) (k : string) : option string :=
  match assoc_get (errors f) k with
  | Some e => if String.eqb e "" then None else Some e
  | None => None
  end.

(** [`Create ${schedules.length} Schedule${schedules.length > 1 ? "s" : ""}`] *)
Definition submit_label (n : nat) : string :=
  ("Create " ++ show_N (N.of_nat n) ++ " Schedule" ++ (if Nat.ltb 1 n then "s" else ""))%string.

Definition row_view_of (f : form) (index : nat) (s : row) : row_view :=
  let day := show_Z (day_of_week s) in
  mkRowView ("Schedule " ++ show_N (N.of_nat (S index)))%string (Nat.ltb 1 (length (schedules f)))
    (if String.eqb day "" then "1" else day)%string
    (shown_error f (error_key index "day_of_week"))
    (time_of_day s) (shown_error f (error_key index "time_of_day")).

(** The JSX of the form, for the [medicationName] and [isSubmitting]
    props. *)
Definition render (medicationName : string) (isSubmitting : bool) (f : form) : form_view :=
  mkFormView ("Create Schedules for " ++ medicationName)%string
    (imap (row_view_of f) (schedules f))
    (if isSubmitting then "Creating..." else submit_label (length (schedules f)))%string
    isSubmitting.

(** ** The events the rendered form offers *)
Inductive ui_step : form -> form -> Prop :=
| ui_add f : ui_step f (addSchedule f)
| ui_remove f index :
    (1 < length (schedules f))%nat -> (index < length (schedules f))%nat ->
    ui_step f (removeSchedule index f)
| ui_day f index n :
    (index < length (schedules f))%nat -> 0 <= n <= 6 ->
    ui_step f (updateSchedule index (DayOfWeek n) f)
| ui_time f index t :
    (index < length (schedules f))%nat -> ui_step f (updateSchedule index (TimeOfDay t) f)
| ui_validate f : ui_step f (fst (validateForm f))
| ui_prop f mid : ui_step f (onMedicationIdChange mid f).
End CreateMedicationScheduleForm.

Import CreateMedicationScheduleForm CreateMedicationScheduleData.

(** A sample session: a second row is added and its time set to 21:30. *)
Definition demo_form : form :=
  updateSchedule 1 (TimeOfDay "21:30"%string) (addSchedule (initial "m1"%string)).

(** ** Lemmas *)

(** The form invariant: at least one row; each carries the prop's id and a
    weekday in range. *)
Definition row_ok (mid : string) (s : row) : Prop :=
  medication_id s = mid /\ 0 <= day_of_week s <= 6.

Definition form_inv (f : form) : Prop :=
  schedules f <> [] /\ Forall (row_ok (medicationId f)) (schedules f).

Lemma drop_index_past {A} index i (l : list A) : (index < i)%nat -> drop_index index i l = l.
Proof.
  revert i. induction l as [|x l IH]; intros i Hi; simpl; [done|].
  destruct (Nat.eqb_spec i index); [lia|]. f_equal. apply IH. lia.
Qed.

Lemma drop_index_length {A} index i (l : list A) :
  (i <= index < i + length l)%nat -> length (drop_index index i l) = (length l - 1)%nat.
Proof.
  revert i. induction l as [|x l IH]; intros i Hi; simpl in *; [lia|].
  destruct (Nat.eqb_spec i index).
  - rewrite drop_index_past by lia. lia.
  - simpl. rewrite IH by lia. destruct l; simpl in *; lia.
Qed.

Lemma drop_index_Forall {A} (P : A -> Prop) index i l :
  Forall P l -> Forall P (drop_index index i l).
Proof.
  intros Hl. revert i. induction Hl as [|x l Hx Hl IH]; intros i; simpl; [constructor|].
  destruct (Nat.eqb i index); [apply IH|constructor; [done|apply IH]].
Qed.

Lemma imap_update_Forall (P : row -> Prop) (g : row -> row) index l :
  Forall P l -> (forall s, P s -> P (g s)) ->
  Forall P (imap (fun i s => if Nat.eqb i index then g s else s) l).
Proof.
  intros Hl Hg. apply Forall_lookup_2. intros i x Hx.
  apply list_lookup_imap_Some in Hx as (y & Hy & ->).
  pose proof (Forall_lookup_1 _ _ _ _ Hl Hy). by destruct (Nat.eqb i index); [apply Hg|].
Qed.

Lemma nonempty_length {A} (l : list A) : l <> [] <-> (0 < length l)%nat.
Proof. destruct l; simpl; split; intros; try lia; done. Qed.

Lemma form_inv_initial mid : form_inv (initial mid).
Proof. split; [done|]. repeat constructor; simpl; lia. Qed.

Lemma form_inv_step f f' : form_inv f -> ui_step f f' -> form_inv f'.
Proof.
  intros [Hne Hall] Hst.
  destruct Hst as [f|f index H1 Hi|f index n Hi Hn|f index t Hi|f|f mid];
    unfold form_inv, addSchedule, removeSchedule, updateSchedule, validateForm,
      onMedicationIdChange; simpl fst; simpl schedules; simpl medicationId.
  - split; [intros Happ; apply app_eq_nil in Happ as [_ Happ]; discriminate|].
    apply Forall_app. split; [done|].
    repeat constructor; simpl; lia.
  - split; [|by apply drop_index_Forall].
    apply nonempty_length. rewrite drop_index_length by lia. lia.
  - split; [apply nonempty_length; rewrite length_imap; by apply nonempty_length|].
    apply imap_update_Forall; [done|]. intros s [Hid _]. split; [done|simpl; lia].
  - split; [apply nonempty_length; rewrite length_imap; by apply nonempty_length|].
    by apply imap_update_Forall.
  - by split.
  - split; [by destruct (schedules f)|]. apply Forall_forall. intros s Hs.
    apply list_elem_of_In, in_map_iff in Hs as (s0 & <- & Hs0).
    apply list_elem_of_In in Hs0. pose proof (proj1 (Forall_forall _ _) Hall s0 Hs0) as [_ Hd].
    by split.
Qed.

Lemma form_inv_rtc mid f : rtc ui_step (initial mid) f -> form_inv f.
Proof.
  intros Hr. remember (initial mid) as f0 eqn:E.
  assert (form_inv f0) as H0 by (subst; apply form_inv_initial).
  clear E. induction Hr; eauto using form_inv_step.
Qed.

Lemma assoc_set_not_nil {V} (l : list (string * V)) k v : assoc_set l k v <> [].
Proof. destruct l as [|[k' v'] l]; simpl; [done|]. by destruct (String.eqb k' k). Qed.

Lemma newErrors_fold_nil (l : list (nat * row)) acc :
  fold_left (fun errs '(index, s) =>
      if String.eqb (time_of_day s) "" then
        assoc_set errs (error_key index "time_of_day") "Time is required"
      else errs) l acc = [] <->
  acc = [] /\ Forall (fun p => time_of_day (snd p) <> ""%string) l.
Proof.
  revert acc. induction l as [|[i s] l IH]; intros acc; simpl.
  - split; [done|by intros []].
  - rewrite IH, Forall_cons. destruct (String.eqb_spec (time_of_day s) "").
    + split; [intros [H _]; by apply assoc_set_not_nil in H|]. intros (_ & [] & _). done.
    + tauto.
Qed.

Lemma Forall_imap_pair {A} (Q : A -> Prop) (l : list A) :
  Forall (fun p => Q (snd p)) (imap pair l) <-> Forall Q l.
Proof.
  rewrite !Forall_lookup. split.
  - intros H i x Hx. apply (H i (i, x)). apply list_lookup_imap_Some. eauto.
  - intros H i p Hp. apply list_lookup_imap_Some in Hp as (y & Hy & ->). by apply (H i).
Qed.

Lemma newErrors_nil rows :
  newErrors rows = [] <-> Forall (fun s => time_of_day s <> ""%string) rows.
Proof.
  unfold newErrors. rewrite newErrors_fold_nil.
  rewrite (Forall_imap_pair (fun s => time_of_day s <> ""%string)). tauto.
Qed.

Lemma match_hm_length t :
  match_hm t = true -> length (list_ascii_of_string t) = 4%nat \/ length (list_ascii_of_string t) = 5%nat.
Proof.
  unfold match_hm. destruct (list_ascii_of_string t) as [|a [|b [|c [|d [|e [|g l]]]]]]; simpl;
    try discriminate; auto.
Qed.

Lemma formatTime_eq t : formatTime t = if match_hm t then (t ++ ":00")%string else t.
Proof. unfold formatTime. by destruct (match_hm t), (match_hms t). Qed.

Lemma match_hm_formatted t : match_hm t = true -> match_hm (t ++ ":00")%string = false.
Proof.
  intros H. destruct (match_hm (t ++ ":00")%string) eqn:E; [|done].
  apply match_hm_length in H, E. rewrite list_ascii_of_string_app, length_app in E.
  simpl in E. lia.
Qed.

Lemma digit_not_colon c v : digit_value c = Some v -> Ascii.eqb c ":" = false.
Proof. intros H. destruct (Ascii.eqb_spec c ":"); [subst; discriminate H|done]. Qed.

Lemma parseInt_two c1 c2 v1 v2 :
  digit_value c1 = Some v1 -> digit_value c2 = Some v2 ->
  parseInt (String c1 (String c2 EmptyString)) = Some (v1 * 10 + v2).
Proof. intros H1 H2. unfold parseInt. simpl. rewrite H1. simpl. rewrite H2. simpl. do 2 f_equal; lia. Qed.

Lemma is_digit_of c v : digit_value c = Some v -> is_digit c = true.
Proof. unfold is_digit. by intros ->. Qed.

Lemma handleSubmit_Some f f' payload :
  handleSubmit f = (f', Some payload) ->
  payload = map (format_row (medicationId f)) (schedules f).
Proof.
  unfold handleSubmit, validateForm. simpl. by destruct (Nat.eqb _ 0); intros [= _ <-].
Qed.

(** ** Properties *)

(** whatever the user does with the rendered form (add rows, remove
    rows while more than one is left, pick days, type times, failed submits,
    a new [medicationId] prop), the form has at least one row, and every row
    carries the current medication id and a weekday in 0..6. *)
Theorem form_invariant mid f :
  rtc ui_step (initial mid) f ->
  schedules f <> [] /\ Forall (row_ok (medicationId f)) (schedules f).
Proof. apply form_inv_rtc. Qed.

(** submitting either sends every row, in order, with the prop's
    medication id and its time formatted, and records no error; or, when some
    row has an empty time, sends nothing and records an error.  The rows and
    the prop are left as they were. *)
Theorem handleSubmit_spec f :
  let '(f', r) := handleSubmit f in
  schedules f' = schedules f /\ medicationId f' = medicationId f /\
  ((Forall (fun s => time_of_day s <> ""%string) (schedules f) /\ errors f' = [] /\
    r = Some (map (format_row (medicationId f)) (schedules f))) \/
   (Exists (fun s => time_of_day s = ""%string) (schedules f) /\ errors f' <> [] /\ r = None)).
Proof.
  unfold handleSubmit, validateForm. simpl fst. simpl snd.
  destruct (Nat.eqb_spec (length (newErrors (schedules f))) 0) as [E|E]; simpl.
  - apply nil_length_inv in E. do 2 (split; [done|]). left.
    split; [by apply newErrors_nil|done].
  - do 2 (split; [done|]). right. split; [|split; [intros H; apply E; by rewrite H|done]].
    assert (Hex : Exists (not ∘ (fun s => time_of_day s <> ""%string)) (schedules f)).
    { apply not_Forall_Exists; [apply _|]. intros Hall. apply E.
      by rewrite (proj2 (newErrors_nil _) Hall). }
    eapply Exists_impl; [exact Hex|]. intros s Hs. simpl in Hs.
    destruct (decide (time_of_day s = ""%string)); [done|]. by exfalso.
Qed.

(** Formatting a time twice formats it once: an [H:MM] or [HH:MM]
    entry gains [:00] and is left alone afterwards; anything else is sent as
    typed. *)
Theorem formatTime_idempotent t : formatTime (formatTime t) = formatTime t.
Proof.
  rewrite (formatTime_eq t). destruct (match_hm t) eqn:E.
  - by rewrite formatTime_eq, match_hm_formatted.
  - by rewrite formatTime_eq, E.
Qed.

(** A time picked as [HH:MM] in the schedule form is sent as [HH:MM:00],
    and the calendar reads that string back as the same hour and minute. *)
Lemma formatTime_calendar_read day h1 h2 m1 m2 vh1 vh2 vm1 vm2 :
  digit_value h1 = Some vh1 -> digit_value h2 = Some vh2 ->
  digit_value m1 = Some vm1 -> digit_value m2 = Some vm2 ->
  scheduledDateTime day
    (formatTime (String h1 (String h2 (String ":" (String m1 (String m2 EmptyString)))))) =
  Some (day * 1440 + (vh1 * 10 + vh2) * 60 + (vm1 * 10 + vm2)).
Proof.
  intros H1 H2 M1 M2. rewrite formatTime_eq.
  unfold match_hm. simpl list_ascii_of_string. cbv iota beta.
  rewrite (is_digit_of _ _ H1), (is_digit_of _ _ H2), (is_digit_of _ _ M1), (is_digit_of _ _ M2).
  simpl. unfold scheduledDateTime. simpl split_colon.
  rewrite (digit_not_colon _ _ H1), (digit_not_colon _ _ H2), (digit_not_colon _ _ M1),
    (digit_not_colon _ _ M2). simpl.
  by rewrite (parseInt_two _ _ _ _ H1 H2), (parseInt_two _ _ _ _ M1 M2).
Qed.

(** a submission from the rendered form always reaches the bulk
    endpoint with at least one row, each carrying the form's medication id
    and a weekday in 0..6; so when that id is not empty,
    [useCreateMedicationSchedule] takes the branch that snapshots, restores
    and refreshes the schedule keys (never its untouched-cache branch). *)
Theorem form_submission_refreshes mid f f' payload :
  rtc ui_step (initial mid) f -> medicationId f <> ""%string ->
  handleSubmit f = (f', Some payload) ->
  payload <> [] /\ Forall (row_ok (medicationId f)) payload /\
  useCreateMedicationSchedule.first_medication_id payload = Some (medicationId f).
Proof.
  intros Hr Hmid Hs. apply handleSubmit_Some in Hs as ->.
  destruct (form_inv_rtc mid f Hr) as [Hne Hall].
  destruct (schedules f) as [|s rows] eqn:Hrows; [done|]. split; [done|]. split.
  - apply Forall_forall. intros x Hx. apply list_elem_of_In, in_map_iff in Hx as (y & <- & Hy).
    apply list_elem_of_In in Hy. destruct (proj1 (Forall_forall _ _) Hall y Hy) as [_ Hd].
    by split.
  - simpl. destruct (String.eqb_spec (medicationId f) ""); [done|]. done.
Qed.

(** The submit button of a form the user reached names exactly the number
    of schedules a successful submission sends, never zero. *)
Theorem submit_label_counts_sent mid name f f' payload :
  rtc ui_step (initial mid) f -> handleSubmit f = (f', Some payload) ->
  fv_submit_label (render name false f) = submit_label (length payload) /\ (1 <= length payload)%nat.
Proof.
  intros Hr Hs. apply handleSubmit_Some in Hs as ->. rewrite length_map.
  destruct (form_inv_rtc mid f Hr) as [Hne _]. split; [done|].
  destruct (schedules f); [done|simpl; lia].
Qed.

(** ** Witnesses *)

Lemma demo_form_reachable : rtc ui_step (initial "m1"%string) demo_form.
Proof.
  eapply rtc_l; [apply ui_add|]. eapply rtc_l; [apply (ui_time _ 1 "21:30"%string); vm_compute; lia|].
  apply rtc_refl.
Qed.

Lemma form_invariant_witness :
  schedules demo_form <> [] /\ Forall (row_ok (medicationId demo_form)) (schedules demo_form).
Proof. apply (form_invariant "m1"%string). apply demo_form_reachable. Defined.

Lemma form_submission_refreshes_witness :
  map (format_row "m1"%string) (schedules demo_form) <> [] /\
  Forall (row_ok (medicationId demo_form)) (map (format_row "m1"%string) (schedules demo_form)) /\
  useCreateMedicationSchedule.first_medication_id (map (format_row "m1"%string) (schedules demo_form)) =
    Some (medicationId demo_form).
Proof.
  apply (form_submission_refreshes "m1"%string demo_form (fst (handleSubmit demo_form))).
  - apply demo_form_reachable.
  - vm_compute. discriminate.
  - vm_compute. reflexivity.
Defined.
