(* ===== verification/Views.v ===== *)
(** * Page and modal views
    ([src/src/pages/MedicationList/MedicationList.tsx],
     [src/src/components/AdministrationDetailsModal/AdministrationDetailsModal.tsx])

    What the medication list page and the administration details modal
    display, computed from the cached JSON values: the grid of medication
    cards (medications whose [isActive] is not [false]) with the text of each
    card, the empty states, and what the details modal shows for a clicked
    dose: its scheduled time and the records of its medication, dates
    formatted by date-fns [format] (a string is first read by [parseISO],
    which is a parameter), and the label of its button.

    The theorems: the provisional record of [useCreateMedication], written in
    snake case, is displayed with the fallback texts ("Unknown", "No generic
    name", zero dosage and frequency) whatever the user entered; deactivating
    a medication hides its card at once (the optimistic update sets
    [isActive] to [false]); the details modal lists the same records for
    every dose of a medication, whatever its scheduled day and time (C27);
    and a [null] administration record makes it throw, loading or not
    (C7). *)

From S2P Require Import Prelude Json DateTime QueryCache QueryKeys ApiClient Endpoints Mutations.
Local Open Scope string_scope.
Local Open Scope mm_scope.

(** ** Rendering JS values *)

(** The text React renders for a value: strings and numbers; [null],
    [undefined] and booleans render nothing. *)
Definition text_of (o : option value) : string :=
  match o with
  | Some (JStr s) => s
  | Some (JNum z) => show_Z z
  | _ => ""
  end.

(** [a || "fallback"] rendered *)
Definition or_text (o : option value) (fallback : string) : string :=
  if truthy o then text_of o else fallback.

(** [medication.medicationId?.slice(0, 8) || "Unknown"]; [slice] on anything
    but a string (or [null]/[undefined]) throws. *)
Definition id_label (o : option value) : result string js_error :=
  match o with
  | None | Some JNull => Ok "Unknown"
  | Some (JStr s) => Ok (if String.eqb s "" then "Unknown" else substring 0 8 s)
  | Some _ => Err (TypeError "medication.medicationId?.slice is not a function")
  end.

(** ** [MedicationList] *)

Record MedicationCard : Type := mkMedicationCard {
  card_id : string;
  card_name : string;
  card_generic : string;
  card_dosage : string;
  card_frequency : string;
  card_strength : string;
  card_instructions : option string
}.

Definition medication_card (m : value) : result MedicationCard js_error :=
  let* id := id_label (get_prop m "medicationId") in
  Ok (mkMedicationCard id
        (or_text (get_prop m "name") "Unnamed Medication")
        (or_text (get_prop m "genericName") "No generic name")
        (or_text (get_prop m "dosageAmount") "0" ++ " " ++ or_text (get_prop m "unit") "unit" ++ " " ++
         or_text (get_prop m "form") "form")
        (or_text (get_prop m "frequencyPerDay") "0" ++ "x per day")
        ("Strength: " ++ or_text (get_prop m "strength") "Unknown" ++ " " ++
         or_text (get_prop m "unit") "unit")
        (if truthy (get_prop m "specialInstructions")
         then Some (text_of (get_prop m "specialInstructions")) else None)).

(** [medication.isActive !== false] *)
Definition shown (m : value) : bool :=
  match get_prop m "isActive" with Some (JBool false) => false | _ => true end.

Fixpoint cards (ms : list value) : result (list MedicationCard) js_error :=
  match ms with
  | [] => Ok []
  | m :: ms' => let* c := medication_card m in let* cs := cards ms' in Ok (c :: cs)
  end.

Inductive list_view : Type :=
| PatientIdNotFound
| Loading
| Grid (cs : list MedicationCard)
| Empty (title : string).

(** The page for a route parameter, the loading flag and the cached
    [useMedications] data ([medicationsData?.medications &&
    medicationsData.medications.length > 0 ? grid : empty state]; a string
    has a [length] but no [filter]).  In the empty state the title's own test
    is the one that just failed, so it is always "No medications found". *)
Definition MedicationList (patientId : option string) (isLoading : bool)
    (medicationsData : option value) : result list_view js_error :=
  match patientId with
  | None => Ok PatientIdNotFound
  | Some p =>
      if String.eqb p "" then Ok PatientIdNotFound
      else if isLoading then Ok Loading
      else match medicationsData ≫= fun d => get_prop d "medications" with
           | Some (JArr (m :: ms)) =>
               let* cs := cards (List.filter shown (m :: ms)) in Ok (Grid cs)
           | Some (JStr s) =>
               if String.eqb s "" then Ok (Empty "No medications found")
               else Err (TypeError "medicationsData.medications.filter is not a function")
           | _ => Ok (Empty "No medications found")
           end
  end.

(** ** [AdministrationDetailsModal] *)

Record details_dose_ref : Type := mkDetailsDoseRef {
  dose_medicationId : string;
  dose_medicationName : string;
  dose_scheduledDateTime : option Z;   (** the [Date]'s time value, [None] if invalid *)
  dose_scheduleId : string
}.

(** [safeAdministrations.filter((admin) => admin.medicationId ===
    dose.medicationId)]: reading [medicationId] of a [null] element throws
    a [TypeError], which escapes the render. *)
Fixpoint relevantAdministrations (administrations : list value) (d : details_dose_ref) :
    result (list value) js_error :=
  match administrations with
  | [] => Ok []
  | a :: rest =>
      let* id := member a "medicationId" in
      let* rel := relevantAdministrations rest d in
      Ok (if bool_decide (id = Some (JStr (dose_medicationId d))) then a :: rel else rel)
  end.

(** The modal's [formatDateTime]: a [Date] is formatted, a string is first
    read by date-fns [parseISO] (a parameter: its grammar is date-fns's),
    anything else is ["Invalid Date"]; [format] throws on an invalid date and
    the [catch] answers ["Invalid Date"]. *)
Definition date_value (tz : Z) (d : Json.date) : time_value :=
  match d with
  | DateOfString s => parse tz s
  | DateNow ms => time_clip (Z.of_N ms)
  end.

Definition format_or_invalid (tz : Z) (d : time_value) : string :=
  match d with Some t => format_MMMdyyyy_hmmssa tz t | None => "Invalid Date" end.

Definition details_formatDateTime (tz : Z) (parseISO : string -> time_value) (x : option value) :
    string :=
  match x with
  | Some (JDate d) => format_or_invalid tz (date_value tz d)
  | Some (JStr s) => format_or_invalid tz (parseISO s)
  | _ => "Invalid Date"
  end.

Record admin_row : Type := mkAdminRow {
  actual_time : string;
  administered_by : string;
  notes_text : string;
  recorded_at : string
}.

(** One record's grid: "Actual Time" and "Recorded At" both format
    [admin.createdAt]. *)
Definition admin_row_of (tz : Z) (parseISO : string -> time_value) (a : value) : admin_row :=
  mkAdminRow (details_formatDateTime tz parseISO (get_prop a "createdAt"))
    (text_of (get_prop a "administeredBy"))
    (or_text (get_prop a "notes") "No notes")
    (details_formatDateTime tz parseISO (get_prop a "createdAt")).

Inductive details_view : Type :=
| DetailsLoading
| Details (medication : string) (scheduled : string) (rows : list admin_row) (button : string).

Definition details_rows (v : details_view) : list admin_row :=
  match v with Details _ _ rows _ => rows | DetailsLoading => [] end.

Definition details_button (v : details_view) : option string :=
  match v with Details _ _ _ button => Some button | DetailsLoading => None end.

Definition AdministrationDetailsModal (tz : Z) (parseISO : string -> time_value) (d : details_dose_ref)
    (administrations : option value) (isLoading : bool) : result details_view js_error :=
  let safe := match administrations with Some (JArr xs) => xs | _ => [] end in
  let* rel := relevantAdministrations safe d in
  Ok (if isLoading then DetailsLoading
      else Details (dose_medicationName d)
             (format_or_invalid tz (dose_scheduledDateTime d))
             (map (admin_row_of tz parseISO) rel)
             (match rel with
              | [] => "Mark as Administered"
              | _ => "Add Another Administration Record"
              end)).

(** ** Sample inputs *)

Definition demo_deactivate : UpdateMedicationData.t :=
  UpdateMedicationData.mk "m1" "p1" "Aspirin" "acetylsalicylic acid" "100" "mg" "tablet"
    (JNum 1) (JNum 2)
    false "".

Definition demo_active_list : list value :=
  [JObj [("medicationId", JStr "m1"); ("isActive", JBool true)];
   JObj [("medicationId", JStr "m2"); ("isActive", JBool true)]].

Definition demo_dose (scheduled : Z) : details_dose_ref := mkDetailsDoseRef "m1" "Aspirin" (Some scheduled) "s1".

Definition demo_administrations : value :=
  JArr [JObj [("medicationId", JStr "m1"); ("administeredBy", JStr "nurse");
              ("createdAt", JStr "2023-11-13T08:05:00.000Z")]].

(** ** Lemmas *)

Lemma updated_isActive clk d fs :
  get_prop (useUpdateMedication.updated clk d fs) "isActive" =
  Some (JBool (UpdateMedicationData.is_active d)).
Proof.
  unfold useUpdateMedication.updated. simpl get_prop.
  rewrite assoc_get_set_ne by discriminate. apply assoc_get_set_eq.
Qed.

Lemma update_one_hides clk d m m' :
  useUpdateMedication.update_one clk d m = Ok m' ->
  get_prop m' "medicationId" = Some (JStr (UpdateMedicationData.medication_id d)) ->
  get_prop m' "isActive" = Some (JBool (UpdateMedicationData.is_active d)).
Proof.
  unfold useUpdateMedication.update_one. destruct m as [| | | | |fs|]; simpl; try discriminate;
    intros [= <-]; simpl; try discriminate.
  match goal with |- context [assoc_get fs ?key] =>
    destruct (assoc_get fs key) as [[| | |s| | |]|] eqn:Hid end; simpl; try congruence.
  destruct (String.eqb_spec s (UpdateMedicationData.medication_id d)) as [->|Hne].
  - intros _. apply updated_isActive.
  - unfold get_prop. rewrite Hid. intros [= ->]. done.
Qed.

Lemma map_meds_hides clk d ms ms' :
  UpdateMedicationData.is_active d = false ->
  useUpdateMedication.map_meds clk d ms = Ok ms' ->
  Forall (fun m => get_prop m "medicationId" = Some (JStr (UpdateMedicationData.medication_id d)) ->
                   shown m = false) ms'.
Proof.
  intros Hoff. revert ms'. induction ms as [|m ms IH]; intros ms'; simpl; [intros [= <-]; constructor|].
  destruct (useUpdateMedication.update_one clk d m) as [m'|] eqn:Hm; simpl; [|discriminate].
  destruct (useUpdateMedication.map_meds clk d ms) as [ms''|]; simpl; [|discriminate].
  intros [= <-]. constructor; [|by apply IH].
  intros Hid. unfold shown. by rewrite (update_one_hides clk d m m' Hm Hid), Hoff.
Qed.

(** ** Properties *)

(** the provisional medication that [useCreateMedication] appends is
    displayed with the fallback texts: its id as "Unknown", "No generic
    name", a dosage of 0 and a frequency of 0, and no special instructions,
    whatever the user entered, because its fields are written in snake case
    while the card reads camel-case fields; only the name, strength, unit and
    form (single-word keys) show what was entered. *)
Theorem provisional_medication_card clk d :
  CreateMedicationData.name d <> "" -> CreateMedicationData.unit d <> "" ->
  CreateMedicationData.form d <> "" -> CreateMedicationData.strength d <> "" ->
  medication_card (useCreateMedication.optimistic_record clk d) =
  Ok (mkMedicationCard "Unknown" (CreateMedicationData.name d) "No generic name"
        ("0 " ++ CreateMedicationData.unit d ++ " " ++ CreateMedicationData.form d)
        "0x per day"
        ("Strength: " ++ CreateMedicationData.strength d ++ " " ++ CreateMedicationData.unit d)
        None).
Proof.
  intros Hn Hu Hf Hs. unfold medication_card, or_text. simpl.
  apply String.eqb_neq in Hn, Hu, Hf, Hs. rewrite Hn, Hu, Hf, Hs. reflexivity.
Qed.

(** C24: deactivating a medication (the card's button calls
    [useUpdateMedication] with [is_active: false]) hides its card as soon as
    the optimistic update runs: in the list the cache then holds, every
    record with that medication id has [isActive = false] and is filtered out
    of the grid. *)
Theorem deactivate_hides_card {C} `{!QueryClientOps C} `{!QueryClientLaws C} clk d (c : C) fs ms :
  UpdateMedicationData.is_active d = false ->
  getQueryData c (useUpdateMedication.key d) = Some (JObj fs) ->
  assoc_get fs "medications" = Some (JArr ms) -> Forall (fun m => m <> JNull) ms ->
  exists ms',
    getQueryData (fst (useUpdateMedication.onMutate clk d c)) (useUpdateMedication.key d) =
      Some (JObj (assoc_set (spread [] fs) "medications" (JArr ms'))) /\
    Forall (fun m => get_prop m "medicationId" = Some (JStr (UpdateMedicationData.medication_id d)) ->
                     shown m = false) ms'.
Proof.
  intros Hoff Hc Hms Hnn.
  assert (Hok : exists ms', useUpdateMedication.map_meds clk d ms = Ok ms').
  { clear Hms. induction Hnn as [|m ms Hm _ IH]; simpl; [eauto|].
    unfold useUpdateMedication.update_one at 1. rewrite member_not_null by done. simpl.
    destruct IH as [ms' ->]. simpl. eauto. }
  destruct Hok as [ms' Hmap]. exists ms'. split; [|by apply (map_meds_hides clk d ms)].
  unfold useUpdateMedication.onMutate. rewrite get_cancel, Hc. simpl.
  rewrite Hms, Hmap. simpl. apply get_set_eq.
Qed.

(** When every medication of a non-empty list is inactive, the page
    shows an empty grid, not the "No active medications found" state: that
    title is only chosen under the test that just failed, so it is never
    shown. *)
Theorem MedicationList_all_inactive p ms :
  p <> "" -> ms <> [] -> Forall (fun m => shown m = false) ms ->
  MedicationList (Some p) false (Some (JObj [("medications", JArr ms)])) = Ok (Grid []) /\
  (forall pid loading data title,
     MedicationList pid loading data = Ok (Empty title) -> title = "No medications found").
Proof.
  intros Hp Hne Hall. split.
  - unfold MedicationList. apply String.eqb_neq in Hp. rewrite Hp. simpl.
    destruct ms as [|m ms]; [done|]. apply Forall_cons in Hall as [Hm Hall].
    rewrite Hm, (filter_all_false shown ms); [done|].
    intros z Hz. apply list_elem_of_In in Hz. by apply (proj1 (Forall_forall _ _) Hall).
  - intros pid loading data title. unfold MedicationList.
    destruct pid as [q|]; [|done]. destruct (String.eqb q ""); [done|].
    destruct loading; [done|].
    destruct (data ≫= _) as [[| | |s|[|m ms']| |]|]; try (by intros [= <-]).
    + destruct (String.eqb s ""); [by intros [= <-]|done].
    + destruct (cards _); simpl; done.
Qed.

(** Without a [null] record the filter does not throw. *)
Lemma relevantAdministrations_ok xs d : ~ In JNull xs -> exists rel, relevantAdministrations xs d = Ok rel.
Proof.
  induction xs as [|a xs IH]; intros Hn; [by eexists|]. cbn [relevantAdministrations].
  destruct (IH (fun H => Hn (or_intror H))) as [rel ->].
  destruct a; try (by eexists). by destruct Hn; left.
Qed.

(** A [null] record makes the filter throw. *)
Lemma relevantAdministrations_null xs d :
  In JNull xs ->
  relevantAdministrations xs d = Err (TypeError "Cannot read properties of null (reading 'medicationId')").
Proof.
  induction xs as [|a xs IH]; intros Hin; [done|]. cbn [relevantAdministrations].
  destruct (decide (a = JNull)) as [->|Ha]; [done|].
  destruct Hin as [->|Hin]; [done|]. rewrite IH by done.
  by destruct a.
Qed.

(** C7: a [null] among the administration records crashes the details
    modal: the filter reads [admin.medicationId] of every record before
    the component looks at [isLoading], so the render throws a [TypeError]
    whether the records are still loading or not, instead of showing the
    dose's details. *)
Theorem details_null_record_throws tz parseISO d xs isLoading :
  In JNull xs ->
  AdministrationDetailsModal tz parseISO d (Some (JArr xs)) isLoading =
    Err (TypeError "Cannot read properties of null (reading 'medicationId')").
Proof.
  intros Hin. unfold AdministrationDetailsModal. by rewrite relevantAdministrations_null.
Qed.

(** The records of a dose depend on the dose only through its medication
    id. *)
Lemma relevantAdministrations_medicationId xs d1 d2 :
  dose_medicationId d1 = dose_medicationId d2 ->
  relevantAdministrations xs d1 = relevantAdministrations xs d2.
Proof.
  intros Hid. induction xs as [|a xs IH]; [done|]. cbn [relevantAdministrations].
  rewrite IH, Hid. done.
Qed.

(** C27: the details modal of a dose lists every administration record of
    the dose's medication, whatever day and time the records were for: two
    doses of one medication, at different scheduled times, differ only in
    their "Scheduled Time" line and show the same records and the same
    button (or both throw the same [TypeError] on a [null] record), so once
    one dose is recorded every dose of that medication reads as
    administered ("Add Another Administration Record"). *)
Theorem details_ignore_scheduled_time tz parseISO d1 d2 administrations :
  dose_medicationId d1 = dose_medicationId d2 ->
  rmap details_rows (AdministrationDetailsModal tz parseISO d1 administrations false) =
  rmap details_rows (AdministrationDetailsModal tz parseISO d2 administrations false) /\
  rmap details_button (AdministrationDetailsModal tz parseISO d1 administrations false) =
  rmap details_button (AdministrationDetailsModal tz parseISO d2 administrations false).
Proof.
  intros Hid. unfold AdministrationDetailsModal.
  rewrite (relevantAdministrations_medicationId _ d1 d2 Hid).
  by destruct (relevantAdministrations _ d2).
Qed.

(** ** Witnesses *)

Lemma provisional_medication_card_witness :
  medication_card (useCreateMedication.optimistic_record demo_clock demo_medication) =
  Ok (mkMedicationCard "Unknown" (CreateMedicationData.name demo_medication) "No generic name"
        ("0 " ++ CreateMedicationData.unit demo_medication ++ " " ++
         CreateMedicationData.form demo_medication)
        "0x per day"
        ("Strength: " ++ CreateMedicationData.strength demo_medication ++ " " ++
         CreateMedicationData.unit demo_medication)
        None).
Proof. apply provisional_medication_card; vm_compute; discriminate. Defined.

Lemma deactivate_hides_card_witness :
  exists ms',
    getQueryData (fst (useUpdateMedication.onMutate demo_clock demo_deactivate
                         (demo_cache demo_active_list)))
      (useUpdateMedication.key demo_deactivate) =
      Some (JObj (assoc_set (spread [] [("medications", JArr demo_active_list)]) "medications"
                    (JArr ms'))) /\
    Forall (fun m => get_prop m "medicationId" =
                     Some (JStr (UpdateMedicationData.medication_id demo_deactivate)) ->
                     shown m = false) ms'.
Proof.
  apply (deactivate_hides_card demo_clock demo_deactivate (demo_cache demo_active_list)
           [("medications", JArr demo_active_list)] demo_active_list).
  - reflexivity.
  - vm_compute. reflexivity.
  - reflexivity.
  - repeat constructor; discriminate.
Defined.

Lemma MedicationList_all_inactive_witness :
  MedicationList (Some "p1") false
    (Some (JObj [("medications", JArr [JObj [("isActive", JBool false)]])])) = Ok (Grid []) /\
  (forall pid loading data title,
     MedicationList pid loading data = Ok (Empty title) -> title = "No medications found").
Proof.
  apply MedicationList_all_inactive; [discriminate|discriminate|repeat constructor].
Defined.

Lemma details_ignore_scheduled_time_witness :
  let v1 := AdministrationDetailsModal 0 (fun _ => None) (demo_dose 1699718400000)
              (Some demo_administrations) false in
  let v2 := AdministrationDetailsModal 0 (fun _ => None) (demo_dose 1699804800000)
              (Some demo_administrations) false in
  v1 <> v2 /\ rmap details_rows v1 = rmap details_rows v2 /\
  rmap details_button v1 = rmap details_button v2 /\
  rmap details_button v1 = Ok (Some "Add Another Administration Record").
Proof.
  intros v1 v2.
  destruct (details_ignore_scheduled_time 0 (fun _ => None) (demo_dose 1699718400000)
              (demo_dose 1699804800000) (Some demo_administrations) eq_refl) as [Hr Hb].
  split; [vm_compute; congruence|]. split; [exact Hr|]. split; [exact Hb|].
  vm_compute. reflexivity.
Defined.

Lemma details_null_record_throws_witness :
  AdministrationDetailsModal 0 (fun _ => None) (demo_dose 1699718400000)
    (Some (JArr [JObj [("medicationId", JStr "m1")]; JNull])) true =
    Err (TypeError "Cannot read properties of null (reading 'medicationId')").
Proof.
  apply details_null_record_throws. right. left. reflexivity.
Defined.
