(* ===== verification/AddMedication.v ===== *)
(** * The add-medication form
    ([src/src/components/AddMedicationForm/AddMedicationForm.tsx])

    The form state ([formData] and [errors]), the change handler of its
    inputs, [validateForm] (required text fields must not be blank after
    [trim()], the two numbers must be positive) and [handleSubmit], which
    builds the [CreateMedicationData] payload.  On the medication list page
    the form's [onSubmit] is [useMedicationProfile]'s [updateMedication],
    which runs [useCreateMedication]'s [mutateAsync] ([submit]).

    The number inputs are modelled by the number [Number(value)] gives, and
    only for whole numbers (the dosage input also accepts tenths; the model's
    JSON numbers are integers).  Strings are 8-bit: [trim] removes the ASCII
    white space and the no-break space.

    The rendered dialog ([render]) lists each input with the value it shows
    and the message under it, the overlays that repeat the selected unit and
    form, and the submit button; [form_step] is a session with the dialog,
    in which the text and number inputs take anything and the two selects
    one of their option values.

    The theorems: a submission is sent exactly when no required field is
    blank and both numbers are positive, and it carries the typed values
    unchanged (the [||] fallbacks never apply); after a successful request
    the dialog closes and the page's mounted medication query refetches
    the list, whose answer replaces the provisional record (C6); a failed
    request leaves the dialog open without any message while the cache is
    rolled back; along
    any session a medication sent has a unit and a form the selects list;
    and a rejected submission always shows a message under some input. *)

From S2P Require Import Prelude Json QueryCache QueryKeys QueryHooks ApiClient Endpoints Mutations.
Local Open Scope string_scope.
Local Open Scope Z_scope.

Module AddMedicationForm.

Record fields : Type := mkFields {
  name : string;
  generic_name : string;
  strength : string;
  unit : string;
  form : string;
  dosage_amount : Z;
  frequency_per_day : Z;
  special_instructions : string;
  is_active : bool
}.

Record state : Type := mkState {
  formData : fields;
  errors : list (string * string)
}.

Definition initial : state := mkState (mkFields "" "" "" "" "" 1 1 "" true) [].

(** The inputs, by their [name] attribute, with the value the handler
    stores ([Number(value)] for the two number inputs). *)
Inductive input : Type :=
| IName (s : string)
| IGenericName (s : string)
| IStrength (s : string)
| IUnit (s : string)
| IForm (s : string)
| IDosageAmount (n : Z)
| IFrequencyPerDay (n : Z)
| ISpecialInstructions (s : string).

Definition input_name (i : input) : string :=
  match i with
  | IName _ => "name" | IGenericName _ => "generic_name" | IStrength _ => "strength"
  | IUnit _ => "unit" | IForm _ => "form" | IDosageAmount _ => "dosage_amount"
  | IFrequencyPerDay _ => "frequency_per_day" | ISpecialInstructions _ => "special_instructions"
  end.

(** [{...prev, [name]: value}] *)
Definition set_input (i : input) (f : fields) : fields :=
  match i with
  | IName s => mkFields s (generic_name f) (strength f) (unit f) (form f) (dosage_amount f)
                 (frequency_per_day f) (special_instructions f) (is_active f)
  | IGenericName s => mkFields (name f) s (strength f) (unit f) (form f) (dosage_amount f)
                 (frequency_per_day f) (special_instructions f) (is_active f)
  | IStrength s => mkFields (name f) (generic_name f) s (unit f) (form f) (dosage_amount f)
                 (frequency_per_day f) (special_instructions f) (is_active f)
  | IUnit s => mkFields (name f) (generic_name f) (strength f) s (form f) (dosage_amount f)
                 (frequency_per_day f) (special_instructions f) (is_active f)
  | IForm s => mkFields (name f) (generic_name f) (strength f) (unit f) s (dosage_amount f)
                 (frequency_per_day f) (special_instructions f) (is_active f)
  | IDosageAmount n => mkFields (name f) (generic_name f) (strength f) (unit f) (form f) n
                 (frequency_per_day f) (special_instructions f) (is_active f)
  | IFrequencyPerDay n => mkFields (name f) (generic_name f) (strength f) (unit f) (form f)
                 (dosage_amount f) n (special_instructions f) (is_active f)
  | ISpecialInstructions s => mkFields (name f) (generic_name f) (strength f) (unit f) (form f)
                 (dosage_amount f) (frequency_per_day f) s (is_active f)
  end.

(** [handleInputChange]: store the value; clear the field's error if one
    is shown. *)
Definition handleInputChange (i : input) (st : state) : state :=
  let errs := errors st in
  let errs' := match assoc_get errs (input_name i) with
               | Some e => if String.eqb e "" then errs else assoc_set (spread [] errs) (input_name i) ""
               | None => errs
               end in
  mkState (set_input i (formData st)) errs'.

(** White space for [String.prototype.trim] among 8-bit characters. *)
Definition is_space (c : ascii) : bool :=
  let n := nat_of_ascii c in
  (Nat.leb 9 n && Nat.leb n 13) || Nat.eqb n 32 || Nat.eqb n 160.

(** [!s.trim()]: the string is empty or white space only. *)
Definition blank (s : string) : bool := forallb is_space (list_ascii_of_string s).

(** [validateForm]'s [newErrors], in the order of the checks. *)
Definition newErrors (f : fields) : list (string * string) :=
  (if blank (name f) then [("name", "Medication name is required")] else []) ++
  (if blank (generic_name f) then [("generic_name", "Generic name is required")] else []) ++
  (if blank (strength f) then [("strength", "Strength is required")] else []) ++
  (if blank (unit f) then [("unit", "Unit is required")] else []) ++
  (if blank (form f) then [("form", "Form is required")] else []) ++
  (if dosage_amount f <=? 0 then [("dosage_amount", "Dosage amount must be greater than 0")] else []) ++
  (if frequency_per_day f <=? 0 then [("frequency_per_day", "Frequency must be greater than 0")] else []).

Definition validateForm (st : state) : state * bool :=
  let errs := newErrors (formData st) in
  (mkState (formData st) errs, Nat.eqb (length errs) 0).

Definition or_str (s fallback : string) : string := if String.eqb s "" then fallback else s.
Definition or_num (n fallback : Z) : Z := if n =? 0 then fallback else n.

(** The [medicationData] object of [handleSubmit]. *)
Definition payload (patientId : string) (f : fields) : CreateMedicationData.t :=
  CreateMedicationData.mk patientId (or_str (name f) "") (or_str (generic_name f) "")
    (or_str (strength f) "") (or_str (unit f) "") (or_str (form f) "")
    (or_num (dosage_amount f) 1) (or_num (frequency_per_day f) 1)
    (or_str (special_instructions f) "") (is_active f).

(** [handleSubmit]: validation, then the payload handed to [onSubmit]. *)
Definition handleSubmit (patientId : string) (st : state) : state * option CreateMedicationData.t :=
  let '(st1, ok) := validateForm st in
  if ok then (st1, Some (payload patientId (formData st))) else (st1, None).

End AddMedicationForm.

Import AddMedicationForm.

(** What the page shows after a submission. *)
Record dialog : Type := mkDialog {
  dialog_open : bool;
  dialog_state : state;
  console_errors : list string
}.

(** [useMedicationProfile(patientId)]: [medications] is the data cached
    under [useMedications(patientId)]'s key, and [updateMedication(data)] is
    [createMedicationMutation.mutateAsync({...data})] (the spread copies the
    record).  Its [isLoading] and [error] are [useQuery]'s flags, not
    modelled. *)
Definition profile_medications {C} `{!QueryClientOps C} (patientId : string) (c : C) :
    option value :=
  getQueryData c (useMedications_key patientId).

Definition updateMedication {C} `{!QueryClientOps C} (cx : ctx) (clk : clock)
    (srv : qkey -> value) (data : CreateMedicationData.t) (c : C) (b : browser) :
    C * browser * result value js_error :=
  mutateAsync useCreateMedication.hooks cx clk srv data c b.

(** A submission from the medication list page: [onSubmit] is
    [useMedicationProfile(patientId).updateMedication], that is
    [useCreateMedication]'s [mutateAsync]; on success [onClose()] closes
    the dialog, on failure the error is only logged. *)
Definition submit {C} `{!QueryClientOps C} (cx : ctx) (clk : clock) (srv : qkey -> value)
    (patientId : string) (st : state) (c : C) (b : browser) : dialog * C * browser :=
  let '(st1, p) := handleSubmit patientId st in
  match p with
  | None => (mkDialog true st1 [], c, b)
  | Some d =>
      let '(c', b', r) := updateMedication cx clk srv d c b in
      match r with
      | Ok _ => (mkDialog false st1 [], c', b')
      | Err _ => (mkDialog true st1 ["Error submitting medication:"], c', b')
      end
  end.

(** No required field is blank and both numbers are positive. *)
Definition required_ok (f : fields) : bool :=
  negb (blank (name f)) && negb (blank (generic_name f)) && negb (blank (strength f)) &&
  negb (blank (unit f)) && negb (blank (form f)) &&
  negb (dosage_amount f <=? 0) && negb (frequency_per_day f <=? 0).

(** A filled-in form for the sample patient of [Mutations]. *)
Definition demo_form : state :=
  mkState (mkFields "Aspirin" "acetylsalicylic acid" "100" "mg" "tablet" 1 1 "" true) [].

(** ** The rendered form *)

(** The option values of the two selects ([<option value="">Select
    unit</option>] first). *)
Definition unit_options : list string := [""; "mg"; "mcg"; "g"; "ml"; "units"].
Definition form_options : list string :=
  [""; "tablet"; "capsule"; "liquid"; "injection"; "cream"; "inhaler"].

(** The changes the rendered inputs let the user make: any text in the text
    inputs and the textarea, any number in the number inputs, one of the
    option values in a select. *)
Definition offered (i : input) : bool :=
  match i with
  | IUnit s => bool_decide (s ∈ unit_options)
  | IForm s => bool_decide (s ∈ form_options)
  | _ => true
  end.

(** A session with the open dialog: a change through an input, or a press
    of the submit button (whose effect on the form is [handleSubmit]'s). *)
Inductive form_step (patientId : string) : state -> state -> Prop :=
| form_input i st : offered i = true -> form_step patientId st (handleInputChange i st)
| form_submit st : form_step patientId st (handleSubmit patientId st).1.

(** [{errors.<name> && <ErrorMessage>{errors.<name>}</ErrorMessage>}]: a
    message is shown for a non-empty error string. *)
Definition field_error (st : state) (k : string) : option string :=
  match assoc_get (errors st) k with
  | Some e => if String.eqb e "" then None else Some e
  | None => None
  end.

(** [{formData.unit && <div>{formData.unit}</div>}]: the overlay that
    repeats the selected value. *)
Definition selected_overlay (s : string) : option string :=
  if String.eqb s "" then None else Some s.

Record field_view : Type := mkFieldView {
  fv_name : string;                  (** the [name] attribute *)
  fv_label : string;
  fv_value : value;                  (** the [value] attribute *)
  fv_error : option string           (** the message under the input *)
}.

Record view : Type := mkView {
  v_title : string;
  v_fields : list field_view;
  v_unit_overlay : option string;
  v_form_overlay : option string;
  v_submit_label : string;
  v_submit_disabled : bool
}.

(** The JSX of the dialog.  The special-instructions textarea has no error
    message. *)
Definition render (isSubmitting : bool) (st : state) : view :=
  let f := formData st in
  mkView "Add New Medication"
    [mkFieldView "name" "Medication Name *" (JStr (name f)) (field_error st "name");
     mkFieldView "generic_name" "Generic Name *" (JStr (generic_name f)) (field_error st "generic_name");
     mkFieldView "strength" "Strength *" (JStr (strength f)) (field_error st "strength");
     mkFieldView "unit" "Unit *" (JStr (unit f)) (field_error st "unit");
     mkFieldView "form" "Form *" (JStr (form f)) (field_error st "form");
     mkFieldView "dosage_amount" "Dosage Amount *" (JNum (dosage_amount f))
       (field_error st "dosage_amount");
     mkFieldView "frequency_per_day" "Times Per Day *" (JNum (frequency_per_day f))
       (field_error st "frequency_per_day");
     mkFieldView "special_instructions" "Special Instructions" (JStr (special_instructions f)) None]
    (selected_overlay (unit f)) (selected_overlay (form f))
    (if isSubmitting then "Adding..." else "Add Medication") isSubmitting.

(** The selects hold one of their option values. *)
Definition options_ok (st : state) : Prop :=
  unit (formData st) ∈ unit_options /\ form (formData st) ∈ form_options.

(** ** Lemmas *)

Lemma addMedication_newErrors_nil f : newErrors f = [] <-> required_ok f = true.
Proof.
  unfold newErrors, required_ok.
  destruct (blank (name f)), (blank (generic_name f)), (blank (strength f)), (blank (unit f)),
    (blank (form f)), (dosage_amount f <=? 0), (frequency_per_day f <=? 0); simpl; split; done.
Qed.

Lemma or_str_id s : or_str s "" = s.
Proof. unfold or_str. by destruct (String.eqb_spec s ""). Qed.

Lemma or_num_pos n d : 0 < n -> or_num n d = n.
Proof. intros Hn. unfold or_num. by rewrite (proj2 (Z.eqb_neq n 0)) by lia. Qed.

Lemma required_ok_pos f : required_ok f = true -> 0 < dosage_amount f /\ 0 < frequency_per_day f.
Proof.
  unfold required_ok. rewrite !andb_true_iff, !negb_true_iff, !Z.leb_gt. tauto.
Qed.

(** C32: [handleSubmit] sends a payload exactly when no required field is
    blank and both numbers are positive; the payload is then the typed
    values as they are (the [|| ""] and [|| 1] fallbacks never apply) with
    the page's patient id, and no error is shown.  Otherwise nothing is sent
    and an error is shown.  The typed values are kept either way. *)
Theorem addMedication_handleSubmit_spec pid st :
  let f := formData st in
  let '(st', r) := handleSubmit pid st in
  formData st' = f /\
  ((required_ok f = true /\ errors st' = [] /\
    r = Some (CreateMedicationData.mk pid (name f) (generic_name f) (strength f) (unit f) (form f)
                (dosage_amount f) (frequency_per_day f) (special_instructions f) (is_active f))) \/
   (required_ok f = false /\ errors st' <> [] /\ r = None)).
Proof.
  cbv zeta. unfold handleSubmit, validateForm. simpl.
  destruct (required_ok (formData st)) eqn:Hok.
  - apply addMedication_newErrors_nil in Hok as Hnil. rewrite Hnil. simpl. split; [done|left].
    destruct (required_ok_pos _ Hok). unfold payload. rewrite !or_str_id, !or_num_pos by done.
    repeat split; done.
  - destruct (newErrors (formData st)) as [|e es] eqn:Hne.
    + apply addMedication_newErrors_nil in Hne. congruence.
    + simpl. split; [done|right]. split; [done|split; [discriminate|done]].
Qed.

Section Submit.
Context {C : Type} `{!QueryClientOps C} `{!QueryClientLaws C}.

(** a failed creation is silent: when the request fails the dialog
    stays open with the values typed and no error shown (the failure only
    reaches the console), while the cache reads as before the submission. *)
Theorem submit_failure_silent cx clk srv pid st (c : C) b err :
  required_ok (formData st) = true ->
  snd (mutateAsync useCreateMedication.hooks cx clk srv (payload pid (formData st)) c b) = Err err ->
  let '(dlg, c', _) := submit cx clk srv pid st c b in
  dialog_open dlg = true /\ errors (dialog_state dlg) = [] /\
  formData (dialog_state dlg) = formData st /\ console_errors dlg <> [] /\
  forall k, getQueryData c' k = getQueryData c k.
Proof.
  intros Hok Hr. unfold submit, updateMedication, handleSubmit, validateForm. apply addMedication_newErrors_nil in Hok as Hnil.
  rewrite Hnil. simpl.
  destruct (mutateAsync useCreateMedication.hooks cx clk srv (payload pid (formData st)) c b)
    as [[c' b'] r] eqn:Hm. simpl in Hr. subst r.
  repeat split; [discriminate|]. intros k.
  rewrite (mutateAsync_failure _ cx clk srv _ c b c' b' err createMedication_rolls_back
             createMedication_settle_proper Hm k).
  apply createMedication_settle_keeps_data.
Qed.
End Submit.

(** C6: a successful submission closes the dialog, and the medication
    list the page shows is then refetched from the server: the settle phase
    of [useCreateMedication] marks the patient's list stale, so the page's
    mounted [useMedications(patientId)] (through [useMedicationProfile]) has
    a fetch of that list in flight, and the answer of that fetch, whatever
    the server sends, becomes the list the page reads, in place of the list
    with the provisional record. *)
Theorem submit_success_refetches_list cx clk srv pid st (c : cache) b data :
  required_ok (formData st) = true ->
  snd (mutateAsync useCreateMedication.hooks cx clk srv (payload pid (formData st)) c b) = Ok data ->
  let '(dlg, c', _) := submit cx clk srv pid st c b in
  dialog_open dlg = false /\
  qr_isFetching (snd (useMedications pid c')) = true /\
  exists tok, forall v,
    profile_medications pid (deliver (useMedications_key pid) tok v (fst (useMedications pid c'))) =
      Some v.
Proof.
  intros Hok Hr. unfold submit, updateMedication, handleSubmit, validateForm.
  apply addMedication_newErrors_nil in Hok as Hnil. rewrite Hnil. simpl.
  destruct (mutateAsync useCreateMedication.hooks cx clk srv (payload pid (formData st)) c b)
    as [[c' b'] r] eqn:Hm. simpl in Hr. subst r.
  split; [done|]. apply useQuery_stale_refetches.
  pose proof (useCreateMedication_success_stale _ _ _ _ _ _ _ _ _ Hm) as Hs.
  exact Hs.
Qed.

Lemma submit_failure_silent_witness :
  let '(dlg, c', _) := submit (demo_cx 500 None) demo_clock demo_server "p1" demo_form
                         (demo_cache []) demo_browser in
  dialog_open dlg = true /\ errors (dialog_state dlg) = [] /\
  formData (dialog_state dlg) = formData demo_form /\ console_errors dlg <> [] /\
  forall k, getQueryData c' k = getQueryData (demo_cache []) k.
Proof.
  apply (submit_failure_silent (demo_cx 500 None) demo_clock demo_server "p1" demo_form
           (demo_cache []) demo_browser (err_of (snd demo_create_failed)));
    vm_compute; reflexivity.
Defined.

(** ** The rendered form *)

Lemma addMedication_handleSubmit_formData pid st : formData (handleSubmit pid st).1 = formData st.
Proof. unfold handleSubmit, validateForm. simpl. by case_match. Qed.

Lemma addMedication_handleSubmit_inv pid st st' r :
  handleSubmit pid st = (st', r) ->
  st' = mkState (formData st) (newErrors (formData st)) /\
  (r = None /\ required_ok (formData st) = false \/
   exists d, r = Some d /\ required_ok (formData st) = true /\ d = payload pid (formData st)).
Proof.
  unfold handleSubmit, validateForm. simpl. destruct (required_ok (formData st)) eqn:Hok.
  - apply addMedication_newErrors_nil in Hok as Hn. rewrite Hn. intros [= <- <-]. eauto 10.
  - destruct (newErrors (formData st)) eqn:Hn; [apply addMedication_newErrors_nil in Hn; congruence|].
    intros [= <- <-]. auto.
Qed.

Lemma required_ok_unit_form f : required_ok f = true -> unit f <> "" /\ form f <> "".
Proof.
  unfold required_ok. rewrite !andb_true_iff, !negb_true_iff.
  intros ((((((_ & _) & _) & Hu) & Hf) & _) & _).
  split; intros Heq; [rewrite Heq in Hu|rewrite Heq in Hf]; discriminate.
Qed.

Lemma options_ok_step pid st st' : form_step pid st st' -> options_ok st -> options_ok st'.
Proof.
  unfold options_ok. destruct 1 as [i st Hi|st]; [|by rewrite addMedication_handleSubmit_formData].
  destruct i; simpl in *; intros [Hu Hf]; split; try done; by apply bool_decide_eq_true in Hi.
Qed.

Lemma options_ok_rtc pid st st' : rtc (form_step pid) st st' -> options_ok st -> options_ok st'.
Proof. induction 1; eauto using options_ok_step. Qed.

(** C34: whatever the user does in the dialog, a medication it sends has one
    of the units and one of the forms the selects list: the empty "Select
    unit" / "Select form" choice is caught by validation. *)
Theorem addMedication_sends_listed_options pid st st' d :
  rtc (form_step pid) initial st -> handleSubmit pid st = (st', Some d) ->
  CreateMedicationData.unit d ∈ ["mg"; "mcg"; "g"; "ml"; "units"] /\
  CreateMedicationData.form d ∈ ["tablet"; "capsule"; "liquid"; "injection"; "cream"; "inhaler"].
Proof.
  intros Hr Hs. destruct (options_ok_rtc _ _ _ Hr) as [Hu Hf]; [split; set_solver|].
  apply addMedication_handleSubmit_inv in Hs as [_ [[? _]|(d' & [= <-] & Hok & ->)]]; [done|].
  destruct (required_ok_unit_form _ Hok) as [Hu' Hf']. simpl. rewrite !or_str_id.
  apply elem_of_cons in Hu as [?|?], Hf as [?|?]; done.
Qed.

(** One of the listed inputs shows a message. *)
Local Ltac error_shown :=
  simpl; apply Exists_exists;
  repeat first [apply Exists_cons_hd; simpl; discriminate | apply Exists_cons_tl].

(** a rejected submission never leaves the user without feedback: some
    input of the dialog then shows an error message. *)
Theorem addMedication_rejected_shows_error pid st st' isSubmitting :
  handleSubmit pid st = (st', None) ->
  exists fv, fv ∈ v_fields (render isSubmitting st') /\ fv_error fv <> None.
Proof.
  intros Hs. apply addMedication_handleSubmit_inv in Hs as [-> [[_ Hok]|(? & ? & _)]]; [|done].
  set (f := formData st) in *.
  revert Hok. unfold required_ok, render, field_error, newErrors.
  destruct (blank (name f)); [intros _; error_shown|].
  destruct (blank (generic_name f)); [intros _; error_shown|].
  destruct (blank (strength f)); [intros _; error_shown|].
  destruct (blank (unit f)); [intros _; error_shown|].
  destruct (blank (form f)); [intros _; error_shown|].
  destruct (dosage_amount f <=? 0); [intros _; error_shown|].
  destruct (frequency_per_day f <=? 0); [intros _; error_shown|]. done.
Qed.

Lemma addMedication_sends_listed_options_witness :
  let st := handleInputChange (IForm "tablet") (handleInputChange (IUnit "mg")
              (handleInputChange (IStrength "100") (handleInputChange (IGenericName "aspirin")
                 (handleInputChange (IName "Aspirin") initial)))) in
  rtc (form_step "p1") initial st /\
  handleSubmit "p1" st = ((handleSubmit "p1" st).1, Some (payload "p1" (formData st))) /\
  CreateMedicationData.unit (payload "p1" (formData st)) ∈ ["mg"; "mcg"; "g"; "ml"; "units"] /\
  CreateMedicationData.form (payload "p1" (formData st)) ∈
    ["tablet"; "capsule"; "liquid"; "injection"; "cream"; "inhaler"].
Proof.
  intros st.
  assert (Hr : rtc (form_step "p1") initial st).
  { unfold st.
    eapply rtc_r; [|apply form_input; reflexivity]. eapply rtc_r; [|apply form_input; reflexivity].
    eapply rtc_r; [|apply form_input; reflexivity]. eapply rtc_r; [|apply form_input; reflexivity].
    eapply rtc_r; [|apply form_input; reflexivity]. apply rtc_refl. }
  assert (Hs : handleSubmit "p1" st = ((handleSubmit "p1" st).1, Some (payload "p1" (formData st))))
    by (vm_compute; reflexivity).
  split; [exact Hr|split; [exact Hs|]].
  exact (addMedication_sends_listed_options "p1" st _ _ Hr Hs).
Defined.

Lemma addMedication_rejected_shows_error_witness :
  handleSubmit "p1" initial = ((handleSubmit "p1" initial).1, None) /\
  exists fv, fv ∈ v_fields (render false (handleSubmit "p1" initial).1) /\ fv_error fv <> None.
Proof.
  assert (Hs : handleSubmit "p1" initial = ((handleSubmit "p1" initial).1, None))
    by (vm_compute; reflexivity).
  split; [exact Hs|]. exact (addMedication_rejected_shows_error "p1" initial _ false Hs).
Defined.

Lemma submit_success_refetches_list_witness :
  let '(dlg, c', _) := submit (demo_cx 201 (Some (JObj [("medication_id", JStr "m7")]))) demo_clock
                         demo_server "p1" demo_form (demo_cache []) demo_browser in
  dialog_open dlg = false /\
  qr_isFetching (snd (useMedications "p1" c')) = true /\
  exists tok, forall v,
    profile_medications "p1" (deliver (useMedications_key "p1") tok v (fst (useMedications "p1" c'))) =
      Some v.
Proof.
  apply (submit_success_refetches_list (demo_cx 201 (Some (JObj [("medication_id", JStr "m7")])))
           demo_clock demo_server "p1" demo_form (demo_cache []) demo_browser
           (JObj [("medicationId", JStr "m7")])); vm_compute; reflexivity.
Defined.
