(* ===== verification/Patients.v ===== *)
(** * Patient pages, routes and the patient context

    - [src/src/App.tsx]: the three routes ([route]; the router matches path
      segments, static segments without regard to case, and ignores empty
      segments).
    - [src/src/contexts/PatientContext.tsx]: [currentPatient], set when a
      patient card is clicked and kept across in-app navigation; a page load
      starts it at [null].
    - [src/src/pages/PatientList/PatientList.tsx]: the page ([PatientList])
      and its cards ([patient_card]), with the date of birth rendered through
      [DateTime].
    - [src/src/pages/MedicationSchedules/MedicationSchedules.tsx] and the
      header of [src/src/pages/MedicationList/MedicationList.tsx]: the
      subtitles read the context, or the schedule response.
    - The navigation of a browser session ([app_step]): the buttons of the
      pages, the browser's back and forward buttons, and reloads.

    The theorems: a date of birth is shown one day early in every zone west
    of Greenwich; after a reload the schedules page names the patient
    "undefined undefined" because it reads snake_case fields of a camel-case
    response; the context names the patient of the page along in-app
    navigation but not after the browser's back button; and every link the
    pages build reaches the route of the same patient. *)

From S2P Require Import Prelude Json DateTime CaseTransform QueryCache QueryKeys.
Local Open Scope string_scope.
Local Open Scope Z_scope.

(** ** Routes *)

Inductive page : Type :=
| PatientListPage
| MedicationListPage (patientId : string)
| MedicationSchedulesPage (patientId : string)
| NoMatch.

(** [path.split("/")] *)
Fixpoint split_slash (s : string) : list string :=
  match s with
  | EmptyString => [EmptyString]
  | String c s' =>
      if Ascii.eqb c "/" then EmptyString :: split_slash s'
      else match split_slash s' with
           | p :: ps => String c p :: ps
           | [] => [String c EmptyString]
           end
  end.

Definition segments (path : string) : list string :=
  List.filter (fun s => negb (String.eqb s "")) (split_slash path).

Definition lower (s : string) : string := string_of_list_ascii (map to_lower (list_ascii_of_string s)).

(** [<Route index>], [/patient/:patientId/medications],
    [/patient/:patientId/schedules]. *)
Definition route (path : string) : page :=
  match segments path with
  | [] => PatientListPage
  | [p; id; q] =>
      if String.eqb (lower p) "patient" then
        if String.eqb (lower q) "medications" then MedicationListPage id
        else if String.eqb (lower q) "schedules" then MedicationSchedulesPage id
        else NoMatch
      else NoMatch
  | _ => NoMatch
  end.

Definition medications_path (patientId : string) : string := "/patient/" ++ patientId ++ "/medications".
Definition schedules_path (patientId : string) : string := "/patient/" ++ patientId ++ "/schedules".

(** ** Rendering strings *)

(** [String(v)], as a template literal [`${v}`] renders it, on the values a
    response holds; [None] for a [Date], whose [toString] depends on the
    engine and the zone.  An array is its elements joined by commas, [null]
    elements as empty strings. *)
Fixpoint template_v (v : value) : option string :=
  match v with
  | JNull => Some "null"
  | JBool b => Some (if b then "true" else "false")
  | JNum z => Some (show_Z z)
  | JStr s => Some s
  | JObj _ => Some "[object Object]"
  | JArr xs =>
      (fix join (xs : list value) : option string :=
         match xs with
         | [] => Some ""
         | x :: xs' =>
             let sx := match x with JNull => Some "" | _ => template_v x end in
             match sx, xs' with
             | Some a, [] => Some a
             | Some a, _ => option_map (fun b => a ++ "," ++ b) (join xs')
             | None, _ => None
             end
         end) xs
  | JDate _ => None
  end.

(** [`${x}`] where [x] may be [undefined]. *)
Definition template (o : option value) : option string :=
  match o with None => Some "undefined" | Some v => template_v v end.

(** [s.charAt(0)] *)
Definition charAt0 (s : string) : string :=
  match s with String c _ => String c EmptyString | EmptyString => EmptyString end.

(** [new Date(patient.dateOfBirth)]: a number is a time value, a string is
    parsed, [null] and booleans are converted to numbers, a [Date] is
    copied, and arrays and objects are converted to strings first;
    [undefined] gives an invalid date. *)
Definition date_of (tz : Z) (o : option value) : time_value :=
  match o with
  | None => None
  | Some JNull => Some 0
  | Some (JBool b) => Some (if b then 1 else 0)
  | Some (JNum z) => time_clip z
  | Some (JStr s) => parse tz s
  | Some (JDate (DateOfString s)) => parse tz s
  | Some (JDate (DateNow ms)) => time_clip (Z.of_N ms)
  | Some v => match template_v v with Some s => parse tz s | None => None end
  end.

(** ** The patient list *)

Record PatientCard : Type := mkPatientCard {
  initials : string;
  id_text : string;
  full_name : string;
  dob_text : string
}.

(** One patient card; [None] when rendering it throws ([charAt] or [slice]
    on a field that is not a string).  An array [patientId], whose [slice]
    does not throw, is also mapped to [None]: the API's ids are strings. *)
Definition patient_card (tz : Z) (p : value) : option PatientCard :=
  match get_prop p "firstName", get_prop p "lastName", get_prop p "patientId" with
  | Some (JStr f), Some (JStr l), Some (JStr id) =>
      Some (mkPatientCard (charAt0 f ++ charAt0 l) ("ID: " ++ substring 0 8 id ++ "...") (f ++ " " ++ l)
              ("DOB: " ++ toLocaleDateString_enUS tz (date_of tz (get_prop p "dateOfBirth"))))
  | _, _, _ => None
  end.

Inductive patients_page : Type :=
| PLoading
| PThrows
| PPage (error : option string) (updating : bool) (cards : list PatientCard) (empty : bool).

(** [PatientList]: the spinner while loading; otherwise the error banner,
    the update banner, the grid of [patientsData?.patients.map(...)] and the
    empty state of [patientsData?.patients.length === 0]. *)
Definition PatientList (tz : Z) (isLoading : bool) (data : option value)
    (error : option string) (isFetching : bool) : patients_page :=
  if isLoading then PLoading else
  match data with
  | None | Some JNull => PPage error isFetching [] false
  | Some d =>
      match get_prop d "patients" with
      | Some (JArr ps) =>
          match mapM (patient_card tz) ps with
          | Some cs => PPage error isFetching cs (Nat.eqb (length ps) 0)
          | None => PThrows
          end
      | _ => PThrows
      end
  end.

(** ** Headers of the patient pages *)

(** [MedicationList]'s subtitle. *)
Definition medications_subtitle (currentPatient : option value) : option string :=
  match currentPatient with
  | Some p =>
      match template (get_prop p "firstName"), template (get_prop p "lastName") with
      | Some f, Some l => Some ("Medications for " ++ f ++ " " ++ l)
      | _, _ => None
      end
  | None => Some "Patient Medications"
  end.

Inductive schedules_page : Type :=
| SNotFound
| SLoading
| SError (msg : string)
| SNoData
| SPage (subtitle : option string) (data : value).

(** [useMedicationScheduleProfile(patientId)]: [schedulesData] is the data
    cached under [createQueryKey.patient(patientId, "medicationSchedules")];
    its [isLoading] and [error] are [useQuery]'s flags (arguments of
    [MedicationSchedules]; [QueryHooks] models them on the cache) and its
    [console.log] lines are [QueryHooks.useMedicationScheduleProfile_logs]. *)
Definition useMedicationScheduleProfile {C} `{!QueryClientOps C} (patientId : string) (c : C) :
    option value :=
  getQueryData c (usePatientMedicationSchedules_key patientId).

(** [MedicationSchedules]: the early returns, then the page with the
    subtitle chosen from the context, the response's [patient], or
    "Patient". *)
Definition MedicationSchedules (patientId : option string) (currentPatient : option value)
    (isLoading : bool) (error : option string) (data : option value) : schedules_page :=
  if negb (truthy (option_map JStr patientId)) then SNotFound else
  if isLoading then SLoading else
  match error with Some msg => SError msg | None =>
  match data with
  | Some d =>
      if negb (truthy (Some d)) then SNoData else
      let subtitle :=
        match currentPatient with
        | Some p =>
            match template (get_prop p "firstName"), template (get_prop p "lastName") with
            | Some f, Some l => Some (f ++ " " ++ l)
            | _, _ => None
            end
        | None =>
            match get_prop d "patient" with
            | Some pt =>
                if truthy (Some pt) then
                  match template (get_prop pt "first_name"), template (get_prop pt "last_name") with
                  | Some f, Some l => Some (f ++ " " ++ l)
                  | _, _ => None
                  end
                else Some "Patient"
            | None => Some "Patient"
            end
        end in
      SPage subtitle d
  | None => SNoData
  end
  end.

(** ** A browser session *)

Record session : Type := mkSession {
  back_stack : list string;
  path : string;
  forward_stack : list string;
  currentPatient : option value
}.

Definition navigate (s : session) (p : string) : session :=
  mkSession (path s :: back_stack s) p [] (currentPatient s).

Definition patient_id (p : value) : option string :=
  match get_prop p "patientId" with Some (JStr id) => Some id | _ => None end.

(** The buttons of the pages ([patients] is the list the patient list page
    shows). *)
Inductive button_step (patients : list value) : session -> session -> Prop :=
| click_view_schedule s p id :
    route (path s) = PatientListPage -> In p patients -> patient_id p = Some id ->
    button_step patients s (mkSession (path s :: back_stack s) (schedules_path id) [] (Some p))
| click_view_medications s p id :
    route (path s) = PatientListPage -> In p patients -> patient_id p = Some id ->
    button_step patients s (mkSession (path s :: back_stack s) (medications_path id) [] (Some p))
| click_back_to_list s id :
    route (path s) = MedicationListPage id -> button_step patients s (navigate s "/")
| click_medication_schedule s id :
    route (path s) = MedicationListPage id -> button_step patients s (navigate s (schedules_path id))
| click_back_to_medications s id :
    route (path s) = MedicationSchedulesPage id ->
    button_step patients s (navigate s (medications_path id)).

(** Everything the user can do: the buttons, the browser's back and forward
    buttons, and a reload (a page load starts the context at [null]). *)
Inductive app_step (patients : list value) : session -> session -> Prop :=
| by_button s s' : button_step patients s s' -> app_step patients s s'
| browser_back s p rest :
    back_stack s = p :: rest ->
    app_step patients s (mkSession rest p (path s :: forward_stack s) (currentPatient s))
| browser_forward s p rest :
    forward_stack s = p :: rest ->
    app_step patients s (mkSession (path s :: back_stack s) p rest (currentPatient s))
| reload s :
    app_step patients s (mkSession (back_stack s) (path s) (forward_stack s) None).

(** The context names the patient of the page, if any. *)
Definition ctx_consistent (s : session) : Prop :=
  match route (path s) with
  | MedicationListPage id | MedicationSchedulesPage id =>
      forall p, currentPatient s = Some p -> patient_id p = Some id
  | _ => True
  end.

(** The pages' buttons and reloads, without the browser's history buttons. *)
Definition safe_step (patients : list value) (s s' : session) : Prop :=
  button_step patients s s' \/ s' = mkSession (back_stack s) (path s) (forward_stack s) None.

(** ** Sample inputs *)

Definition demo_patient (id first last dob : string) : value :=
  JObj [("patientId", JStr id); ("firstName", JStr first); ("lastName", JStr last);
        ("dateOfBirth", JStr dob)].

Definition demo_alice : value := demo_patient "a1" "Alice" "Adams" "1990-01-01".
Definition demo_bob : value := demo_patient "b2" "Bob" "Brown" "1985-07-04".
Definition demo_start : session := mkSession [] "/" [] None.

(** ** Lemmas *)

Definition no_slash (s : string) : bool :=
  forallb (fun c => negb (Ascii.eqb c "/")) (list_ascii_of_string s).

Lemma split_slash_no_slash a : no_slash a = true -> split_slash a = [a].
Proof.
  induction a as [|c a IH]; [done|]. unfold no_slash. simpl. rewrite andb_true_iff.
  intros [Hc Ha]. apply negb_true_iff in Hc. rewrite Hc, IH by done. done.
Qed.

Lemma split_slash_app a b : no_slash a = true ->
  split_slash (a ++ String "/" b) = a :: split_slash b.
Proof.
  induction a as [|c a IH]; [done|]. unfold no_slash. simpl. rewrite andb_true_iff.
  intros [Hc Ha]. apply negb_true_iff in Hc. rewrite Hc, IH by done. done.
Qed.

Lemma segments_patient_path id q : id <> "" -> no_slash id = true -> no_slash q = true -> q <> "" ->
  segments ("/patient/" ++ id ++ "/" ++ q) = ["patient"; id; q].
Proof.
  intros Hid Hs Hq Hqe. unfold segments.
  change ("/patient/" ++ id ++ "/" ++ q) with (String "/" ("patient" ++ String "/" (id ++ String "/" q))).
  cbn [split_slash Ascii.eqb]. simpl (Ascii.eqb "/" "/").
  rewrite split_slash_app by done. rewrite split_slash_app, split_slash_no_slash by done.
  simpl. apply String.eqb_neq in Hid, Hqe. by rewrite Hid, Hqe.
Qed.

Lemma no_slash_cons c x : c <> "/"%char -> no_slash x = true -> no_slash (String c x) = true.
Proof. intros Hc Hx. unfold no_slash in *. simpl. rewrite Hx, andb_true_r. by apply negb_true_iff, Ascii.eqb_neq. Qed.

Lemma split_slash_no_slash_all s : Forall (fun x => no_slash x = true) (split_slash s).
Proof.
  induction s as [|c s IH]; simpl; [by repeat constructor|].
  destruct (Ascii.eqb_spec c "/") as [->|Hc]; [by constructor|].
  destruct (split_slash s) as [|x xs].
  - constructor; [|constructor]. by apply no_slash_cons.
  - inversion IH as [|? ? Hx Hxs]; subst. constructor; [|done]. by apply no_slash_cons.
Qed.

(** A segment the router reads is non-empty and has no slash. *)
Lemma segments_ok path : Forall (fun x => x <> "" /\ no_slash x = true) (segments path).
Proof.
  unfold segments. pose proof (split_slash_no_slash_all path) as H.
  induction H as [|x xs Hx _ IH]; simpl; [done|].
  destruct (String.eqb_spec x ""); simpl; [done|]. by constructor.
Qed.

Lemma route_patient_id path id :
  (route path = MedicationListPage id \/ route path = MedicationSchedulesPage id) ->
  id <> "" /\ no_slash id = true.
Proof.
  unfold route. pose proof (segments_ok path) as H.
  destruct (segments path) as [|a [|b [|c [|]]]]; try (intros [?|?]; discriminate).
  inversion H as [|? ? _ H1]; subst. inversion H1 as [|? ? Hb _]; subst.
  repeat case_match; intros [Hr|Hr]; try discriminate; injection Hr as <-; done.
Qed.

(** Every link the pages build reaches the page of the same patient. *)
Lemma route_paths id : id <> "" -> no_slash id = true ->
  route (medications_path id) = MedicationListPage id /\
  route (schedules_path id) = MedicationSchedulesPage id.
Proof.
  intros Hid Hs. unfold route, medications_path, schedules_path.
  change ("/medications") with ("/" ++ "medications"). change ("/schedules") with ("/" ++ "schedules").
  rewrite !segments_patient_path by done. done.
Qed.

Lemma button_step_consistent patients s s' :
  (forall p id, In p patients -> patient_id p = Some id -> id <> "" /\ no_slash id = true) ->
  ctx_consistent s -> button_step patients s s' -> ctx_consistent s'.
Proof.
  intros Hps Hs Hst. unfold ctx_consistent in *.
  destruct Hst as [s p id Hr Hin Hid|s p id Hr Hin Hid|s id Hr|s id Hr|s id Hr]; simpl.
  - destruct (Hps p id Hin Hid) as [Hne Hsl]. rewrite (proj2 (route_paths id Hne Hsl)).
    by intros ? [= <-].
  - destruct (Hps p id Hin Hid) as [Hne Hsl]. rewrite (proj1 (route_paths id Hne Hsl)).
    by intros ? [= <-].
  - done.
  - destruct (route_patient_id (path s) id (or_introl Hr)) as [Hne Hsl].
    rewrite (proj2 (route_paths id Hne Hsl)). by rewrite Hr in Hs.
  - destruct (route_patient_id (path s) id (or_intror Hr)) as [Hne Hsl].
    rewrite (proj1 (route_paths id Hne Hsl)). by rewrite Hr in Hs.
Qed.

Lemma safe_step_consistent patients s s' :
  (forall p id, In p patients -> patient_id p = Some id -> id <> "" /\ no_slash id = true) ->
  ctx_consistent s -> safe_step patients s s' -> ctx_consistent s'.
Proof.
  intros Hps Hs [Hb| ->]; [by eapply button_step_consistent|].
  unfold ctx_consistent in *. simpl. by destruct (route (path s)).
Qed.

(** C36: the patient list shows a date of birth one day early in every time
    zone west of Greenwich: ["YYYY-MM-DD"] is parsed as UTC midnight and
    printed in local time.  For the day [z] the response names, the card
    shows the date of day [z - 1] when the offset is negative, of day [z]
    otherwise (offsets under a day). *)
Theorem patient_card_dob tz z p f l id :
  -1440 < tz < 1440 ->
  get_prop p "firstName" = Some (JStr f) -> get_prop p "lastName" = Some (JStr l) ->
  get_prop p "patientId" = Some (JStr id) ->
  (let '(y, m, d) := civil_from_days z in
   0 <= y <= 9999 /\ get_prop p "dateOfBirth" = Some (JStr (ymd_string y m d))) ->
  option_map dob_text (patient_card tz p) =
  Some ("DOB: " ++ let '(y, m, d) := civil_from_days (if tz <? 0 then z - 1 else z) in
                   pad2 m ++ "/" ++ pad2 d ++ "/" ++ show_Z y).
Proof.
  intros Htz Hf Hl Hid Hdob. unfold patient_card. rewrite Hf, Hl, Hid. simpl option_map.
  pose proof (civil_from_days_spec z) as Hc.
  destruct (civil_from_days z) as [[y m] d]. destruct Hdob as [Hy ->]. destruct Hc as (Hm & Hd & Hz).
  cbn [dob_text date_of]. rewrite parse_date_only, Hz by lia.
  by rewrite toLocaleDateString_midnight by lia.
Qed.

(** C37: after a page load on the schedules page (the context is empty),
    the subtitle names the patient "undefined undefined" whenever the
    response has a patient: the page reads [patient.first_name] and
    [patient.last_name] from data the client has converted to camel case. *)
Theorem schedules_subtitle_after_reload id v pt :
  id <> "" -> get_prop (snakeToCamelCase v) "patient" = Some pt -> truthy (Some pt) = true ->
  MedicationSchedules (Some id) None false None (Some (snakeToCamelCase v)) =
  SPage (Some "undefined undefined") (snakeToCamelCase v).
Proof.
  intros Hid Hp Ht.
  assert (Hd : truthy (Some (snakeToCamelCase v)) = true) by (destruct v; try discriminate Hp; done).
  unfold MedicationSchedules. simpl truthy at 1. apply String.eqb_neq in Hid. rewrite Hid. cbn [negb].
  rewrite Hd, Hp, Ht. cbn [negb].
  destruct (converted_prop _ _ _ Hp) as [x ->].
  by rewrite !converted_no_snake_field.
Qed.

(** C39: with the pages' own buttons and reloads, the patient context never
    names another patient than the one whose page is shown (the ids of the
    listed patients are non-empty and slash-free, as the API's UUIDs are). *)
Theorem ctx_names_page_patient patients s0 s :
  (forall p id, In p patients -> patient_id p = Some id -> id <> "" /\ no_slash id = true) ->
  ctx_consistent s0 -> rtc (safe_step patients) s0 s -> ctx_consistent s.
Proof.
  intros Hps Hs0 Hr. induction Hr as [|a b c Hab _ IH]; [done|].
  apply IH. by eapply safe_step_consistent.
Qed.

(** C38: the browser's back button breaks it: from the patient list, open
    Alice's medications, go back to the list, open Bob's, then press the
    browser's back button twice: Alice's medication page is shown under the
    title "Medications for Bob Brown". *)
Example stale_context_after_browser_back :
  exists s, rtc (app_step [demo_alice; demo_bob]) demo_start s /\
    route (path s) = MedicationListPage "a1" /\
    medications_subtitle (currentPatient s) = Some "Medications for Bob Brown".
Proof.
  eexists. split.
  {
  eapply rtc_l. { apply by_button. eapply (click_view_medications _ _ demo_alice); [reflexivity|by left|reflexivity]. }
  eapply rtc_l. { apply by_button. eapply click_back_to_list. reflexivity. }
  eapply rtc_l. { apply by_button. eapply (click_view_medications _ _ demo_bob); [reflexivity|by right; left|reflexivity]. }
  eapply rtc_l. { apply browser_back. reflexivity. }
  eapply rtc_l. { apply browser_back. reflexivity. }
  apply rtc_refl. }
  split; reflexivity.
Qed.

(** ** Witnesses *)

Lemma patient_card_dob_witness :
  option_map dob_text (patient_card (-300) demo_alice) = Some "DOB: 12/31/1989".
Proof.
  rewrite (patient_card_dob (-300) 7305 demo_alice "Alice" "Adams" "a1").
  - vm_compute. reflexivity.
  - lia.
  - reflexivity.
  - reflexivity.
  - reflexivity.
  - vm_compute. split; [split; discriminate|reflexivity].
Defined.

Lemma schedules_subtitle_after_reload_witness :
  MedicationSchedules (Some "a1") None false None
    (Some (snakeToCamelCase (JObj [("patient", JObj [("first_name", JStr "Alice");
                                                     ("last_name", JStr "Adams")])]))) =
  SPage (Some "undefined undefined")
    (snakeToCamelCase (JObj [("patient", JObj [("first_name", JStr "Alice");
                                                ("last_name", JStr "Adams")])])).
Proof.
  apply (schedules_subtitle_after_reload "a1" _
           (JObj [("firstName", JStr "Alice"); ("lastName", JStr "Adams")]));
    [discriminate|reflexivity|reflexivity].
Defined.

Lemma ctx_names_page_patient_witness :
  ctx_consistent (mkSession ["/"] (medications_path "a1") [] (Some demo_alice)).
Proof.
  apply (ctx_names_page_patient [demo_alice; demo_bob] demo_start).
  - intros p id [<-|[<-|[]]]; vm_compute; intros [= <-]; split; [discriminate|reflexivity|discriminate|reflexivity].
  - vm_compute. exact I.
  - eapply rtc_l; [left; eapply (click_view_medications _ _ demo_alice); [reflexivity|by left|reflexivity]|].
    apply rtc_refl.
Defined.
