(* ===== verification/Administration.v ===== *)
(** * Recording a dose: the administration form and the calendar's modals

    - [src/src/components/AdministrationFormModal/AdministrationFormModal.tsx]:
      the form state ([form_data], initialised from the clock), its three
      inputs, [formatDateTime] and [handleSubmit], which builds the
      [CreateMedicationAdministrationData] payload, and what the modal
      renders ([AdministrationFormModal]).
    - [src/src/components/MedicationCalendar/MedicationCalendar.tsx], lines
      178-190 and 340-420: the dose a click selects ([select_dose]: the
      date-time of [new Date(day.date)] after [setHours(h, m, 0, 0)]), and the
      two modals the calendar opens and closes ([modal_step]).

    Dates go through [DateTime] with a fixed zone offset [tz].  The theorems:
    [formatDateTime] writes [YYYY-MM-DD HH:MM:SS] with every field in range
    for a four-digit year (C19); the [scheduled_datetime] the form records
    is the "Scheduled Time" it displays ([AdministrationFormModal], the
    rendered modal): the same date, minutes and seconds, and the 24-hour
    hour of the 12-hour reading (C30); the time the form records when the user
    leaves its default is the UTC reading of the clock presented as local
    time (C35); the scheduled time it
    records is the calendar day of the dose followed by exactly the time
    string the schedule form sent; and the modals never show together, each
    with the dose it was opened for. *)

From S2P Require Import Prelude Json DateTime Endpoints Calendar Forms.
Local Open Scope string_scope.
Local Open Scope Z_scope.

(** ** The form *)

(** The [dose] prop. *)
Record dose_ref : Type := mkDoseRef {
  ref_medicationId : string;
  ref_medicationName : string;
  ref_scheduledDateTime : time_value;
  ref_scheduleId : string
}.

Record form_data : Type := mkFormData {
  actualDateTime : string;
  administeredBy : string;
  notes : string
}.

(** [useState({actualDateTime: new Date().toISOString().slice(0, 16), ...})] *)
Definition initial_form (now : Z) : form_data :=
  mkFormData (substring 0 16 (toISOString now)) "" "".

Definition set_actualDateTime (v : string) (f : form_data) : form_data :=
  mkFormData v (administeredBy f) (notes f).
Definition set_administeredBy (v : string) (f : form_data) : form_data :=
  mkFormData (actualDateTime f) v (notes f).
Definition set_notes (v : string) (f : form_data) : form_data :=
  mkFormData (actualDateTime f) (administeredBy f) v.

(** [formatDateTime(date)]: local fields, month from [getMonth() + 1],
    two-digit fields padded with [padStart(2, "0")], the year as it is. *)
Definition formatDateTime (tz : Z) (d : time_value) : string :=
  String_num (getFullYear tz d) ++ "-" ++
  padStart 2 (String_num (option_map (fun m => m + 1) (getMonth tz d))) ++ "-" ++
  padStart 2 (String_num (getDate tz d)) ++ " " ++
  padStart 2 (String_num (getHours tz d)) ++ ":" ++
  padStart 2 (String_num (getMinutes tz d)) ++ ":" ++
  padStart 2 (String_num (getSeconds tz d)).

(** [handleSubmit]: the payload passed to [onSubmit]. *)
Definition handleSubmit (tz : Z) (dose : dose_ref) (f : form_data) :
    CreateMedicationAdministrationData.t :=
  CreateMedicationAdministrationData.mk (ref_medicationId dose)
    (formatDateTime tz (ref_scheduledDateTime dose))
    (formatDateTime tz (parse tz (actualDateTime f)))
    (administeredBy f) (notes f).

(** The browser submits the form only when its [required] inputs are
    filled: the date-time input and "Administered By". *)
Definition can_submit (f : form_data) : bool :=
  negb (String.eqb (actualDateTime f) "") && negb (String.eqb (administeredBy f) "").

(** What the modal shows: the two disabled inputs, the three editable
    ones with their values, and the submit button. *)
Record form_modal_view : Type := mkFormModalView {
  fm_title : string;
  fm_medication : string;           (** the disabled "Medication" input *)
  fm_scheduled : string;            (** the disabled "Scheduled Time" input *)
  fm_actualDateTime : string;
  fm_administeredBy : string;
  fm_notes : string;
  fm_submit_label : string;
  fm_submit_disabled : bool
}.

(** The JSX of [AdministrationFormModal] for its props and state. *)
Definition AdministrationFormModal (tz : Z) (dose : dose_ref) (f : form_data)
    (isSubmitting : bool) : form_modal_view :=
  mkFormModalView "Mark Dose as Taken" (ref_medicationName dose)
    (toLocaleString_enUS tz (ref_scheduledDateTime dose))
    (actualDateTime f) (administeredBy f) (notes f)
    (if isSubmitting then "Recording..." else "Record Administration") isSubmitting.

(** ** The calendar's side *)

(** [new Date(day.date)] then [setHours(parseInt(hours), parseInt(minutes), 0, 0)]:
    local midnight of [day] plus the dose's time, as a time value. *)
Definition dose_time (tz day : Z) (t : string) : time_value :=
  match scheduledDateTime day t with
  | Some mins => time_clip (mins * msPerMinute - tz * msPerMinute)
  | None => None
  end.

(** [setSelectedDose({...})] on a click on a dose of [day]. *)
Definition select_dose (tz day : Z) (d : dose) : dose_ref :=
  mkDoseRef (medication_id d) (medication_name d) (dose_time tz day (time d))
    (scheduleId (dose_schedule d)).

Record modals : Type := mkModals {
  showDetailsModal : bool;
  showAdministrationForm : bool;
  selectedDose : option dose_ref
}.

Definition modals_initial : modals := mkModals false false None.

(** What the user can do with the modals.  A dose can be clicked only while
    no modal is open: each modal is a full-screen overlay.  A failed
    submission leaves the form open (the error is only logged). *)
Inductive modal_step (tz : Z) : modals -> modals -> Prop :=
| click_dose m day d :
    showDetailsModal m = false -> showAdministrationForm m = false ->
    modal_step tz m (mkModals true (showAdministrationForm m) (Some (select_dose tz day d)))
| details_close m :
    showDetailsModal m = true -> modal_step tz m (mkModals false (showAdministrationForm m) None)
| details_create_new m :
    showDetailsModal m = true -> modal_step tz m (mkModals false true (selectedDose m))
| form_close m :
    showAdministrationForm m = true -> modal_step tz m (mkModals (showDetailsModal m) false None)
| form_submit_ok m :
    showAdministrationForm m = true -> modal_step tz m (mkModals (showDetailsModal m) false None)
| form_submit_failed m :
    showAdministrationForm m = true -> modal_step tz m m.

(** What is on screen: a modal is rendered only with a selected dose. *)
Definition modals_ok (m : modals) : Prop :=
  negb (showDetailsModal m && showAdministrationForm m) = true /\
  ((showDetailsModal m || showAdministrationForm m) = true -> selectedDose m <> None).

(** ** Sample inputs *)

Definition demo_schedule : MedicationSchedule :=
  mkMedicationSchedule "s1" 2 "21:30:00" 1 "2023-11-01" "2023-11-01".
Definition demo_dose : dose := mkDose demo_schedule "Aspirin" "m1" "21:30:00".
Definition demo_ref : dose_ref := mkDoseRef "m1" "Aspirin" (Some 0) "s1".

(** ** Lemmas *)

Lemma formatDateTime_shift tz t :
  formatDateTime tz (Some (t - tz * msPerMinute)) = formatDateTime 0 (Some t).
Proof.
  unfold formatDateTime, getFullYear, getMonth, getDate, getHours, getMinutes, getSeconds.
  cbn [option_map]. by rewrite !local_fields_shift.
Qed.

(** C35: when the user leaves the "Actual Time Taken" input at its default,
    the recorded [actual_datetime] is the clock at the moment the form was
    opened, to the minute, formatted in UTC: [toISOString().slice(0, 16)]
    is read back by [new Date(...)] as local time.  In a zone [tz] minutes
    east of UTC the record is [tz] minutes off the local time the dose was
    taken at. *)
Theorem default_actual_time_is_utc tz now dose :
  -1440 < tz < 1440 -> 0 <= year (utc_fields now) <= 9999 ->
  CreateMedicationAdministrationData.actual_datetime (handleSubmit tz dose (initial_form now)) =
  formatDateTime 0 (Some (floor_minute now)).
Proof.
  intros Htz Hy. cbn [handleSubmit initial_form actualDateTime
                      CreateMedicationAdministrationData.actual_datetime].
  rewrite parse_iso_minutes by done. pose proof (floor_minute_bound now Hy).
  rewrite time_clip_in_range by (unfold msPerMinute; lia).
  apply formatDateTime_shift.
Qed.

(** [formatDateTime] of a valid date, field by field. *)
Lemma formatDateTime_fields tz t :
  let f := local_fields tz t in
  formatDateTime tz (Some t) =
    show_Z (year f) ++ "-" ++ pad2 (month f) ++ "-" ++ pad2 (DateTime.date f) ++ " " ++
    pad2 (hours f) ++ ":" ++ pad2 (minutes f) ++ ":" ++ pad2 (seconds f).
Proof.
  unfold formatDateTime, getFullYear, getMonth, getDate, getHours, getMinutes, getSeconds, pad2.
  cbn [option_map String_num]. by rewrite Z.sub_add.
Qed.

(** C19: bounds of the wire format.  For a valid date whose local year has
    four digits, [formatDateTime] writes [YYYY-MM-DD HH:MM:SS]: nineteen
    characters, the month counted from 1 ([getMonth() + 1]) in 1..12, the
    day in 1..31, the hour in 0..23, minutes and seconds in 0..59, each
    field padded to exactly two digits. *)
Theorem formatDateTime_bounds tz t :
  1000 <= year (local_fields tz t) <= 9999 ->
  exists y mo d h mi s,
    formatDateTime tz (Some t) =
      show_Z y ++ "-" ++ pad2 mo ++ "-" ++ pad2 d ++ " " ++
      pad2 h ++ ":" ++ pad2 mi ++ ":" ++ pad2 s /\
    1000 <= y <= 9999 /\ 1 <= mo <= 12 /\ 1 <= d <= 31 /\
    0 <= h <= 23 /\ 0 <= mi <= 59 /\ 0 <= s <= 59 /\
    String.length (formatDateTime tz (Some t)) = 19%nat.
Proof.
  intros Hy. pose proof (fields_at_spec (t + tz * msPerMinute)) as (Hm & Hd & Hh & Hmi & Hs & _).
  pose proof (formatDateTime_fields tz t) as E.
  unfold local_fields in *. set (f := fields_at _) in *.
  exists (year f), (month f), (DateTime.date f), (hours f), (minutes f), (seconds f).
  rewrite E. split_and!; try done; try lia.
  rewrite !string_length_app, show_Z_length4, !pad2_length by lia. done.
Qed.

(** The year is not padded: a date in the year 999 gives eighteen characters. *)
Lemma formatDateTime_short_year :
  formatDateTime 0 (Some (days_from_civil 999 1 1 * msPerDay)) = "999-01-01 00:00:00".
Proof. vm_compute. reflexivity. Qed.

Lemma hour12_range h : 1 <= hour12 h <= 12.
Proof.
  unfold hour12. pose proof (Z.mod_pos_bound h 12 ltac:(lia)).
  destruct (Z.eqb_spec (h mod 12) 0); lia.
Qed.

Lemma day_period_pm h : day_period h = if negb (h <? 12) then "PM" else "AM".
Proof. unfold day_period. by destruct (h <? 12). Qed.

(** C30: the record is the time shown.  For a dose of the common era, the
    disabled "Scheduled Time" input reads ["M/D/YYYY, h:mm:ss AM"] or
    ["... PM"] ([toLocaleString()], 12-hour clock, with the narrow no-break
    space before the period), and the
    [scheduled_datetime] the form records is ["YYYY-MM-DD HH:mm:ss"] of the
    same year, month (counted from 1 in both), day, minutes and seconds,
    with the hour [HH] that the 12-hour reading denotes ([h mod 12], plus
    12 after noon). *)
Theorem scheduled_record_is_time_shown tz d f s t :
  ref_scheduledDateTime d = Some t -> 0 < year (local_fields tz t) ->
  exists y mo dd h mi sec (pm : bool),
    fm_scheduled (AdministrationFormModal tz d f s) =
      show_Z mo ++ "/" ++ show_Z dd ++ "/" ++ show_Z y ++ ", " ++ show_Z h ++ ":" ++
      pad2 mi ++ ":" ++ pad2 sec ++ " " ++ (if pm then "PM" else "AM") /\
    1 <= mo <= 12 /\ 1 <= dd <= 31 /\ 1 <= h <= 12 /\ 0 <= mi <= 59 /\ 0 <= sec <= 59 /\
    CreateMedicationAdministrationData.scheduled_datetime (handleSubmit tz d f) =
      show_Z y ++ "-" ++ pad2 mo ++ "-" ++ pad2 dd ++ " " ++
      pad2 (h mod 12 + (if pm then 12 else 0)) ++ ":" ++ pad2 mi ++ ":" ++ pad2 sec.
Proof.
  intros Ht Hy. pose proof (fields_at_spec (t + tz * msPerMinute)) as (Hm & Hd & Hh & Hmi & Hs & _).
  assert (Hr : forall h, 0 <= h <= 23 ->
            hour12 h mod 12 + (if negb (h <? 12) then 12 else 0) = h).
  { intros h Hh'. pose proof (hour12_roundtrip h Hh') as Hr. rewrite day_period_pm in Hr.
    revert Hr. by destruct (h <? 12). }
  cbn [AdministrationFormModal fm_scheduled handleSubmit
       CreateMedicationAdministrationData.scheduled_datetime]. rewrite Ht, formatDateTime_fields.
  unfold toLocaleString_enUS, year_of_era, local_fields in *. set (lf := fields_at _) in *.
  exists (year lf), (month lf), (DateTime.date lf), (hour12 (hours lf)), (minutes lf),
    (seconds lf), (negb (hours lf <? 12)).
  rewrite (proj2 (Z.ltb_lt 0 _) Hy), day_period_pm.
  rewrite (Hr (hours lf) Hh). pose proof (hour12_range (hours lf)).
  split_and!; try done; lia.
Qed.

(** The time input's ["HH:mm"] (two digits each) as four digit characters. *)
Lemma hm_string_chars h mi : 0 <= h <= 23 -> 0 <= mi <= 59 ->
  exists h1 h2 m1 m2 vh1 vh2 vm1 vm2,
    hm_string h mi = String h1 (String h2 (String ":" (String m1 (String m2 EmptyString)))) /\
    digit_value h1 = Some vh1 /\ digit_value h2 = Some vh2 /\
    digit_value m1 = Some vm1 /\ digit_value m2 = Some vm2 /\
    h = vh1 * 10 + vh2 /\ mi = vm1 * 10 + vm2.
Proof.
  intros Hh Hmi.
  destruct (pad2_digits h ltac:(lia)) as (h1 & h2 & Eh & Dh).
  destruct (pad2_digits mi ltac:(lia)) as (m1 & m2 & Em & Dm).
  cbn in Dh, Dm.
  destruct (digit_value h1) as [a|] eqn:A; [|discriminate]. destruct (digit_value h2) as [b|] eqn:B; [|discriminate].
  destruct (digit_value m1) as [c|] eqn:Cc; [|discriminate]. destruct (digit_value m2) as [e|] eqn:E; [|discriminate].
  injection Dh as Dh. injection Dm as Dm.
  exists h1, h2, m1, m2, a, b, c, e. repeat split; try done; try lia.
  unfold hm_string. rewrite <- (string_of_list_ascii_of_string (pad2 h)), <- (string_of_list_ascii_of_string (pad2 mi)).
  by rewrite Eh, Em.
Qed.

(** The fields of local midnight of [day] plus [k] minutes ([k] under a
    day), in a zone where local time is UTC. *)
Lemma fields_at_minutes day k : 0 <= k < 1440 ->
  fields_at ((day * 1440 + k) * msPerMinute) =
  let '(y, m, d) := civil_from_days day in mkFields y m d (k / 60) (k mod 60) 0 0.
Proof.
  intros Hk. unfold fields_at, msPerMinute, msPerDay, msPerHour, msPerSecond.
  replace ((day * 1440 + k) * 60000) with (day * 86400000 + k * 60000) by lia.
  rewrite Z.div_add_l, (Z.div_small (k * 60000)), Z.add_0_r by lia.
  rewrite Z.add_comm, Z.mod_add, Z.mod_small by lia.
  destruct (civil_from_days day) as [[y m] d].
  replace 3600000 with (60 * 60000) by lia. rewrite Z.div_mul_cancel_r, Z.div_mul by lia.
  replace (k * 60000) with ((k * 60) * 1000) by lia.
  rewrite Z.div_mul, Z.mod_mul, Z.mod_mul by lia. done.
Qed.

Lemma formatTime_hm h1 h2 m1 m2 vh1 vh2 vm1 vm2 :
  digit_value h1 = Some vh1 -> digit_value h2 = Some vh2 ->
  digit_value m1 = Some vm1 -> digit_value m2 = Some vm2 ->
  CreateMedicationScheduleForm.formatTime (String h1 (String h2 (String ":" (String m1 (String m2 EmptyString))))) =
  String h1 (String h2 (String ":" (String m1 (String m2 EmptyString)))) ++ ":00".
Proof.
  intros D1 D2 D3 D4. unfold CreateMedicationScheduleForm.formatTime, CreateMedicationScheduleForm.match_hm.
  simpl list_ascii_of_string. cbv iota beta.
  by rewrite (is_digit_of _ _ D1), (is_digit_of _ _ D2), (is_digit_of _ _ D3), (is_digit_of _ _ D4).
Qed.

(** The time value of a dose the calendar shows on [day] for a schedule
    whose time the schedule form sent from [HH:mm]. *)
Lemma dose_time_schedule tz day h mi d :
  -1440 < tz < 1440 -> 0 <= h <= 23 -> 0 <= mi <= 59 ->
  0 <= fst (fst (civil_from_days day)) <= 9999 ->
  time d = CreateMedicationScheduleForm.formatTime (hm_string h mi) ->
  dose_time tz day (time d) = Some ((day * 1440 + (h * 60 + mi)) * msPerMinute - tz * msPerMinute).
Proof.
  intros Htz Hh Hmi Hy Ht.
  destruct (hm_string_chars h mi Hh Hmi) as (h1 & h2 & m1 & m2 & vh1 & vh2 & vm1 & vm2 & Ehm & D1 & D2 & D3 & D4 & Eh & Em).
  unfold dose_time. rewrite Ht, Ehm, (formatTime_calendar_read day _ _ _ _ _ _ _ _ D1 D2 D3 D4), <- Eh, <- Em.
  pose proof (civil_from_days_spec day) as Hc.
  destruct (civil_from_days day) as [[y m] dd]. destruct Hc as (Hm & Hd & Hz). simpl in Hy.
  pose proof (days_from_civil_bound y m dd Hy Hm Hd).
  rewrite time_clip_in_range by (unfold msPerMinute; lia). f_equal. lia.
Qed.

(** Its local fields: the calendar day and the minute of the day. *)
Lemma dose_time_fields tz day k : 0 <= k < 1440 ->
  local_fields tz ((day * 1440 + k) * msPerMinute - tz * msPerMinute) =
  let '(y, m, dd) := civil_from_days day in mkFields y m dd (k / 60) (k mod 60) 0 0.
Proof.
  intros Hk. rewrite local_fields_shift. unfold local_fields. rewrite Z.mul_0_l, Z.add_0_r.
  by apply fields_at_minutes.
Qed.

Lemma hm_div h mi : 0 <= h -> 0 <= mi <= 59 -> (h * 60 + mi) / 60 = h /\ (h * 60 + mi) mod 60 = mi.
Proof. intros. split; symmetry; [apply Z.div_unique with mi|apply Z.mod_unique with h]; lia. Qed.

(** C22: the scheduled time of an administration record, end to end: a
    schedule whose time was picked as [HH:mm] and sent by the schedule form
    ([formatTime]) is shown by the calendar on [day]; a click on it and a
    submission of the administration form record [scheduled_datetime] as
    that local date followed by exactly the time string the schedule form
    sent, whatever the zone. *)
Theorem scheduled_datetime_from_schedule tz day h mi d f :
  -1440 < tz < 1440 -> 0 <= h <= 23 -> 0 <= mi <= 59 ->
  0 <= fst (fst (civil_from_days day)) <= 9999 ->
  time d = CreateMedicationScheduleForm.formatTime (hm_string h mi) ->
  CreateMedicationAdministrationData.scheduled_datetime (handleSubmit tz (select_dose tz day d) f) =
  (let '(y, m, dd) := civil_from_days day in show_Z y ++ "-" ++ pad2 m ++ "-" ++ pad2 dd)
    ++ " " ++ time d.
Proof.
  intros Htz Hh Hmi Hy Ht.
  cbn [handleSubmit select_dose ref_scheduledDateTime CreateMedicationAdministrationData.scheduled_datetime].
  rewrite (dose_time_schedule tz day h mi d) by done.
  unfold formatDateTime, getFullYear, getMonth, getDate, getHours, getMinutes, getSeconds.
  cbn [option_map]. rewrite dose_time_fields by lia. destruct (hm_div h mi) as [-> ->]; [lia..|].
  destruct (civil_from_days day) as [[y m] dd]. cbn. replace (m - 1 + 1) with m by lia.
  destruct (hm_string_chars h mi Hh Hmi) as (h1 & h2 & m1 & m2 & vh1 & vh2 & vm1 & vm2 & Ehm & D1 & D2 & D3 & D4 & _ & _).
  rewrite Ht, Ehm, (formatTime_hm _ _ _ _ _ _ _ _ D1 D2 D3 D4), <- Ehm.
  unfold hm_string, pad2. rewrite !string_app_assoc. reflexivity.
Qed.

Lemma modal_step_ok tz m m' : modals_ok m -> modal_step tz m m' -> modals_ok m'.
Proof.
  unfold modals_ok. intros [Hboth Hsel] Hst.
  destruct Hst as [m day d Hd Hf|m Hd|m Hd|m Hf|m Hf|m Hf]; cbn [showDetailsModal showAdministrationForm selectedDose];
    destruct (showDetailsModal m), (showAdministrationForm m), (selectedDose m);
    simpl in *; try discriminate; split; try done; intros; try discriminate; by apply Hsel.
Qed.

(** the calendar never shows the details modal and the administration
    form together, and each is shown only with a selected dose, whatever
    the user clicks. *)
Theorem modals_invariant tz m :
  rtc (modal_step tz) modals_initial m -> modals_ok m.
Proof.
  intros Hr. assert (H0 : modals_ok modals_initial) by (split; [done|discriminate]).
  induction Hr as [|a b c Hab _ IH]; [done|]. apply IH. by eapply modal_step_ok.
Qed.

(** ** Witnesses *)

Lemma default_actual_time_is_utc_witness :
  CreateMedicationAdministrationData.actual_datetime
    (handleSubmit 120 demo_ref (initial_form 1700000000123)) = "2023-11-14 22:13:00" /\
  formatDateTime 120 (Some 1700000000123) = "2023-11-15 00:13:20".
Proof.
  split; [|vm_compute; reflexivity].
  rewrite (default_actual_time_is_utc 120 1700000000123 demo_ref).
  - vm_compute. reflexivity.
  - lia.
  - vm_compute. split; discriminate.
Defined.

Lemma formatDateTime_bounds_witness :
  1000 <= year (local_fields 0 0) <= 9999 /\
  String.length (formatDateTime 0 (Some 0)) = 19%nat.
Proof.
  assert (H : 1000 <= year (local_fields 0 0) <= 9999) by (vm_compute; split; discriminate).
  split; [exact H|].
  destruct (formatDateTime_bounds 0 0 H) as (y & mo & d & h & mi & s & _ & _ & _ & _ & _ & _ & _ & L).
  exact L.
Defined.

Lemma scheduled_record_is_time_shown_witness :
  exists y mo dd h mi sec (pm : bool),
    fm_scheduled (AdministrationFormModal (-300) (mkDoseRef "m1" "Aspirin" (Some 1699997400000) "s1")
                    (initial_form 0) false) =
      show_Z mo ++ "/" ++ show_Z dd ++ "/" ++ show_Z y ++ ", " ++ show_Z h ++ ":" ++
      pad2 mi ++ ":" ++ pad2 sec ++ " " ++ (if pm then "PM" else "AM") /\
    1 <= mo <= 12 /\ 1 <= dd <= 31 /\ 1 <= h <= 12 /\ 0 <= mi <= 59 /\ 0 <= sec <= 59 /\
    CreateMedicationAdministrationData.scheduled_datetime
      (handleSubmit (-300) (mkDoseRef "m1" "Aspirin" (Some 1699997400000) "s1") (initial_form 0)) =
      show_Z y ++ "-" ++ pad2 mo ++ "-" ++ pad2 dd ++ " " ++
      pad2 (h mod 12 + (if pm then 12 else 0)) ++ ":" ++ pad2 mi ++ ":" ++ pad2 sec.
Proof.
  apply (scheduled_record_is_time_shown (-300) (mkDoseRef "m1" "Aspirin" (Some 1699997400000) "s1")
           (initial_form 0) false 1699997400000); [reflexivity|vm_compute; reflexivity].
Defined.

Lemma scheduled_datetime_from_schedule_witness :
  CreateMedicationAdministrationData.scheduled_datetime
    (handleSubmit (-300) (select_dose (-300) 19675 demo_dose) (initial_form 0)) =
  "2023-11-14 21:30:00".
Proof.
  rewrite (scheduled_datetime_from_schedule (-300) 19675 21 30 demo_dose (initial_form 0)).
  - vm_compute. reflexivity.
  - lia.
  - lia.
  - lia.
  - vm_compute. split; discriminate.
  - vm_compute. reflexivity.
Defined.

Lemma modals_invariant_witness :
  modals_ok (mkModals false true (Some (select_dose 0 19675 demo_dose))).
Proof.
  apply (modals_invariant 0).
  eapply rtc_l; [apply (click_dose 0 modals_initial 19675 demo_dose); reflexivity|].
  eapply rtc_l; [apply details_create_new; reflexivity|].
  apply rtc_refl.
Defined.
