(* ===== verification/CalendarSession.v ===== *)
(** * The calendar's administration flow, handler by handler
    ([src/src/components/MedicationCalendar/MedicationCalendar.tsx], lines
    180-188 and 350-420, with
    [src/src/components/AdministrationFormModal/AdministrationFormModal.tsx])

    [Administration.modal_step] describes the two modals abstractly.  Here
    the calendar runs its handlers on a state that also holds the mounted
    administration form ([AdministrationFormModal]'s [formData], created from
    the clock when the form mounts) and threads the query cache and the
    browser: a submission builds the payload with
    [Administration.handleSubmit] and runs [useCreateMedicationAdministration]'s
    [mutateAsync]; on success the form closes, on failure the error is
    logged and the form stays.  An event is [None] when the element it needs
    is not on screen (a dose under an open modal's overlay cannot be
    clicked).

    The theorems: every handler's effect on the modal flags and the selected
    dose is a step of [modal_step] or none (the handlers refine the abstract
    machine), and in every reachable state the form is mounted exactly when
    it is shown; the form closes only when the request recording the dose it
    shows succeeded; and the details modal opened by a click shows the
    dose's day and the schedule's time, in date-fns's 12-hour format, in
    any zone. *)

From S2P Require Import Prelude Json DateTime QueryCache QueryKeys ApiClient Endpoints Mutations Calendar Forms Views Administration.
Local Open Scope string_scope.
Local Open Scope Z_scope.

(** ** State and events *)

Record calendar_ui : Type := mkCalendarUI {
  ui_modals : modals;
  ui_form : option form_data      (** [AdministrationFormModal]'s state, while mounted *)
}.

Definition ui_initial : calendar_ui := mkCalendarUI modals_initial None.

(** The three inputs of the form. *)
Inductive form_input : Type :=
| InActualDateTime (s : string)
| InAdministeredBy (s : string)
| InNotes (s : string).

Definition apply_input (i : form_input) (f : form_data) : form_data :=
  match i with
  | InActualDateTime s => set_actualDateTime s f
  | InAdministeredBy s => set_administeredBy s f
  | InNotes s => set_notes s f
  end.

Inductive ui_event : Type :=
| ClickDose (day : Z) (d : dose)      (** a [DoseItem] of the grid *)
| DetailsClose                        (** the details modal's [onClose] *)
| DetailsCreateNew                    (** its [onCreateNew] *)
| FormClose                           (** the form's [onClose] (Cancel, overlay) *)
| FormInput (i : form_input)          (** an [onChange] of the form *)
| FormSubmit.                         (** the form's submit button *)

(** [{showDetailsModal && selectedDose && <AdministrationDetailsModal .../>}] *)
Definition details_dose (m : modals) : option dose_ref :=
  if showDetailsModal m then selectedDose m else None.

(** [{showAdministrationForm && selectedDose && <AdministrationFormModal .../>}] *)
Definition form_dose (m : modals) : option dose_ref :=
  if showAdministrationForm m then selectedDose m else None.

(** [<AdministrationDetailsModal dose={selectedDose} administrations={...}
    isLoading={isAdministrationsLoading} .../>] when it is shown. *)
Definition details_modal (tz : Z) (parseISO : string -> time_value) (administrations : option value)
    (isLoading : bool) (m : modals) : option (result details_view js_error) :=
  match details_dose m with
  | Some r =>
      Some (AdministrationDetailsModal tz parseISO
              (Views.mkDetailsDoseRef (ref_medicationId r) (ref_medicationName r)
                 (ref_scheduledDateTime r) (ref_scheduleId r))
              administrations isLoading)
  | None => None
  end.

(** [console.error("Error creating administration:", error)] *)
Definition log_error (b : browser) : browser :=
  mkBrowser (authToken b) (location b) ("Error creating administration:" :: console b)
    (pending_timers b).

(** ** The handlers *)

Section Handlers.
Context {C : Type} `{!QueryClientOps C}.
Variables (tz : Z) (patientId : string) (cx : ctx) (srv : qkey -> value).

(** The form's [handleSubmit] (the browser refuses to submit while a
    [required] input is empty) with the calendar's [onSubmit]. *)
Definition submitAdministration (clk : clock) (dose : dose_ref) (f : form_data) (ui : calendar_ui)
    (c : C) (b : browser) : calendar_ui * C * browser :=
  if can_submit f then
    let '(c', b', r) :=
      mutateAsync (useCreateMedicationAdministration.hooks patientId) cx clk srv
        (handleSubmit tz dose f) c b in
    match r with
    | Ok _ =>
        (mkCalendarUI (mkModals (showDetailsModal (ui_modals ui)) false None) None, c', b')
    | Err _ => (ui, c', log_error b')
    end
  else (ui, c, b).

Definition handle (clk : clock) (e : ui_event) (ui : calendar_ui) (c : C) (b : browser) :
    option (calendar_ui * C * browser) :=
  let m := ui_modals ui in
  match e with
  | ClickDose day d =>
      if showDetailsModal m || showAdministrationForm m then None
      else Some (mkCalendarUI (mkModals true (showAdministrationForm m)
                                 (Some (select_dose tz day d))) (ui_form ui), c, b)
  | DetailsClose =>
      match details_dose m with
      | Some _ => Some (mkCalendarUI (mkModals false (showAdministrationForm m) None) (ui_form ui), c, b)
      | None => None
      end
  | DetailsCreateNew =>
      match details_dose m with
      | Some _ => Some (mkCalendarUI (mkModals false true (selectedDose m))
                          (Some (initial_form (Z.of_N (now_ms clk)))), c, b)
      | None => None
      end
  | FormClose =>
      match form_dose m, ui_form ui with
      | Some _, Some _ => Some (mkCalendarUI (mkModals (showDetailsModal m) false None) None, c, b)
      | _, _ => None
      end
  | FormInput i =>
      match form_dose m, ui_form ui with
      | Some _, Some f => Some (mkCalendarUI m (Some (apply_input i f)), c, b)
      | _, _ => None
      end
  | FormSubmit =>
      match form_dose m, ui_form ui with
      | Some dose, Some f => Some (submitAdministration clk dose f ui c b)
      | _, _ => None
      end
  end.

(** A session: any sequence of available events, each at its own clock. *)
Inductive calendar_session : calendar_ui * C * browser -> calendar_ui * C * browser -> Prop :=
| session_refl s : calendar_session s s
| session_step clk e ui c b s' s'' :
    handle clk e ui c b = Some s' -> calendar_session s' s'' -> calendar_session (ui, c, b) s''.

End Handlers.

(** The form is mounted exactly while it is shown. *)
Definition mounted_ok (ui : calendar_ui) : Prop :=
  is_Some (ui_form ui) <-> is_Some (form_dose (ui_modals ui)).

(** ** The handlers refine [modal_step] *)

Section Refinement.
Context {C : Type} `{!QueryClientOps C}.
Variables (tz : Z) (patientId : string) (cx : ctx) (srv : qkey -> value).

Lemma handle_refines clk e ui (c : C) b ui' c' b' :
  handle tz patientId cx srv clk e ui c b = Some (ui', c', b') ->
  modal_step tz (ui_modals ui) (ui_modals ui') \/ ui_modals ui' = ui_modals ui.
Proof.
  unfold handle, submitAdministration, details_dose, form_dose. destruct e as [day d| | | | |].
  2-6: repeat (case_match; simplify_eq/=); intros; simplify_eq/=;
         first [by right | left; econstructor; eauto].
  destruct (showDetailsModal (ui_modals ui)) eqn:Hd; [done|].
  destruct (showAdministrationForm (ui_modals ui)) eqn:Hf; [done|].
  intros [= <- _ _]. left. simpl. rewrite <- Hf. by apply click_dose.
Qed.

Lemma handle_mounted clk e ui (c : C) b ui' c' b' :
  handle tz patientId cx srv clk e ui c b = Some (ui', c', b') ->
  modals_ok (ui_modals ui) -> mounted_ok ui -> mounted_ok ui'.
Proof.
  destruct ui as [[sd sf sel] fm].
  unfold handle, submitAdministration, details_dose, form_dose, mounted_ok, modals_ok; simpl.
  destruct e, sd, sf, sel, fm; simpl; repeat (case_match; simplify_eq/=);
    intros; simplify_eq/=; unfold form_dose in *; simpl in *; naive_solver.
Qed.

Lemma session_inv s s' :
  calendar_session tz patientId cx srv s s' ->
  modals_ok (ui_modals s.1.1) -> mounted_ok s.1.1 ->
  rtc (modal_step tz) (ui_modals s.1.1) (ui_modals s'.1.1) /\
  modals_ok (ui_modals s'.1.1) /\ mounted_ok s'.1.1.
Proof.
  induction 1 as [s|clk e ui c b [[ui' c'] b'] s'' Hh _ IH]; [done|]; simpl; intros Hok Hmo.
  destruct (handle_refines _ _ _ _ _ _ _ _ Hh) as [Hs|Heq].
  - destruct IH as (Hr & ?); [by eapply modal_step_ok|by eapply handle_mounted|].
    split; [by eapply rtc_l|done].
  - simpl in IH. rewrite Heq in IH. apply IH; [done|by eapply handle_mounted].
Qed.

(** C40: the calendar's handlers implement the abstract modal machine: along
    any session from the first render, with the real mutation behind the
    submit button, the modal flags and the selected dose move by steps of
    [modal_step] (or not at all); the two modals are never shown together;
    and the administration form holds state exactly while it is shown. *)
Theorem session_refines_modal_step c0 b0 ui c b :
  calendar_session tz patientId cx srv (ui_initial, c0, b0) (ui, c, b) ->
  rtc (modal_step tz) modals_initial (ui_modals ui) /\ modals_ok (ui_modals ui) /\ mounted_ok ui.
Proof.
  intros Hs. apply (session_inv _ _ Hs); [split; [done|discriminate]|].
  unfold mounted_ok, form_dose; simpl. naive_solver.
Qed.

(** Submitting the form closes it only when the request recording the dose
    the form shows, with the values typed, succeeded; a refused or failed
    submission leaves the form on screen. *)
Theorem submit_closes_only_on_success clk ui (c : C) b ui' c' b' :
  handle tz patientId cx srv clk FormSubmit ui c b = Some (ui', c', b') ->
  form_dose (ui_modals ui') = None ->
  exists dose f data, form_dose (ui_modals ui) = Some dose /\ ui_form ui = Some f /\
    can_submit f = true /\
    mutateAsync (useCreateMedicationAdministration.hooks patientId) cx clk srv
      (handleSubmit tz dose f) c b = (c', b', Ok data).
Proof.
  unfold handle, submitAdministration. destruct (form_dose (ui_modals ui)) as [dose|] eqn:Hd; [|done].
  destruct (ui_form ui) as [f|]; [|done].
  destruct (can_submit f) eqn:Hc; [|intros [= <- <- <-] ?; congruence].
  destruct (mutateAsync _ cx clk srv _ c b) as [[c1 b1] [data|err]] eqn:Hm;
    intros [= <- <- <-] ?; [by exists dose, f, data|congruence].
Qed.
End Refinement.

(** ** What the details modal shows *)

(** the details modal opened by a click on a dose shows the dose's
    scheduled time as the calendar day of the click and the time the
    schedule form sent, in date-fns's 12-hour ["MMM d, yyyy h:mm:ss a"], in
    any zone (when no administration record is [null], which would make
    the modal throw); and the 12-hour reading gives the 24-hour time back. *)
Theorem details_scheduled_time tz parseISO adm day h mi d :
  -1440 < tz < 1440 -> 0 <= h <= 23 -> 0 <= mi <= 59 ->
  1 <= fst (fst (civil_from_days day)) <= 9999 ->
  time d = CreateMedicationScheduleForm.formatTime (hm_string h mi) ->
  (forall xs, adm = Some (JArr xs) -> ~ In JNull xs) ->
  (exists rows button,
    details_modal tz parseISO adm false (mkModals true false (Some (select_dose tz day d))) =
    Some (Ok (Details (medication_name d)
            (let '(y, m, dd) := civil_from_days day in
             month_abbr m ++ " " ++ show_Z dd ++ ", " ++ padStart 4 (show_Z y) ++ " " ++
             show_Z (hour12 h) ++ ":" ++ pad2 mi ++ ":00 " ++ day_period h)
            rows button))) /\
  hour12 h mod 12 + (if String.eqb (day_period h) "PM" then 12 else 0) = h.
Proof.
  intros Htz Hh Hmi Hy Ht Hadm. split; [|by apply hour12_roundtrip].
  unfold details_modal, details_dose, AdministrationDetailsModal.
  cbn [showDetailsModal selectedDose].
  match goal with |- context [relevantAdministrations ?xs ?dr] =>
    destruct (relevantAdministrations_ok xs dr) as [rel Hrel] end.
  { destruct adm as [[]|]; try (by intros []). by apply Hadm. }
  do 2 eexists. rewrite Hrel.
  cbn [rbind showDetailsModal selectedDose select_dose ref_medicationId ref_medicationName
       ref_scheduledDateTime ref_scheduleId dose_medicationName dose_scheduledDateTime].
  rewrite (dose_time_schedule tz day h mi d) by (done || lia).
  unfold format_or_invalid, format_MMMdyyyy_hmmssa. rewrite dose_time_fields by lia.
  destruct (hm_div h mi) as [-> ->]; [lia..|].
  destruct (civil_from_days day) as [[y m] dd]. simpl in Hy.
  cbn [year month date hours minutes seconds]. unfold year_of_era.
  rewrite (proj2 (Z.ltb_lt 0 y)) by lia. reflexivity.
Qed.

(** ** Witnesses *)

Lemma session_refines_modal_step_witness :
  let ui := mkCalendarUI (mkModals false true (Some (select_dose 0 19675 demo_dose)))
              (Some (initial_form 1700000000000)) in
  calendar_session 0 "p1" (demo_cx 201 None) demo_server (ui_initial, demo_cache [], demo_browser)
    (ui, demo_cache [], demo_browser) /\
  rtc (modal_step 0) modals_initial (ui_modals ui) /\ modals_ok (ui_modals ui) /\ mounted_ok ui.
Proof.
  intros ui.
  assert (Hs : calendar_session 0 "p1" (demo_cx 201 None) demo_server (ui_initial, demo_cache [], demo_browser)
                 (ui, demo_cache [], demo_browser)).
  { eapply (session_step _ _ _ _ demo_clock (ClickDose 19675 demo_dose)); [reflexivity|].
    eapply (session_step _ _ _ _ demo_clock DetailsCreateNew); [reflexivity|].
    apply session_refl. }
  split; [exact Hs|]. exact (session_refines_modal_step 0 "p1" _ _ _ _ _ _ _ Hs).
Defined.

Lemma details_scheduled_time_witness :
  (exists rows button,
    details_modal 0 (fun _ => None) None false
      (mkModals true false (Some (select_dose 0 19675 demo_dose))) =
    Some (Ok (Details "Aspirin" "Nov 14, 2023 9:30:00 PM" rows button))) /\
  hour12 21 mod 12 + (if String.eqb (day_period 21) "PM" then 12 else 0) = 21.
Proof.
  apply (details_scheduled_time 0 (fun _ => None) None 19675 21 30 demo_dose);
    [lia|lia|lia|vm_compute; split; discriminate|vm_compute; reflexivity|discriminate].
Defined.
