(* ===== verification/MedicationListPage.v ===== *)
(** * The actions of the medication list page
    ([src/src/pages/MedicationList/MedicationList.tsx])

    The page's own state ([showAddForm], [showScheduleForm],
    [selectedMedication]) and what its buttons do: "Add Medication" opens
    the add form (whose submission is [AddMedication.submit]); "Deactivate
    Medication" fires [useUpdateMedication]'s [mutate] with the card's
    medication and [is_active: false]; "Create Schedule" selects the card's
    medication and opens [CreateMedicationScheduleForm] for it, whose
    submission awaits [useCreateMedicationSchedule]'s [mutateAsync] and
    closes the form, or logs the error and keeps it open.

    The deactivation payload is read from the card's camel-case record; the
    model covers records whose fields have the types of [Medication]
    ([src/src/types/api.ts]), and is [None] on any other record, which the
    page would send with [undefined] fields.

    [MedicationList_page] is the page as rendered, from the flags of its
    hooks, the cached list ([AddMedication.profile_medications]) and the
    page state.

    The theorems: a deactivation whose request fails leaves the rendered
    page as it was before the click, with nothing reporting the failure
    (C21); deactivating a medication as the server sent it sends
    every field back unchanged except [is_active], which becomes [false];
    and a failed schedule submission leaves the form open, with the typed
    rows, while the cache reads what settling the untouched cache gives. *)

From S2P Require Import Prelude Json Presentational CaseTransform QueryCache QueryKeys ApiClient Endpoints Mutations Views AddMedication Patients Forms.
Local Open Scope string_scope.
Local Open Scope mm_scope.

Import CreateMedicationScheduleForm.

(** ** The page state *)

Record MedicationListState : Type := mkMedicationListState {
  showAddForm : bool;
  showScheduleForm : bool;
  selectedMedication : option value;
  page_console : list string            (** [console.error] lines, newest first *)
}.

Definition page_initial : MedicationListState := mkMedicationListState false false None [].

(** The "Add Medication" button. *)
Definition clickAddMedication (pg : MedicationListState) : MedicationListState :=
  mkMedicationListState true (showScheduleForm pg) (selectedMedication pg) (page_console pg).

(** [onClose] of the add form. *)
Definition closeAddForm (pg : MedicationListState) : MedicationListState :=
  mkMedicationListState false (showScheduleForm pg) (selectedMedication pg) (page_console pg).

(** The "Create Schedule" button of a card. *)
Definition clickCreateSchedule (m : value) (pg : MedicationListState) : MedicationListState :=
  mkMedicationListState (showAddForm pg) true (Some m) (page_console pg).

(** [onClose] of the schedule form. *)
Definition closeScheduleForm (pg : MedicationListState) : MedicationListState :=
  mkMedicationListState (showAddForm pg) false None (page_console pg).

(** [{showScheduleForm && selectedMedication && <CreateMedicationScheduleForm
    medicationId={selectedMedication.medicationId} .../>}]: the form is
    shown, keyed by the medication id, for a selected record whose id is a
    string. *)
Definition schedule_form_for (pg : MedicationListState) : option string :=
  if showScheduleForm pg then
    match selectedMedication pg with
    | Some m => match get_prop m "medicationId" with Some (JStr id) => Some id | _ => None end
    | None => None
    end
  else None.

(** ** Deactivation *)

Definition str_field (m : value) (k : string) : option string :=
  match get_prop m k with Some (JStr s) => Some s | _ => None end.

(** [medication.specialInstructions || ""]: [""] for a falsy value, the
    string itself for a non-empty string ([None] for a truthy value of
    another type, outside the model). *)
Definition or_empty (o : option value) : option string :=
  if truthy o then match o with Some (JStr s) => Some s | _ => None end else Some "".

(** The object the "Deactivate Medication" button passes to [mutate]: the
    record's fields copied as they are, the text fields being strings and
    [dosageAmount] and [frequencyPerDay] any value ([None] when a field is
    missing: [undefined], which the request body would drop, is outside the
    model). *)
Definition deactivate_payload (m : value) : option UpdateMedicationData.t :=
  match str_field m "medicationId", str_field m "patientId", str_field m "name",
        str_field m "genericName", str_field m "strength", str_field m "unit",
        str_field m "form", get_prop m "dosageAmount", get_prop m "frequencyPerDay",
        or_empty (get_prop m "specialInstructions") with
  | Some id, Some pid, Some n, Some g, Some st, Some u, Some f, Some da, Some fr, Some si =>
      Some (UpdateMedicationData.mk id pid n g st u f da fr false si)
  | _, _, _, _, _, _, _, _, _, _ => None
  end.

Section Page.
Context {C : Type} `{!QueryClientOps C}.

(** [updateMedicationMutation.mutate(...)]: the mutation runs, its outcome
    is not awaited and a failure is not thrown to the page. *)
Definition clickDeactivate (cx : ctx) (clk : clock) (srv : qkey -> value) (m : value)
    (c : C) (b : browser) : option (C * browser) :=
  match deactivate_payload m with
  | Some d => let '(c', b', _) := mutateAsync useUpdateMedication.hooks cx clk srv d c b in
              Some (c', b')
  | None => None
  end.

(** The schedule form's [handleSubmit] with the page's [onSubmit]
    ([await createScheduleMutation.mutateAsync(schedulesData)]), then
    [onClose()]; a failure is caught and logged by the form. *)
Definition submitSchedules (cx : ctx) (clk : clock) (srv : qkey -> value) (patientId : string)
    (f : form) (pg : MedicationListState) (c : C) (b : browser) : MedicationListState * form * C * browser :=
  let '(f1, r) := handleSubmit f in
  match r with
  | None => (pg, f1, c, b)
  | Some payload =>
      let '(c', b', res) :=
        mutateAsync (useCreateMedicationSchedule.hooks patientId) cx clk srv payload c b in
      match res with
      | Ok _ => (closeScheduleForm pg, f1, c', b')
      | Err _ => (mkMedicationListState (showAddForm pg) (showScheduleForm pg) (selectedMedication pg)
                   ("Error submitting schedules:" :: page_console pg), f1, c', b')
      end
  end.
End Page.

(** ** What the page renders *)

(** The flags of the page's hooks: [useMedicationProfile]'s [isLoading],
    [error] (its [message]) and [isUpdatingMedication] (the creation
    mutation's [isPending]); [updateMedicationMutation.isPending] and
    [createScheduleMutation.isPending]. *)
Record page_flags : Type := mkPageFlags {
  isMedicationsLoading : bool;
  medicationsError : option string;
  isMedicationUpdating : bool;
  updatePending : bool;
  schedulePending : bool
}.

(** The props the two dialogs are rendered with. *)
Record schedule_form_props : Type := mkScheduleFormProps {
  sfp_medicationId : string;
  sfp_medicationName : option value;   (** [selectedMedication.name] *)
  sfp_isSubmitting : bool
}.

(** The page below its early returns. *)
Record medication_list_page : Type := mkMedicationListPage {
  mlp_title : string;
  mlp_subtitle : option string;           (** [None]: the template throws *)
  mlp_error : option error_view;          (** [{medicationsError && <ErrorMessage .../>}] *)
  mlp_updating : bool;                    (** the "Updating medication data..." banner *)
  mlp_body : list_view;                   (** the grid or the empty state *)
  mlp_deactivate : string * bool;         (** every card's Deactivate label and [disabled] *)
  mlp_add_form : option bool;             (** [AddMedicationForm]'s [isSubmitting], when shown *)
  mlp_schedule_form : option schedule_form_props
}.

Inductive page_render : Type :=
| PageText (s : string)                   (** [<div>Patient ID not found</div>] *)
| PageSpinner (v : spinner_view)          (** [<LoadingSpinner />] *)
| PageBody (p : medication_list_page).

(** The Deactivate button of a card. *)
Definition deactivate_button (isPending : bool) : string * bool :=
  (if isPending then "Deactivating..." else "Deactivate Medication", isPending).

(** [{showScheduleForm && selectedMedication && <CreateMedicationScheduleForm
    medicationId=... medicationName=... isSubmitting=.../>}] *)
Definition schedule_form_of (pg : MedicationListState) (isPending : bool) : option schedule_form_props :=
  match schedule_form_for pg, selectedMedication pg with
  | Some id, Some m => Some (mkScheduleFormProps id (get_prop m "name") isPending)
  | _, _ => None
  end.

(** [MedicationList]: the early returns, then the header, the error and
    update banners, the grid or the empty state ([Views.MedicationList]),
    and the two dialogs.  The medications are the data cached under the
    patient's key ([AddMedication.profile_medications]). *)
Definition MedicationList_page (patientId : option string) (currentPatient : option value)
    (fl : page_flags) (medicationsData : option value) (pg : MedicationListState) :
    result page_render js_error :=
  let* body := MedicationList patientId (isMedicationsLoading fl) medicationsData in
  match body with
  | PatientIdNotFound => Ok (PageText "Patient ID not found")
  | Loading => Ok (PageSpinner page_spinner)
  | _ =>
      Ok (PageBody (mkMedicationListPage "Medication Management"
            (medications_subtitle currentPatient)
            (option_map page_error (medicationsError fl))
            (isMedicationUpdating fl) body
            (deactivate_button (updatePending fl))
            (if showAddForm pg then Some (isMedicationUpdating fl) else None)
            (schedule_form_of pg (schedulePending fl))))
  end.

(** ** A medication as the API returns it *)

(** The fields of [UpdateMedicationData] other than [is_active], as the
    wire names them. *)
Definition update_fields : list string :=
  ["medication_id"; "patient_id"; "name"; "generic_name"; "strength"; "unit"; "form";
   "dosage_amount"; "frequency_per_day"; "special_instructions"].

(** A value the case conversion leaves as it is: not an object, an array or
    a [Date]. *)
Definition scalar (x : value) : Prop :=
  match x with JObj _ | JArr _ | JDate _ => False | _ => True end.

(** A medication record of the API, before the client's conversion: an
    object with distinct snake_case keys, strings in its text fields and a
    number, a decimal string or any other scalar in its two dosage
    fields. *)
Definition api_medication (r : value) : Prop :=
  exists fs, r = JObj fs /\ NoDup (keys fs) /\ Forall (fun kv => snake_wf kv.1 = true) fs /\
  Forall (fun k => exists s, get_prop r k = Some (JStr s))
    ["medication_id"; "patient_id"; "name"; "generic_name"; "strength"; "unit"; "form";
     "special_instructions"] /\
  Forall (fun k => exists x, get_prop r k = Some x /\ scalar x) ["dosage_amount"; "frequency_per_day"].

(** A card's record, as the client holds it after the conversion. *)
Definition demo_record : value :=
  JObj [("medicationId", JStr "m1"); ("patientId", JStr "p1"); ("name", JStr "Aspirin");
        ("genericName", JStr "acetylsalicylic acid"); ("strength", JStr "100");
        ("unit", JStr "mg"); ("form", JStr "tablet"); ("dosageAmount", JNum 1);
        ("frequencyPerDay", JNum 2); ("specialInstructions", JStr ""); ("isActive", JBool true)].

Definition demo_deactivation : UpdateMedicationData.t :=
  UpdateMedicationData.mk "m1" "p1" "Aspirin" "acetylsalicylic acid" "100" "mg" "tablet"
    (JNum 1) (JNum 2)
    false "".

Definition demo_deactivation_failed :=
  mutateAsync useUpdateMedication.hooks (demo_cx 0 None) demo_clock demo_server
    demo_deactivation (demo_cache [demo_record]) demo_browser.

(** ** Lemmas *)

Lemma snakeToCamelCase_scalar x : scalar x -> snakeToCamelCase x = x.
Proof. by destruct x. Qed.

(** A field of the converted record, read under its camel-case name. *)
Ltac read_converted k :=
  let k' := eval vm_compute in (camel_key k) in
  change k' with (camel_key k);
  rewrite (snakeToCamelCase_get_prop _ k) by (done || vm_compute; reflexivity).

Lemma or_empty_str s : or_empty (Some (JStr s)) = Some s.
Proof. unfold or_empty. simpl. by destruct (String.eqb_spec s ""); subst. Qed.

(** C25: deactivating a medication as the API sent it (after the client's
    conversion to camel case) sends a payload that carries every field of
    the record unchanged, under its wire name, and [is_active: false]; the
    dosage fields go back as whatever scalar the API sent (a number, or a
    decimal string such as the ["1.00"] of the repository's fixture). *)
Theorem deactivate_sends_record r :
  api_medication r ->
  exists d, deactivate_payload (snakeToCamelCase r) = Some d /\
    get_prop (UpdateMedicationData.to_json d) "is_active" = Some (JBool false) /\
    Forall (fun k => get_prop (UpdateMedicationData.to_json d) k = get_prop r k) update_fields.
Proof.
  intros (fs & -> & Hnd & Hwf & Hs & Hn).
  unfold deactivate_payload, str_field.
  read_converted "medication_id"; read_converted "patient_id"; read_converted "name";
  read_converted "generic_name"; read_converted "strength"; read_converted "unit";
  read_converted "form"; read_converted "dosage_amount"; read_converted "frequency_per_day";
  read_converted "special_instructions".
  decompose_Forall_hyps.
  repeat match goal with H : ∃ _, _ |- _ => destruct H | H : _ /\ _ |- _ => destruct H end.
  simpl get_prop in *.
  repeat match goal with H : assoc_get fs _ = _ |- _ => rewrite H end.
  cbn [option_map]. rewrite !snakeToCamelCase_scalar by done.
  cbn [snakeToCamelCase]. rewrite or_empty_str.
  eexists. split; [reflexivity|]. split; [reflexivity|].
  unfold update_fields. repeat constructor; simpl; congruence.
Qed.

Lemma deactivate_sends_record_witness :
  let r := JObj [("medication_id", JStr "m1"); ("patient_id", JStr "p1");
                 ("name", JStr "Lisinopril"); ("generic_name", JStr "lisinopril");
                 ("strength", JStr "10"); ("unit", JStr "mg"); ("form", JStr "tablet");
                 ("dosage_amount", JStr "1.00"); ("frequency_per_day", JNum 2);
                 ("special_instructions", JStr ""); ("is_active", JBool true)] in
  api_medication r /\
  exists d, deactivate_payload (snakeToCamelCase r) = Some d /\
    get_prop (UpdateMedicationData.to_json d) "is_active" = Some (JBool false) /\
    Forall (fun k => get_prop (UpdateMedicationData.to_json d) k = get_prop r k) update_fields.
Proof.
  intros r.
  assert (H : api_medication r).
  { eexists. split; [reflexivity|].
    split; [vm_compute; repeat constructor; set_solver|].
    split; [repeat constructor; vm_compute; reflexivity|].
    split; repeat constructor; eexists; try reflexivity; split; done. }
  split; [exact H | apply deactivate_sends_record; exact H].
Defined.

Section Submission.
Context {C : Type} `{!QueryClientOps C} `{!QueryClientLaws C}.

(** Submitting the schedule form closes it only when the creation request
    succeeded.  Otherwise either validation failed and nothing ran, or the
    request (or [onMutate]) failed: the form stays open for the same
    medication with an error line on the console, and the cache reads what
    settling the untouched cache reads, the optimistic rows rolled back. *)
Theorem submitSchedules_closes_only_on_success cx clk srv p f pg (c : C) b pg' f' c' b' :
  submitSchedules cx clk srv p f pg c b = (pg', f', c', b') ->
  (schedule_form_for pg' = None /\ exists ss data, handleSubmit f = (f', Some ss) /\
     mutateAsync (useCreateMedicationSchedule.hooks p) cx clk srv ss c b = (c', b', Ok data)) \/
  (schedule_form_for pg' = schedule_form_for pg /\
   ((handleSubmit f = (f', None) /\ pg' = pg /\ c' = c /\ b' = b) \/
    (exists ss, handleSubmit f = (f', Some ss) /\
       page_console pg' = "Error submitting schedules:" :: page_console pg /\
       data_equiv c' (useCreateMedicationSchedule.onSettled p srv ss c)))).
Proof.
  unfold submitSchedules. destruct (handleSubmit f) as [f1 [ss|]] eqn:Hh.
  - destruct (mutateAsync _ cx clk srv ss c b) as [[c1 b1] [data|err]] eqn:Hm;
      intros [= <- <- <- <-].
    + left. split; [done|]. eauto.
    + right. split; [done|]. right. exists ss. split_and!; [done|done|].
      exact (mutateAsync_failure (useCreateMedicationSchedule.hooks p) cx clk srv ss c b c1 b1 err
               (schedule_rolls_back p) (schedule_settle_proper p) Hm).
  - intros [= <- <- <- <-]. right. split; [done|]. left. done.
Qed.
(** C21: a deactivation whose request fails leaves the medication list page
    exactly as it was before the click: the cached list is rolled back, so
    the card is shown again, and nothing on the page reports the failure,
    which renders no state of [useUpdateMedication] but [isPending].  The
    spec has a failed mutation display the transport error message. *)
Theorem failed_deactivation_page_unchanged cx clk srv m d (c : C) b c' b' err pid cur fl pg :
  deactivate_payload m = Some d ->
  mutateAsync useUpdateMedication.hooks cx clk srv d c b = (c', b', Err err) ->
  clickDeactivate cx clk srv m c b = Some (c', b') /\
  MedicationList_page (Some pid) cur fl (profile_medications pid c') pg =
  MedicationList_page (Some pid) cur fl (profile_medications pid c) pg.
Proof.
  intros Hd Hm. split; [by unfold clickDeactivate; rewrite Hd, Hm|].
  unfold profile_medications.
  rewrite (mutateAsync_failure _ cx clk srv d c b c' b' err updateMedication_rolls_back
             updateMedication_settle_proper Hm).
  cbn. unfold useUpdateMedication.onSettled. rewrite get_refetch_dec, decide_False.
  - by rewrite invalidatePatientQueries_equiv.
  - by intros [=].
Qed.

End Submission.

Lemma failed_deactivation_page_unchanged_witness :
  clickDeactivate (demo_cx 0 None) demo_clock demo_server demo_record (demo_cache [demo_record])
    demo_browser = Some (fst (fst demo_deactivation_failed), snd (fst demo_deactivation_failed)) /\
  MedicationList_page (Some "p1") None (mkPageFlags false None false false false)
    (profile_medications "p1" (fst (fst demo_deactivation_failed))) page_initial =
  MedicationList_page (Some "p1") None (mkPageFlags false None false false false)
    (profile_medications "p1" (demo_cache [demo_record])) page_initial.
Proof.
  apply (failed_deactivation_page_unchanged (demo_cx 0 None) demo_clock demo_server demo_record
           demo_deactivation (demo_cache [demo_record]) demo_browser
           (fst (fst demo_deactivation_failed)) (snd (fst demo_deactivation_failed))
           (err_of (snd demo_deactivation_failed))); vm_compute; reflexivity.
Defined.
