(* ===== verification/SchedulesPage.v ===== *)
(** * The medication schedules page with its calendar
    ([src/src/pages/MedicationSchedules/MedicationSchedules.tsx] rendering
    [src/src/components/MedicationCalendar/MedicationCalendar.tsx])

    [Patients.MedicationSchedules] gives the page's early returns and
    subtitle; the page then renders [<MedicationCalendar
    schedulesData={schedulesData} .../>], which reads
    [schedulesData.schedulesByMedication] and, for each medication, its
    [medicationId], [medicationName] and [schedules].  Here the JSON the
    page holds is read into the calendar's records ([decode_schedule],
    [decode_medication]: the properties the calendar reads, of the types
    [types/api.ts] declares), and the page is composed with
    [CalendarView.render_calendar].  The page's [console.log] lines are the
    list [schedules_logs].

    The theorems: a JSON value is read as a schedule exactly when it has the
    declared type [MedicationSchedule]; and when the response's
    [schedulesByMedication] has the declared type [MedicationWithSchedules[]]
    the page renders the calendar of those medications, with every dose
    drawn in a palette colour. *)

From S2P Require Import Prelude Json DateTime CaseTransform ApiClient ApiTypes Calendar CalendarView Patients.
Local Open Scope string_scope.
Local Open Scope Z_scope.

(** ** Reading the response *)

Definition str_prop (v : value) (k : string) : option string :=
  match get_prop v k with Some (JStr s) => Some s | _ => None end.

Definition num_prop (v : value) (k : string) : option Z :=
  match get_prop v k with Some (JNum z) => Some z | _ => None end.

(** A [MedicationSchedule] as the calendar reads it ([...schedule] copies
    every property, so all six are read). *)
Definition decode_schedule (v : value) : option MedicationSchedule :=
  match v with
  | JObj _ =>
      match str_prop v "scheduleId", num_prop v "dayOfWeek", str_prop v "timeOfDay",
            num_prop v "isActive", str_prop v "createdAt", str_prop v "updatedAt" with
      | Some id, Some dw, Some t, Some a, Some c, Some u => Some (mkMedicationSchedule id dw t a c u)
      | _, _, _, _, _, _ => None
      end
  | _ => None
  end.

Fixpoint decode_all {A} (f : value -> option A) (xs : list value) : option (list A) :=
  match xs with
  | [] => Some []
  | x :: xs' =>
      match f x, decode_all f xs' with
      | Some a, Some l => Some (a :: l)
      | _, _ => None
      end
  end.

(** [medication.medicationId], [medication.medicationName] and
    [medication.schedules] (which may be missing: [schedules?.some],
    [schedules || []]). *)
Definition decode_medication (v : value) : option MedicationWithSchedules :=
  match str_prop v "medicationId", str_prop v "medicationName" with
  | Some id, Some n =>
      match get_prop v "schedules" with
      | None => Some (mkMedicationWithSchedules id n None)
      | Some (JArr ss) =>
          match decode_all decode_schedule ss with
          | Some l => Some (mkMedicationWithSchedules id n (Some l))
          | None => None
          end
      | Some _ => None
      end
  | _, _ => None
  end.

(** [schedulesData?.schedulesByMedication]: missing, or an array of
    medications ([None] for anything the model does not read). *)
Definition calendar_input (d : value) : option (option (list MedicationWithSchedules)) :=
  match get_prop d "schedulesByMedication" with
  | None => Some None
  | Some (JArr xs) => option_map Some (decode_all decode_medication xs)
  | Some _ => None
  end.

(** ** The page *)

Inductive schedules_view : Type :=
| SchedulesEarly (p : schedules_page)        (** an early return *)
| SchedulesCalendar (subtitle : option string) (calendar : calendar_page).

Definition schedules_view_of (patientId : option string) (currentPatient : option value)
    (isLoading : bool) (error : option string) (data : option value)
    (currentWeekStart today : Z) : option schedules_view :=
  match MedicationSchedules patientId currentPatient isLoading error data with
  | SPage subtitle d =>
      match calendar_input d with
      | Some sbm => Some (SchedulesCalendar subtitle (render_calendar sbm currentWeekStart today))
      | None => None
      end
  | p => Some (SchedulesEarly p)
  end.

(** The page's [console.log] lines for one render, by their labels: four
    on every render, then one when there is no data, or five before the
    page is drawn. *)
Definition schedules_logs (patientId : option string) (isLoading : bool) (error : option string)
    (data : option value) : list string :=
  let first := ["MedicationSchedules - patientId:"; "MedicationSchedules - schedulesData:";
                "MedicationSchedules - isSchedulesLoading:"; "MedicationSchedules - schedulesError:"] in
  match MedicationSchedules patientId None isLoading error data with
  | SNotFound | SLoading | SError _ => first
  | SNoData => first ++ ["MedicationSchedules - No schedulesData available"]
  | SPage _ _ =>
      first ++ ["MedicationSchedules - Rendering with schedulesData:";
                "MedicationSchedules - schedulesData.schedulesByMedication:";
                "MedicationSchedules - schedulesData keys:";
                "MedicationSchedules - schedulesData.schedulesByMedication length:";
                "MedicationSchedules - schedulesData.schedulesByMedication type:"]
  end.

(** A response as the page holds it (after the conversion to camel case). *)
Definition demo_schedules_data : value :=
  JObj [("message", JStr "ok");
        ("schedulesByMedication",
         JArr [JObj [("medicationId", JStr "m1"); ("medicationName", JStr "Aspirin");
                     ("genericName", JStr "acetylsalicylic acid"); ("strength", JStr "100");
                     ("unit", JStr "mg"); ("form", JStr "tablet"); ("dosageAmount", JStr "1");
                     ("frequencyPerDay", JNum 1); ("specialInstructions", JStr "");
                     ("schedules", JArr [JObj [("scheduleId", JStr "s1"); ("dayOfWeek", JNum 2);
                                               ("timeOfDay", JStr "08:00:00"); ("isActive", JNum 1);
                                               ("createdAt", JStr "2023-11-01");
                                               ("updatedAt", JStr "2023-11-01")]])]])].

(** ** Lemmas *)

(** A value is read as a schedule exactly when it has the declared type. *)
Lemma decode_schedule_typed v :
  is_Some (decode_schedule v) <-> has_type Types.MedicationSchedule v = true.
Proof.
  destruct v as [| | | | |fs|]; cbn; try (split; [intros []; done|done]).
  unfold str_prop, num_prop.
  repeat (case_match; simplify_eq/=); split; intros H; try done; destruct H; done.
Qed.

Lemma decode_all_is_Some {A} (f : value -> option A) xs :
  Forall (fun x => is_Some (f x)) xs -> is_Some (decode_all f xs).
Proof.
  induction 1 as [|x xs [a Ha] _ [l Hl]]; [by eexists|]. cbn. rewrite Ha, Hl. by eexists.
Qed.

Lemma has_type_string x : has_type TString x = true -> exists s, x = JStr s.
Proof. destruct x; try done. by eexists. Qed.

(** A medication of the declared type is read by the calendar. *)
Lemma decode_medication_typed m :
  has_type Types.MedicationWithSchedules m = true -> is_Some (decode_medication m).
Proof.
  intros H. apply has_type_obj in H. unfold Types.MedicationWithSchedules in H.
  apply Forall_cons in H as [(xi & Hi & Ti) H]. apply Forall_cons in H as [(xn & Hn & Tn) H].
  do 7 (apply Forall_cons in H as [_ H]). apply Forall_cons in H as [(xs & Hs & Ts) _].
  cbn [fst snd] in *.
  apply has_type_string in Ti as [id ->], Tn as [n ->].
  destruct xs as [| | | |ss| |]; try done.
  change (forallb (has_type Types.MedicationSchedule) ss = true) in Ts.
  unfold decode_medication, str_prop. rewrite Hi, Hn, Hs.
  destruct (decode_all_is_Some decode_schedule ss) as [l ->]; [|by eexists].
  apply Forall_forall. intros s Hs'. apply decode_schedule_typed.
  apply list_elem_of_In in Hs'. by apply (proj1 (forallb_forall _ _) Ts).
Qed.

(** C33: composition of the schedules page with the calendar.  When the page
    has a patient id, is not loading, has no error and holds a response
    whose [schedulesByMedication] has the declared type
    [MedicationWithSchedules[]], the page draws the calendar of exactly
    those medications, as the calendar reads them: the reading never fails,
    and the page is the calendar's render of the read list. *)
Theorem schedules_page_renders_calendar pid cur fs xs start today :
  pid <> "" -> get_prop (JObj fs) "schedulesByMedication" = Some (JArr xs) ->
  has_type (TArray Types.MedicationWithSchedules) (JArr xs) = true ->
  exists sub ms, decode_all decode_medication xs = Some ms /\
    schedules_view_of (Some pid) cur false None (Some (JObj fs)) start today =
      Some (SchedulesCalendar sub (render_calendar (Some ms) start today)).
Proof.
  intros Hpid Hg Ht.
  destruct (decode_all_is_Some decode_medication xs) as [ms Hms].
  { apply Forall_forall. intros x Hx. apply decode_medication_typed.
    apply list_elem_of_In in Hx. by apply (proj1 (forallb_forall _ _) Ht). }
  unfold schedules_view_of, MedicationSchedules. cbn [truthy option_map negb].
  destruct (String.eqb_spec pid ""); [done|]. cbn.
  eexists _, ms. split; [done|]. unfold calendar_input. by rewrite Hg, Hms.
Qed.

Lemma schedules_page_renders_calendar_witness :
  exists sub ms, decode_all decode_medication
    [JObj [("medicationId", JStr "m1"); ("medicationName", JStr "Aspirin");
           ("genericName", JStr "acetylsalicylic acid"); ("strength", JStr "100");
           ("unit", JStr "mg"); ("form", JStr "tablet"); ("dosageAmount", JStr "1");
           ("frequencyPerDay", JNum 1); ("specialInstructions", JStr "");
           ("schedules", JArr [JObj [("scheduleId", JStr "s1"); ("dayOfWeek", JNum 2);
                                     ("timeOfDay", JStr "08:00:00"); ("isActive", JNum 1);
                                     ("createdAt", JStr "2023-11-01");
                                     ("updatedAt", JStr "2023-11-01")]])]] = Some ms /\
    schedules_view_of (Some "p1") None false None (Some demo_schedules_data) 19675 19676 =
      Some (SchedulesCalendar sub (render_calendar (Some ms) 19675 19676)).
Proof.
  apply (schedules_page_renders_calendar "p1" None
    [("message", JStr "ok"); ("schedulesByMedication", _)]); [done|reflexivity|vm_compute; reflexivity].
Defined.
